(** * Vinnodrive: storage accounting and folder hierarchy engine

    A shallow embedding of the tRPC storage router
    (packages/api/src/routers/storage/storage.ts, together with the
    [moveFolder] procedure of its later revision) over the relational
    schema of packages/db (tables [files], [folders], [user_assets],
    [user_quotas], [rate_limit_windows]) and the S3 bucket.

    Tables are lists of rows in insertion order; [findFirst] is [find],
    [findMany] is [filter], [update ... where] is [map], [delete ... where]
    is [filter] on the negated condition.  Primary keys and the foreign keys
    declared in the schema are checked where the statements run, and a
    violation surfaces as INTERNAL_SERVER_ERROR.  Timestamps are
    milliseconds ([Z]); the clock reading and the uuids drawn by
    [crypto.randomUUID()] are arguments of the procedures.  The columns no
    modelled procedure reads (createdAt, updatedAt, isPublic,
    publicShareId, downloadCount) are left out of the rows; the sharing
    columns and [updatedAt], which every UPDATE rewrites, are carried by
    the rows of the parts on sharing and on trash and restore.  Procedures run
    one at a time; the recursive walks over the folder tree take fuel, and
    running out of it stands for a call that never returns. *)

From Stdlib Require Import ZArith List String Bool Lia Arith PeanoNat.
From Stdlib Require Import Sorting.Sorted Sorting.Permutation.
Import ListNotations.

Local Open Scope Z_scope.

Set Implicit Arguments.

(** ** Rows and tables *)

Definition Id := string.
Bind Scope string_scope with Id.

Record FileRow := mkFile {
  hash : string;
  size : Z;
  path : string;
  refCount : Z
}.

Record Folder := mkFolder {
  f_id : Id;
  f_name : string;
  f_userId : Id;
  f_parentId : option Id;
  f_deletedAt : option Z
}.

Record UserAsset := mkAsset {
  a_id : Id;
  a_name : string;
  a_userId : Id;
  a_folderId : option Id;
  a_fileHash : string;
  a_deletedAt : option Z
}.

Record UserQuota := mkQuota {
  q_userId : Id;
  storageUsed : Z;
  storageLimit : Z;
  q_rateLimit : Z
}.

Record RateLimitWindow := mkWindow {
  w_id : Id;
  w_userId : Id;
  windowStart : Z;
  requestCount : Z
}.

Record DB := mkDB {
  files : list FileRow;
  folders : list Folder;
  userAssets : list UserAsset;
  userQuotas : list UserQuota;
  rateLimitWindows : list RateLimitWindow
}.

(** The world a procedure runs in: the relational store and the keys
    present in the bucket. *)
Record World := mkWorld {
  db : DB;
  s3 : list string
}.

Definition emptyDB : DB := mkDB [] [] [] [] [].
Definition emptyWorld : World := mkWorld emptyDB [].

Definition set_files (x : list FileRow) (d : DB) : DB :=
  mkDB x (folders d) (userAssets d) (userQuotas d) (rateLimitWindows d).
Definition set_folders (x : list Folder) (d : DB) : DB :=
  mkDB (files d) x (userAssets d) (userQuotas d) (rateLimitWindows d).
Definition set_userAssets (x : list UserAsset) (d : DB) : DB :=
  mkDB (files d) (folders d) x (userQuotas d) (rateLimitWindows d).
Definition set_userQuotas (x : list UserQuota) (d : DB) : DB :=
  mkDB (files d) (folders d) (userAssets d) x (rateLimitWindows d).
Definition set_rateLimitWindows (x : list RateLimitWindow) (d : DB) : DB :=
  mkDB (files d) (folders d) (userAssets d) (userQuotas d) x.

Definition with_db (d : DB) (w : World) : World := mkWorld d (s3 w).
Definition with_s3 (k : list string) (w : World) : World := mkWorld (db w) k.

(** ** Values of JavaScript *)

(** [if (x)] on a [string | null]: null and the empty string are falsy. *)
Definition truthy (x : option Id) : bool :=
  match x with
  | Some s => negb (String.eqb s EmptyString)
  | None => false
  end.

(** [eq(column, value)] on a nullable text column against a string. *)
Definition col_eq (c : option Id) (v : Id) : bool :=
  match c with
  | Some s => String.eqb s v
  | None => false
  end.

Definition isNull {A} (c : option A) : bool :=
  match c with Some _ => false | None => true end.

Definition isNotNull {A} (c : option A) : bool := negb (isNull c).

(** ** Procedures: state, TRPCError, divergence *)

Inductive ErrorCode :=
| NOT_FOUND
| BAD_REQUEST
| PRECONDITION_FAILED
| TOO_MANY_REQUESTS
| PAYLOAD_TOO_LARGE
| INTERNAL_SERVER_ERROR.

(** A procedure returns, throws, or (for the recursive walks, which the
    model bounds by fuel) never returns. *)
Inductive Outcome (A : Type) :=
| Ok (a : A)
| Throw (e : ErrorCode)
| OutOfFuel.

Arguments Ok {A} a.
Arguments Throw {A} e.
Arguments OutOfFuel {A}.

Definition M (A : Type) := World -> Outcome A * World.

Definition ret {A} (a : A) : M A := fun w => (Ok a, w).

Definition bind {A B} (m : M A) (k : A -> M B) : M B :=
  fun w =>
    match m w with
    | (Ok a, w') => k a w'
    | (Throw e, w') => (Throw e, w')
    | (OutOfFuel, w') => (OutOfFuel, w')
    end.

Definition throw {A} (e : ErrorCode) : M A := fun w => (Throw e, w).
Definition diverge {A} : M A := fun w => (OutOfFuel, w).
Definition getDB : M DB := fun w => (Ok (db w), w).
Definition putDB (d : DB) : M unit := fun w => (Ok tt, with_db d w).
Definition getS3 : M (list string) := fun w => (Ok (s3 w), w).
Definition putS3 (k : list string) : M unit := fun w => (Ok tt, with_s3 k w).

Declare Scope proc_scope.
Delimit Scope proc_scope with proc.
Notation "x <- c1 ;; c2" := (bind c1 (fun x => c2))
  (at level 61, c1 at next level, right associativity) : proc_scope.
Notation "c1 ;;; c2" := (bind c1 (fun _ => c2))
  (at level 61, right associativity) : proc_scope.
Local Open Scope proc_scope.

(** [db.transaction(async (tx) => ...)]: when the body does not complete,
    every statement issued through [tx] is rolled back; what was done to the
    bucket meanwhile stays done. *)
Definition transaction {A} (body : M A) : M A :=
  fun w =>
    match body w with
    | (Ok a, w') => (Ok a, w')
    | (Throw e, w') => (Throw e, with_db (db w) w')
    | (OutOfFuel, w') => (OutOfFuel, with_db (db w) w')
    end.

(** ** Configuration *)

Definition DEFAULT_STORAGE_LIMIT : Z := 1 * 1024 * 1024 * 1024.
Definition DEFAULT_RATE_LIMIT : Z := 2.
Definition RATE_LIMIT_WINDOW_MS : Z := 1000.

(** ** Admission control *)

Definition findQuota (userId : Id) (d : DB) : option UserQuota :=
  find (fun q => String.eqb (q_userId q) userId) (userQuotas d).

Definition windowOf (now : Z) : Z :=
  now / RATE_LIMIT_WINDOW_MS * RATE_LIMIT_WINDOW_MS.

Definition findWindow (userId : Id) (ws : Z) (d : DB) : option RateLimitWindow :=
  find (fun r => String.eqb (w_userId r) userId && (windowStart r =? ws)%Z)
       (rateLimitWindows d).

Definition bumpWindow (id : Id) (r : RateLimitWindow) : RateLimitWindow :=
  if String.eqb (w_id r) id
  then mkWindow (w_id r) (w_userId r) (windowStart r) (requestCount r + 1)
  else r.

Definition staleWindow (userId : Id) (cutoff : Z) (r : RateLimitWindow) : bool :=
  String.eqb (w_userId r) userId && (windowStart r <? cutoff)%Z.

(** [checkRateLimit]; [now] is the clock reading and [newId] the uuid drawn
    for a window row that has to be inserted. *)
Definition checkRateLimit (userId : Id) (now : Z) (newId : Id) : M unit :=
  d <- getDB ;;
  let ws := windowOf now in
  let rateLimit :=
    match findQuota userId d with
    | Some q => q_rateLimit q
    | None => DEFAULT_RATE_LIMIT
    end in
  match findWindow userId ws d with
  | Some cw =>
      if (requestCount cw >=? rateLimit)%Z
      then throw TOO_MANY_REQUESTS
      else putDB (set_rateLimitWindows
                    (map (bumpWindow (w_id cw)) (rateLimitWindows d)) d)
  | None =>
      if existsb (fun r => String.eqb (w_id r) newId) (rateLimitWindows d)
      then throw INTERNAL_SERVER_ERROR
      else
        let inserted := rateLimitWindows d ++ [mkWindow newId userId ws 1] in
        let cutoff := now - 60000 in
        putDB (set_rateLimitWindows
                 (filter (fun r => negb (staleWindow userId cutoff r)) inserted) d)
  end.

(** [checkStorageQuota]: fetch or create the quota row, then compare. *)
Definition checkStorageQuota (userId : Id) (additionalBytes : Z) : M unit :=
  d <- getDB ;;
  quota <- match findQuota userId d with
           | Some q => ret q
           | None =>
               let q := mkQuota userId 0 DEFAULT_STORAGE_LIMIT DEFAULT_RATE_LIMIT in
               putDB (set_userQuotas (userQuotas d ++ [q]) d) ;;; ret q
           end ;;
  if (storageUsed quota + additionalBytes >? storageLimit quota)%Z
  then throw PAYLOAD_TOO_LARGE
  else ret tt.

Definition chargeQuota (userId : Id) (deltaBytes : Z) (q : UserQuota) : UserQuota :=
  if String.eqb (q_userId q) userId
  then mkQuota (q_userId q) (Z.max 0 (storageUsed q + deltaBytes))
               (storageLimit q) (q_rateLimit q)
  else q.

(** [updateStorageUsage]: insert ... on conflict do update with
    [GREATEST(0, storage_used + delta)].  [storage_used] is a bigint
    column: the statement is modelled on integers of any size, where it
    always returns; on a value that leaves the range of the column, or on
    a delta that is no integer, the statement of the database raises
    instead. *)
Definition updateStorageUsage (userId : Id) (deltaBytes : Z) : M unit :=
  d <- getDB ;;
  match findQuota userId d with
  | Some _ =>
      putDB (set_userQuotas (map (chargeQuota userId deltaBytes) (userQuotas d)) d)
  | None =>
      putDB (set_userQuotas
               (userQuotas d ++
                [mkQuota userId (Z.max 0 deltaBytes)
                         DEFAULT_STORAGE_LIMIT DEFAULT_RATE_LIMIT]) d)
  end.

(** [rateLimitedProcedure]: the rate-limit middleware runs first, the zod
    input parser after it, the handler last. *)
Definition rateLimitedProcedure {A} (userId : Id) (now : Z) (newWindowId : Id)
    (inputValid : bool) (handler : M A) : M A :=
  checkRateLimit userId now newWindowId ;;;
  if inputValid then handler else throw BAD_REQUEST.

(** ** Statements on the tables *)

Definition findFile (h : string) (d : DB) : option FileRow :=
  find (fun f => String.eqb (hash f) h) (files d).

Definition hasFolder (id : Id) (d : DB) : bool :=
  existsb (fun f => String.eqb (f_id f) id) (folders d).

(** [insert(userAssets)]: primary key on id, foreign keys on folder_id
    (when not null) and file_hash. *)
Definition insertAsset (a : UserAsset) : M unit :=
  d <- getDB ;;
  if existsb (fun x => String.eqb (a_id x) (a_id a)) (userAssets d)
  then throw INTERNAL_SERVER_ERROR
  else if match a_folderId a with
          | Some fid => negb (hasFolder fid d)
          | None => false
          end
  then throw INTERNAL_SERVER_ERROR
  else match findFile (a_fileHash a) d with
       | None => throw INTERNAL_SERVER_ERROR
       | Some _ => putDB (set_userAssets (userAssets d ++ [a]) d)
       end.

Definition addRef (h : string) (delta : Z) (f : FileRow) : FileRow :=
  if String.eqb (hash f) h
  then mkFile (hash f) (size f) (path f) (refCount f + delta)
  else f.

(** [update(files).set({refCount: refCount + delta}).where(hash = h).returning()],
    destructured to its first row. *)
Definition bumpRefCount (h : string) (delta : Z) : M (option FileRow) :=
  d <- getDB ;;
  let files' := map (addRef h delta) (files d) in
  putDB (set_files files' d) ;;;
  ret (find (fun f => String.eqb (hash f) h) files').

(** [insert(files) ... onConflictDoUpdate refCount + 1]. *)
Definition upsertFile (h : string) (sz : Z) : M unit :=
  d <- getDB ;;
  match findFile h d with
  | Some _ => bumpRefCount h 1 ;;; ret tt
  | None => putDB (set_files (files d ++ [mkFile h sz h 1]) d)
  end.

(** [delete(files).where(hash = h)]; user_assets.file_hash references it
    with ON DELETE restrict. *)
Definition deleteFileRow (h : string) : M unit :=
  d <- getDB ;;
  if existsb (fun f => String.eqb (hash f) h) (files d)
     && existsb (fun a => String.eqb (a_fileHash a) h) (userAssets d)
  then throw INTERNAL_SERVER_ERROR
  else putDB (set_files
                (filter (fun f => negb (String.eqb (hash f) h)) (files d)) d).

Definition deleteAssetRow (id : Id) : M unit :=
  d <- getDB ;;
  putDB (set_userAssets
           (filter (fun a => negb (String.eqb (a_id a) id)) (userAssets d)) d).

Definition s3Delete (key : string) : M unit :=
  k <- getS3 ;;
  putS3 (filter (fun x => negb (String.eqb x key)) k).

Definition unlinkFolder (id : Id) (a : UserAsset) : UserAsset :=
  if col_eq (a_folderId a) id
  then mkAsset (a_id a) (a_name a) (a_userId a) None (a_fileHash a) (a_deletedAt a)
  else a.

(** [delete(folders).where(id = id)]; user_assets.folder_id references it
    with ON DELETE set null, parent_id carries no constraint. *)
Definition deleteFolderRow (id : Id) : M unit :=
  d <- getDB ;;
  if hasFolder id d
  then putDB (set_userAssets (map (unlinkFolder id) (userAssets d))
               (set_folders
                  (filter (fun f => negb (String.eqb (f_id f) id)) (folders d)) d))
  else ret tt.

Definition insertFolder (f : Folder) : M unit :=
  d <- getDB ;;
  if hasFolder (f_id f) d
  then throw INTERNAL_SERVER_ERROR
  else putDB (set_folders (folders d ++ [f]) d).

Definition setFolderDeletedAt (id : Id) (t : option Z) (f : Folder) : Folder :=
  if String.eqb (f_id f) id
  then mkFolder (f_id f) (f_name f) (f_userId f) (f_parentId f) t
  else f.

Definition setAssetDeletedAt (t : option Z) (a : UserAsset) : UserAsset :=
  mkAsset (a_id a) (a_name a) (a_userId a) (a_folderId a) (a_fileHash a) t.

(** [for (const x of xs) await body(x)] *)
Fixpoint forEach {A} (xs : list A) (body : A -> M unit) : M unit :=
  match xs with
  | [] => ret tt
  | x :: rest => body x ;;; forEach rest body
  end.

(** [folder_id IN (ids)] on the nullable column. *)
Definition folderIn (ids : list Id) (a : UserAsset) : bool :=
  match a_folderId a with
  | Some fid => existsb (String.eqb fid) ids
  | None => false
  end.

(** ** Upload and deduplication *)

Record UploadInput := mkUpload {
  filename : string;
  in_size : Z;
  in_hash : string;
  in_folderId : option Id
}.

(** The zod object of both upload procedures, uuid syntax aside.  [size] is
    a number that zod requires to be positive and no more; the model has
    the integers among them. *)
Definition uploadInputValid (i : UploadInput) : bool :=
  (1 <=? String.length (filename i))%nat
  && (String.length (filename i) <=? 255)%nat
  && (0 <? in_size i)%Z
  && (String.length (in_hash i) =? 64)%nat.

(** Handler of [getUploadPresignedUrl]; returns [deduplicated]. *)
Definition getUploadPresignedUrl_handler (userId : Id) (input : UploadInput)
    (newAssetId : Id) : M bool :=
  checkStorageQuota userId (in_size input) ;;;
  d <- getDB ;;
  match findFile (in_hash input) d with
  | Some existingFile =>
      transaction
        (insertAsset (mkAsset newAssetId (filename input) userId
                              (in_folderId input) (hash existingFile) None) ;;;
         bumpRefCount (hash existingFile) 1 ;;; ret tt) ;;;
      updateStorageUsage userId (in_size input) ;;;
      ret true
  | None => ret false
  end.

(** Handler of [confirmUpload]. *)
Definition confirmUpload_handler (userId : Id) (input : UploadInput)
    (newAssetId : Id) : M unit :=
  k <- getS3 ;;
  if negb (existsb (String.eqb (in_hash input)) k)
  then throw NOT_FOUND
  else
    transaction
      (upsertFile (in_hash input) (in_size input) ;;;
       insertAsset (mkAsset newAssetId (filename input) userId
                            (in_folderId input) (in_hash input) None)) ;;;
    updateStorageUsage userId (in_size input).

(** ** Folder management *)

Definition createFolder_handler (userId : Id) (name : string)
    (parentId : option Id) (newId : Id) : M unit :=
  d <- getDB ;;
  (if truthy parentId
   then match find (fun f => col_eq parentId (f_id f)
                             && String.eqb (f_userId f) userId) (folders d) with
        | None => throw NOT_FOUND
        | Some _ => ret tt
        end
   else ret tt) ;;;
  insertFolder (mkFolder newId name userId parentId None).

Definition deleteFolder_handler (userId : Id) (id : Id) : M unit :=
  d <- getDB ;;
  match find (fun f => String.eqb (f_id f) id && String.eqb (f_userId f) userId)
             (folders d) with
  | None => throw NOT_FOUND
  | Some _ =>
      let hasFiles := find (fun a => col_eq (a_folderId a) id) (userAssets d) in
      let hasSubfolders := find (fun f => col_eq (f_parentId f) id) (folders d) in
      if isNotNull hasFiles || isNotNull hasSubfolders
      then throw PRECONDITION_FAILED
      else deleteFolderRow id
  end.

Definition concatAll (parts : list (option (list Id))) : option (list Id) :=
  fold_right
    (fun part acc =>
       match part, acc with
       | Some p, Some a => Some (p ++ a)
       | _, _ => None
       end)
    (Some []) parts.

(** The recursive id collectors of the three folder cascades differ only in
    the rows they descend into: [ids = [folderId]; for each subfolder:
    ids.push(...collect(subfolder.id))]. *)
Fixpoint collectIds (keep : Folder -> bool) (fs : list Folder)
    (fuel : nat) (folderId : Id) : option (list Id) :=
  match fuel with
  | O => None
  | S n =>
      let subfolders :=
        filter (fun f => col_eq (f_parentId f) folderId && keep f) fs in
      match concatAll (map (fun s => collectIds keep fs n (f_id s)) subfolders) with
      | Some subIds => Some (folderId :: subIds)
      | None => None
      end
  end.

Definition collectFolderIds (userId : Id) :=
  collectIds (fun f => String.eqb (f_userId f) userId && isNull (f_deletedAt f)).

Definition collectTrashedFolderIds (userId : Id) :=
  collectIds (fun f => String.eqb (f_userId f) userId && isNotNull (f_deletedAt f)).

Definition collectAllFolderIds (userId : Id) :=
  collectIds (fun f => String.eqb (f_userId f) userId).

Definition liftCollect (r : option (list Id)) : M (list Id) :=
  match r with
  | Some ids => ret ids
  | None => diverge
  end.

Definition stampFolders (ids : list Id) (t : option Z) : M unit :=
  forEach ids (fun folderId =>
    d <- getDB ;;
    putDB (set_folders (map (setFolderDeletedAt folderId t) (folders d)) d)).

Definition moveFolderToTrash_handler (userId : Id) (id : Id) (now : Z)
    (fuel : nat) : M nat :=
  d <- getDB ;;
  match find (fun f => String.eqb (f_id f) id && String.eqb (f_userId f) userId
                       && isNull (f_deletedAt f)) (folders d) with
  | None => throw NOT_FOUND
  | Some _ =>
      folderIds <- liftCollect (collectFolderIds userId (folders d) fuel id) ;;
      transaction
        ((if (0 <? List.length folderIds)%nat
          then
            d1 <- getDB ;;
            putDB (set_userAssets
                     (map (fun a =>
                             if String.eqb (a_userId a) userId
                                && isNull (a_deletedAt a) && folderIn folderIds a
                             then setAssetDeletedAt (Some now) a else a)
                          (userAssets d1)) d1)
          else ret tt) ;;;
         stampFolders folderIds (Some now)) ;;;
      ret (List.length folderIds)
  end.

Definition restoreFolderFromTrash_handler (userId : Id) (id : Id)
    (fuel : nat) : M nat :=
  d <- getDB ;;
  match find (fun f => String.eqb (f_id f) id && String.eqb (f_userId f) userId
                       && isNotNull (f_deletedAt f)) (folders d) with
  | None => throw NOT_FOUND
  | Some folder =>
      (if truthy (f_parentId folder)
       then match find (fun f => col_eq (f_parentId folder) (f_id f)
                                 && String.eqb (f_userId f) userId) (folders d) with
            | None => throw PRECONDITION_FAILED
            | Some parentFolder =>
                if isNotNull (f_deletedAt parentFolder)
                then throw PRECONDITION_FAILED
                else ret tt
            end
       else ret tt) ;;;
      folderIds <- liftCollect (collectTrashedFolderIds userId (folders d) fuel id) ;;
      transaction
        ((if (0 <? List.length folderIds)%nat
          then
            d1 <- getDB ;;
            putDB (set_userAssets
                     (map (fun a =>
                             if String.eqb (a_userId a) userId
                                && isNotNull (a_deletedAt a) && folderIn folderIds a
                             then setAssetDeletedAt None a else a)
                          (userAssets d1)) d1)
          else ret tt) ;;;
         stampFolders folderIds None) ;;;
      ret (List.length folderIds)
  end.

(** ** File deletion and trash *)

(** The block every purge path repeats inside its transaction: delete the
    asset row, decrement the reference count, and when the returned row has
    [refCount <= 0] delete the object from the bucket and then the row. *)
Definition releaseAsset (assetId : Id) (fileHash : string) : M unit :=
  deleteAssetRow assetId ;;;
  updatedFile <- bumpRefCount fileHash (-1) ;;
  match updatedFile with
  | Some uf =>
      if (refCount uf <=? 0)%Z
      then s3Delete (path uf) ;;; deleteFileRow fileHash
      else ret tt
  | None => ret tt
  end.

(** [asset.file.size] of a row loaded [with: { file: true }]; the relation
    is null when no file row matches, and reading [size] of it throws. *)
Definition fileSizeOf (d : DB) (a : UserAsset) : option Z :=
  option_map size (findFile (a_fileHash a) d).

Definition deleteAsset_handler (userId : Id) (id : Id) : M unit :=
  d <- getDB ;;
  match find (fun a => String.eqb (a_id a) id && String.eqb (a_userId a) userId)
             (userAssets d) with
  | None => throw NOT_FOUND
  | Some asset =>
      match fileSizeOf d asset with
      | None => throw INTERNAL_SERVER_ERROR
      | Some fileSize =>
          transaction (releaseAsset id (a_fileHash asset)) ;;;
          updateStorageUsage userId (- fileSize)
      end
  end.

Definition moveToTrash_handler (userId : Id) (id : Id) (now : Z) : M unit :=
  d <- getDB ;;
  let hit a := String.eqb (a_id a) id && String.eqb (a_userId a) userId
               && isNull (a_deletedAt a) in
  putDB (set_userAssets
           (map (fun a => if hit a then setAssetDeletedAt (Some now) a else a)
                (userAssets d)) d) ;;;
  match filter hit (userAssets d) with
  | [] => throw NOT_FOUND
  | _ :: _ => ret tt
  end.

Definition restoreFromTrash_handler (userId : Id) (id : Id) : M unit :=
  d <- getDB ;;
  let hit a := String.eqb (a_id a) id && String.eqb (a_userId a) userId
               && isNotNull (a_deletedAt a) in
  putDB (set_userAssets
           (map (fun a => if hit a then setAssetDeletedAt None a else a)
                (userAssets d)) d) ;;;
  match filter hit (userAssets d) with
  | [] => throw NOT_FOUND
  | _ :: _ => ret tt
  end.

Definition permanentlyDelete_handler (userId : Id) (id : Id) : M unit :=
  d <- getDB ;;
  match find (fun a => String.eqb (a_id a) id && String.eqb (a_userId a) userId
                       && isNotNull (a_deletedAt a)) (userAssets d) with
  | None => throw NOT_FOUND
  | Some asset =>
      match fileSizeOf d asset with
      | None => throw INTERNAL_SERVER_ERROR
      | Some fileSize =>
          transaction (releaseAsset id (a_fileHash asset)) ;;;
          updateStorageUsage userId (- fileSize)
      end
  end.

(** The purge loop over assets loaded before the transaction; the loop
    throws at the first asset whose file relation is null.  Returns
    [totalFreedBytes]. *)
Fixpoint releaseAll (d0 : DB) (assets : list UserAsset) (total : Z) : M Z :=
  match assets with
  | [] => ret total
  | asset :: rest =>
      releaseAsset (a_id asset) (a_fileHash asset) ;;;
      match fileSizeOf d0 asset with
      | None => throw INTERNAL_SERVER_ERROR
      | Some sz => releaseAll d0 rest (total + sz)
      end
  end.

(** The order in which [permanentlyDeleteFolder] deletes folder rows:
    [folderIds.reverse()]. *)
Definition purgeOrder (folderIds : list Id) : list Id := rev folderIds.

Definition permanentlyDeleteFolder_handler (userId : Id) (id : Id)
    (fuel : nat) : M Z :=
  d <- getDB ;;
  match find (fun f => String.eqb (f_id f) id && String.eqb (f_userId f) userId
                       && isNotNull (f_deletedAt f)) (folders d) with
  | None => throw NOT_FOUND
  | Some _ =>
      folderIds <- liftCollect (collectAllFolderIds userId (folders d) fuel id) ;;
      let assetsInFolders :=
        filter (fun a => String.eqb (a_userId a) userId && folderIn folderIds a)
               (userAssets d) in
      totalFreedBytes <-
        transaction
          (total <- releaseAll d assetsInFolders 0 ;;
           forEach (purgeOrder folderIds) deleteFolderRow ;;;
           ret total) ;;
      updateStorageUsage userId (- totalFreedBytes) ;;;
      ret totalFreedBytes
  end.

(** [calculateDepth] of [emptyTrash], a walk up the parent chain inside the
    list of trashed folders. *)
Fixpoint calculateDepth (trashedFolders : list Folder) (fuel : nat)
    (folderId : Id) (depth : Z) : option Z :=
  match fuel with
  | O => None
  | S n =>
      match find (fun f => String.eqb (f_id f) folderId) trashedFolders with
      | None => Some depth
      | Some folder =>
          if negb (truthy (f_parentId folder)) then Some depth
          else
            match find (fun f => col_eq (f_parentId folder) (f_id f))
                       trashedFolders with
            | None => Some depth
            | Some parent => calculateDepth trashedFolders n (f_id parent) (depth + 1)
            end
      end
  end.

(** [folderDepths]: a [Map] written with [set] and read with [get]; the
    latest entry of a key is in front. *)
Definition DepthMap := list (Id * Z).

Definition mapGet (m : DepthMap) (k : Id) : option Z :=
  option_map snd (find (fun e => String.eqb (fst e) k) m).

Fixpoint fillDepths (trashedFolders : list Folder) (fuel : nat)
    (todo : list Folder) (m : DepthMap) : option DepthMap :=
  match todo with
  | [] => Some m
  | folder :: rest =>
      match calculateDepth trashedFolders fuel (f_id folder) 0 with
      | None => None
      | Some dep => fillDepths trashedFolders fuel rest ((f_id folder, dep) :: m)
      end
  end.

Definition depthOr0 (m : DepthMap) (f : Folder) : Z :=
  match mapGet m (f_id f) with
  | Some dep => dep
  | None => 0
  end.

(** [[...xs].sort(cmp)] is stable: an element goes in front of the first
    element it does not have to follow. *)
Fixpoint insertSorted {A} (cmp : A -> A -> Z) (x : A) (l : list A) : list A :=
  match l with
  | [] => [x]
  | y :: rest =>
      if (cmp x y <=? 0)%Z then x :: y :: rest
      else y :: insertSorted cmp x rest
  end.

Definition stableSort {A} (cmp : A -> A -> Z) (l : list A) : list A :=
  fold_right (insertSorted cmp) [] l.

(** The order in which [emptyTrash] deletes folder rows. *)
Definition emptyTrashOrder (m : DepthMap) (trashedFolders : list Folder)
    : list Folder :=
  stableSort (fun a b => depthOr0 m b - depthOr0 m a) trashedFolders.

Definition emptyTrash_handler (userId : Id) (fuel : nat) : M Z :=
  d <- getDB ;;
  let trashedAssets :=
    filter (fun a => String.eqb (a_userId a) userId && isNotNull (a_deletedAt a))
           (userAssets d) in
  let trashedFolders :=
    filter (fun f => String.eqb (f_userId f) userId && isNotNull (f_deletedAt f))
           (folders d) in
  if ((List.length trashedAssets =? 0)%nat && (List.length trashedFolders =? 0)%nat)%bool
  then ret 0
  else
    totalFreedBytes <-
      transaction
        (total <- releaseAll d trashedAssets 0 ;;
         match fillDepths trashedFolders fuel trashedFolders [] with
         | None => diverge
         | Some folderDepths =>
             forEach (emptyTrashOrder folderDepths trashedFolders)
                     (fun folder => deleteFolderRow (f_id folder)) ;;;
             ret total
         end) ;;
    updateStorageUsage userId (- totalFreedBytes) ;;;
    ret totalFreedBytes.

(** ** Moving a folder *)

(** [isDescendant(ancestorId, checkId)]: walk the parent chain of [checkId]. *)
Fixpoint isDescendant (fs : list Folder) (fuel : nat)
    (ancestorId checkId : Id) : option bool :=
  match fuel with
  | O => None
  | S n =>
      match find (fun f => String.eqb (f_id f) checkId) fs with
      | None => Some false
      | Some checkFolder =>
          match f_parentId checkFolder with
          | None => Some false
          | Some p =>
              if String.eqb p EmptyString then Some false
              else if String.eqb p ancestorId then Some true
              else isDescendant fs n ancestorId p
          end
      end
  end.

Definition setFolderParent (id : Id) (p : option Id) (f : Folder) : Folder :=
  if String.eqb (f_id f) id
  then mkFolder (f_id f) (f_name f) (f_userId f) p (f_deletedAt f)
  else f.

Definition moveFolder_handler (userId : Id) (id : Id) (parentId : option Id)
    (fuel : nat) : M unit :=
  d <- getDB ;;
  match find (fun f => String.eqb (f_id f) id && String.eqb (f_userId f) userId
                       && isNull (f_deletedAt f)) (folders d) with
  | None => throw NOT_FOUND
  | Some _ =>
      if col_eq parentId id then throw BAD_REQUEST
      else
        (match parentId with
         | Some target =>
             if String.eqb target EmptyString then ret tt
             else
               match find (fun f => String.eqb (f_id f) target
                                    && String.eqb (f_userId f) userId
                                    && isNull (f_deletedAt f)) (folders d) with
               | None => throw NOT_FOUND
               | Some _ =>
                   match isDescendant (folders d) fuel id target with
                   | None => diverge
                   | Some true => throw BAD_REQUEST
                   | Some false => ret tt
                   end
               end
         | None => ret tt
         end) ;;;
        putDB (set_folders (map (setFolderParent id parentId) (folders d)) d)
  end.

(** ** Renaming, moving a file, quota settings *)

Definition setAssetName (n : string) (a : UserAsset) : UserAsset :=
  mkAsset (a_id a) n (a_userId a) (a_folderId a) (a_fileHash a) (a_deletedAt a).

Definition setAssetFolder (fid : option Id) (a : UserAsset) : UserAsset :=
  mkAsset (a_id a) (a_name a) (a_userId a) fid (a_fileHash a) (a_deletedAt a).

Definition setFolderName (n : string) (f : Folder) : Folder :=
  mkFolder (f_id f) n (f_userId f) (f_parentId f) (f_deletedAt f).

Definition renameFile_handler (userId : Id) (id : Id) (name : string) : M unit :=
  d <- getDB ;;
  let hit a := String.eqb (a_id a) id && String.eqb (a_userId a) userId in
  putDB (set_userAssets
           (map (fun a => if hit a then setAssetName name a else a)
                (userAssets d)) d) ;;;
  match filter hit (userAssets d) with
  | [] => throw NOT_FOUND
  | _ :: _ => ret tt
  end.

Definition renameFolder_handler (userId : Id) (id : Id) (name : string) : M unit :=
  d <- getDB ;;
  let hit f := String.eqb (f_id f) id && String.eqb (f_userId f) userId in
  putDB (set_folders
           (map (fun f => if hit f then setFolderName name f else f)
                (folders d)) d) ;;;
  match filter hit (folders d) with
  | [] => throw NOT_FOUND
  | _ :: _ => ret tt
  end.

(** [moveFile]; the update is refused by the folder_id foreign key when it
    would write the id of no folder. *)
Definition moveFile_handler (userId : Id) (id : Id) (folderId : option Id)
    : M unit :=
  d <- getDB ;;
  (if truthy folderId
   then match find (fun f => col_eq folderId (f_id f)
                             && String.eqb (f_userId f) userId) (folders d) with
        | None => throw NOT_FOUND
        | Some _ => ret tt
        end
   else ret tt) ;;;
  let hit a := String.eqb (a_id a) id && String.eqb (a_userId a) userId in
  match filter hit (userAssets d) with
  | [] => throw NOT_FOUND
  | _ :: _ =>
      if match folderId with
         | Some fid => negb (hasFolder fid d)
         | None => false
         end
      then throw INTERNAL_SERVER_ERROR
      else putDB (set_userAssets
                    (map (fun a => if hit a then setAssetFolder folderId a else a)
                         (userAssets d)) d)
  end.

Definition getQuota_handler (userId : Id) : M UserQuota :=
  d <- getDB ;;
  match findQuota userId d with
  | Some q => ret q
  | None =>
      let q := mkQuota userId 0 DEFAULT_STORAGE_LIMIT DEFAULT_RATE_LIMIT in
      putDB (set_userQuotas (userQuotas d ++ [q]) d) ;;; ret q
  end.

(** ** Requests *)

(** One call of a rate-limited procedure by an authenticated user.  [Query]
    stands for the procedures that write none of the modelled columns
    (listFiles, getFile, listTrash, getStats, togglePublic). *)
Inductive Call :=
| GetUploadPresignedUrl (input : UploadInput) (newAssetId : Id)
| ConfirmUpload (input : UploadInput) (newAssetId : Id)
| CreateFolder (name : string) (parentId : option Id) (newId : Id)
| DeleteFolder (id : Id)
| MoveFolderToTrash (id : Id)
| RestoreFolderFromTrash (id : Id)
| DeleteAsset (id : Id)
| MoveToTrash (id : Id)
| RestoreFromTrash (id : Id)
| PermanentlyDelete (id : Id)
| PermanentlyDeleteFolder (id : Id)
| EmptyTrash
| MoveFolder (id : Id) (parentId : option Id)
| RenameFile (id : Id) (name : string)
| RenameFolder (id : Id) (name : string)
| MoveFile (id : Id) (folderId : option Id)
| GetQuota
| Query.

Record Request := mkRequest {
  r_user : Id;
  r_now : Z;
  r_windowId : Id;
  r_fuel : nat;
  r_call : Call
}.

Definition void {A} (m : M A) : M unit := m ;;; ret tt.

Definition callValid (c : Call) : bool :=
  match c with
  | GetUploadPresignedUrl input _ => uploadInputValid input
  | ConfirmUpload input _ => uploadInputValid input
  | CreateFolder name _ _ | RenameFile _ name | RenameFolder _ name =>
      (1 <=? String.length name)%nat && (String.length name <=? 255)%nat
  | _ => true
  end.

Definition runCall (userId : Id) (now : Z) (fuel : nat) (c : Call) : M unit :=
  match c with
  | GetUploadPresignedUrl input newAssetId =>
      void (getUploadPresignedUrl_handler userId input newAssetId)
  | ConfirmUpload input newAssetId => confirmUpload_handler userId input newAssetId
  | CreateFolder name parentId newId => createFolder_handler userId name parentId newId
  | DeleteFolder id => deleteFolder_handler userId id
  | MoveFolderToTrash id => void (moveFolderToTrash_handler userId id now fuel)
  | RestoreFolderFromTrash id => void (restoreFolderFromTrash_handler userId id fuel)
  | DeleteAsset id => deleteAsset_handler userId id
  | MoveToTrash id => moveToTrash_handler userId id now
  | RestoreFromTrash id => restoreFromTrash_handler userId id
  | PermanentlyDelete id => permanentlyDelete_handler userId id
  | PermanentlyDeleteFolder id => void (permanentlyDeleteFolder_handler userId id fuel)
  | EmptyTrash => void (emptyTrash_handler userId fuel)
  | MoveFolder id parentId => moveFolder_handler userId id parentId fuel
  | RenameFile id name => renameFile_handler userId id name
  | RenameFolder id name => renameFolder_handler userId id name
  | MoveFile id folderId => moveFile_handler userId id folderId
  | GetQuota => void (getQuota_handler userId)
  | Query => ret tt
  end.

Definition handle (r : Request) : M unit :=
  rateLimitedProcedure (r_user r) (r_now r) (r_windowId r)
    (callValid (r_call r))
    (runCall (r_user r) (r_now r) (r_fuel r) (r_call r)).

(** What happens to the world between observations: a call of the router,
    or a PUT of an object into the bucket through a presigned URL. *)
Inductive Event :=
| Api (r : Request)
| S3Put (key : string).

Definition after (w : World) (e : Event) : World :=
  match e with
  | Api r => snd (handle r w)
  | S3Put key => with_s3 (key :: s3 w) w
  end.

Definition run (es : list Event) (w : World) : World := fold_left after es w.

Definition reachable (w : World) : Prop := exists es, w = run es emptyWorld.

(** ** Notions the statements are written with *)

Local Open Scope string_scope.
Local Open Scope list_scope.
Local Open Scope Z_scope.

Definition userRateLimit (userId : Id) (d : DB) : Z :=
  match findQuota userId d with
  | Some q => q_rateLimit q
  | None => DEFAULT_RATE_LIMIT
  end.

(** The request count recorded for a user's window, if a row exists. *)
Definition windowCount (userId : Id) (ws : Z) (w : World) : option Z :=
  option_map requestCount (findWindow userId ws (db w)).

Definition freshWindowId (i : Id) (w : World) : Prop :=
  existsb (fun r => String.eqb (w_id r) i) (rateLimitWindows (db w)) = false.

(** A small world used to instantiate the statements: two users, a folder
    [docs] of alice with a trashed subfolder [old] and an active subfolder
    [work], one active and one
    trashed asset of alice sharing one object, and an asset of bob. *)
Definition sampleWorld : World :=
  mkWorld
    (mkDB
       [mkFile "h1" 100 "h1" 2; mkFile "h2" 40 "h2" 1]
       [mkFolder "docs" "Docs" "alice" None None;
        mkFolder "old" "Old" "alice" (Some "docs"%string) (Some 7);
        mkFolder "work" "Work" "alice" (Some "docs"%string) None;
        mkFolder "tmp" "Tmp" "alice" None None]
       [mkAsset "a1" "report.pdf" "alice" (Some "docs"%string) "h1" None;
        mkAsset "a2" "copy.pdf" "alice" (Some "old"%string) "h1" (Some 7);
        mkAsset "b1" "notes.txt" "bob" None "h2" None]
       [mkQuota "alice" 200 DEFAULT_STORAGE_LIMIT DEFAULT_RATE_LIMIT;
        mkQuota "bob" 40 DEFAULT_STORAGE_LIMIT DEFAULT_RATE_LIMIT]
       [])
    ["h1"; "h2"]%string.

(** [chain fs a n x]: walking [n] parent links up from folder [x] arrives
    at [a]; [x] is then a descendant of [a]. *)
Inductive chain (fs : list Folder) (ancestorId : Id) : nat -> Id -> Prop :=
| chain_child (c : Folder) :
    In c fs -> f_parentId c = Some ancestorId ->
    chain fs ancestorId 1 (f_id c)
| chain_up (c : Folder) (p : Id) (n : nat) :
    In c fs -> f_parentId c = Some p -> chain fs ancestorId n p ->
    chain fs ancestorId (S n) (f_id c).

Definition descendantOf (fs : list Folder) (ancestorId x : Id) : Prop :=
  exists n, chain fs ancestorId n x.

(** Ids are a primary key, and uuids are not empty. *)
Definition folderKeysOk (fs : list Folder) : Prop :=
  NoDup (map f_id fs) /\ (forall f, In f fs -> f_id f <> EmptyString).

(** [before l x y]: [x] stands in front of [y] in [l]. *)
Definition before {A} (l : list A) (x y : A) : Prop :=
  exists l1 l2 l3, l = l1 ++ x :: l2 ++ y :: l3.

(** Every id of [l] belongs to a row whose parent is an id seen earlier. *)
Fixpoint parentsFirst (fs : list Folder) (seen l : list Id) : Prop :=
  match l with
  | [] => True
  | c :: rest =>
      (exists row p, In row fs /\ f_id row = c
                     /\ f_parentId row = Some p /\ In p seen)
      /\ parentsFirst fs (c :: seen) rest
  end.

(** A trashed tree of alice: [r] with the children [a] and [b], and [a1]
    under [a], in the order the rows were created. *)
Definition purgeTree : list Folder :=
  [mkFolder "r" "R" "alice" None (Some 5);
   mkFolder "a" "A" "alice" (Some "r") (Some 5);
   mkFolder "a1" "A1" "alice" (Some "a") (Some 5);
   mkFolder "b" "B" "alice" (Some "r") (Some 5)].

Definition purgeWorld : World :=
  mkWorld (mkDB [] purgeTree [] [] []) [].

(** The part of the tree below [root] that a collector descending only
    into [keep] rows can see: [root] and, recursively, the kept children of
    what it has seen. *)
Inductive inSubtree (keep : Folder -> bool) (fs : list Folder) (root : Id)
    : Id -> Prop :=
| sub_root : inSubtree keep fs root root
| sub_child (c : Folder) (y : Id) :
    inSubtree keep fs root y -> In c fs -> f_parentId c = Some y ->
    keep c = true -> inSubtree keep fs root (f_id c).

Definition ownedTrashed (userId : Id) (f : Folder) : bool :=
  String.eqb (f_userId f) userId && isNotNull (f_deletedAt f).

(** What the cascades write: [deletedAt := t] on the folders with an id in
    [ids], and on the user's assets of the given state lying in them. *)
Definition stampedFolders (ids : list Id) (t : option Z) (fs : list Folder)
    : list Folder :=
  map (fun f => if existsb (String.eqb (f_id f)) ids
                then mkFolder (f_id f) (f_name f) (f_userId f) (f_parentId f) t
                else f) fs.

Definition restoredAssets (userId : Id) (ids : list Id) (l : list UserAsset)
    : list UserAsset :=
  map (fun a => if String.eqb (a_userId a) userId
                   && isNotNull (a_deletedAt a) && folderIn ids a
                then setAssetDeletedAt None a else a) l.

(** The world [restoreFolderFromTrash] commits once its checks have passed
    and the collector has returned [ids]. *)
Definition restoredWorld (u : Id) (ids : list Id) (w : World) : World :=
  with_db (set_folders (stampedFolders ids None (folders (db w)))
             (set_userAssets (restoredAssets u ids (userAssets (db w))) (db w))) w.


(** Five calls by alice, a second apart: create [f], trash it, create [a]
    inside the trashed [f], create [b] inside [a], trash [b]. *)
Definition restoreScenario : list Event :=
  [Api (mkRequest "alice" 1000 "w1" 3 (CreateFolder "F" None "f"));
   Api (mkRequest "alice" 2000 "w2" 3 (MoveFolderToTrash "f"));
   Api (mkRequest "alice" 3000 "w3" 3 (CreateFolder "A" (Some "f") "a"));
   Api (mkRequest "alice" 4000 "w4" 3 (CreateFolder "B" (Some "a") "b"));
   Api (mkRequest "alice" 5000 "w5" 3 (MoveFolderToTrash "b"))].

(** ** Accounting *)

(** The number of asset rows, trashed or active, whose [fileHash] is [h]. *)
Definition refs (h : string) (l : list UserAsset) : Z :=
  Z.of_nat (List.length (filter (fun a => String.eqb (a_fileHash a) h) l)).

(** The keys and the foreign key of the schema that the accounting rests
    on: asset ids and file hashes are primary keys, and every asset's
    [fileHash] names a file row. *)
Definition storeOk (d : DB) : Prop :=
  NoDup (map a_id (userAssets d))
  /\ NoDup (map hash (files d))
  /\ (forall a, In a (userAssets d) ->
        exists f, In f (files d) /\ hash f = a_fileHash a).

Definition dedupInvariant (d : DB) : Prop :=
  forall f, In f (files d) -> refCount f = refs (hash f) (userAssets d).

(** [storageUsed] as the statistics procedures read it:
    [quota?.storageUsed ?? 0]. *)
Definition usageOf (userId : Id) (d : DB) : Z :=
  match findQuota userId d with
  | Some q => storageUsed q
  | None => 0
  end.

Definition removeAsset (id : Id) (l : list UserAsset) : list UserAsset :=
  filter (fun a => negb (String.eqb (a_id a) id)) l.

(** The files table after one reference to [h] has been released from a
    row of count [r]. *)
Definition releasedFiles (h : string) (r : Z) (fs : list FileRow) : list FileRow :=
  if (r - 1 <=? 0)%Z
  then filter (fun f => negb (String.eqb (hash f) h)) (map (addRef h (-1)) fs)
  else map (addRef h (-1)) fs.

Definition releasedWorld (a : UserAsset) (f : FileRow) (w : World) : World :=
  mkWorld
    (set_files (releasedFiles (hash f) (refCount f) (files (db w)))
       (set_userAssets (removeAsset (a_id a) (userAssets (db w))) (db w)))
    (if (refCount f - 1 <=? 0)%Z
     then filter (fun k => negb (String.eqb k (path f))) (s3 w)
     else s3 w).

Definition dedupOk (w : World) : Prop :=
  storeOk (db w) /\ dedupInvariant (db w).

(** What the accounting reads of an asset row. *)
Definition assetKey (a : UserAsset) : Id * Id * string :=
  (a_id a, a_userId a, a_fileHash a).

(** [w'] has the files of [w] and the same assets up to the columns the
    accounting does not read. *)
Definition sameCore (w w' : World) : Prop :=
  files (db w') = files (db w)
  /\ map assetKey (userAssets (db w')) = map assetKey (userAssets (db w)).

Definition keeps {A} (m : M A) : Prop :=
  forall w, dedupOk w -> dedupOk (snd (m w)).

Definition frames {A} (m : M A) : Prop :=
  forall w, sameCore w (snd (m w)).

(** A 64-character hash, and the scenario of two users uploading the same
    content: the object is put into the bucket, alice confirms her upload,
    bob's presign request finds the content and links to it, alice deletes
    her asset. *)
Definition hashA : string :=
  "00000000000000000000000000000000000000000000000000000000000000aa".

Definition uploadA (sz : Z) : UploadInput := mkUpload "report.pdf" sz hashA None.

Definition dedupScenario : list Event :=
  [S3Put hashA;
   Api (mkRequest "alice" 1000 "w1" 0 (ConfirmUpload (uploadA 100) "a1"));
   Api (mkRequest "bob" 2000 "w2" 0 (GetUploadPresignedUrl (uploadA 100) "b1"));
   Api (mkRequest "alice" 3000 "w3" 0 (DeleteAsset "a1"))].

(** [w'] differs from [w] at most in the rate windows and in quota rows
    that charge the same bytes to every user. *)
Definition sameLedger (w w' : World) : Prop :=
  files (db w') = files (db w)
  /\ userAssets (db w') = userAssets (db w)
  /\ folders (db w') = folders (db w)
  /\ s3 w' = s3 w
  /\ (forall v, usageOf v (db w') = usageOf v (db w)).

Definition isUpload (c : Call) : Prop :=
  match c with
  | GetUploadPresignedUrl _ _ | ConfirmUpload _ _ => True
  | _ => False
  end.

(** [storageLimit] of the user's quota row, or of the row
    [checkStorageQuota] would create. *)
Definition limitOf (userId : Id) (d : DB) : Z :=
  match findQuota userId d with
  | Some q => storageLimit q
  | None => DEFAULT_STORAGE_LIMIT
  end.

Definition hashB : string :=
  "00000000000000000000000000000000000000000000000000000000000000bb".

(** Alice has 90 of her 100 bytes charged; bob holds the only asset of the
    object [hashA], which is in the bucket; [hashB] is not. *)
Definition quotaWorld : World :=
  mkWorld
    (mkDB
       [mkFile hashA 50 hashA 1]
       []
       [mkAsset "b1" "report.pdf" "bob" None hashA None]
       [mkQuota "alice" 90 100 2; mkQuota "bob" 50 100 2]
       [])
    [hashA].

(** The same world after alice has used up her window at clock 1000. *)
Definition fullWindowWorld : World :=
  with_db (set_rateLimitWindows [mkWindow "w0" "alice" 1000 2] (db quotaWorld))
          quotaWorld.

Definition presignA : Request :=
  mkRequest "alice" 1000 "w1" 0 (GetUploadPresignedUrl (uploadA 50) "a1").

Definition confirmA : Request :=
  mkRequest "alice" 1000 "w1" 0 (ConfirmUpload (uploadA 50) "a1").

Definition confirmB : Request :=
  mkRequest "alice" 1000 "w1" 0
    (ConfirmUpload (mkUpload "report.pdf" 50 hashB None) "a1").

(** Bob has uploaded the object [hashA] as 50 bytes and alice the object
    [hashB] as 100 bytes. *)
Definition sizeScenario : list Event :=
  [S3Put hashA;
   S3Put hashB;
   Api (mkRequest "bob" 1000 "w1" 0 (ConfirmUpload (uploadA 50) "b1"));
   Api (mkRequest "alice" 2000 "w2" 0
          (ConfirmUpload (mkUpload "notes.txt" 100 hashB None) "a0"))].

(** Alice uploads content with the hash of bob's object, declaring 30
    bytes: through [confirmUpload], or through the deduplicated link of
    [getUploadPresignedUrl]. *)
Definition confirmMismatch : Event :=
  Api (mkRequest "alice" 3000 "w3" 0 (ConfirmUpload (uploadA 30) "a1")).

Definition linkMismatch : Event :=
  Api (mkRequest "alice" 3000 "w3" 0 (GetUploadPresignedUrl (uploadA 30) "a1")).

Definition purgeMismatch : Event :=
  Api (mkRequest "alice" 4000 "w4" 0 (DeleteAsset "a1")).

(** The size recorded for hash [h] once an upload declaring [sz] has been
    confirmed: the one already on the file row, if there is one. *)
Definition recordedSize (h : string) (sz : Z) (d : DB) : Z :=
  match findFile h d with
  | Some f0 => size f0
  | None => sz
  end.


(** ** Listings *)

(** [orderBy: [desc(createdAt)]]: rows are kept in the order they were
    inserted, which is the order of their [createdAt] stamps, so the newest
    row comes first in the reversed table order. *)
Definition newestFirst {A} (rows : list A) : list A := rev rows.

Definition stampOf (t : option Z) : Z :=
  match t with
  | Some v => v
  | None => 0
  end.

(** [orderBy: [desc(deletedAt)]] on rows selected with [isNotNull(deletedAt)]. *)
Definition latestTrashedFirst {A} (deletedAt : A -> option Z) (rows : list A)
    : list A :=
  stableSort (fun a b => stampOf (deletedAt b) - stampOf (deletedAt a)) rows.

(** [rows.map(f)] where [f] reads a property of a relation that may be
    null: the TypeError of the first such row ends the procedure. *)
Fixpoint mapOrThrow {A B} (f : A -> option B) (rows : list A) : M (list B) :=
  match rows with
  | [] => ret []
  | x :: rest =>
      match f x with
      | None => throw INTERNAL_SERVER_ERROR
      | Some y => ys <- mapOrThrow f rest ;; ret (y :: ys)
      end
  end.

(** One element of [formattedFiles], and the fields [getFile] shares with
    it. *)
Record FileEntry := mkEntry {
  e_id : Id;
  e_name : string;
  e_size : Z;
  e_isOriginal : bool;
  e_isDeduplicated : bool;
  e_refCount : Z
}.

Definition formatAsset (d : DB) (asset : UserAsset) : option FileEntry :=
  match findFile (a_fileHash asset) d with
  | Some file =>
      Some (mkEntry (a_id asset) (a_name asset) (size file)
              (refCount file =? 1) (refCount file >? 1) (refCount file))
  | None => None
  end.

(** [input?.folderId ? eq(column, input.folderId) : isNull(column)] *)
Definition inFolder (folderId : option Id) (column : option Id) : bool :=
  match folderId with
  | Some fid =>
      if String.eqb fid EmptyString then isNull column else col_eq column fid
  | None => isNull column
  end.

Definition listFiles_handler (userId : Id) (folderId : option Id)
    : M (list FileEntry * list Folder) :=
  d <- getDB ;;
  let assets :=
    newestFirst
      (filter (fun a => String.eqb (a_userId a) userId && isNull (a_deletedAt a)
                        && inFolder folderId (a_folderId a)) (userAssets d)) in
  let userFolders :=
    newestFirst
      (filter (fun f => String.eqb (f_userId f) userId && isNull (f_deletedAt f)
                        && inFolder folderId (f_parentId f)) (folders d)) in
  formattedFiles <- mapOrThrow (formatAsset d) assets ;;
  ret (formattedFiles, userFolders).

(** [getFile]: the entry and the [folder] relation of the asset. *)
Definition getFile_handler (userId : Id) (id : Id)
    : M (FileEntry * option Folder) :=
  d <- getDB ;;
  match find (fun a => String.eqb (a_id a) id && String.eqb (a_userId a) userId
                       && isNull (a_deletedAt a)) (userAssets d) with
  | None => throw NOT_FOUND
  | Some asset =>
      match formatAsset d asset with
      | None => throw INTERNAL_SERVER_ERROR
      | Some entry =>
          ret (entry,
               find (fun f => col_eq (a_folderId asset) (f_id f)) (folders d))
      end
  end.

(** [listFolders] is a [protectedProcedure]: no rate limiter in front. *)
Definition listFolders_handler (userId : Id) : M (list Folder) :=
  d <- getDB ;;
  ret (newestFirst
         (filter (fun f => String.eqb (f_userId f) userId
                           && isNull (f_deletedAt f)) (folders d))).

Record TrashedFile := mkTrashedFile {
  tf_id : Id;
  tf_name : string;
  tf_size : Z;
  tf_deletedAt : option Z
}.

Record TrashedFolder := mkTrashedFolder {
  td_id : Id;
  td_name : string;
  td_deletedAt : option Z
}.

(** The filter of [listTrash] that keeps the trashed folders whose parent
    is not itself among the trashed folders. *)
Definition topLevelTrashed (allTrashedFolders : list Folder) : list Folder :=
  let trashedFolderIds := map f_id allTrashedFolders in
  filter (fun folder =>
            if negb (truthy (f_parentId folder)) then true
            else if negb (existsb (col_eq (f_parentId folder)) trashedFolderIds)
                 then true
                 else false)
         allTrashedFolders.

Definition listTrash_handler (userId : Id)
    : M (list TrashedFile * list TrashedFolder) :=
  d <- getDB ;;
  let trashedAssets :=
    latestTrashedFirst a_deletedAt
      (filter (fun a => String.eqb (a_userId a) userId
                        && isNotNull (a_deletedAt a)) (userAssets d)) in
  let allTrashedFolders :=
    latestTrashedFirst f_deletedAt
      (filter (fun f => String.eqb (f_userId f) userId
                        && isNotNull (f_deletedAt f)) (folders d)) in
  let topLevelTrashedFolders := topLevelTrashed allTrashedFolders in
  trashedFiles <-
    mapOrThrow (fun asset =>
                  option_map (fun sz => mkTrashedFile (a_id asset) (a_name asset)
                                          sz (a_deletedAt asset))
                             (fileSizeOf d asset))
               trashedAssets ;;
  ret (trashedFiles,
       map (fun folder => mkTrashedFolder (f_id folder) (f_name folder)
                            (f_deletedAt folder))
           topLevelTrashedFolders).

(** ** Statistics *)





(** ** Sharing *)

(** The [user_assets] table with the columns of public sharing, which
    [togglePublic] and [getPublicFile] read and write. *)
Record SharedAsset := mkShared {
  core : UserAsset;
  isPublic : bool;
  publicShareId : option Id;
  downloadCount : Z
}.

Record ShareStore := mkShareStore {
  sh_files : list FileRow;
  sh_assets : list SharedAsset
}.

Definition set_sh_assets (x : list SharedAsset) (st : ShareStore) : ShareStore :=
  mkShareStore (sh_files st) x.

Definition setShare (p : bool) (sid : option Id) (r : SharedAsset) : SharedAsset :=
  mkShared (core r) p sid (downloadCount r).

Definition countDownload (id : Id) (r : SharedAsset) : SharedAsset :=
  if String.eqb (a_id (core r)) id
  then mkShared (core r) (isPublic r) (publicShareId r) (downloadCount r + 1)
  else r.

(** [togglePublic]; [newShareId] is the uuid drawn when the file is made
    public.  The update is refused by the unique index on
    [public_share_id] when it would store one share id on two rows.
    Returns [isPublic] and [shareUrl]. *)
Definition togglePublic_handler (userId : Id) (id : Id) (input_isPublic : bool)
    (newShareId : Id) (st : ShareStore)
    : Outcome (bool * option string) * ShareStore :=
  let shareId := if input_isPublic then Some newShareId else None in
  let hit r := String.eqb (a_id (core r)) id
               && String.eqb (a_userId (core r)) userId in
  match filter hit (sh_assets st) with
  | [] => (Throw NOT_FOUND, st)
  | updated :: others =>
      if match shareId with
         | Some s =>
             existsb (fun r => negb (hit r) && col_eq (publicShareId r) s)
                     (sh_assets st)
             || negb (List.length others =? 0)%nat
         | None => false
         end
      then (Throw INTERNAL_SERVER_ERROR, st)
      else
        (Ok (input_isPublic,
             if truthy shareId
             then option_map (fun s => ("/share/" ++ s)%string) shareId
             else None),
         set_sh_assets
           (map (fun r => if hit r then setShare input_isPublic shareId r else r)
                (sh_assets st)) st)
  end.

Record PublicFile := mkPublicFile {
  pf_id : Id;
  pf_name : string;
  pf_size : Z;
  pf_downloadCount : Z
}.

(** [getPublicFile] is a [publicProcedure]: no session and no rate
    limiter.  The download count is incremented before the file relation
    is read. *)
Definition getPublicFile_handler (shareId : Id) (st : ShareStore)
    : Outcome PublicFile * ShareStore :=
  match find (fun r => col_eq (publicShareId r) shareId && isPublic r)
             (sh_assets st) with
  | None => (Throw NOT_FOUND, st)
  | Some asset =>
      let st' :=
        set_sh_assets (map (countDownload (a_id (core asset))) (sh_assets st)) st in
      match find (fun f => String.eqb (hash f) (a_fileHash (core asset)))
                 (sh_files st) with
      | None => (Throw INTERNAL_SERVER_ERROR, st')
      | Some file =>
          (Ok (mkPublicFile (a_id (core asset)) (a_name (core asset)) (size file)
                 (downloadCount asset + 1)),
           st')
      end
  end.

(** ** Moving several files or folders (later revision of the router) *)



Definition moveFilesValid (ids : list Id) : bool :=
  (List.length ids <=? 100)%nat.




(** ** The move dialog of the web client *)

(** [isDescendantOfMoving] of the move dialog, over the answer of
    [listFolders] ([foldersQuery.data], undefined until it has arrived):
    a folder is no target when it is being moved or lies below a folder
    that is. *)
Fixpoint isDescendantOfMoving (movingFolderIds : list Id)
    (data : option (list Folder)) (fuel : nat) (folderId : Id) : option bool :=
  match fuel with
  | O => None
  | S n =>
      if existsb (String.eqb folderId) movingFolderIds then Some true
      else
        match match data with
              | Some fs => find (fun f => String.eqb (f_id f) folderId) fs
              | None => None
              end with
        | None => Some false
        | Some folder =>
            match f_parentId folder with
            | None => Some false
            | Some p =>
                if String.eqb p EmptyString then Some false
                else isDescendantOfMoving movingFolderIds data n p
            end
        end
  end.

(** ** Further notions the statements are written with *)

(** The calls of [checkRateLimit] that a user's requests make, one after
    the other, each with its clock reading and the uuid drawn for a new
    window row: the outcomes, and the world they leave. *)
Fixpoint burst (userId : Id) (reqs : list (Z * Id)) (w : World)
    : list (Outcome unit) * World :=
  match reqs with
  | [] => ([], w)
  | (now, newId) :: rest =>
      let s := checkRateLimit userId now newId w in
      let t := burst userId rest (snd s) in
      (fst s :: fst t, snd t)
  end.

(** The outcome of the request at position [k] (from 0) of a window, under
    the limit [limit]. *)
Definition admitted (limit : Z) (k : nat) : Outcome unit :=
  if Z.of_nat k <? Z.max 1 limit then Ok tt else Throw TOO_MANY_REQUESTS.

(** The keys of the sharing columns: asset ids are a primary key, and the
    unique index lets a share id stand on one row only. *)
Definition shareKeysOk (st : ShareStore) : Prop :=
  NoDup (map (fun r => a_id (core r)) (sh_assets st))
  /\ (forall r1 r2 s, In r1 (sh_assets st) -> In r2 (sh_assets st) ->
        publicShareId r1 = Some s -> publicShareId r2 = Some s -> r1 = r2).

(** A store with a private file of alice in the trash, and a public file
    of bob that has been fetched four times. *)
Definition sampleShares : ShareStore :=
  mkShareStore
    [mkFile "h1" 100 "h1" 1; mkFile "h2" 40 "h2" 1]
    [mkShared (mkAsset "a1" "report.pdf" "alice" None "h1" (Some 7)) false None 0;
     mkShared (mkAsset "b1" "notes.txt" "bob" None "h2" None) true (Some "s-old") 4].

(** The rows [togglePublic] writes: the asset [id] when [userId] owns it. *)
Definition ownRow (userId id : Id) (r : SharedAsset) : bool :=
  String.eqb (a_id (core r)) id && String.eqb (a_userId (core r)) userId.

(** No folder lies below itself. *)
Definition acyclic (fs : list Folder) : Prop :=
  forall x, ~ descendantOf fs x x.

Definition forestOk (fs : list Folder) : Prop :=
  folderKeysOk fs /\ acyclic fs.

(** Heights in [sampleWorld]: [docs] and [tmp] are roots. *)
Definition sampleRank (i : Id) : nat :=
  if String.eqb i "docs" then 0%nat
  else if String.eqb i "tmp" then 0%nat else 1%nat.



(** [foldersQuery.data] once [listFolders] has answered. *)
Definition listedFolders (userId : Id) (w : World) : list Folder :=
  newestFirst
    (filter (fun f => String.eqb (f_userId f) userId && isNull (f_deletedAt f))
            (folders (db w))).

(** ** What the ledger tables look like *)

(** One quota row per user, never a negative charge, and the limits every
    row is created with. *)
Definition quotasOk (d : DB) : Prop :=
  NoDup (map q_userId (userQuotas d))
  /\ forall q, In q (userQuotas d) ->
       0 <= storageUsed q
       /\ storageLimit q = DEFAULT_STORAGE_LIMIT
       /\ q_rateLimit q = DEFAULT_RATE_LIMIT.

Definition windowKey (r : RateLimitWindow) : Id * Z := (w_userId r, windowStart r).

(** One row per user and window, starting on a window boundary and
    counting between one request and the limit. *)
Definition windowsOk (d : DB) : Prop :=
  NoDup (map w_id (rateLimitWindows d))
  /\ NoDup (map windowKey (rateLimitWindows d))
  /\ forall r, In r (rateLimitWindows d) ->
       1 <= requestCount r <= DEFAULT_RATE_LIMIT
       /\ windowOf (windowStart r) = windowStart r.

(** One content row per hash, of positive size, stored under its hash and
    counted at least once. *)
Definition filesOk (d : DB) : Prop :=
  NoDup (map hash (files d))
  /\ forall f, In f (files d) ->
       0 < size f /\ path f = hash f /\ 1 <= refCount f.

Definition ledgerOk (d : DB) : Prop :=
  quotasOk d /\ windowsOk d /\ filesOk d.

Definition holds {A} (m : M A) : Prop :=
  forall w, ledgerOk (db w) -> ledgerOk (db (snd (m w))).

(** [holds] for the calls that return normally: what a transaction body
    has to keep, since the statements of a body that throws are undone. *)
Definition holdsOk {A} (m : M A) : Prop :=
  forall w a w', ledgerOk (db w) -> m w = (Ok a, w') -> ledgerOk (db w').

(** ** The folder cascades *)

Definition ownedActive (userId : Id) (f : Folder) : bool :=
  String.eqb (f_userId f) userId && isNull (f_deletedAt f).

(** The assets [moveFolderToTrash] stamps: the caller's active assets
    lying in the collected folders. *)
Definition trashedAssets (userId : Id) (ids : list Id) (now : Z)
    (l : list UserAsset) : list UserAsset :=
  map (fun a => if String.eqb (a_userId a) userId
                   && isNull (a_deletedAt a) && folderIn ids a
                then setAssetDeletedAt (Some now) a else a) l.

(** The world [moveFolderToTrash] commits once the collector has returned
    [ids]. *)
Definition trashedWorld (u : Id) (ids : list Id) (now : Z) (w : World) : World :=
  with_db (set_folders (stampedFolders ids (Some now) (folders (db w)))
             (set_userAssets (trashedAssets u ids now (userAssets (db w))) (db w))) w.

Definition inCascade (u : Id) (ids : list Id) (a : UserAsset) : Prop :=
  a_userId a = u /\ a_deletedAt a = None /\ folderIn ids a = true.

(** Nothing of the caller below the folder [root] is in the trash: no
    folder row of the caller hanging under the active subtree of [root], and
    no asset of the caller lying in it. *)
Definition cleanBelow (u : Id) (d : DB) (root : Id) : Prop :=
  (forall c y, inSubtree (ownedActive u) (folders d) root y ->
               In c (folders d) -> f_parentId c = Some y -> f_userId c = u ->
               f_deletedAt c = None)
  /\ (forall a y, In a (userAssets d) -> a_userId a = u ->
                  a_folderId a = Some y ->
                  inSubtree (ownedActive u) (folders d) root y ->
                  a_deletedAt a = None).

(** The parent check of [restoreFolderFromTrash] passes: the folder is at
    root, or its parent is an active folder of the caller. *)
Definition parentActive (u : Id) (fs : list Folder) (F : Folder) : Prop :=
  truthy (f_parentId F) = false
  \/ (exists P, In P fs /\ f_parentId F = Some (f_id P)
                /\ f_userId P = u /\ f_deletedAt P = None).

(** A store with nothing in the trash: alice's folder [docs] with the
    folder [work] inside it, an asset in each, and an asset of bob. *)
Definition sampleShelf : World :=
  mkWorld
    (mkDB
       [mkFile "h1" 100 "h1" 2; mkFile "h2" 40 "h2" 1]
       [mkFolder "docs" "Docs" "alice" None None;
        mkFolder "work" "Work" "alice" (Some "docs"%string) None]
       [mkAsset "a1" "report.pdf" "alice" (Some "docs"%string) "h1" None;
        mkAsset "a2" "draft.pdf" "alice" (Some "work"%string) "h1" None;
        mkAsset "b1" "notes.txt" "bob" None "h2" None]
       [mkQuota "alice" 200 DEFAULT_STORAGE_LIMIT DEFAULT_RATE_LIMIT;
        mkQuota "bob" 40 DEFAULT_STORAGE_LIMIT DEFAULT_RATE_LIMIT]
       [])
    ["h1"; "h2"]%string.

(** ** What a call leaves to the other users *)

(** An asset row without its [folderId]. *)
Definition detach (a : UserAsset) : UserAsset := setAssetFolder None a.

Definition foldersOf (v : Id) (d : DB) : list Folder :=
  filter (fun f => String.eqb (f_userId f) v) (folders d).

Definition assetsOf (v : Id) (d : DB) : list UserAsset :=
  filter (fun a => String.eqb (a_userId a) v) (userAssets d).

Definition quotasOf (v : Id) (d : DB) : list UserQuota :=
  filter (fun q => String.eqb (q_userId q) v) (userQuotas d).

(** The primary keys of [folders] and [user_assets]. *)
Definition rowKeysOk (d : DB) : Prop :=
  NoDup (map f_id (folders d)) /\ NoDup (map a_id (userAssets d)).

(** The rows of user [v] are the given ones, the folder of an asset
    aside. *)
Definition apart (v : Id) (fs0 : list Folder) (as0 : list UserAsset)
    (qs0 : list UserQuota) (d : DB) : Prop :=
  rowKeysOk d
  /\ foldersOf v d = fs0
  /\ map detach (assetsOf v d) = as0
  /\ quotasOf v d = qs0.

Definition guards {A} (P : DB -> Prop) (m : M A) : Prop :=
  forall w, P (db w) -> P (db (snd (m w))).

(** The parent check of [createFolder] passes: no parent is named, or the
    named one is a folder of the caller, active or not. *)
Definition parentOwned (u : Id) (fs : list Folder) (parentId : option Id) : Prop :=
  truthy parentId = false
  \/ (exists P, In P fs /\ parentId = Some (f_id P) /\ f_userId P = u).

(** ** What [getFile] shows *)

Definition renamedEntry (name : string) (e : FileEntry) : FileEntry :=
  mkEntry (e_id e) name (e_size e) (e_isOriginal e) (e_isDeduplicated e)
          (e_refCount e).

(** A target [moveFile] accepts, and the folder relation the asset has
    afterwards: the root, or a folder of the caller, in the trash or not. *)
Definition moveTarget (u : Id) (fs : list Folder) (target : option Id)
    (fo : option Folder) : Prop :=
  (target = None /\ fo = None)
  \/ (exists G, In G fs /\ f_userId G = u /\ target = Some (f_id G)
                /\ fo = Some G).

(** The assets [permanentlyDeleteFolder] purges: those of the caller lying
    in the collected folders, in the trash or not. *)
Definition purgedAssets (u : Id) (ids : list Id) (l : list UserAsset)
    : list UserAsset :=
  filter (fun a => String.eqb (a_userId a) u && folderIn ids a) l.

Definition notAmong (ids : list Id) (x : Id) : bool :=
  negb (existsb (String.eqb x) ids).

(** ** What an upload writes *)

(** The files table after the upsert of [confirmUpload]: a new row of
    count 1 with the declared size, or one more reference on the row that
    carries the hash already. *)
Definition uploadedFiles (h : string) (sz : Z) (fs : list FileRow) : list FileRow :=
  match find (fun f => String.eqb (hash f) h) fs with
  | Some _ => map (addRef h 1) fs
  | None => fs ++ [mkFile h sz h 1]
  end.

(** ** Rows with their [updatedAt] *)

(** [folders] and [user_assets] declare
    [updatedAt: timestamp("updated_at").defaultNow().$onUpdate(() => new Date())]:
    every UPDATE statement reads the clock when it is built and writes the
    reading into the rows it changes.  A [Stamped] row carries that column
    beside the columns of the rows above; [createdAt] and the sharing
    columns stand in no SET clause of the four procedures below and have
    no [$onUpdate].  The readings of the clock are arguments of the
    procedures, like [now]. *)
Record Stamped (A : Type) := mkStamped {
  row : A;
  updatedAt : Z
}.

Arguments mkStamped {A} row updatedAt.
Arguments row {A} s.
Arguments updatedAt {A} s.

Record StampedStore := mkStampedStore {
  ss_folders : list (Stamped Folder);
  ss_assets : list (Stamped UserAsset)
}.

(** [update(t).set(...).where(c)]: the rows that [c] selects get the new
    columns and, as [updatedAt], the reading [stamp] of the statement. *)
Definition updateWhere {A : Type} (c : A -> bool) (set : A -> A) (stamp : Z)
    (rows : list (Stamped A)) : list (Stamped A) :=
  map (fun r => if c (row r) then mkStamped (set (row r)) stamp else r) rows.

(** [moveToTrash] on stamped rows; [now] is the [new Date()] of the SET
    clause and [stamp] the reading of [$onUpdate]. *)
Definition moveToTrash_stamped (userId : Id) (id : Id) (now stamp : Z)
    (st : StampedStore) : Outcome unit * StampedStore :=
  let hit a := String.eqb (a_id a) id && String.eqb (a_userId a) userId
               && isNull (a_deletedAt a) in
  let st' := mkStampedStore (ss_folders st)
               (updateWhere hit (setAssetDeletedAt (Some now)) stamp
                            (ss_assets st)) in
  match filter (fun r => hit (row r)) (ss_assets st) with
  | [] => (Throw NOT_FOUND, st')
  | _ :: _ => (Ok tt, st')
  end.

Definition restoreFromTrash_stamped (userId : Id) (id : Id) (stamp : Z)
    (st : StampedStore) : Outcome unit * StampedStore :=
  let hit a := String.eqb (a_id a) id && String.eqb (a_userId a) userId
               && isNotNull (a_deletedAt a) in
  let st' := mkStampedStore (ss_folders st)
               (updateWhere hit (setAssetDeletedAt None) stamp (ss_assets st)) in
  match filter (fun r => hit (row r)) (ss_assets st) with
  | [] => (Throw NOT_FOUND, st')
  | _ :: _ => (Ok tt, st')
  end.

(** [for (const folderId of folderIds)
       await tx.update(folders).set({deletedAt: t}).where(eq(folders.id, folderId))]:
    one statement per round, the statement of round [k] reading
    [clock k]. *)
Fixpoint stampEach (folderIds : list Id) (t : option Z) (clock : nat -> Z)
    (k : nat) (rows : list (Stamped Folder)) : list (Stamped Folder) :=
  match folderIds with
  | [] => rows
  | folderId :: rest =>
      stampEach rest t clock (S k)
        (updateWhere (fun f => String.eqb (f_id f) folderId)
                     (setFolderDeletedAt folderId t) (clock k) rows)
  end.

(** [moveFolderToTrash] on stamped rows: [assetStamp] is the reading of
    the one statement on [user_assets], [clock] gives the readings of the
    statements on [folders]. *)
Definition moveFolderToTrash_stamped (userId : Id) (id : Id) (now : Z)
    (assetStamp : Z) (clock : nat -> Z) (fuel : nat) (st : StampedStore)
    : Outcome nat * StampedStore :=
  let fs := map row (ss_folders st) in
  match find (fun f => String.eqb (f_id f) id && String.eqb (f_userId f) userId
                       && isNull (f_deletedAt f)) fs with
  | None => (Throw NOT_FOUND, st)
  | Some _ =>
      match collectFolderIds userId fs fuel id with
      | None => (OutOfFuel, st)
      | Some folderIds =>
          (Ok (List.length folderIds),
           mkStampedStore
             (stampEach folderIds (Some now) clock 0 (ss_folders st))
             (if (0 <? List.length folderIds)%nat
              then updateWhere
                     (fun a => String.eqb (a_userId a) userId
                               && isNull (a_deletedAt a) && folderIn folderIds a)
                     (setAssetDeletedAt (Some now)) assetStamp (ss_assets st)
              else ss_assets st))
      end
  end.

Definition restoreFolderFromTrash_stamped (userId : Id) (id : Id)
    (assetStamp : Z) (clock : nat -> Z) (fuel : nat) (st : StampedStore)
    : Outcome nat * StampedStore :=
  let fs := map row (ss_folders st) in
  match find (fun f => String.eqb (f_id f) id && String.eqb (f_userId f) userId
                       && isNotNull (f_deletedAt f)) fs with
  | None => (Throw NOT_FOUND, st)
  | Some folder =>
      match (if truthy (f_parentId folder)
             then match find (fun f => col_eq (f_parentId folder) (f_id f)
                                       && String.eqb (f_userId f) userId) fs with
                  | None => Some PRECONDITION_FAILED
                  | Some parentFolder =>
                      if isNotNull (f_deletedAt parentFolder)
                      then Some PRECONDITION_FAILED
                      else None
                  end
             else None) with
      | Some e => (Throw e, st)
      | None =>
          match collectTrashedFolderIds userId fs fuel id with
          | None => (OutOfFuel, st)
          | Some folderIds =>
              (Ok (List.length folderIds),
               mkStampedStore
                 (stampEach folderIds None clock 0 (ss_folders st))
                 (if (0 <? List.length folderIds)%nat
                  then updateWhere
                         (fun a => String.eqb (a_userId a) userId
                                   && isNotNull (a_deletedAt a)
                                   && folderIn folderIds a)
                         (setAssetDeletedAt None) assetStamp (ss_assets st)
                  else ss_assets st))
          end
      end
  end.

(** The store without the [updatedAt] column, as a world of the router
    with the other tables empty. *)
Definition erase (st : StampedStore) : World :=
  mkWorld (mkDB [] (map row (ss_folders st)) (map row (ss_assets st)) [] []) [].

(** The rows [moveToTrash] selects. *)
Definition activeHit (userId id : Id) (a : UserAsset) : bool :=
  String.eqb (a_id a) id && String.eqb (a_userId a) userId
  && isNull (a_deletedAt a).

(** Alice's active asset [a1], last written at 5, bob's asset and a
    folder. *)
Definition sampleStamped : StampedStore :=
  mkStampedStore
    [mkStamped (mkFolder "docs" "Docs" "alice" None None) 3;
     mkStamped (mkFolder "work" "Work" "alice" (Some "docs"%string) None) 4]
    [mkStamped (mkAsset "a1" "report.pdf" "alice" (Some "docs"%string) "h1" None) 5;
     mkStamped (mkAsset "a2" "draft.pdf" "alice" (Some "work"%string) "h1" None) 6;
     mkStamped (mkAsset "b1" "notes.txt" "bob" None "h2" None) 7].

(** * Properties *)

(** ** Lists and procedures *)

Lemma find_none_iff {A} (p : A -> bool) (l : list A) :
  find p l = None <-> (forall x, In x l -> p x = false).
Proof.
  induction l as [|a l IH]; simpl.
  - split; [intros _ x [] | reflexivity].
  - destruct (p a) eqn:E.
    + split; [discriminate|]. intros H. rewrite (H a) in E by auto. discriminate.
    + rewrite IH. split.
      * intros H x [<-|Hx]; auto.
      * intros H x Hx. apply H. auto.
Qed.

Lemma find_app_none {A} (p : A -> bool) (l1 l2 : list A) :
  find p l1 = None -> find p (l1 ++ l2) = find p l2.
Proof.
  induction l1 as [|a l1 IH]; simpl; auto.
  destruct (p a); [discriminate|auto].
Qed.

Lemma find_app_some {A} (p : A -> bool) (l1 l2 : list A) x :
  find p l1 = Some x -> find p (l1 ++ l2) = Some x.
Proof.
  induction l1 as [|a l1 IH]; simpl; [discriminate|].
  destruct (p a); auto.
Qed.

Lemma existsb_false_iff {A} (p : A -> bool) (l : list A) :
  existsb p l = false <-> (forall x, In x l -> p x = false).
Proof.
  induction l as [|a l IH]; simpl.
  - split; [intros _ x [] | reflexivity].
  - rewrite orb_false_iff, IH. split.
    + intros [Ha H] x [<-|Hx]; auto.
    + intros H. split; [apply H; auto | intros x Hx; apply H; auto].
Qed.

Lemma map_id_in {A} (f : A -> A) (l : list A) :
  (forall x, In x l -> f x = x) -> map f l = l.
Proof.
  induction l as [|a l IH]; simpl; intros H; [reflexivity|].
  rewrite H by auto. f_equal. apply IH. intros x Hx. apply H. auto.
Qed.

Lemma with_db_same (w : World) : with_db (db w) w = w.
Proof. destruct w; reflexivity. Qed.

Lemma set_userAssets_same (d : DB) : set_userAssets (userAssets d) d = d.
Proof. destruct d; reflexivity. Qed.

Lemma set_folders_same (d : DB) : set_folders (folders d) d = d.
Proof. destruct d; reflexivity. Qed.

Lemma windowOf_recent (t : Z) : (windowOf t <? t - 60000)%Z = false.
Proof.
  unfold windowOf, RATE_LIMIT_WINDOW_MS. apply Z.ltb_ge.
  pose proof (Z.mod_pos_bound t 1000 ltac:(lia)).
  pose proof (Z_div_mod_eq_full t 1000). lia.
Qed.

(** ** The rate limiter *)

Section RateLimiter.

Variables (userId : Id) (now : Z) (newId : Id) (w : World).

Lemma checkRateLimit_insert :
  findWindow userId (windowOf now) (db w) = None ->
  freshWindowId newId w ->
  checkRateLimit userId now newId w =
    (Ok tt,
     with_db (set_rateLimitWindows
                (filter (fun r => negb (staleWindow userId (now - 60000) r))
                        (rateLimitWindows (db w))
                 ++ [mkWindow newId userId (windowOf now) 1]) (db w)) w).
Proof.
  intros Hnone Hfresh. unfold checkRateLimit, bind, getDB, putDB.
  rewrite Hnone. unfold freshWindowId in Hfresh. rewrite Hfresh.
  rewrite filter_app. simpl. unfold staleWindow at 2. simpl.
  rewrite windowOf_recent, andb_false_r. reflexivity.
Qed.

Lemma checkRateLimit_bump (cw : RateLimitWindow) :
  findWindow userId (windowOf now) (db w) = Some cw ->
  requestCount cw < userRateLimit userId (db w) ->
  checkRateLimit userId now newId w =
    (Ok tt,
     with_db (set_rateLimitWindows
                (map (bumpWindow (w_id cw)) (rateLimitWindows (db w))) (db w)) w).
Proof.
  intros Hfind Hlt. unfold checkRateLimit, bind, getDB, putDB.
  rewrite Hfind. fold (userRateLimit userId (db w)).
  destruct (Z.geb_spec (requestCount cw) (userRateLimit userId (db w))); [lia|].
  reflexivity.
Qed.

Lemma checkRateLimit_reject (cw : RateLimitWindow) :
  findWindow userId (windowOf now) (db w) = Some cw ->
  requestCount cw >= userRateLimit userId (db w) ->
  checkRateLimit userId now newId w = (Throw TOO_MANY_REQUESTS, w).
Proof.
  intros Hfind Hge. unfold checkRateLimit, bind, getDB, throw.
  rewrite Hfind. fold (userRateLimit userId (db w)).
  destruct (Z.geb_spec (requestCount cw) (userRateLimit userId (db w))); [|lia].
  reflexivity.
Qed.

End RateLimiter.

Lemma find_pointwise {A} (p q : A -> bool) (l : list A) :
  (forall x, p x = q x) -> find p l = find q l.
Proof.
  intros H. induction l as [|a l IH]; cbn; [reflexivity|].
  rewrite H, IH. reflexivity.
Qed.

Lemma find_filter_none {A} (p q : A -> bool) (l : list A) :
  find p l = None -> find p (filter q l) = None.
Proof.
  rewrite !find_none_iff. intros H x Hx. apply filter_In in Hx. apply H, Hx.
Qed.

Lemma existsb_filter_false {A} (p q : A -> bool) (l : list A) :
  existsb p l = false -> existsb p (filter q l) = false.
Proof.
  rewrite !existsb_false_iff. intros H x Hx. apply filter_In in Hx. apply H, Hx.
Qed.

Lemma map_bump_fresh (i : Id) (l : list RateLimitWindow) :
  existsb (fun r => String.eqb (w_id r) i) l = false ->
  map (bumpWindow i) l = l.
Proof.
  rewrite existsb_false_iff. intros H. apply map_id_in. intros x Hx.
  unfold bumpWindow. rewrite (H x Hx). reflexivity.
Qed.

(** C7. With a limit of 2 requests per 1-second window, and no row yet for
    the user's current and next window: the first request of a window is
    admitted and inserts the window at count 1, the second is admitted and
    raises the count to 2, the third throws TOO_MANY_REQUESTS and leaves the
    world as it was, and a request whose clock reading falls in the next
    window is admitted again, at count 1. *)
Theorem rate_limiter_boundary
    (w : World) (u : Id) (t1 t2 t3 t4 : Z) (i1 i2 i3 i4 : Id) :
  userRateLimit u (db w) = 2 ->
  windowOf t2 = windowOf t1 ->
  windowOf t3 = windowOf t1 ->
  windowOf t4 = windowOf t1 + RATE_LIMIT_WINDOW_MS ->
  findWindow u (windowOf t1) (db w) = None ->
  findWindow u (windowOf t4) (db w) = None ->
  freshWindowId i1 w -> freshWindowId i4 w -> i4 <> i1 ->
  let s1 := checkRateLimit u t1 i1 w in
  let s2 := checkRateLimit u t2 i2 (snd s1) in
  let s3 := checkRateLimit u t3 i3 (snd s2) in
  let s4 := checkRateLimit u t4 i4 (snd s3) in
  fst s1 = Ok tt /\ windowCount u (windowOf t1) (snd s1) = Some 1 /\
  fst s2 = Ok tt /\ windowCount u (windowOf t1) (snd s2) = Some 2 /\
  fst s3 = Throw TOO_MANY_REQUESTS /\ snd s3 = snd s2 /\
  windowCount u (windowOf t1) (snd s3) = Some 2 /\
  fst s4 = Ok tt /\ windowCount u (windowOf t4) (snd s4) = Some 1.
Proof.
  intros Hlim H2 H3 H4 Hn1 Hn4 Hf1 Hf4 Hne.
  cbv zeta.
  (* first request *)
  rewrite (@checkRateLimit_insert u t1 i1 w Hn1 Hf1). cbn [fst snd].
  set (keep := fun r => negb (staleWindow u (t1 - 60000) r)).
  set (rows := filter keep (rateLimitWindows (db w))).
  set (n1 := mkWindow i1 u (windowOf t1) 1).
  set (w1 := with_db _ w).
  assert (Hrows1 : find (fun r => String.eqb (w_userId r) u
                           && (windowStart r =? windowOf t1)) rows = None)
    by (apply find_filter_none, Hn1).
  assert (Hrows4 : find (fun r => String.eqb (w_userId r) u
                           && (windowStart r =? windowOf t4)) rows = None)
    by (apply find_filter_none, Hn4).
  assert (Hid1 : existsb (fun r => String.eqb (w_id r) i1) rows = false)
    by (apply existsb_filter_false, Hf1).
  assert (Hid4 : existsb (fun r => String.eqb (w_id r) i4) rows = false)
    by (apply existsb_filter_false, Hf4).
  assert (Hw1 : findWindow u (windowOf t1) (db w1) = Some n1).
  { unfold findWindow, w1. cbn. rewrite find_app_none by exact Hrows1.
    cbn. rewrite String.eqb_refl, Z.eqb_refl. reflexivity. }
  assert (Hl1 : userRateLimit u (db w1) = 2) by exact Hlim.
  split; [reflexivity|]. split.
  { unfold windowCount. rewrite Hw1. reflexivity. }
  (* second request *)
  assert (E2 := @checkRateLimit_bump u t2 i2 w1 n1).
  rewrite H2 in E2. rewrite E2 by (auto; rewrite Hl1; cbn; lia).
  cbn [fst snd]. clear E2.
  set (w2 := with_db _ w1).
  set (n2 := mkWindow i1 u (windowOf t1) 2).
  assert (Hrows2 : rateLimitWindows (db w2) = rows ++ [n2]).
  { unfold w2, w1. cbn. rewrite map_app. cbn.
    rewrite map_bump_fresh by exact Hid1.
    unfold bumpWindow. cbn. rewrite String.eqb_refl. reflexivity. }
  assert (Hw2 : findWindow u (windowOf t1) (db w2) = Some n2).
  { unfold findWindow. rewrite Hrows2, find_app_none by exact Hrows1.
    cbn. rewrite String.eqb_refl, Z.eqb_refl. reflexivity. }
  assert (Hl2 : userRateLimit u (db w2) = 2) by exact Hlim.
  split; [reflexivity|]. split.
  { unfold windowCount. rewrite Hw2. reflexivity. }
  (* third request *)
  assert (E3 := @checkRateLimit_reject u t3 i3 w2 n2).
  rewrite H3 in E3. rewrite E3 by (auto; rewrite Hl2; cbn; lia).
  cbn [fst snd]. clear E3.
  split; [reflexivity|]. split; [reflexivity|]. split.
  { unfold windowCount. rewrite Hw2. reflexivity. }
  (* a request in the next window *)
  assert (Hw4 : findWindow u (windowOf t4) (db w2) = None).
  { unfold findWindow. rewrite Hrows2, find_app_none by exact Hrows4.
    cbn. rewrite H4. unfold RATE_LIMIT_WINDOW_MS.
    destruct (Z.eqb_spec (windowOf t1) (windowOf t1 + 1000)); [lia|].
    rewrite andb_false_r. reflexivity. }
  assert (Hfr4 : freshWindowId i4 w2).
  { unfold freshWindowId. rewrite Hrows2, existsb_app, Hid4. cbn.
    rewrite orb_false_r. apply String.eqb_neq. congruence. }
  rewrite (@checkRateLimit_insert u t4 i4 w2 Hw4 Hfr4). cbn [fst snd].
  split; [reflexivity|].
  unfold windowCount, findWindow. cbn.
  rewrite find_app_none.
  - cbn. rewrite String.eqb_refl, Z.eqb_refl. reflexivity.
  - apply find_filter_none. fold (findWindow u (windowOf t4) (db w2)). exact Hw4.
Qed.

Lemma rate_limiter_boundary_witness :
  let u := "alice"%string in
  let s1 := checkRateLimit u 5000 "w1"%string emptyWorld in
  let s2 := checkRateLimit u 5400 "w2"%string (snd s1) in
  let s3 := checkRateLimit u 5999 "w3"%string (snd s2) in
  let s4 := checkRateLimit u 6000 "w4"%string (snd s3) in
  fst s1 = Ok tt /\ windowCount u 5000 (snd s1) = Some 1 /\
  fst s2 = Ok tt /\ windowCount u 5000 (snd s2) = Some 2 /\
  fst s3 = Throw TOO_MANY_REQUESTS /\ snd s3 = snd s2 /\
  windowCount u 5000 (snd s3) = Some 2 /\
  fst s4 = Ok tt /\ windowCount u 6000 (snd s4) = Some 1.
Proof.
  apply (@rate_limiter_boundary emptyWorld "alice"%string 5000 5400 5999 6000
           "w1"%string "w2"%string "w3"%string "w4"%string);
    try reflexivity.
  discriminate.
Defined.

(** ** Single-asset trash and restore *)

Lemma NoDup_map_inj {A B} (f : A -> B) (l : list A) (x y : A) :
  NoDup (map f l) -> In x l -> In y l -> f x = f y -> x = y.
Proof.
  induction l as [|a l IH]; simpl; [tauto|].
  intros Hnd Hx Hy E. inversion Hnd as [|? ? Hnot Hnd']; subst.
  destruct Hx as [->|Hx], Hy as [->|Hy]; auto.
  - exfalso. apply Hnot. rewrite E. apply in_map, Hy.
  - exfalso. apply Hnot. rewrite <- E. apply in_map, Hx.
Qed.

Lemma filter_nil_iff {A} (p : A -> bool) (l : list A) :
  filter p l = [] <-> (forall x, In x l -> p x = false).
Proof.
  induction l as [|a l IH]; simpl.
  - split; [intros _ x [] | reflexivity].
  - destruct (p a) eqn:E.
    + split; [discriminate|]. intros H. rewrite (H a) in E by auto. discriminate.
    + rewrite IH. split.
      * intros H x [<-|Hx]; auto.
      * intros H x Hx. apply H. auto.
Qed.

Lemma opt_cases {A} (o : option A) : o = None \/ o <> None.
Proof. destruct o; [right; discriminate | left; reflexivity]. Qed.

Lemma moveToTrash_unfold (u id : Id) (now : Z) (w : World) :
  let hit a := String.eqb (a_id a) id && String.eqb (a_userId a) u
               && isNull (a_deletedAt a) in
  moveToTrash_handler u id now w =
    (match filter hit (userAssets (db w)) with
     | [] => Throw NOT_FOUND
     | _ :: _ => Ok tt
     end,
     with_db (set_userAssets
                (map (fun a => if hit a then setAssetDeletedAt (Some now) a else a)
                     (userAssets (db w))) (db w)) w).
Proof.
  cbv zeta. unfold moveToTrash_handler, bind, getDB, putDB, throw, ret.
  destruct (filter _ (userAssets (db w))); reflexivity.
Qed.

Lemma restoreFromTrash_unfold (u id : Id) (w : World) :
  let hit a := String.eqb (a_id a) id && String.eqb (a_userId a) u
               && isNotNull (a_deletedAt a) in
  restoreFromTrash_handler u id w =
    (match filter hit (userAssets (db w)) with
     | [] => Throw NOT_FOUND
     | _ :: _ => Ok tt
     end,
     with_db (set_userAssets
                (map (fun a => if hit a then setAssetDeletedAt None a else a)
                     (userAssets (db w))) (db w)) w).
Proof.
  cbv zeta. unfold restoreFromTrash_handler, bind, getDB, putDB, throw, ret.
  destruct (filter _ (userAssets (db w))); reflexivity.
Qed.

Lemma update_no_hit (w : World) (hit : UserAsset -> bool)
    (g : UserAsset -> UserAsset) :
  (forall x, In x (userAssets (db w)) -> hit x = false) ->
  with_db (set_userAssets
             (map (fun a => if hit a then g a else a) (userAssets (db w)))
             (db w)) w = w.
Proof.
  intros H. rewrite map_id_in.
  - rewrite set_userAssets_same. apply with_db_same.
  - intros x Hx. rewrite (H x Hx). reflexivity.
Qed.

(** C10. For an asset row of the caller (ids being a primary key):
    [moveToTrash] on a trashed asset throws NOT_FOUND and leaves the world
    as it was, [restoreFromTrash] on an asset that is not trashed does the
    same, and each procedure returns normally exactly from the opposite
    state, stamping respectively clearing [deletedAt] of the row. *)
Theorem trash_restore_strict_states
    (w : World) (u id : Id) (now : Z) (a : UserAsset) :
  NoDup (map a_id (userAssets (db w))) ->
  In a (userAssets (db w)) -> a_id a = id -> a_userId a = u ->
  (a_deletedAt a <> None ->
     moveToTrash_handler u id now w = (Throw NOT_FOUND, w))
  /\ (a_deletedAt a = None ->
     restoreFromTrash_handler u id w = (Throw NOT_FOUND, w))
  /\ (fst (moveToTrash_handler u id now w) = Ok tt <-> a_deletedAt a = None)
  /\ (fst (restoreFromTrash_handler u id w) = Ok tt <-> a_deletedAt a <> None)
  /\ (a_deletedAt a = None ->
     In (setAssetDeletedAt (Some now) a)
        (userAssets (db (snd (moveToTrash_handler u id now w)))))
  /\ (a_deletedAt a <> None ->
     In (setAssetDeletedAt None a)
        (userAssets (db (snd (restoreFromTrash_handler u id w))))).
Proof.
  intros Hnd Hin Hid Hu.
  assert (Huniq : forall x, In x (userAssets (db w)) ->
                    String.eqb (a_id x) id = true -> x = a).
  { intros x Hx E. apply String.eqb_eq in E.
    apply (NoDup_map_inj a_id _ x a Hnd Hx Hin). congruence. }
  assert (Hmiss : forall (st : option Z -> bool), st (a_deletedAt a) = false ->
            forall x, In x (userAssets (db w)) ->
              String.eqb (a_id x) id && String.eqb (a_userId x) u
              && st (a_deletedAt x) = false).
  { intros st Hst x Hx.
    destruct (String.eqb (a_id x) id) eqn:E; [|reflexivity].
    rewrite (Huniq x Hx E), Hst. apply andb_false_r. }
  assert (Hhit : forall (st : option Z -> bool), st (a_deletedAt a) = true ->
            String.eqb (a_id a) id && String.eqb (a_userId a) u
            && st (a_deletedAt a) = true).
  { intros st Hst. rewrite Hid, Hu, !String.eqb_refl, Hst. reflexivity. }
  rewrite moveToTrash_unfold, restoreFromTrash_unfold. cbv zeta. cbn [fst snd].
  repeat split.
  - intros Hdel.
    assert (Hno := Hmiss (@isNull Z) ltac:(destruct (a_deletedAt a); [reflexivity|congruence])).
    rewrite update_no_hit by exact Hno.
    apply filter_nil_iff in Hno. rewrite Hno. reflexivity.
  - intros Hdel.
    assert (Hno := Hmiss (@isNotNull Z) ltac:(rewrite Hdel; reflexivity)).
    rewrite update_no_hit by exact Hno.
    apply filter_nil_iff in Hno. rewrite Hno. reflexivity.
  - intros Hok. destruct (opt_cases (a_deletedAt a)) as [Hdel|Hdel];
      [exact Hdel|exfalso].
    assert (Hno := Hmiss (@isNull Z)
                     ltac:(destruct (a_deletedAt a); [reflexivity|congruence])).
    apply filter_nil_iff in Hno. rewrite Hno in Hok. discriminate.
  - intros Hdel.
    assert (Ha := Hhit (@isNull Z) ltac:(rewrite Hdel; reflexivity)).
    destruct (filter _ (userAssets (db w))) eqn:Hf; [|reflexivity]. exfalso.
    rewrite filter_nil_iff in Hf. rewrite (Hf a Hin) in Ha. discriminate.
  - intros Hok Hdel.
    assert (Hno := Hmiss (@isNotNull Z) ltac:(rewrite Hdel; reflexivity)).
    apply filter_nil_iff in Hno. rewrite Hno in Hok. discriminate.
  - intros Hdel.
    assert (Ha := Hhit (@isNotNull Z)
                    ltac:(destruct (a_deletedAt a); [reflexivity|congruence])).
    destruct (filter _ (userAssets (db w))) eqn:Hf; [|reflexivity]. exfalso.
    rewrite filter_nil_iff in Hf. rewrite (Hf a Hin) in Ha. discriminate.
  - intros Hdel. cbn. apply in_map_iff. exists a. split; [|exact Hin].
    rewrite (Hhit (@isNull Z)); [reflexivity|rewrite Hdel; reflexivity].
  - intros Hdel. cbn. apply in_map_iff. exists a. split; [|exact Hin].
    rewrite (Hhit (@isNotNull Z)); [reflexivity|].
    destruct (a_deletedAt a); [reflexivity|congruence].
Qed.

Lemma trash_restore_strict_states_witness :
  let a := mkAsset "a2" "copy.pdf" "alice" (Some "old"%string) "h1" (Some 7) in
  (a_deletedAt a <> None ->
     moveToTrash_handler "alice" "a2" 9 sampleWorld = (Throw NOT_FOUND, sampleWorld))
  /\ (a_deletedAt a = None ->
     restoreFromTrash_handler "alice" "a2" sampleWorld
     = (Throw NOT_FOUND, sampleWorld))
  /\ (fst (moveToTrash_handler "alice" "a2" 9 sampleWorld) = Ok tt
      <-> a_deletedAt a = None)
  /\ (fst (restoreFromTrash_handler "alice" "a2" sampleWorld) = Ok tt
      <-> a_deletedAt a <> None)
  /\ (a_deletedAt a = None ->
     In (setAssetDeletedAt (Some 9) a)
        (userAssets (db (snd (moveToTrash_handler "alice" "a2" 9 sampleWorld)))))
  /\ (a_deletedAt a <> None ->
     In (setAssetDeletedAt None a)
        (userAssets (db (snd (restoreFromTrash_handler "alice" "a2" sampleWorld))))).
Proof.
  apply (@trash_restore_strict_states sampleWorld "alice"%string "a2"%string 9).
  - repeat constructor; simpl; intuition discriminate.
  - simpl. auto.
  - reflexivity.
  - reflexivity.
Defined.

(** ** Strict folder delete *)

(** C9. For a folder row of the caller: when any asset row has it as
    [folderId] or any folder row has it as [parentId], whatever their
    [deletedAt], [deleteFolder] throws PRECONDITION_FAILED and leaves the
    world as it was; when there is no such row it returns normally, the
    folder's row is removed and nothing else changes.  So it succeeds
    exactly when the folder has no asset and no child folder in any state. *)
Theorem deleteFolder_counts_trashed_contents
    (w : World) (u id : Id) (folder : Folder) :
  In folder (folders (db w)) -> f_id folder = id -> f_userId folder = u ->
  let nonEmpty :=
    (exists a, In a (userAssets (db w)) /\ a_folderId a = Some id)
    \/ (exists c, In c (folders (db w)) /\ f_parentId c = Some id) in
  (nonEmpty -> deleteFolder_handler u id w = (Throw PRECONDITION_FAILED, w))
  /\ (~ nonEmpty ->
      deleteFolder_handler u id w =
        (Ok tt,
         with_db (set_folders
                    (filter (fun f => negb (String.eqb (f_id f) id))
                            (folders (db w))) (db w)) w))
  /\ (fst (deleteFolder_handler u id w) = Ok tt <-> ~ nonEmpty).
Proof.
  intros Hin Hid Hu nonEmpty.
  assert (Hfound : exists r,
            find (fun f => String.eqb (f_id f) id && String.eqb (f_userId f) u)
                 (folders (db w)) = Some r).
  { destruct (find _ (folders (db w))) eqn:E; [eauto|].
    rewrite find_none_iff in E. specialize (E folder Hin).
    rewrite Hid, Hu, !String.eqb_refl in E. discriminate. }
  destruct Hfound as [r Hr].
  assert (Hfail : nonEmpty ->
            deleteFolder_handler u id w = (Throw PRECONDITION_FAILED, w)).
  { intros Hne. unfold deleteFolder_handler, bind, getDB. rewrite Hr.
    destruct Hne as [(a & Ha & Ea) | (c & Hc & Ec)].
    - destruct (find (fun a => col_eq (a_folderId a) id) (userAssets (db w))) eqn:E.
      + reflexivity.
      + rewrite find_none_iff in E. specialize (E a Ha).
        rewrite Ea in E. cbn in E. rewrite String.eqb_refl in E. discriminate.
    - destruct (find (fun f => col_eq (f_parentId f) id) (folders (db w))) eqn:E.
      + cbn. rewrite orb_true_r. reflexivity.
      + rewrite find_none_iff in E. specialize (E c Hc).
        rewrite Ec in E. cbn in E. rewrite String.eqb_refl in E. discriminate. }
  assert (Hok : ~ nonEmpty ->
            deleteFolder_handler u id w =
              (Ok tt,
               with_db (set_folders
                          (filter (fun f => negb (String.eqb (f_id f) id))
                                  (folders (db w))) (db w)) w)).
  { intros Hemp. unfold deleteFolder_handler, bind, getDB. rewrite Hr.
    destruct (find (fun a => col_eq (a_folderId a) id) (userAssets (db w))) eqn:Ea.
    { exfalso. apply Hemp. left. exists u0. apply find_some in Ea.
      destruct Ea as [Ha Ea]. split; [exact Ha|].
      destruct (a_folderId u0); cbn in Ea; [|discriminate].
      apply String.eqb_eq in Ea. congruence. }
    destruct (find (fun f => col_eq (f_parentId f) id) (folders (db w))) eqn:Ec.
    { exfalso. apply Hemp. right. exists f. apply find_some in Ec.
      destruct Ec as [Hc Ec]. split; [exact Hc|].
      destruct (f_parentId f); cbn in Ec; [|discriminate].
      apply String.eqb_eq in Ec. congruence. }
    cbn. unfold deleteFolderRow, bind, getDB, putDB.
    assert (Hhas : hasFolder id (db w) = true).
    { unfold hasFolder. apply existsb_exists. exists folder.
      split; [exact Hin|]. rewrite Hid. apply String.eqb_refl. }
    rewrite Hhas. f_equal. f_equal.
    rewrite map_id_in.
    - destruct w as [d k]; destruct d; reflexivity.
    - intros x Hx. rewrite find_none_iff in Ea. unfold unlinkFolder.
      rewrite (Ea x Hx). reflexivity. }
  split; [exact Hfail|]. split; [exact Hok|]. split.
  - intros Hres Hne. rewrite (Hfail Hne) in Hres. discriminate.
  - intros Hemp. rewrite (Hok Hemp). reflexivity.
Qed.

Lemma deleteFolder_counts_trashed_contents_witness :
  let w := sampleWorld in
  let nonEmpty :=
    (exists a, In a (userAssets (db w)) /\ a_folderId a = Some "old"%string)
    \/ (exists c, In c (folders (db w)) /\ f_parentId c = Some "old"%string) in
  (nonEmpty ->
   deleteFolder_handler "alice" "old" w = (Throw PRECONDITION_FAILED, w))
  /\ (~ nonEmpty ->
      deleteFolder_handler "alice" "old" w =
        (Ok tt,
         with_db (set_folders
                    (filter (fun f => negb (String.eqb (f_id f) "old"))
                            (folders (db w))) (db w)) w))
  /\ (fst (deleteFolder_handler "alice" "old" w) = Ok tt <-> ~ nonEmpty).
Proof.
  apply (@deleteFolder_counts_trashed_contents sampleWorld "alice"%string
           "old"%string
           (mkFolder "old" "Old" "alice" (Some "docs"%string) (Some 7))).
  - simpl. auto.
  - reflexivity.
  - reflexivity.
Defined.

(** ** Moving a folder *)

Lemma find_by_folder_id (fs : list Folder) (c : Folder) :
  NoDup (map f_id fs) -> In c fs ->
  find (fun f => String.eqb (f_id f) (f_id c)) fs = Some c.
Proof.
  intros Hnd Hin.
  destruct (find (fun f => String.eqb (f_id f) (f_id c)) fs) eqn:E.
  - apply find_some in E. destruct E as [Hf E]. apply String.eqb_eq in E.
    f_equal. apply (NoDup_map_inj f_id fs f c Hnd Hf Hin E).
  - rewrite find_none_iff in E. specialize (E c Hin).
    rewrite String.eqb_refl in E. discriminate.
Qed.

Lemma chain_is_row (fs : list Folder) (a x : Id) (n : nat) :
  chain fs a n x -> exists c, In c fs /\ f_id c = x.
Proof. destruct 1; eauto. Qed.

Lemma isDescendant_chain (fs : list Folder) (a x : Id) (n : nat) :
  folderKeysOk fs -> a <> EmptyString ->
  chain fs a n x ->
  forall fuel, (n <= fuel)%nat -> isDescendant fs fuel a x = Some true.
Proof.
  intros [Hnd Hne] Ha Hch. induction Hch as [c Hc Hp | c p n Hc Hp Hch IH];
    intros fuel Hfuel.
  - destruct fuel as [|m]; [lia|]. cbn.
    rewrite (find_by_folder_id fs c Hnd Hc), Hp.
    apply String.eqb_neq in Ha. rewrite Ha, String.eqb_refl. reflexivity.
  - destruct fuel as [|m]; [lia|]. cbn.
    rewrite (find_by_folder_id fs c Hnd Hc), Hp.
    destruct (chain_is_row Hch) as (c' & Hc' & <-).
    assert (Hnp := Hne c' Hc'). apply String.eqb_neq in Hnp. rewrite Hnp.
    destruct (String.eqb (f_id c') a); [reflexivity|].
    apply IH. lia.
Qed.

Lemma moveFolder_failure_keeps_world
    (u id : Id) (parentId : option Id) (fuel : nat) (w : World) :
  fst (moveFolder_handler u id parentId fuel w) <> Ok tt ->
  snd (moveFolder_handler u id parentId fuel w) = w.
Proof.
  unfold moveFolder_handler, bind, getDB, putDB, throw, ret, diverge.
  destruct (find _ (folders (db w))); [|reflexivity].
  destruct (col_eq parentId id); [reflexivity|].
  destruct parentId as [target|]; cbn.
  - destruct (String.eqb target EmptyString); cbn; [congruence|].
    destruct (find _ (folders (db w))); [|reflexivity].
    destruct (isDescendant (folders (db w)) fuel id target) as [[|]|];
      cbn; congruence.
  - congruence.
Qed.

(** C5 (as the code has it).  For folder rows F and T of one user, with T
    equal to F or a descendant of F along [n] parent links: when both are
    active, [moveFolder] of F under T throws BAD_REQUEST as soon as the walk
    has [n] steps of fuel; when F or T is in the trash it throws NOT_FOUND
    instead; and whenever [moveFolder] does not return normally, on any
    input, the world (every parent pointer included) is as it was. *)
Theorem moveFolder_rejects_cycles
    (w : World) (u : Id) (F T : Folder) (n fuel : nat) :
  folderKeysOk (folders (db w)) ->
  In F (folders (db w)) -> In T (folders (db w)) ->
  f_userId F = u -> f_userId T = u ->
  f_id T = f_id F
  \/ (chain (folders (db w)) (f_id F) n (f_id T) /\ (n <= fuel)%nat) ->
  (f_deletedAt F = None -> f_deletedAt T = None ->
   moveFolder_handler u (f_id F) (Some (f_id T)) fuel w = (Throw BAD_REQUEST, w))
  /\ (f_deletedAt F <> None \/ f_deletedAt T <> None ->
   moveFolder_handler u (f_id F) (Some (f_id T)) fuel w = (Throw NOT_FOUND, w))
  /\ (forall id' parentId' fuel',
        fst (moveFolder_handler u id' parentId' fuel' w) <> Ok tt ->
        snd (moveFolder_handler u id' parentId' fuel' w) = w).
Proof.
  intros Hkeys HF HT HuF HuT Hcyc. destruct (Hkeys) as [Hnd Hne].
  assert (Hlookup : forall (X : Folder), In X (folders (db w)) -> f_userId X = u ->
            find (fun f => String.eqb (f_id f) (f_id X) && String.eqb (f_userId f) u
                           && isNull (f_deletedAt f)) (folders (db w))
            = if isNull (f_deletedAt X) then Some X else None).
  { intros X HX HuX.
    destruct (find _ (folders (db w))) eqn:E.
    - apply find_some in E. destruct E as [Hf E].
      apply andb_prop in E. destruct E as [E Enull].
      apply andb_prop in E. destruct E as [Eid _]. apply String.eqb_eq in Eid.
      assert (f = X) by (apply (NoDup_map_inj f_id _ f X Hnd Hf HX Eid)).
      subst f. rewrite Enull. reflexivity.
    - rewrite find_none_iff in E. specialize (E X HX).
      rewrite HuX, !String.eqb_refl in E. cbn in E. rewrite E. reflexivity. }
  split; [|split].
  - intros HdF HdT.
    unfold moveFolder_handler, bind, getDB, throw.
    rewrite (Hlookup F HF HuF), HdF. cbn.
    destruct (String.eqb (f_id T) (f_id F)) eqn:Eq; [reflexivity|].
    destruct Hcyc as [E | [Hch Hfuel]].
    { rewrite E, String.eqb_refl in Eq. discriminate. }
    assert (HneT := Hne T HT). apply String.eqb_neq in HneT. rewrite HneT.
    rewrite (Hlookup T HT HuT), HdT. cbn.
    rewrite (isDescendant_chain Hkeys (Hne F HF) Hch Hfuel). reflexivity.
  - intros Htr.
    unfold moveFolder_handler, bind, getDB, throw.
    rewrite (Hlookup F HF HuF).
    destruct (f_deletedAt F) eqn:HdF; cbn; [reflexivity|].
    destruct Htr as [Htr|Htr]; [congruence|].
    destruct (String.eqb (f_id T) (f_id F)) eqn:Eq.
    { exfalso. apply String.eqb_eq in Eq.
      assert (T = F) by (apply (NoDup_map_inj f_id _ T F Hnd HT HF Eq)).
      subst T. congruence. }
    assert (HneT := Hne T HT). apply String.eqb_neq in HneT. rewrite HneT.
    rewrite (Hlookup T HT HuT).
    destruct (f_deletedAt T); [reflexivity | congruence].
  - intros. apply moveFolder_failure_keeps_world. assumption.
Qed.

Ltac solve_keys :=
  split;
  [ repeat constructor; simpl; intuition discriminate
  | intros f Hf; simpl in Hf;
    repeat (destruct Hf as [<-|Hf]; [discriminate|]); destruct Hf ].

Lemma moveFolder_rejects_cycles_witness :
  let w := sampleWorld in
  (None = None :> option Z -> None = None :> option Z ->
   moveFolder_handler "alice" "docs" (Some "work"%string) 1 w
   = (Throw BAD_REQUEST, w))
  /\ ((None <> None :> option Z) \/ (None <> None :> option Z) ->
   moveFolder_handler "alice" "docs" (Some "work"%string) 1 w
   = (Throw NOT_FOUND, w))
  /\ (forall id' parentId' fuel',
        fst (moveFolder_handler "alice" id' parentId' fuel' w) <> Ok tt ->
        snd (moveFolder_handler "alice" id' parentId' fuel' w) = w).
Proof.
  apply (@moveFolder_rejects_cycles sampleWorld "alice"%string
           (mkFolder "docs" "Docs" "alice" None None)
           (mkFolder "work" "Work" "alice" (Some "docs"%string) None) 1 1).
  - solve_keys.
  - simpl. auto.
  - simpl. auto.
  - reflexivity.
  - reflexivity.
  - right. split; [|lia].
    exact (@chain_child (folders (db sampleWorld)) "docs"
             (mkFolder "work" "Work" "alice" (Some "docs"%string) None)
             ltac:(simpl; auto) eq_refl).
Defined.

(** C5 as stated fails on the error kind: [old] is a child of alice's
    active folder [docs] and lies in the trash; moving [docs] under [old]
    throws NOT_FOUND, not BAD_REQUEST, whatever the fuel. *)
Lemma moveFolder_trashed_descendant_not_found :
  let fs := folders (db sampleWorld) in
  let docs := mkFolder "docs" "Docs" "alice" None None in
  let old := mkFolder "old" "Old" "alice" (Some "docs"%string) (Some 7) in
  In docs fs /\ In old fs /\ f_userId docs = f_userId old
  /\ chain fs (f_id docs) 1 (f_id old)
  /\ (forall fuel,
        moveFolder_handler "alice" "docs" (Some "old"%string) fuel sampleWorld
        = (Throw NOT_FOUND, sampleWorld))
  /\ fst (moveFolder_handler "alice" "docs" (Some "old"%string) 1 sampleWorld)
     <> Throw BAD_REQUEST.
Proof.
  cbv zeta. repeat split; try (simpl; auto; fail).
  - exact (@chain_child (folders (db sampleWorld)) "docs"
             (mkFolder "old" "Old" "alice" (Some "docs"%string) (Some 7))
             ltac:(simpl; auto) eq_refl).
  - discriminate.
Qed.

(** ** Deletion order of folder rows *)

Section StableSort.

Variable A : Type.
Variable key : A -> Z.

Lemma insertSorted_perm (x : A) (l : list A) :
  Permutation (x :: l) (insertSorted (fun a b => key b - key a) x l).
Proof.
  induction l as [|y l IH]; simpl; [apply Permutation_refl|].
  destruct (key y - key x <=? 0); [apply Permutation_refl|].
  eapply perm_trans; [apply perm_swap|]. apply perm_skip, IH.
Qed.

Lemma stableSort_perm (l : list A) :
  Permutation l (stableSort (fun a b => key b - key a) l).
Proof.
  induction l as [|x l IH]; simpl; [constructor|].
  eapply perm_trans; [apply perm_skip, IH|]. apply insertSorted_perm.
Qed.

Lemma insertSorted_sorted (x : A) (l : list A) :
  StronglySorted (fun a b => key a >= key b) l ->
  StronglySorted (fun a b => key a >= key b)
                 (insertSorted (fun a b => key b - key a) x l).
Proof.
  induction l as [|y l IH]; simpl; intros Hs.
  - repeat constructor.
  - inversion Hs as [|? ? Hl Hall]; subst.
    destruct (Z.leb_spec (key y - key x) 0) as [Hle|Hgt].
    + constructor; [exact Hs|]. constructor; [lia|].
      eapply Forall_impl; [|exact Hall]. cbn beta. intros; lia.
    + constructor; [apply IH, Hl|].
      eapply Permutation_Forall; [apply insertSorted_perm|].
      constructor; [lia | exact Hall].
Qed.

Lemma stableSort_sorted (l : list A) :
  StronglySorted (fun a b => key a >= key b)
                 (stableSort (fun a b => key b - key a) l).
Proof.
  induction l as [|x l IH]; simpl; [constructor|].
  apply insertSorted_sorted, IH.
Qed.

Lemma sorted_before (l : list A) (x y : A) :
  StronglySorted (fun a b => key a >= key b) l -> before l x y -> key x >= key y.
Proof.
  intros Hs (l1 & l2 & l3 & ->).
  induction l1 as [|a l1 IH]; simpl in Hs.
  - inversion Hs as [|? ? _ Hall]; subst.
    rewrite Forall_forall in Hall. apply Hall.
    apply in_or_app. right. left. reflexivity.
  - inversion Hs; subst. auto.
Qed.

Lemma stableSort_before (l : list A) (x y : A) :
  before (stableSort (fun a b => key b - key a) l) x y -> key x >= key y.
Proof. apply sorted_before, stableSort_sorted. Qed.

End StableSort.

Lemma calculateDepth_shift (tf : list Folder) (fuel : nat) (x : Id) (d v : Z) :
  calculateDepth tf fuel x d = Some v ->
  forall d', calculateDepth tf fuel x d' = Some (v - d + d').
Proof.
  revert x d v. induction fuel as [|n IH]; intros x d v; cbn; [discriminate|].
  destruct (find (fun f => String.eqb (f_id f) x) tf) as [folder|].
  2:{ intros [= <-] d'. f_equal. lia. }
  destruct (negb (truthy (f_parentId folder))).
  { intros [= <-] d'. f_equal. lia. }
  destruct (find (fun f => col_eq (f_parentId folder) (f_id f)) tf) as [parent|].
  2:{ intros [= <-] d'. f_equal. lia. }
  intros H d'. rewrite (IH _ _ _ H (d' + 1)). f_equal. lia.
Qed.

Lemma calculateDepth_more_fuel (tf : list Folder) (fuel : nat) (x : Id) (d v : Z) :
  calculateDepth tf fuel x d = Some v -> calculateDepth tf (S fuel) x d = Some v.
Proof.
  revert x d v. induction fuel as [|n IH]; intros x d v; [discriminate|].
  intros H. cbn in H. change (calculateDepth tf (S (S n)) x d) with
    (match find (fun f => String.eqb (f_id f) x) tf with
     | None => Some d
     | Some folder =>
         if negb (truthy (f_parentId folder)) then Some d
         else match find (fun f => col_eq (f_parentId folder) (f_id f)) tf with
              | None => Some d
              | Some parent => calculateDepth tf (S n) (f_id parent) (d + 1)
              end
     end).
  destruct (find (fun f => String.eqb (f_id f) x) tf) as [folder|]; [|exact H].
  destruct (negb (truthy (f_parentId folder))); [exact H|].
  destruct (find (fun f => col_eq (f_parentId folder) (f_id f)) tf) as [parent|];
    [|exact H].
  apply IH, H.
Qed.

Lemma fillDepths_get (tf : list Folder) (fuel : nat) (todo : list Folder)
    (m0 m : DepthMap) :
  fillDepths tf fuel todo m0 = Some m ->
  forall k,
    mapGet m k =
      if existsb (fun f => String.eqb (f_id f) k) todo
      then calculateDepth tf fuel k 0
      else mapGet m0 k.
Proof.
  revert m0. induction todo as [|f rest IH]; intros m0; cbn.
  - intros [= <-] k. reflexivity.
  - destruct (calculateDepth tf fuel (f_id f) 0) as [dep|] eqn:E; [|discriminate].
    intros H k. rewrite (IH _ H k).
    destruct (existsb (fun f0 => String.eqb (f_id f0) k) rest).
    + rewrite orb_true_r. reflexivity.
    + rewrite orb_false_r. unfold mapGet. cbn.
      destruct (String.eqb (f_id f) k) eqn:Ek; [|reflexivity].
      apply String.eqb_eq in Ek. subst k. cbn. symmetry. exact E.
Qed.

Lemma fillDepths_defined (tf : list Folder) (fuel : nat) (todo : list Folder)
    (m0 m : DepthMap) (f : Folder) :
  fillDepths tf fuel todo m0 = Some m -> In f todo ->
  calculateDepth tf fuel (f_id f) 0 <> None.
Proof.
  revert m0. induction todo as [|g rest IH]; intros m0; cbn; [tauto|].
  destruct (calculateDepth tf fuel (f_id g) 0) as [dep|] eqn:E; [|discriminate].
  intros H [->|Hin]; [congruence|]. eapply IH; eauto.
Qed.

Lemma fillDepths_depth (tf : list Folder) (fuel : nat) (m : DepthMap) (f : Folder) :
  fillDepths tf fuel tf [] = Some m -> In f tf ->
  calculateDepth tf fuel (f_id f) 0 = Some (depthOr0 m f).
Proof.
  intros H Hin. unfold depthOr0. rewrite (fillDepths_get _ _ _ _ H (f_id f)).
  assert (E : existsb (fun f0 => String.eqb (f_id f0) (f_id f)) tf = true).
  { apply existsb_exists. exists f. split; [exact Hin | apply String.eqb_refl]. }
  rewrite E.
  destruct (calculateDepth tf fuel (f_id f) 0) eqn:Ec; [reflexivity|].
  exfalso. exact (fillDepths_defined _ _ _ _ f H Hin Ec).
Qed.

Lemma find_parent_row (fs : list Folder) (c p : Folder) :
  NoDup (map f_id fs) -> In p fs -> f_parentId c = Some (f_id p) ->
  find (fun f => col_eq (f_parentId c) (f_id f)) fs = Some p.
Proof.
  intros Hnd Hp E. rewrite E. cbn.
  destruct (find (fun f => String.eqb (f_id p) (f_id f)) fs) eqn:Ef.
  - apply find_some in Ef. destruct Ef as [Hf Ef]. apply String.eqb_eq in Ef.
    f_equal. symmetry. apply (NoDup_map_inj f_id fs p f Hnd Hp Hf Ef).
  - rewrite find_none_iff in Ef. specialize (Ef p Hp).
    rewrite String.eqb_refl in Ef. discriminate.
Qed.

(** Inside the trashed set a child lies one level below its parent. *)
Lemma child_depth (tf : list Folder) (fuel : nat) (c p : Folder) (dc dp : Z) :
  folderKeysOk tf -> In c tf -> In p tf -> f_parentId c = Some (f_id p) ->
  calculateDepth tf fuel (f_id c) 0 = Some dc ->
  calculateDepth tf fuel (f_id p) 0 = Some dp ->
  dc = dp + 1.
Proof.
  intros [Hnd Hne] Hc Hp Hpar Hdc Hdp.
  destruct fuel as [|n]; [discriminate|].
  cbn in Hdc. rewrite (find_by_folder_id tf c Hnd Hc) in Hdc.
  rewrite Hpar in Hdc at 1. cbn in Hdc.
  assert (Hnp := Hne p Hp). apply String.eqb_neq in Hnp. rewrite Hnp in Hdc.
  cbn in Hdc. rewrite (find_parent_row tf c p Hnd Hp Hpar) in Hdc.
  apply calculateDepth_shift with (d' := 0) in Hdc.
  apply calculateDepth_more_fuel in Hdc.
  rewrite Hdc in Hdp. injection Hdp as <-. lia.
Qed.

(** The depth walk returns once the fuel exceeds the length of the parent
    chain, measured by any rank that decreases from child to parent. *)
Lemma calculateDepth_total (tf : list Folder) (rank : Id -> nat) :
  (forall c p, In c tf -> In p tf -> f_parentId c = Some (f_id p) ->
               (rank (f_id p) < rank (f_id c))%nat) ->
  forall fuel x d, (rank x < fuel)%nat ->
    exists v, calculateDepth tf fuel x d = Some v.
Proof.
  intros Hrank. induction fuel as [|n IH]; intros x d Hlt; [lia|]. cbn.
  destruct (find (fun f => String.eqb (f_id f) x) tf) as [folder|] eqn:Ef;
    [|eauto].
  destruct (negb (truthy (f_parentId folder))); [eauto|].
  destruct (find (fun f => col_eq (f_parentId folder) (f_id f)) tf)
    as [parent|] eqn:Ep; [|eauto].
  apply find_some in Ef. destruct Ef as [Hf Ex]. apply String.eqb_eq in Ex.
  apply find_some in Ep. destruct Ep as [Hp Epar].
  destruct (f_parentId folder) as [pid|] eqn:Epid; cbn in Epar; [|discriminate].
  apply String.eqb_eq in Epar. subst pid x.
  apply IH. specialize (Hrank folder parent Hf Hp Epid). lia.
Qed.

Lemma fillDepths_total (tf : list Folder) (rank : Id -> nat) (fuel : nat)
    (todo : list Folder) (m0 : DepthMap) :
  (forall c p, In c tf -> In p tf -> f_parentId c = Some (f_id p) ->
               (rank (f_id p) < rank (f_id c))%nat) ->
  (forall f, In f todo -> (rank (f_id f) < fuel)%nat) ->
  exists m, fillDepths tf fuel todo m0 = Some m.
Proof.
  intros Hrank. revert m0.
  induction todo as [|f rest IH]; intros m0 Hall; cbn; [eauto|].
  destruct (@calculateDepth_total tf rank Hrank fuel (f_id f) 0
              (Hall f (or_introl eq_refl))) as [v ->].
  apply IH. intros g Hg. apply Hall. right. exact Hg.
Qed.

Lemma concatAll_cons (part : option (list Id)) (parts : list (option (list Id)))
    (r : list Id) :
  concatAll (part :: parts) = Some r ->
  exists p a, part = Some p /\ concatAll parts = Some a /\ r = p ++ a.
Proof.
  unfold concatAll. cbn [fold_right].
  destruct part as [p|]; [|discriminate].
  destruct (fold_right _ _ parts) as [a|]; [|discriminate].
  intros [= <-]. eauto.
Qed.

Section Collect.

Variable keep : Folder -> bool.
Variable fs : list Folder.

Lemma parentsFirst_app (seen l1 l2 : list Id) :
  parentsFirst fs seen l1 ->
  (forall seen', incl seen seen' -> parentsFirst fs seen' l2) ->
  parentsFirst fs seen (l1 ++ l2).
Proof.
  revert seen. induction l1 as [|c l1 IH]; intros seen H1 H2; cbn.
  - apply H2, incl_refl.
  - destruct H1 as [Hc H1]. split; [exact Hc|].
    apply IH; [exact H1|]. intros seen' Hincl. apply H2.
    intros x Hx. apply Hincl. right. exact Hx.
Qed.

Lemma parentsFirst_split (seen l l1 l2 : list Id) (c : Id) :
  parentsFirst fs seen l -> l = l1 ++ c :: l2 ->
  exists row p, In row fs /\ f_id row = c /\ f_parentId row = Some p
                /\ (In p l1 \/ In p seen).
Proof.
  revert seen l. induction l1 as [|a l1 IH]; intros seen l H ->; cbn in H.
  - destruct H as [(row & p & Hr & Hid & Hp & Hseen) _]. exists row, p. auto.
  - destruct H as [_ H].
    destruct (IH (a :: seen) _ H eq_refl) as (row & p & Hr & Hid & Hp & Hin).
    exists row, p. repeat split; auto.
    destruct Hin as [Hin|[<-|Hin]]; cbn; auto.
Qed.

Lemma collectIds_parentsFirst (fuel : nat) :
  forall root ids,
    collectIds keep fs fuel root = Some ids ->
    exists rest, ids = root :: rest
                 /\ forall seen, In root seen -> parentsFirst fs seen rest.
Proof.
  induction fuel as [|n IH]; intros root ids; cbn; [discriminate|].
  set (subs := filter (fun f => col_eq (f_parentId f) root && keep f) fs).
  assert (Hsubs : forall s, In s subs -> In s fs /\ f_parentId s = Some root).
  { intros s Hs. apply filter_In in Hs. destruct Hs as [Hs E].
    split; [exact Hs|]. apply andb_prop in E. destruct E as [E _].
    destruct (f_parentId s); cbn in E; [|discriminate].
    apply String.eqb_eq in E. congruence. }
  clearbody subs.
  destruct (concatAll (map (fun s => collectIds keep fs n (f_id s)) subs))
    as [subIds|] eqn:E; [|discriminate].
  intros [= <-]. exists subIds. split; [reflexivity|].
  revert subIds E. induction subs as [|s subs IHs]; intros subIds E seen Hroot.
  - cbn in E. injection E as <-. exact I.
  - cbn [map] in E. apply concatAll_cons in E.
    destruct E as (ids_s & r' & Es & Er & ->).
    destruct (IH _ _ Es) as (rest_s & -> & Hrest).
    destruct (Hsubs s (or_introl eq_refl)) as [Hs Hp].
    cbn. split; [exists s, root; auto|].
    apply parentsFirst_app.
    + apply Hrest. left. reflexivity.
    + intros seen' Hincl. apply (IHs (fun x Hx => Hsubs x (or_intror Hx)) r' Er).
      apply Hincl. right. exact Hroot.
Qed.

(** In the reversed pre-order every id but the last one, the root, belongs
    to a row whose parent comes later. *)
Lemma purgeOrder_child_first (fuel : nat) (root : Id) (ids : list Id) :
  collectIds keep fs fuel root = Some ids ->
  forall l2 c l1,
    purgeOrder ids = l2 ++ c :: l1 -> l1 <> [] ->
    exists row p, In row fs /\ f_id row = c /\ f_parentId row = Some p
                  /\ In p l1.
Proof.
  intros Hc l2 c l1 Hsplit Hl1.
  destruct (collectIds_parentsFirst _ _ Hc) as (rest & -> & Hpf).
  unfold purgeOrder in Hsplit.
  assert (Hids : root :: rest = rev l1 ++ c :: rev l2).
  { rewrite <- (rev_involutive (root :: rest)), Hsplit.
    rewrite rev_app_distr. cbn. rewrite <- app_assoc. reflexivity. }
  destruct (rev l1) as [|a l1'] eqn:El1.
  { exfalso. apply Hl1. rewrite <- (rev_involutive l1), El1. reflexivity. }
  cbn in Hids. injection Hids as <- Hrest.
  destruct (@parentsFirst_split [root] rest l1' (rev l2) c
              (Hpf [root] (or_introl eq_refl)) Hrest)
    as (row & p & Hr & Hid & Hp & Hin).
  exists row, p. repeat split; auto.
  apply in_rev. rewrite El1.
  destruct Hin as [Hin|[<-|[]]]; cbn; auto.
Qed.

(** The walk returns once the fuel exceeds a height of the kept tree. *)
Lemma collectIds_total (rank : Id -> nat) :
  (forall c p, In c fs -> keep c = true -> f_parentId c = Some p ->
               (rank (f_id c) < rank p)%nat) ->
  forall fuel root, (rank root < fuel)%nat ->
    exists ids, collectIds keep fs fuel root = Some ids.
Proof.
  intros Hrank. induction fuel as [|n IH]; intros root Hlt; [lia|].
  cbn [collectIds].
  set (subs := filter (fun f => col_eq (f_parentId f) root && keep f) fs).
  assert (Hsubs : forall s, In s subs -> (rank (f_id s) < n)%nat).
  { intros s Hs. apply filter_In in Hs. destruct Hs as [Hs E].
    apply andb_prop in E. destruct E as [E Hk].
    destruct (f_parentId s) as [p|] eqn:Ep; cbn in E; [|discriminate].
    apply String.eqb_eq in E. subst p.
    specialize (Hrank s root Hs Hk Ep). lia. }
  clearbody subs.
  assert (Hall : exists r,
            concatAll (map (fun s => collectIds keep fs n (f_id s)) subs) = Some r).
  { induction subs as [|s subs IHs]; [exists []; reflexivity|].
    destruct (IH (f_id s) (Hsubs s (or_introl eq_refl))) as [ids_s Es].
    destruct (IHs (fun x Hx => Hsubs x (or_intror Hx))) as [r Er].
    exists (ids_s ++ r). cbn [map]. unfold concatAll in *. cbn [fold_right].
    rewrite Es, Er. reflexivity. }
  destruct Hall as [r Hr]. exists (root :: r).
  change (match concatAll (map (fun s => collectIds keep fs n (f_id s)) subs) with
          | Some subIds => Some (root :: subIds)
          | None => None
          end = Some (root :: r)).
  rewrite Hr. reflexivity.
Qed.

End Collect.

Lemma in_before_or {A} (l : list A) (x y : A) :
  In x l -> In y l -> x <> y -> before l x y \/ before l y x.
Proof.
  intros Hx Hy Hne. apply in_split in Hx. destruct Hx as (l1 & l2 & ->).
  apply in_app_or in Hy. destruct Hy as [Hy|[Hy|Hy]]; [|congruence|].
  - right. apply in_split in Hy. destruct Hy as (la & lb & ->).
    exists la, lb, l2. rewrite <- app_assoc. reflexivity.
  - left. apply in_split in Hy. destruct Hy as (la & lb & ->).
    exists l1, la, lb. reflexivity.
Qed.

(** C8 (as the code has it).  [permanentlyDeleteFolder] deletes the
    collected folder rows in reversed pre-order: every deleted folder other
    than the last one, the purge root, is a row whose parent is deleted
    later.  [emptyTrash] deletes every trashed folder once, in descending
    order of the depth [calculateDepth] finds by walking the parent chain
    inside the trashed set; there a child lies one level below its parent
    and is deleted before it. *)
Theorem folder_rows_deleted_children_first
    (fs : list Folder) (userId : Id) (fuel : nat) (root : Id) (ids : list Id)
    (tf : list Folder) (fuel' : nat) (m : DepthMap) :
  collectAllFolderIds userId fs fuel root = Some ids ->
  fillDepths tf fuel' tf [] = Some m ->
  (forall l2 c l1,
      purgeOrder ids = l2 ++ c :: l1 -> l1 <> [] ->
      exists row p, In row fs /\ f_id row = c /\ f_parentId row = Some p
                    /\ In p l1)
  /\ Permutation tf (emptyTrashOrder m tf)
  /\ (forall f, In f tf ->
        calculateDepth tf fuel' (f_id f) 0 = Some (depthOr0 m f))
  /\ (forall x y, before (emptyTrashOrder m tf) x y ->
        depthOr0 m x >= depthOr0 m y)
  /\ (folderKeysOk tf ->
      forall c p, In c tf -> In p tf -> f_parentId c = Some (f_id p) ->
        depthOr0 m c = depthOr0 m p + 1
        /\ before (emptyTrashOrder m tf) c p).
Proof.
  intros Hcollect Hfill.
  split; [eapply purgeOrder_child_first; exact Hcollect|].
  split; [apply stableSort_perm|].
  split; [intros f Hf; eapply fillDepths_depth; eassumption|].
  split; [intros x y; apply stableSort_before|].
  intros Hkeys c p Hc Hp Hpar.
  assert (Hd : depthOr0 m c = depthOr0 m p + 1).
  { eapply child_depth;
      [exact Hkeys | exact Hc | exact Hp | exact Hpar | |];
      eapply fillDepths_depth; eassumption. }
  split; [exact Hd|].
  assert (Hperm := stableSort_perm (depthOr0 m) tf).
  destruct (@in_before_or _ (emptyTrashOrder m tf) c p) as [Hb|Hb].
  - eapply Permutation_in; [exact Hperm | exact Hc].
  - eapply Permutation_in; [exact Hperm | exact Hp].
  - intros ->. lia.
  - exact Hb.
  - apply stableSort_before in Hb. lia.
Qed.

Lemma folder_rows_deleted_children_first_witness :
  let ids := ["r"; "a"; "a1"; "b"]%string in
  let tf := purgeTree in
  let m := [("b", 1); ("a1", 2); ("a", 1); ("r", 0)]%string in
  (forall l2 c l1,
      purgeOrder ids = l2 ++ c :: l1 -> l1 <> [] ->
      exists row p, In row purgeTree /\ f_id row = c /\ f_parentId row = Some p
                    /\ In p l1)
  /\ Permutation tf (emptyTrashOrder m tf)
  /\ (forall f, In f tf ->
        calculateDepth tf 4 (f_id f) 0 = Some (depthOr0 m f))
  /\ (forall x y, before (emptyTrashOrder m tf) x y ->
        depthOr0 m x >= depthOr0 m y)
  /\ (folderKeysOk tf ->
      forall c p, In c tf -> In p tf -> f_parentId c = Some (f_id p) ->
        depthOr0 m c = depthOr0 m p + 1
        /\ before (emptyTrashOrder m tf) c p).
Proof.
  apply (@folder_rows_deleted_children_first purgeTree "alice"%string 4 "r"%string
           ["r"; "a"; "a1"; "b"]%string purgeTree 4
           [("b", 1); ("a1", 2); ("a", 1); ("r", 0)]%string).
  - reflexivity.
  - reflexivity.
Defined.

(** C8 as stated fails for [permanentlyDeleteFolder]: purging [r] deletes
    [b], at depth 1, before [a1], at depth 2. *)
Lemma purge_order_not_deepest_first :
  collectAllFolderIds "alice" purgeTree 4 "r" = Some ["r"; "a"; "a1"; "b"]%string
  /\ purgeOrder ["r"; "a"; "a1"; "b"]%string = ["b"; "a1"; "a"; "r"]%string
  /\ calculateDepth purgeTree 4 "b" 0 = Some 1
  /\ calculateDepth purgeTree 4 "a1" 0 = Some 2
  /\ before (purgeOrder ["r"; "a"; "a1"; "b"]%string) "b"%string "a1"%string
  /\ permanentlyDeleteFolder_handler "alice" "r" 4 purgeWorld
     = (Ok 0, mkWorld (mkDB [] [] [] [mkQuota "alice" 0 DEFAULT_STORAGE_LIMIT
                                        DEFAULT_RATE_LIMIT] []) []).
Proof.
  repeat split; try reflexivity.
  exists [], [], ["a"; "r"]%string. reflexivity.
Qed.

(** ** Restoring a folder from trash *)

Unset Implicit Arguments.

Lemma concatAll_some {X} (g : X -> option (list Id)) (xs : list X) (r : list Id) :
  concatAll (map g xs) = Some r ->
  (forall s, In s xs -> exists p, g s = Some p /\ incl p r)
  /\ (forall x, In x r -> exists s p, In s xs /\ g s = Some p /\ In x p).
Proof.
  revert r. induction xs as [|s xs IH]; intros r H.
  - cbn in H. injection H as <-. split; [intros s []|intros x []].
  - cbn [map] in H. apply concatAll_cons in H.
    destruct H as (p & a & Hs & Ha & ->). destruct (IH a Ha) as [IH1 IH2]. split.
    + intros s' [<-|Hin].
      * exists p. split; [exact Hs|]. apply incl_appl, incl_refl.
      * destruct (IH1 s' Hin) as (p' & Hp' & Hincl). exists p'.
        split; [exact Hp'|]. apply incl_appr, Hincl.
    + intros x Hx. apply in_app_or in Hx. destruct Hx as [Hx|Hx].
      * exists s, p. cbn. auto.
      * destruct (IH2 x Hx) as (s' & p' & Hin & Hp' & Hxp).
        exists s', p'. cbn. auto.
Qed.

Lemma collectIds_closed (keep : Folder -> bool) (fs : list Folder) (fuel : nat) :
  forall root ids,
    collectIds keep fs fuel root = Some ids ->
    In root ids
    /\ forall y c, In y ids -> In c fs -> f_parentId c = Some y ->
                   keep c = true -> In (f_id c) ids.
Proof.
  induction fuel as [|n IH]; intros root ids; cbn [collectIds]; [discriminate|].
  set (subs := filter (fun f => col_eq (f_parentId f) root && keep f) fs).
  destruct (concatAll (map (fun s => collectIds keep fs n (f_id s)) subs))
    as [subIds|] eqn:E; [|discriminate].
  intros [= <-]. split; [left; reflexivity|].
  destruct (concatAll_some _ _ _ E) as [Hall Hex].
  intros y c Hy Hc Hp Hk. right. destruct Hy as [<-|Hy].
  - assert (Hsub : In c subs).
    { apply filter_In. split; [exact Hc|]. rewrite Hp, Hk. cbn.
      rewrite String.eqb_refl. reflexivity. }
    destruct (Hall c Hsub) as (p & Hcp & Hincl).
    apply Hincl. apply (IH _ _ Hcp).
  - destruct (Hex y Hy) as (s & p & Hs & Hsp & Hyp).
    destruct (Hall s Hs) as (p' & Hsp' & Hincl).
    rewrite Hsp in Hsp'. injection Hsp' as <-.
    apply Hincl. apply (IH _ _ Hsp) with (y := y); assumption.
Qed.

Lemma collectIds_complete (keep : Folder -> bool) (fs : list Folder)
    (fuel : nat) (root : Id) (ids : list Id) (x : Id) :
  collectIds keep fs fuel root = Some ids ->
  inSubtree keep fs root x -> In x ids.
Proof.
  intros Hc Hsub. destruct (collectIds_closed _ _ _ _ _ Hc) as [Hroot Hclosed].
  induction Hsub as [|c y _ IH Hin Hp Hk]; [exact Hroot|].
  apply (Hclosed y c); assumption.
Qed.

Lemma stampFolders_run (ids : list Id) (t : option Z) (w : World) :
  stampFolders ids t w =
    (Ok tt, with_db (set_folders (stampedFolders ids t (folders (db w))) (db w)) w).
Proof.
  unfold stampFolders. revert w. induction ids as [|id ids IH]; intros w.
  - cbn. unfold ret, stampedFolders. cbn. rewrite map_id.
    rewrite set_folders_same, with_db_same. reflexivity.
  - cbn [forEach]. unfold bind at 1. unfold bind at 1, getDB, putDB.
    rewrite IH. f_equal. unfold with_db, set_folders, stampedFolders. cbn.
    f_equal. f_equal. rewrite map_map. apply map_ext. intros f.
    unfold setFolderDeletedAt. cbn [existsb].
    destruct (String.eqb (f_id f) id); cbn.
    + destruct (existsb (String.eqb (f_id f)) ids); reflexivity.
    + reflexivity.
Qed.

Lemma find_trashed_folder (fs : list Folder) (u : Id) (F : Folder) :
  NoDup (map f_id fs) -> In F fs -> f_userId F = u -> f_deletedAt F <> None ->
  find (fun f => String.eqb (f_id f) (f_id F) && String.eqb (f_userId f) u
                 && isNotNull (f_deletedAt f)) fs = Some F.
Proof.
  intros Hnd HF Hu Hdel.
  destruct (find _ fs) eqn:E.
  - apply find_some in E. destruct E as [Hf E].
    apply andb_prop in E. destruct E as [E _].
    apply andb_prop in E. destruct E as [Eid _]. apply String.eqb_eq in Eid.
    f_equal. apply (NoDup_map_inj f_id _ f F Hnd Hf HF Eid).
  - rewrite find_none_iff in E. specialize (E F HF).
    rewrite Hu, !String.eqb_refl in E.
    destruct (f_deletedAt F); [discriminate|congruence].
Qed.

Lemma find_owned_parent (fs : list Folder) (u : Id) (F P : Folder) :
  NoDup (map f_id fs) -> In P fs -> f_parentId F = Some (f_id P) ->
  find (fun f => col_eq (f_parentId F) (f_id f) && String.eqb (f_userId f) u) fs
  = if String.eqb (f_userId P) u then Some P else None.
Proof.
  intros Hnd HP Hpar. rewrite Hpar. cbn.
  destruct (find _ fs) eqn:E.
  - apply find_some in E. destruct E as [Hf E].
    apply andb_prop in E. destruct E as [Eid Eu]. apply String.eqb_eq in Eid.
    assert (f = P) by (symmetry; apply (NoDup_map_inj f_id _ P f Hnd HP Hf Eid)).
    subst f. rewrite Eu. reflexivity.
  - rewrite find_none_iff in E. specialize (E P HP).
    rewrite String.eqb_refl in E. cbn in E. rewrite E. reflexivity.
Qed.

Lemma restore_commit (u : Id) (ids : list Id) (w : World) :
  ids <> [] ->
  (transaction
     ((if (0 <? List.length ids)%nat
       then
         d1 <- getDB ;;
         putDB (set_userAssets
                  (map (fun a =>
                          if String.eqb (a_userId a) u
                             && isNotNull (a_deletedAt a) && folderIn ids a
                          then setAssetDeletedAt None a else a)
                       (userAssets d1)) d1)
       else ret tt) ;;;
      stampFolders ids None) ;;;
   ret (List.length ids)) w
  = (Ok (List.length ids), restoredWorld u ids w).
Proof.
  intros Hne. destruct ids as [|i ids]; [congruence|].
  unfold bind at 1. unfold transaction. unfold bind at 1.
  cbn [List.length Nat.ltb Nat.leb]. unfold bind at 1, getDB, putDB.
  rewrite stampFolders_run. reflexivity.
Qed.

Lemma restoreFolder_blocked (w : World) (u : Id) (F P : Folder) (fuel : nat) :
  folderKeysOk (folders (db w)) ->
  In F (folders (db w)) -> f_userId F = u -> f_deletedAt F <> None ->
  In P (folders (db w)) -> f_parentId F = Some (f_id P) ->
  f_deletedAt P <> None ->
  restoreFolderFromTrash_handler u (f_id F) fuel w = (Throw PRECONDITION_FAILED, w).
Proof.
  intros [Hnd Hne] HF Hu Hdel HP Hpar HdelP.
  unfold restoreFolderFromTrash_handler. unfold bind at 1, getDB.
  rewrite (find_trashed_folder _ _ _ Hnd HF Hu Hdel).
  unfold bind at 1.
  assert (Ht : truthy (f_parentId F) = true).
  { rewrite Hpar. cbn. apply negb_true_iff, String.eqb_neq, Hne, HP. }
  rewrite Ht, (find_owned_parent _ u F P Hnd HP Hpar).
  destruct (String.eqb (f_userId P) u); [|reflexivity].
  destruct (f_deletedAt P); [reflexivity|congruence].
Qed.

Lemma restoreFolder_runs (w : World) (u : Id) (F : Folder) (fuel : nat)
    (ids : list Id) :
  folderKeysOk (folders (db w)) ->
  In F (folders (db w)) -> f_userId F = u -> f_deletedAt F <> None ->
  truthy (f_parentId F) = false
  \/ (exists P, In P (folders (db w)) /\ f_parentId F = Some (f_id P)
                /\ f_userId P = u /\ f_deletedAt P = None) ->
  collectTrashedFolderIds u (folders (db w)) fuel (f_id F) = Some ids ->
  restoreFolderFromTrash_handler u (f_id F) fuel w
  = (Ok (List.length ids), restoredWorld u ids w).
Proof.
  intros [Hnd Hne] HF Hu Hdel Hparent Hcollect.
  unfold restoreFolderFromTrash_handler. unfold bind at 1, getDB.
  rewrite (find_trashed_folder _ _ _ Hnd HF Hu Hdel).
  unfold bind at 1.
  assert (Hpass :
    (if truthy (f_parentId F)
     then match find (fun f => col_eq (f_parentId F) (f_id f)
                               && String.eqb (f_userId f) u) (folders (db w)) with
          | None => throw PRECONDITION_FAILED
          | Some parentFolder =>
              if isNotNull (f_deletedAt parentFolder)
              then throw PRECONDITION_FAILED
              else ret tt
          end
     else ret tt) w = (Ok tt, w)).
  { destruct Hparent as [Ht | (P & HP & Hpar & HuP & HdP)].
    - rewrite Ht. reflexivity.
    - rewrite (find_owned_parent _ u F P Hnd HP Hpar), HuP, String.eqb_refl, HdP.
      destruct (truthy (f_parentId F)); reflexivity. }
  rewrite Hpass. unfold bind at 1. rewrite Hcollect. cbn [liftCollect]. unfold ret at 1.
  apply restore_commit.
  unfold collectTrashedFolderIds in Hcollect.
  apply collectIds_closed in Hcollect. destruct Hcollect as [Hin _].
  intros ->. destruct Hin.
Qed.

(** C6 (as the code has it).  For a trashed folder row F of the caller:
    when the row its [parentId] names is itself in the trash,
    [restoreFolderFromTrash] throws PRECONDITION_FAILED and leaves the world
    as it was.  When F is at root or its parent is an active folder of the
    caller, the procedure returns as soon as the fuel exceeds a height of
    the trashed tree, and in the world it leaves [deletedAt] is null on F,
    on every folder reached from F through trashed folders of the caller
    only, and on every asset of the caller lying in one of those folders. *)
Theorem restoreFolder_cascade
    (w : World) (u : Id) (F : Folder) (fuel : nat) (rank : Id -> nat) :
  folderKeysOk (folders (db w)) ->
  In F (folders (db w)) -> f_userId F = u -> f_deletedAt F <> None ->
  (forall c p, In c (folders (db w)) -> ownedTrashed u c = true ->
               f_parentId c = Some p -> (rank (f_id c) < rank p)%nat) ->
  (rank (f_id F) < fuel)%nat ->
  let r := restoreFolderFromTrash_handler u (f_id F) fuel w in
  (forall P, In P (folders (db w)) -> f_parentId F = Some (f_id P) ->
             f_deletedAt P <> None ->
             r = (Throw PRECONDITION_FAILED, w))
  /\ (f_parentId F = None
      \/ (exists P, In P (folders (db w)) /\ f_parentId F = Some (f_id P)
                    /\ f_userId P = u /\ f_deletedAt P = None) ->
      exists ids,
        r = (Ok (List.length ids), restoredWorld u ids w)
        /\ (forall x, inSubtree (ownedTrashed u) (folders (db w)) (f_id F) x ->
                      In x ids)
        /\ (forall g, In g (folders (db (snd r))) ->
                      inSubtree (ownedTrashed u) (folders (db w)) (f_id F) (f_id g) ->
                      f_deletedAt g = None)
        /\ (forall a x, In a (userAssets (db (snd r))) -> a_userId a = u ->
                        a_folderId a = Some x ->
                        inSubtree (ownedTrashed u) (folders (db w)) (f_id F) x ->
                        a_deletedAt a = None)).
Proof.
  intros Hkeys HF Hu Hdel Hrank Hfuel r. split.
  - intros P HP Hpar HdP. apply (restoreFolder_blocked w u F P fuel Hkeys HF Hu Hdel HP Hpar HdP).
  - intros Hparent.
    destruct (@collectIds_total (ownedTrashed u) (folders (db w)) rank Hrank
                fuel (f_id F) Hfuel) as [ids Hids].
    assert (Hrun : r = (Ok (List.length ids), restoredWorld u ids w)).
    { apply restoreFolder_runs; auto.
      destruct Hparent as [Hnone|Hex]; [left; rewrite Hnone; reflexivity|right; exact Hex]. }
    assert (Hcomplete : forall x,
              inSubtree (ownedTrashed u) (folders (db w)) (f_id F) x -> In x ids).
    { intros x Hx. eapply collectIds_complete; eassumption. }
    exists ids. split; [exact Hrun|]. split; [exact Hcomplete|].
    rewrite Hrun. cbn [snd]. split.
    + intros g Hg Hsub. cbn in Hg. unfold stampedFolders in Hg.
      apply in_map_iff in Hg. destruct Hg as (g0 & <- & Hg0).
      destruct (existsb (String.eqb (f_id g0)) ids) eqn:E; [reflexivity|].
      exfalso. rewrite existsb_false_iff in E.
      cbn in Hsub. specialize (E _ (Hcomplete _ Hsub)).
      rewrite String.eqb_refl in E. discriminate.
    + intros a x Ha Hua Hfa Hsub. cbn in Ha. unfold restoredAssets in Ha.
      apply in_map_iff in Ha. destruct Ha as (a0 & <- & Ha0).
      revert Hua Hfa.
      destruct (String.eqb (a_userId a0) u && isNotNull (a_deletedAt a0)
                && folderIn ids a0) eqn:E; [reflexivity|].
      intros Hua Hfa.
      assert (Hin : folderIn ids a0 = true).
      { unfold folderIn. rewrite Hfa. apply existsb_exists. exists x.
        split; [apply Hcomplete, Hsub | apply String.eqb_refl]. }
      rewrite Hin, Hua, String.eqb_refl in E. cbn in E.
      destruct (a_deletedAt a0); [discriminate|reflexivity].
Qed.

Lemma restoreFolder_cascade_witness :
  let w := sampleWorld in
  let u := "alice" in
  let F := mkFolder "old" "Old" "alice" (Some "docs") (Some 7) in
  let r := restoreFolderFromTrash_handler u (f_id F) 1 w in
  (forall P, In P (folders (db w)) -> f_parentId F = Some (f_id P) ->
             f_deletedAt P <> None ->
             r = (Throw PRECONDITION_FAILED, w))
  /\ (f_parentId F = None
      \/ (exists P, In P (folders (db w)) /\ f_parentId F = Some (f_id P)
                    /\ f_userId P = u /\ f_deletedAt P = None) ->
      exists ids,
        r = (Ok (List.length ids), restoredWorld u ids w)
        /\ (forall x, inSubtree (ownedTrashed u) (folders (db w)) (f_id F) x ->
                      In x ids)
        /\ (forall g, In g (folders (db (snd r))) ->
                      inSubtree (ownedTrashed u) (folders (db w)) (f_id F) (f_id g) ->
                      f_deletedAt g = None)
        /\ (forall a x, In a (userAssets (db (snd r))) -> a_userId a = u ->
                        a_folderId a = Some x ->
                        inSubtree (ownedTrashed u) (folders (db w)) (f_id F) x ->
                        a_deletedAt a = None)).
Proof.
  apply (restoreFolder_cascade sampleWorld "alice"
           (mkFolder "old" "Old" "alice" (Some "docs") (Some 7)) 1
           (fun x => if String.eqb x "old" then 0 else 1)%nat).
  - solve_keys.
  - simpl. auto.
  - reflexivity.
  - discriminate.
  - intros c p Hc Hk Hp. simpl in Hc.
    repeat (destruct Hc as [<-|Hc]; [try discriminate Hk|]); [|destruct Hc].
    injection Hp as <-. cbn. lia.
  - cbn. lia.
Defined.

(** C6 as stated fails on "every trashed descendant folder": alice can
    reach a world where the trashed folder [b] lies under the active folder
    [a] inside the trashed folder [f]; restoring [f] returns normally,
    restores one folder, and [b] is still in the trash. *)
Lemma restoreFolder_stops_at_active_folder :
  let w := run restoreScenario emptyWorld in
  let r := restoreFolderFromTrash_handler "alice" "f" 3 w in
  folders (db w)
  = [mkFolder "f" "F" "alice" None (Some 2000);
     mkFolder "a" "A" "alice" (Some "f") None;
     mkFolder "b" "B" "alice" (Some "a") (Some 5000)]
  /\ chain (folders (db w)) "f" 2 "b"
  /\ fst r = Ok 1%nat
  /\ folders (db (snd r))
     = [mkFolder "f" "F" "alice" None None;
        mkFolder "a" "A" "alice" (Some "f") None;
        mkFolder "b" "B" "alice" (Some "a") (Some 5000)].
Proof.
  cbv zeta. split; [reflexivity|]. split; [|split; reflexivity].
  apply (@chain_up (run restoreScenario emptyWorld).(db).(folders) "f"
           (mkFolder "b" "B" "alice" (Some "a") (Some 5000)) "a" 1);
    [cbn; auto | reflexivity |].
  apply (@chain_child (run restoreScenario emptyWorld).(db).(folders) "f"
           (mkFolder "a" "A" "alice" (Some "f") None));
    [cbn; auto | reflexivity].
Qed.

(** ** Reference counts *)

(** Runs the plumbing of a procedure: binds, reads and writes of the world. *)
Ltac mrun :=
  repeat (progress
    (unfold bind, ret, throw, diverge, getDB, putDB, getS3, putS3;
     cbn [fst snd db s3 with_db with_s3 files folders userAssets userQuotas
          rateLimitWindows set_files set_folders set_userAssets set_userQuotas
          set_rateLimitWindows])).

Lemma filter_all {A} (p : A -> bool) (l : list A) :
  (forall x, In x l -> p x = true) -> filter p l = l.
Proof.
  induction l as [|a l IH]; cbn; intros H; [reflexivity|].
  rewrite (H a (or_introl eq_refl)). f_equal. apply IH. intros x Hx. apply H. right. exact Hx.
Qed.

Lemma refs_cons (h : string) (a : UserAsset) (l : list UserAsset) :
  refs h (a :: l) = (if String.eqb (a_fileHash a) h then 1 else 0) + refs h l.
Proof.
  unfold refs. cbn [filter]. destruct (String.eqb (a_fileHash a) h); cbn [List.length]; lia.
Qed.

Lemma refs_app (h : string) (l1 l2 : list UserAsset) :
  refs h (l1 ++ l2) = refs h l1 + refs h l2.
Proof.
  unfold refs. rewrite filter_app, length_app. lia.
Qed.

Lemma refs_nonneg (h : string) (l : list UserAsset) : 0 <= refs h l.
Proof. unfold refs. lia. Qed.

Lemma refs_zero (h : string) (l : list UserAsset) :
  refs h l = 0 <-> (forall a, In a l -> String.eqb (a_fileHash a) h = false).
Proof.
  unfold refs. rewrite <- filter_nil_iff.
  destruct (filter _ l); cbn [List.length]; split; intros H; try reflexivity;
    try discriminate; lia.
Qed.

Lemma refs_pos (h : string) (a : UserAsset) (l : list UserAsset) :
  In a l -> a_fileHash a = h -> 1 <= refs h l.
Proof.
  intros Hin Hh. induction l as [|x l IH]; [destruct Hin|].
  rewrite refs_cons. pose proof (refs_nonneg h l).
  destruct Hin as [->|Hin].
  - rewrite Hh, String.eqb_refl. lia.
  - specialize (IH Hin). destruct (String.eqb (a_fileHash x) h); lia.
Qed.

Lemma removeAsset_absent (id : Id) (l : list UserAsset) :
  ~ In id (map a_id l) -> removeAsset id l = l.
Proof.
  intros H. apply filter_all. intros x Hx. apply negb_true_iff, String.eqb_neq.
  intros E. apply H. rewrite <- E. apply in_map, Hx.
Qed.

Lemma refs_remove (h : string) (a : UserAsset) (l : list UserAsset) :
  NoDup (map a_id l) -> In a l ->
  refs h (removeAsset (a_id a) l)
  = refs h l - (if String.eqb (a_fileHash a) h then 1 else 0).
Proof.
  induction l as [|x l IH]; [intros _ []|].
  cbn [map]. intros Hnd Hin. inversion Hnd as [|? ? Hnot Hnd']; subst.
  unfold removeAsset. cbn [filter]. fold (removeAsset (a_id a) l).
  destruct Hin as [->|Hin].
  - rewrite String.eqb_refl. cbn [negb].
    rewrite (removeAsset_absent _ _ Hnot), refs_cons. lia.
  - assert (Hne : String.eqb (a_id x) (a_id a) = false).
    { apply String.eqb_neq. intros E. apply Hnot. rewrite E. apply in_map, Hin. }
    rewrite Hne. cbn [negb]. rewrite !refs_cons, (IH Hnd' Hin). lia.
Qed.

Lemma removeAsset_in (id : Id) (l : list UserAsset) (x : UserAsset) :
  In x (removeAsset id l) <-> In x l /\ a_id x <> id.
Proof.
  unfold removeAsset. rewrite filter_In, negb_true_iff, String.eqb_neq. tauto.
Qed.

Lemma removeAsset_NoDup (id : Id) (l : list UserAsset) :
  NoDup (map a_id l) -> NoDup (map a_id (removeAsset id l)).
Proof.
  induction l as [|x l IH]; cbn; [auto|]. intros Hnd.
  inversion Hnd as [|? ? Hnot Hnd']; subst.
  destruct (negb (String.eqb (a_id x) id)); cbn; [|auto].
  constructor; [|auto]. intros Hin. apply Hnot.
  apply in_map_iff in Hin. destruct Hin as (y & E & Hy).
  apply removeAsset_in in Hy. rewrite <- E. apply in_map, Hy.
Qed.

Lemma addRef_hash (h : string) (delta : Z) (f : FileRow) :
  hash (addRef h delta f) = hash f.
Proof. unfold addRef. destruct (String.eqb (hash f) h); reflexivity. Qed.

Lemma addRef_size (h : string) (delta : Z) (f : FileRow) :
  size (addRef h delta f) = size f.
Proof. unfold addRef. destruct (String.eqb (hash f) h); reflexivity. Qed.

Lemma addRef_path (h : string) (delta : Z) (f : FileRow) :
  path (addRef h delta f) = path f.
Proof. unfold addRef. destruct (String.eqb (hash f) h); reflexivity. Qed.

Lemma map_addRef_hashes (h : string) (delta : Z) (fs : list FileRow) :
  map hash (map (addRef h delta) fs) = map hash fs.
Proof. rewrite map_map. apply map_ext, addRef_hash. Qed.

Lemma find_file_row (fs : list FileRow) (f : FileRow) :
  NoDup (map hash fs) -> In f fs ->
  find (fun x => String.eqb (hash x) (hash f)) fs = Some f.
Proof.
  intros Hnd Hin.
  destruct (find _ fs) eqn:E.
  - apply find_some in E. destruct E as [Hf E]. apply String.eqb_eq in E.
    f_equal. apply (NoDup_map_inj hash fs f0 f Hnd Hf Hin E).
  - rewrite find_none_iff in E. specialize (E f Hin).
    rewrite String.eqb_refl in E. discriminate.
Qed.

Lemma find_map_addRef (h h' : string) (delta : Z) (fs : list FileRow) :
  find (fun x => String.eqb (hash x) h') (map (addRef h delta) fs)
  = option_map (addRef h delta) (find (fun x => String.eqb (hash x) h') fs).
Proof.
  induction fs as [|x fs IH]; cbn; [reflexivity|].
  rewrite addRef_hash. destruct (String.eqb (hash x) h'); [reflexivity|exact IH].
Qed.

Lemma releaseAsset_run (w : World) (a : UserAsset) (f : FileRow) :
  storeOk (db w) -> dedupInvariant (db w) ->
  In a (userAssets (db w)) -> In f (files (db w)) -> hash f = a_fileHash a ->
  releaseAsset (a_id a) (a_fileHash a) w = (Ok tt, releasedWorld a f w).
Proof.
  intros (Hnda & Hndf & Hfk) Hinv Ha Hf Hh.
  unfold releaseAsset, deleteAssetRow, bumpRefCount. mrun.
  rewrite find_map_addRef, <- Hh, (find_file_row _ _ Hndf Hf).
  cbn [option_map]. unfold addRef at 1. rewrite String.eqb_refl.
  cbn [refCount path]. replace (refCount f + -1) with (refCount f - 1) by lia.
  unfold releasedWorld, releasedFiles.
  destruct (Z.leb_spec (refCount f - 1) 0) as [Hle|Hgt].
  - unfold s3Delete, deleteFileRow. mrun.
    assert (Hnone : existsb (fun x => String.eqb (a_fileHash x) (hash f))
                      (filter (fun x => negb (String.eqb (a_id x) (a_id a)))
                              (userAssets (db w))) = false).
    { apply existsb_false_iff. apply refs_zero.
      fold (removeAsset (a_id a) (userAssets (db w))).
      rewrite (refs_remove _ _ _ Hnda Ha), <- Hh, String.eqb_refl.
      rewrite <- (Hinv f Hf). pose proof (refs_remove (hash f) a _ Hnda Ha) as E.
      pose proof (refs_nonneg (hash f) (removeAsset (a_id a) (userAssets (db w)))).
      rewrite <- Hh, String.eqb_refl, <- (Hinv f Hf) in E. lia. }
    rewrite Hnone, andb_false_r.
    rewrite addRef_path.
    unfold with_db, with_s3, set_files, set_userAssets, removeAsset. reflexivity.
  - unfold with_db, with_s3, set_files, set_userAssets, removeAsset. reflexivity.
Qed.

Lemma updateStorageUsage_frame (u : Id) (delta : Z) (w : World) :
  fst (updateStorageUsage u delta w) = Ok tt
  /\ files (db (snd (updateStorageUsage u delta w))) = files (db w)
  /\ userAssets (db (snd (updateStorageUsage u delta w))) = userAssets (db w)
  /\ folders (db (snd (updateStorageUsage u delta w))) = folders (db w)
  /\ rateLimitWindows (db (snd (updateStorageUsage u delta w)))
     = rateLimitWindows (db w)
  /\ s3 (snd (updateStorageUsage u delta w)) = s3 w.
Proof.
  unfold updateStorageUsage. mrun.
  destruct (findQuota u (db w)); mrun; repeat split; reflexivity.
Qed.

Lemma find_asset_row (l : list UserAsset) (u : Id) (a : UserAsset)
    (st : option Z -> bool) :
  NoDup (map a_id l) -> In a l -> a_userId a = u -> st (a_deletedAt a) = true ->
  find (fun x => String.eqb (a_id x) (a_id a) && String.eqb (a_userId x) u
                 && st (a_deletedAt x)) l = Some a.
Proof.
  intros Hnd Hin Hu Hst.
  destruct (find _ l) eqn:E.
  - apply find_some in E. destruct E as [Hx E].
    apply andb_prop in E. destruct E as [E _].
    apply andb_prop in E. destruct E as [E _]. apply String.eqb_eq in E.
    f_equal. apply (NoDup_map_inj a_id l u0 a Hnd Hx Hin E).
  - rewrite find_none_iff in E. specialize (E a Hin).
    rewrite Hu, !String.eqb_refl, Hst in E. discriminate.
Qed.

Lemma deleteAsset_run (w : World) (u : Id) (a : UserAsset) (f : FileRow) :
  storeOk (db w) -> dedupInvariant (db w) ->
  In a (userAssets (db w)) -> a_userId a = u ->
  In f (files (db w)) -> hash f = a_fileHash a ->
  deleteAsset_handler u (a_id a) w
  = updateStorageUsage u (- size f) (releasedWorld a f w).
Proof.
  intros Hok Hinv Ha Hu Hf Hh. destruct (Hok) as (Hnda & Hndf & _).
  unfold deleteAsset_handler. unfold bind at 1, getDB.
  pose proof (find_asset_row _ u a (fun _ => true) Hnda Ha Hu eq_refl) as E.
  cbn beta in E.
  replace (find (fun x => String.eqb (a_id x) (a_id a) && String.eqb (a_userId x) u)
                (userAssets (db w))) with (Some a).
  2:{ rewrite <- E. apply find_pointwise. intros x. rewrite andb_true_r. reflexivity. }
  unfold fileSizeOf, findFile. rewrite <- Hh, (find_file_row _ _ Hndf Hf).
  cbn [option_map]. unfold bind at 1, transaction.
  rewrite Hh, (releaseAsset_run w a f Hok Hinv Ha Hf Hh). reflexivity.
Qed.

Lemma permanentlyDelete_run (w : World) (u : Id) (a : UserAsset) (f : FileRow) :
  storeOk (db w) -> dedupInvariant (db w) ->
  In a (userAssets (db w)) -> a_userId a = u -> a_deletedAt a <> None ->
  In f (files (db w)) -> hash f = a_fileHash a ->
  permanentlyDelete_handler u (a_id a) w
  = updateStorageUsage u (- size f) (releasedWorld a f w).
Proof.
  intros Hok Hinv Ha Hu Hdel Hf Hh. destruct (Hok) as (Hnda & Hndf & _).
  unfold permanentlyDelete_handler. unfold bind at 1, getDB.
  rewrite (find_asset_row _ u a (@isNotNull Z) Hnda Ha Hu).
  2:{ destruct (a_deletedAt a); [reflexivity|congruence]. }
  unfold fileSizeOf, findFile. rewrite <- Hh, (find_file_row _ _ Hndf Hf).
  cbn [option_map]. unfold bind at 1, transaction.
  rewrite Hh, (releaseAsset_run w a f Hok Hinv Ha Hf Hh). reflexivity.
Qed.

(** C4. Purging an asset, by [deleteAsset] or from the trash by
    [permanentlyDelete], removes its row and takes one reference off its
    file row; the decremented count is never negative; while it is positive
    the file row stays, with that count, and the bucket is untouched; when
    it is zero the file row and the bucket key of its [path] are both gone;
    no other file row changes. *)
Theorem purge_releases_one_reference
    (w : World) (u : Id) (a : UserAsset) (f : FileRow) :
  storeOk (db w) -> dedupInvariant (db w) ->
  In a (userAssets (db w)) -> a_userId a = u ->
  In f (files (db w)) -> hash f = a_fileHash a ->
  let r := deleteAsset_handler u (a_id a) w in
  let n := refCount f - 1 in
  fst r = Ok tt
  /\ userAssets (db (snd r)) = removeAsset (a_id a) (userAssets (db w))
  /\ 0 <= n
  /\ (0 < n ->
      findFile (hash f) (db (snd r)) = Some (mkFile (hash f) (size f) (path f) n)
      /\ s3 (snd r) = s3 w)
  /\ (n = 0 ->
      findFile (hash f) (db (snd r)) = None /\ ~ In (path f) (s3 (snd r)))
  /\ (forall g, In g (files (db w)) -> hash g <> hash f ->
                In g (files (db (snd r))))
  /\ (a_deletedAt a <> None -> permanentlyDelete_handler u (a_id a) w = r).
Proof.
  intros Hok Hinv Ha Hu Hf Hh r n. destruct (Hok) as (Hnda & Hndf & _).
  assert (Hr : r = updateStorageUsage u (- size f) (releasedWorld a f w))
    by (apply deleteAsset_run; assumption).
  destruct (updateStorageUsage_frame u (- size f) (releasedWorld a f w))
    as (Hfst & Hfiles & Hassets & _ & _ & Hs3).
  rewrite <- Hr in Hfst, Hfiles, Hassets, Hs3.
  assert (Hn : 0 <= n).
  { unfold n. rewrite (Hinv f Hf).
    pose proof (refs_pos (hash f) a (userAssets (db w)) Ha (eq_sym Hh)). lia. }
  split; [exact Hfst|]. split; [rewrite Hassets; reflexivity|].
  split; [exact Hn|].
  unfold findFile. rewrite Hfiles, Hs3. cbn [releasedWorld db s3 files set_files].
  unfold releasedFiles. fold n.
  split; [|split; [|split]].
  - intros Hpos. destruct (Z.leb_spec n 0); [lia|].
    rewrite find_map_addRef, (find_file_row _ _ Hndf Hf). cbn [option_map].
    unfold addRef. rewrite String.eqb_refl. split; [|reflexivity].
    replace (refCount f + -1) with n by (unfold n; lia). reflexivity.
  - intros Hz. destruct (Z.leb_spec n 0); [|lia]. split.
    + apply find_none_iff. intros x Hx. apply filter_In in Hx.
      destruct Hx as [_ Hx]. apply negb_true_iff in Hx. exact Hx.
    + intros Hin. apply filter_In in Hin. destruct Hin as [_ Hin].
      rewrite String.eqb_refl in Hin. discriminate.
  - intros g Hg Hne.
    assert (Hkeep : addRef (hash f) (-1) g = g).
    { unfold addRef. apply String.eqb_neq in Hne. rewrite Hne. reflexivity. }
    assert (Hmap : In g (map (addRef (hash f) (-1)) (files (db w)))).
    { apply in_map_iff. exists g. auto. }
    destruct (n <=? 0); [|exact Hmap].
    apply filter_In. split; [exact Hmap|].
    apply negb_true_iff, String.eqb_neq, Hne.
  - intros Hdel. rewrite Hr. apply permanentlyDelete_run; assumption.
Qed.

Lemma purge_releases_one_reference_witness :
  let w := sampleWorld in
  let a := mkAsset "a2" "copy.pdf" "alice" (Some "old") "h1" (Some 7) in
  let f := mkFile "h1" 100 "h1" 2 in
  let r := deleteAsset_handler "alice" (a_id a) w in
  let n := refCount f - 1 in
  fst r = Ok tt
  /\ userAssets (db (snd r)) = removeAsset (a_id a) (userAssets (db w))
  /\ 0 <= n
  /\ (0 < n ->
      findFile (hash f) (db (snd r)) = Some (mkFile (hash f) (size f) (path f) n)
      /\ s3 (snd r) = s3 w)
  /\ (n = 0 ->
      findFile (hash f) (db (snd r)) = None /\ ~ In (path f) (s3 (snd r)))
  /\ (forall g, In g (files (db w)) -> hash g <> hash f ->
                In g (files (db (snd r))))
  /\ (a_deletedAt a <> None -> permanentlyDelete_handler "alice" (a_id a) w = r).
Proof.
  apply (purge_releases_one_reference sampleWorld "alice"
           (mkAsset "a2" "copy.pdf" "alice" (Some "old") "h1" (Some 7))
           (mkFile "h1" 100 "h1" 2)).
  - split; [|split].
    + repeat constructor; simpl; intuition discriminate.
    + repeat constructor; simpl; intuition discriminate.
    + intros x Hx. simpl in Hx.
      repeat (destruct Hx as [<-|Hx];
              [first [ exists (mkFile "h1" 100 "h1" 2);
                       split; [simpl; auto | reflexivity]
                     | exists (mkFile "h2" 40 "h2" 1);
                       split; [simpl; auto | reflexivity] ]|]).
      destruct Hx.
  - intros g Hg. simpl in Hg.
    repeat (destruct Hg as [<-|Hg]; [reflexivity|]). destruct Hg.
  - simpl. auto.
  - reflexivity.
  - simpl. auto.
  - reflexivity.
Defined.

(** ** The reference-count invariant *)

Lemma sameCore_refl (w : World) : sameCore w w.
Proof. split; reflexivity. Qed.

Lemma sameCore_trans (w1 w2 w3 : World) :
  sameCore w1 w2 -> sameCore w2 w3 -> sameCore w1 w3.
Proof. intros [A1 B1] [A2 B2]. split; congruence. Qed.

Lemma map_key_id (l : list UserAsset) : map a_id l = map (fun k => fst (fst k)) (map assetKey l).
Proof. rewrite map_map. reflexivity. Qed.

Lemma map_key_hash (l : list UserAsset) : map a_fileHash l = map snd (map assetKey l).
Proof. rewrite map_map. reflexivity. Qed.

Lemma refs_hashes (h : string) (l : list UserAsset) :
  refs h l
  = Z.of_nat (List.length (filter (fun x => String.eqb x h) (map a_fileHash l))).
Proof.
  unfold refs. induction l as [|a l IH]; cbn; [reflexivity|].
  destruct (String.eqb (a_fileHash a) h); cbn [List.length]; lia.
Qed.

Lemma dedupOk_frame (w w' : World) : sameCore w w' -> dedupOk w -> dedupOk w'.
Proof.
  intros [Hf Hk] [(Hnda & Hndf & Hfk) Hinv].
  assert (Hids : map a_id (userAssets (db w')) = map a_id (userAssets (db w)))
    by (rewrite !map_key_id, Hk; reflexivity).
  assert (Hhs : map a_fileHash (userAssets (db w'))
                = map a_fileHash (userAssets (db w)))
    by (rewrite !map_key_hash, Hk; reflexivity).
  split; [split; [|split]|].
  - rewrite Hids. exact Hnda.
  - rewrite Hf. exact Hndf.
  - intros a Ha. rewrite Hf.
    assert (Hin : In (a_fileHash a) (map a_fileHash (userAssets (db w))))
      by (rewrite <- Hhs; apply in_map, Ha).
    apply in_map_iff in Hin. destruct Hin as (a0 & E & Ha0).
    destruct (Hfk a0 Ha0) as (f & Hfin & Hh). exists f. split; [exact Hfin|congruence].
  - intros f Hfin. rewrite Hf in Hfin. rewrite refs_hashes, Hhs, <- refs_hashes.
    apply Hinv, Hfin.
Qed.

Lemma frames_keeps {A} (m : M A) : frames m -> keeps m.
Proof. intros H w Hok. exact (dedupOk_frame _ _ (H w) Hok). Qed.

Lemma keeps_bind {A B} (m : M A) (k : A -> M B) (w : World) :
  (dedupOk w -> dedupOk (snd (m w))) -> (forall a, keeps (k a)) ->
  dedupOk w -> dedupOk (snd (bind m k w)).
Proof.
  intros Hm Hk Hok. unfold bind. specialize (Hm Hok).
  destruct (m w) as [[a| |] w1]; cbn [snd] in *; auto. apply Hk, Hm.
Qed.

Lemma frames_bind {A B} (m : M A) (k : A -> M B) (w : World) :
  sameCore w (snd (m w)) -> (forall a, frames (k a)) ->
  sameCore w (snd (bind m k w)).
Proof.
  intros Hm Hk. unfold bind.
  destruct (m w) as [[a| |] w1]; cbn [snd] in *; auto.
  eapply sameCore_trans; [exact Hm | apply Hk].
Qed.

Lemma keeps_ret {A} (a : A) : keeps (ret a).
Proof. intros w H. exact H. Qed.

Lemma frames_ret {A} (a : A) : frames (ret a).
Proof. intros w. apply sameCore_refl. Qed.

Lemma frames_checkRateLimit (u : Id) (now : Z) (i : Id) :
  frames (checkRateLimit u now i).
Proof.
  intros w. unfold checkRateLimit. mrun.
  destruct (findWindow u (windowOf now) (db w)) as [cw|].
  - destruct (requestCount cw >=? _); mrun; apply sameCore_refl || (split; reflexivity).
  - destruct (existsb _ _); mrun; split; reflexivity.
Qed.

Lemma frames_checkStorageQuota (u : Id) (bytes : Z) :
  frames (checkStorageQuota u bytes).
Proof.
  intros w. unfold checkStorageQuota. mrun.
  destruct (findQuota u (db w)) as [q|]; mrun;
    match goal with |- context [if ?c then _ else _] => destruct c end;
    mrun; split; reflexivity.
Qed.

Lemma frames_updateStorageUsage (u : Id) (delta : Z) :
  frames (updateStorageUsage u delta).
Proof.
  intros w. destruct (updateStorageUsage_frame u delta w) as (_ & Hf & Ha & _).
  split; [exact Hf | rewrite Ha; reflexivity].
Qed.

Lemma frames_transaction {A} (body : M A) (w : World) :
  sameCore w (snd (body w)) -> sameCore w (snd (transaction body w)).
Proof.
  unfold transaction. destruct (body w) as [[a| |] w1]; cbn [snd]; auto;
    intros _; split; reflexivity.
Qed.

Lemma unlinkFolder_key (id : Id) (a : UserAsset) :
  assetKey (unlinkFolder id a) = assetKey a.
Proof. unfold unlinkFolder. destruct (col_eq (a_folderId a) id); reflexivity. Qed.

Lemma frames_deleteFolderRow (id : Id) : frames (deleteFolderRow id).
Proof.
  intros w. unfold deleteFolderRow. mrun.
  destruct (hasFolder id (db w)); mrun; [|apply sameCore_refl].
  unfold sameCore. mrun. split; [reflexivity|].
  rewrite map_map. apply map_ext, unlinkFolder_key.
Qed.

Lemma frames_forEach {X} (body : X -> M unit) (xs : list X) :
  (forall x, frames (body x)) -> frames (forEach xs body).
Proof.
  intros Hb. induction xs as [|x xs IH]; intros w; cbn [forEach].
  - apply sameCore_refl.
  - apply frames_bind; [apply Hb | intros _; exact IH].
Qed.

Lemma frames_stampFolders (ids : list Id) (t : option Z) :
  frames (stampFolders ids t).
Proof.
  intros w. rewrite stampFolders_run. split; reflexivity.
Qed.

Lemma frames_insertFolder (f : Folder) : frames (insertFolder f).
Proof.
  intros w. unfold insertFolder. mrun.
  destruct (hasFolder (f_id f) (db w)); mrun; split; reflexivity.
Qed.

Lemma in_hashes (fs : list FileRow) (h : string) :
  In h (map hash fs) <-> find (fun f => String.eqb (hash f) h) fs <> None.
Proof.
  split.
  - intros Hin E. rewrite find_none_iff in E. apply in_map_iff in Hin.
    destruct Hin as (f & <- & Hf). specialize (E f Hf).
    rewrite String.eqb_refl in E. discriminate.
  - intros H. destruct (find _ fs) eqn:E; [|congruence].
    apply find_some in E. destruct E as [Hf E]. apply String.eqb_eq in E.
    rewrite <- E. apply in_map, Hf.
Qed.

Lemma NoDup_snoc {X} (l : list X) (x : X) :
  NoDup l -> ~ In x l -> NoDup (l ++ [x]).
Proof.
  intros Hnd Hx. induction l as [|y l IH]; cbn.
  - constructor; [intros []|constructor].
  - inversion Hnd as [|? ? Hy Hnd']; subst. constructor.
    + intros Hin. apply in_app_or in Hin. destruct Hin as [Hin|[->|[]]]; auto.
      apply Hx. left. reflexivity.
    + apply IH; auto. intros Hin. apply Hx. right. exact Hin.
Qed.

(** Linking one more asset to an existing file row. *)
Lemma ok_link (d d' : DB) (a : UserAsset) (f : FileRow) :
  storeOk d -> dedupInvariant d ->
  ~ In (a_id a) (map a_id (userAssets d)) ->
  In f (files d) -> hash f = a_fileHash a ->
  files d' = map (addRef (a_fileHash a) 1) (files d) ->
  userAssets d' = userAssets d ++ [a] ->
  storeOk d' /\ dedupInvariant d'.
Proof.
  intros (Hnda & Hndf & Hfk) Hinv Hfresh Hf Hh Ef Ea. split; [split; [|split]|].
  - rewrite Ea, map_app. cbn. apply NoDup_snoc; assumption.
  - rewrite Ef, map_addRef_hashes. exact Hndf.
  - intros x Hx. rewrite Ea in Hx. rewrite Ef.
    assert (Hex : exists g, In g (files d) /\ hash g = a_fileHash x).
    { apply in_app_or in Hx. destruct Hx as [Hx|[<-|[]]]; [apply Hfk, Hx|eauto]. }
    destruct Hex as (g & Hg & Eg). exists (addRef (a_fileHash a) 1 g).
    split; [apply in_map, Hg | rewrite addRef_hash; exact Eg].
  - intros g' Hg'. rewrite Ef in Hg'. apply in_map_iff in Hg'.
    destruct Hg' as (g & <- & Hg). rewrite addRef_hash, Ea, refs_app, refs_cons.
    unfold refs at 2. cbn [filter List.length]. unfold addRef.
    rewrite (String.eqb_sym (a_fileHash a) (hash g)).
    destruct (String.eqb (hash g) (a_fileHash a)); cbn [refCount];
      rewrite (Hinv g Hg); lia.
Qed.

(** The first asset of a hash that has no file row yet. *)
Lemma ok_fresh (d d' : DB) (a : UserAsset) (sz : Z) (p : string) :
  storeOk d -> dedupInvariant d ->
  ~ In (a_id a) (map a_id (userAssets d)) ->
  findFile (a_fileHash a) d = None ->
  files d' = files d ++ [mkFile (a_fileHash a) sz p 1] ->
  userAssets d' = userAssets d ++ [a] ->
  storeOk d' /\ dedupInvariant d'.
Proof.
  intros (Hnda & Hndf & Hfk) Hinv Hfresh Hnone Ef Ea.
  assert (Hnoref : forall x, In x (userAssets d) ->
                     String.eqb (a_fileHash x) (a_fileHash a) = false).
  { intros x Hx. apply String.eqb_neq. intros E.
    destruct (Hfk x Hx) as (g & Hg & Eg). unfold findFile in Hnone.
    rewrite find_none_iff in Hnone. specialize (Hnone g Hg).
    rewrite Eg, E, String.eqb_refl in Hnone. discriminate. }
  split; [split; [|split]|].
  - rewrite Ea, map_app. cbn. apply NoDup_snoc; assumption.
  - rewrite Ef, map_app. cbn. apply NoDup_snoc; [exact Hndf|].
    intros Hin. apply in_hashes in Hin. apply Hin, Hnone.
  - intros x Hx. rewrite Ea in Hx. rewrite Ef.
    apply in_app_or in Hx. destruct Hx as [Hx|[<-|[]]].
    + destruct (Hfk x Hx) as (g & Hg & Eg). exists g.
      split; [apply in_or_app; left; exact Hg | exact Eg].
    + eexists. split; [apply in_or_app; right; left; reflexivity | reflexivity].
  - intros g Hg. rewrite Ef in Hg. rewrite Ea, refs_app, refs_cons.
    unfold refs at 2. cbn [filter List.length].
    apply in_app_or in Hg. destruct Hg as [Hg|[<-|[]]].
    + assert (Hne : String.eqb (a_fileHash a) (hash g) = false).
      { apply String.eqb_neq. intros E. unfold findFile in Hnone.
        rewrite find_none_iff in Hnone. specialize (Hnone g Hg).
        rewrite E, String.eqb_refl in Hnone. discriminate. }
      rewrite Hne, (Hinv g Hg). lia.
    + cbn [hash refCount]. rewrite String.eqb_refl.
      assert (E0 : refs (a_fileHash a) (userAssets d) = 0)
        by (apply refs_zero, Hnoref).
      rewrite E0. lia.
Qed.

(** Releasing the reference of an asset row. *)
Lemma ok_release (d d' : DB) (a : UserAsset) (f : FileRow) :
  storeOk d -> dedupInvariant d ->
  In a (userAssets d) -> In f (files d) -> hash f = a_fileHash a ->
  files d' = releasedFiles (hash f) (refCount f) (files d) ->
  userAssets d' = removeAsset (a_id a) (userAssets d) ->
  storeOk d' /\ dedupInvariant d'.
Proof.
  intros (Hnda & Hndf & Hfk) Hinv Ha Hf Hh Ef Ea.
  assert (Hcount : forall h, refs h (userAssets d')
            = refs h (userAssets d) - (if String.eqb (a_fileHash a) h then 1 else 0))
    by (intros h; rewrite Ea; apply refs_remove; assumption).
  assert (Hrows : forall g', In g' (files d') ->
            exists g, In g (files d) /\ g' = addRef (hash f) (-1) g
                      /\ (refCount f - 1 <= 0 -> hash g <> hash f)).
  { intros g' Hg'. rewrite Ef in Hg'. unfold releasedFiles in Hg'.
    destruct (Z.leb_spec (refCount f - 1) 0) as [Hle|Hgt].
    - apply filter_In in Hg'. destruct Hg' as [Hg' Hne].
      apply in_map_iff in Hg'. destruct Hg' as (g & <- & Hg).
      exists g. repeat split; auto. intros _.
      rewrite addRef_hash in Hne. apply negb_true_iff, String.eqb_neq in Hne. exact Hne.
    - apply in_map_iff in Hg'. destruct Hg' as (g & <- & Hg).
      exists g. repeat split; auto. lia. }
  split; [split; [|split]|].
  - rewrite Ea. apply removeAsset_NoDup, Hnda.
  - rewrite Ef. unfold releasedFiles.
    assert (Hm : NoDup (map hash (map (addRef (hash f) (-1)) (files d))))
      by (rewrite map_addRef_hashes; exact Hndf).
    destruct (refCount f - 1 <=? 0); [|exact Hm].
    revert Hm. generalize (map (addRef (hash f) (-1)) (files d)). intros l.
    induction l as [|x l IH]; cbn; [auto|]. intros Hm.
    inversion Hm as [|? ? Hx Hm']; subst.
    destruct (negb (String.eqb (hash x) (hash f))); cbn; [|auto].
    constructor; [|auto]. intros Hin. apply Hx.
    apply in_map_iff in Hin. destruct Hin as (y & E & Hy).
    apply filter_In in Hy. rewrite <- E. apply in_map, Hy.
  - intros x Hx. rewrite Ea in Hx. apply removeAsset_in in Hx.
    destruct Hx as [Hx Hne]. destruct (Hfk x Hx) as (g & Hg & Eg).
    exists (addRef (hash f) (-1) g). split; [|rewrite addRef_hash; exact Eg].
    rewrite Ef. unfold releasedFiles.
    assert (Hm : In (addRef (hash f) (-1) g) (map (addRef (hash f) (-1)) (files d)))
      by (apply in_map, Hg).
    destruct (Z.leb_spec (refCount f - 1) 0) as [Hle|Hgt]; [|exact Hm].
    apply filter_In. split; [exact Hm|]. rewrite addRef_hash.
    apply negb_true_iff, String.eqb_neq. intros E.
    assert (Hpos : 1 <= refs (hash f) (removeAsset (a_id a) (userAssets d))).
    { apply (refs_pos (hash f) x); [apply removeAsset_in; auto | congruence]. }
    rewrite <- Ea, Hcount, <- Hh, String.eqb_refl, <- (Hinv f Hf) in Hpos. lia.
  - intros g' Hg'. destruct (Hrows g' Hg') as (g & Hg & -> & Hdel).
    rewrite addRef_hash, Hcount. unfold addRef.
    destruct (String.eqb (hash g) (hash f)) eqn:E.
    + apply String.eqb_eq in E.
      assert (g = f) by (apply (NoDup_map_inj hash _ g f Hndf Hg Hf E)). subst g.
      cbn [refCount]. rewrite <- Hh, String.eqb_refl, (Hinv f Hf). lia.
    + rewrite <- Hh, (String.eqb_sym (hash f) (hash g)), E, (Hinv g Hg). lia.
Qed.

Lemma insertAsset_cases (a : UserAsset) (w : World) :
  (exists e, insertAsset a w = (Throw e, w))
  \/ (insertAsset a w
        = (Ok tt, with_db (set_userAssets (userAssets (db w) ++ [a]) (db w)) w)
      /\ ~ In (a_id a) (map a_id (userAssets (db w)))
      /\ exists f, In f (files (db w)) /\ hash f = a_fileHash a).
Proof.
  unfold insertAsset. mrun.
  destruct (existsb (fun x => String.eqb (a_id x) (a_id a)) (userAssets (db w)))
    eqn:Epk; [left; eauto|].
  destruct (match a_folderId a with
            | Some fid => negb (hasFolder fid (db w))
            | None => false
            end); [left; eauto|].
  destruct (findFile (a_fileHash a) (db w)) as [f|] eqn:Ef; [|left; eauto].
  right. split; [reflexivity|]. split.
  - intros Hin. apply in_map_iff in Hin. destruct Hin as (x & E & Hx).
    rewrite existsb_false_iff in Epk. specialize (Epk x Hx).
    rewrite E, String.eqb_refl in Epk. discriminate.
  - apply find_some in Ef. destruct Ef as [Hf E]. apply String.eqb_eq in E. eauto.
Qed.

Lemma keeps_link (a : UserAsset) :
  keeps (transaction
           (insertAsset a ;;; bumpRefCount (a_fileHash a) 1 ;;; ret tt)).
Proof.
  intros w [Hok Hinv]. unfold transaction. unfold bind at 1.
  destruct (insertAsset_cases a w) as [[e ->] | (-> & Hfresh & f & Hf & Hh)].
  - split; assumption.
  - unfold bumpRefCount. mrun.
    eapply (ok_link (db w) _ a f); eauto.
Qed.

Lemma keeps_confirm (h : string) (sz : Z) (a : UserAsset) :
  a_fileHash a = h ->
  keeps (transaction (upsertFile h sz ;;; insertAsset a)).
Proof.
  intros Hh w [Hok Hinv]. unfold transaction. unfold bind at 1.
  unfold upsertFile. unfold bind at 1, getDB.
  destruct (findFile h (db w)) as [f|] eqn:Ef.
  - unfold bumpRefCount. mrun.
    match goal with |- context [insertAsset a ?w1] =>
      destruct (insertAsset_cases a w1) as [[e ->] | (-> & Hfresh & _)] end.
    + split; assumption.
    + mrun. apply find_some in Ef. destruct Ef as [Hf E].
      apply String.eqb_eq in E.
      eapply (ok_link (db w) _ a f); eauto; try congruence.
      cbn. rewrite Hh. reflexivity.
  - mrun.
    match goal with |- context [insertAsset a ?w1] =>
      destruct (insertAsset_cases a w1) as [[e ->] | (-> & Hfresh & _)] end.
    + split; assumption.
    + mrun. eapply (ok_fresh (db w) _ a sz h); eauto.
      * rewrite Hh. exact Ef.
      * cbn. rewrite Hh. reflexivity.
Qed.

Lemma dedupOk_released (w : World) (a : UserAsset) (f : FileRow) :
  dedupOk w -> In a (userAssets (db w)) -> In f (files (db w)) ->
  hash f = a_fileHash a -> dedupOk (releasedWorld a f w).
Proof.
  intros [Hok Hinv] Ha Hf Hh.
  eapply (ok_release (db w) _ a f); eauto.
Qed.

Lemma keeps_release (w : World) (a : UserAsset) :
  dedupOk w -> In a (userAssets (db w)) ->
  dedupOk (snd (transaction (releaseAsset (a_id a) (a_fileHash a)) w)).
Proof.
  intros Hok Ha. destruct (Hok) as [Hst Hinv].
  destruct Hst as (Hnda & Hndf & Hfk). destruct (Hfk a Ha) as (f & Hf & Hh).
  unfold transaction.
  rewrite (releaseAsset_run w a f (conj Hnda (conj Hndf Hfk)) Hinv Ha Hf Hh).
  apply dedupOk_released; assumption.
Qed.

(** The purge loop, when it completes, has released every asset of the
    list and kept the invariant. *)
Lemma releaseAll_ok (d0 : DB) (assets : list UserAsset) :
  forall (total : Z) (w : World),
    dedupOk w ->
    (forall a, In a assets -> In a (userAssets (db w))) ->
    NoDup (map a_id assets) ->
    forall t' w', releaseAll d0 assets total w = (Ok t', w') -> dedupOk w'.
Proof.
  induction assets as [|a rest IH]; intros total w Hok Hsub Hnd t' w'.
  - cbn. unfold ret. intros [= _ <-]. exact Hok.
  - cbn [releaseAll]. unfold bind at 1.
    destruct (Hok) as [Hst Hinv].
    destruct (Hst) as (Hnda & Hndf & Hfk).
    destruct (Hfk a (Hsub a (or_introl eq_refl))) as (f & Hf & Hh).
    rewrite (releaseAsset_run w a f Hst Hinv (Hsub a (or_introl eq_refl)) Hf Hh).
    destruct (fileSizeOf d0 a) as [sz|]; [|discriminate].
    apply IH.
    + apply dedupOk_released; auto. apply Hsub. left. reflexivity.
    + intros b Hb. cbn. apply removeAsset_in. split; [apply Hsub; right; exact Hb|].
      inversion Hnd as [|? ? Hnot _]; subst. intros E. apply Hnot.
      rewrite <- E. apply in_map, Hb.
    + inversion Hnd; assumption.
Qed.

Lemma NoDup_map_filter {X Y} (g : X -> Y) (p : X -> bool) (l : list X) :
  NoDup (map g l) -> NoDup (map g (filter p l)).
Proof.
  induction l as [|x l IH]; cbn; [auto|]. intros Hnd.
  inversion Hnd as [|? ? Hx Hnd']; subst.
  destruct (p x); cbn; [|auto]. constructor; [|auto].
  intros Hin. apply Hx. apply in_map_iff in Hin. destruct Hin as (y & E & Hy).
  apply filter_In in Hy. rewrite <- E. apply in_map, Hy.
Qed.

Lemma keeps_seq {A B} (m : M A) (k : A -> M B) :
  keeps m -> (forall a, keeps (k a)) -> keeps (bind m k).
Proof. intros Hm Hk w Hok. apply keeps_bind; auto. Qed.

Lemma frames_seq {A B} (m : M A) (k : A -> M B) :
  frames m -> (forall a, frames (k a)) -> frames (bind m k).
Proof. intros Hm Hk w. apply frames_bind; auto. Qed.

Lemma keeps_transaction_ok {A} (body : M A) (w : World) :
  (forall a w', body w = (Ok a, w') -> dedupOk w') ->
  dedupOk w -> dedupOk (snd (transaction body w)).
Proof.
  intros Hb Hok. unfold transaction.
  destruct (body w) as [[a| |] w1] eqn:E; cbn [snd]; [eapply Hb; reflexivity| |];
    exact Hok.
Qed.

Lemma frames_stampAssets (c : UserAsset -> bool) (t : option Z) :
  frames (d1 <- getDB ;;
          putDB (set_userAssets
                   (map (fun a => if c a then setAssetDeletedAt t a else a)
                        (userAssets d1)) d1)).
Proof.
  intros w. mrun. unfold sameCore. mrun. split; [reflexivity|].
  rewrite map_map. apply map_ext. intros a. destruct (c a); reflexivity.
Qed.

Lemma frames_moveToTrash (u id : Id) (now : Z) :
  frames (moveToTrash_handler u id now).
Proof.
  intros w. rewrite moveToTrash_unfold. cbv zeta. unfold sameCore. mrun.
  split; [reflexivity|]. rewrite map_map. apply map_ext. intros a.
  destruct (_ && _); reflexivity.
Qed.

Lemma frames_restoreFromTrash (u id : Id) :
  frames (restoreFromTrash_handler u id).
Proof.
  intros w. rewrite restoreFromTrash_unfold. cbv zeta. unfold sameCore. mrun.
  split; [reflexivity|]. rewrite map_map. apply map_ext. intros a.
  destruct (_ && _); reflexivity.
Qed.

Lemma frames_createFolder (u : Id) (name : string) (p : option Id) (i : Id) :
  frames (createFolder_handler u name p i).
Proof.
  intros w. unfold createFolder_handler. unfold bind at 1, getDB.
  apply frames_bind; [|intros _; apply frames_insertFolder].
  destruct (truthy p); [|apply sameCore_refl].
  destruct (find _ _); apply sameCore_refl.
Qed.

Lemma frames_deleteFolder (u id : Id) : frames (deleteFolder_handler u id).
Proof.
  intros w. unfold deleteFolder_handler. unfold bind at 1, getDB.
  destruct (find _ (folders (db w))); [|apply sameCore_refl].
  destruct (_ || _); [apply sameCore_refl | apply frames_deleteFolderRow].
Qed.

Lemma frames_liftCollect (r : option (list Id)) : frames (liftCollect r).
Proof. intros w. destruct r; apply sameCore_refl. Qed.

Lemma frames_cascade (c : UserAsset -> bool) (ids : list Id) (t : option Z) :
  frames (transaction
            ((if (0 <? List.length ids)%nat
              then
                d1 <- getDB ;;
                putDB (set_userAssets
                         (map (fun a => if c a then setAssetDeletedAt t a else a)
                              (userAssets d1)) d1)
              else ret tt) ;;;
             stampFolders ids t)).
Proof.
  intros w. apply frames_transaction. apply frames_bind.
  - destruct (0 <? List.length ids)%nat;
      [apply frames_stampAssets | apply sameCore_refl].
  - intros _. apply frames_stampFolders.
Qed.

Lemma frames_moveFolderToTrash (u id : Id) (now : Z) (fuel : nat) :
  frames (moveFolderToTrash_handler u id now fuel).
Proof.
  intros w. unfold moveFolderToTrash_handler. unfold bind at 1, getDB.
  destruct (find _ (folders (db w))); [|apply sameCore_refl].
  apply frames_bind; [apply frames_liftCollect|]. intros ids.
  apply frames_seq; [|intros _; apply frames_ret].
  apply (frames_cascade
           (fun a => String.eqb (a_userId a) u && isNull (a_deletedAt a)
                     && folderIn ids a) ids (Some now)).
Qed.

Lemma frames_restoreFolderFromTrash (u id : Id) (fuel : nat) :
  frames (restoreFolderFromTrash_handler u id fuel).
Proof.
  intros w. unfold restoreFolderFromTrash_handler. unfold bind at 1, getDB.
  destruct (find _ (folders (db w))) as [folder|]; [|apply sameCore_refl].
  apply frames_bind.
  { destruct (truthy (f_parentId folder)); [|apply sameCore_refl].
    destruct (find _ (folders (db w))) as [p|]; [|apply sameCore_refl].
    destruct (isNotNull (f_deletedAt p)); apply sameCore_refl. }
  intros _. apply frames_seq; [apply frames_liftCollect|]. intros ids.
  apply frames_seq; [|intros _; apply frames_ret].
  apply (frames_cascade
           (fun a => String.eqb (a_userId a) u && isNotNull (a_deletedAt a)
                     && folderIn ids a) ids None).
Qed.

Lemma frames_moveFolder (u id : Id) (p : option Id) (fuel : nat) :
  frames (moveFolder_handler u id p fuel).
Proof.
  intros w. unfold moveFolder_handler. unfold bind at 1, getDB.
  destruct (find _ (folders (db w))); [|apply sameCore_refl].
  destruct (col_eq p id); [apply sameCore_refl|].
  unfold bind.
  match goal with |- context [match ?chk w with _ => _ end] =>
    assert (Hchk : exists o, chk w = (o, w)) end.
  { destruct p as [target|]; [|eexists; reflexivity].
    destruct (String.eqb target EmptyString); [eexists; reflexivity|].
    destruct (find _ (folders (db w))); [|eexists; reflexivity].
    destruct (isDescendant _ _ _ _) as [[|]|]; eexists; reflexivity. }
  destruct Hchk as [o ->].
  destruct o; try apply sameCore_refl.
  unfold sameCore. mrun. split; reflexivity.
Qed.

Lemma keeps_getUploadPresignedUrl (u : Id) (input : UploadInput) (i : Id) :
  keeps (getUploadPresignedUrl_handler u input i).
Proof.
  unfold getUploadPresignedUrl_handler.
  apply keeps_seq; [apply frames_keeps, frames_checkStorageQuota|]. intros _.
  intros w Hok. unfold bind at 1, getDB.
  destruct (findFile (in_hash input) (db w)) as [existingFile|]; [|exact Hok].
  revert w Hok. apply keeps_seq.
  - apply (keeps_link (mkAsset i (filename input) u (in_folderId input)
                               (hash existingFile) None)).
  - intros _. apply keeps_seq;
      [apply frames_keeps, frames_updateStorageUsage | intros _; apply keeps_ret].
Qed.

Lemma keeps_confirmUpload (u : Id) (input : UploadInput) (i : Id) :
  keeps (confirmUpload_handler u input i).
Proof.
  intros w Hok. unfold confirmUpload_handler. unfold bind at 1, getS3.
  destruct (negb (existsb (String.eqb (in_hash input)) (s3 w))); [exact Hok|].
  revert w Hok. apply keeps_seq.
  - apply keeps_confirm. reflexivity.
  - intros _. apply frames_keeps, frames_updateStorageUsage.
Qed.

Lemma keeps_deleteAsset (u id : Id) : keeps (deleteAsset_handler u id).
Proof.
  intros w Hok. unfold deleteAsset_handler. unfold bind at 1, getDB.
  destruct (find _ (userAssets (db w))) as [asset|] eqn:E; [|exact Hok].
  apply find_some in E. destruct E as [Ha E].
  apply andb_prop in E. destruct E as [E _]. apply String.eqb_eq in E. subst id.
  destruct (fileSizeOf (db w) asset); [|exact Hok].
  apply keeps_bind; [intros _; apply keeps_release; assumption | | exact Hok].
  intros _. apply frames_keeps, frames_updateStorageUsage.
Qed.

Lemma keeps_permanentlyDelete (u id : Id) : keeps (permanentlyDelete_handler u id).
Proof.
  intros w Hok. unfold permanentlyDelete_handler. unfold bind at 1, getDB.
  destruct (find _ (userAssets (db w))) as [asset|] eqn:E; [|exact Hok].
  apply find_some in E. destruct E as [Ha E].
  apply andb_prop in E. destruct E as [E _].
  apply andb_prop in E. destruct E as [E _]. apply String.eqb_eq in E. subst id.
  destruct (fileSizeOf (db w) asset); [|exact Hok].
  apply keeps_bind; [intros _; apply keeps_release; assumption | | exact Hok].
  intros _. apply frames_keeps, frames_updateStorageUsage.
Qed.

Lemma keeps_purgeLoop {X} (w : World) (p : UserAsset -> bool)
    (rest : Z -> M X) :
  (forall t, keeps (rest t)) ->
  dedupOk w ->
  dedupOk (snd (transaction
                  (total <- releaseAll (db w) (filter p (userAssets (db w))) 0 ;;
                   rest total) w)).
Proof.
  intros Hrest Hok. apply keeps_transaction_ok; [|exact Hok].
  intros x w'. unfold bind.
  destruct (releaseAll (db w) (filter p (userAssets (db w))) 0 w)
    as [[t| |] w1] eqn:E; try discriminate.
  intros Hr.
  assert (Hok1 : dedupOk w1).
  { eapply releaseAll_ok; [exact Hok | | | exact E].
    - intros a Ha. apply filter_In in Ha. apply Ha.
    - apply NoDup_map_filter. apply Hok. }
  specialize (Hrest t w1 Hok1). rewrite Hr in Hrest. exact Hrest.
Qed.

Lemma keeps_permanentlyDeleteFolder (u id : Id) (fuel : nat) :
  keeps (permanentlyDeleteFolder_handler u id fuel).
Proof.
  intros w Hok. unfold permanentlyDeleteFolder_handler. unfold bind at 1, getDB.
  destruct (find _ (folders (db w))); [|exact Hok].
  unfold bind at 1.
  destruct (collectAllFolderIds u (folders (db w)) fuel id) as [ids|];
    [|exact Hok].
  cbn [liftCollect]. unfold ret at 1.
  apply keeps_bind; [intros _ | | exact Hok].
  - apply keeps_purgeLoop; [|exact Hok]. intros t.
    apply keeps_seq; [|intros _; apply keeps_ret].
    apply frames_keeps, frames_forEach. intros x. apply frames_deleteFolderRow.
  - intros t. apply keeps_seq;
      [apply frames_keeps, frames_updateStorageUsage | intros _; apply keeps_ret].
Qed.

Lemma keeps_emptyTrash (u : Id) (fuel : nat) : keeps (emptyTrash_handler u fuel).
Proof.
  intros w Hok. unfold emptyTrash_handler. unfold bind at 1, getDB.
  destruct (_ && _)%bool; [exact Hok|].
  apply keeps_bind; [intros _ | | exact Hok].
  - apply keeps_purgeLoop; [|exact Hok]. intros t.
    destruct (fillDepths _ fuel _ []) as [m|]; [|intros w1 H1; exact H1].
    apply keeps_seq; [|intros _; apply keeps_ret].
    apply frames_keeps, frames_forEach. intros x. apply frames_deleteFolderRow.
  - intros t. apply keeps_seq;
      [apply frames_keeps, frames_updateStorageUsage | intros _; apply keeps_ret].
Qed.

Lemma frames_renameFile (u id : Id) (name : string) :
  frames (renameFile_handler u id name).
Proof.
  intros w. unfold renameFile_handler. mrun.
  assert (Hs : sameCore w
            (with_db (set_userAssets
               (map (fun a => if String.eqb (a_id a) id && String.eqb (a_userId a) u
                              then setAssetName name a else a)
                    (userAssets (db w))) (db w)) w)).
  { unfold sameCore. mrun. split; [reflexivity|].
    rewrite map_map. apply map_ext. intros a. destruct (_ && _); reflexivity. }
  destruct (filter _ (userAssets (db w))); exact Hs.
Qed.

Lemma frames_renameFolder (u id : Id) (name : string) :
  frames (renameFolder_handler u id name).
Proof.
  intros w. unfold renameFolder_handler. mrun.
  destruct (filter _ (folders (db w))); unfold sameCore; mrun; split; reflexivity.
Qed.

Lemma frames_moveFile (u id : Id) (fid : option Id) :
  frames (moveFile_handler u id fid).
Proof.
  intros w. unfold moveFile_handler. unfold bind at 1, getDB. unfold bind.
  match goal with |- context [match ?chk w with _ => _ end] =>
    assert (Hchk : exists o, chk w = (o, w)) end.
  { destruct (truthy fid); [|eexists; reflexivity].
    destruct (find _ (folders (db w))); eexists; reflexivity. }
  destruct Hchk as [o ->]. destruct o; try apply sameCore_refl.
  destruct (filter _ (userAssets (db w))); [apply sameCore_refl|].
  destruct (match fid with Some x => negb (hasFolder x (db w)) | None => false end);
    [apply sameCore_refl|].
  unfold sameCore. mrun. split; [reflexivity|].
  rewrite map_map. apply map_ext. intros x. destruct (_ && _); reflexivity.
Qed.

Lemma frames_getQuota (u : Id) : frames (getQuota_handler u).
Proof.
  intros w. unfold getQuota_handler. mrun.
  destruct (findQuota u (db w)); mrun; unfold sameCore; mrun; split; reflexivity.
Qed.

Lemma keeps_void {A} (m : M A) : keeps m -> keeps (void m).
Proof. intros H. apply keeps_seq; [exact H | intros _; apply keeps_ret]. Qed.

Lemma keeps_runCall (u : Id) (now : Z) (fuel : nat) (c : Call) :
  keeps (runCall u now fuel c).
Proof.
  destruct c; cbn [runCall].
  - apply keeps_void, keeps_getUploadPresignedUrl.
  - apply keeps_confirmUpload.
  - apply frames_keeps, frames_createFolder.
  - apply frames_keeps, frames_deleteFolder.
  - apply keeps_void, frames_keeps, frames_moveFolderToTrash.
  - apply keeps_void, frames_keeps, frames_restoreFolderFromTrash.
  - apply keeps_deleteAsset.
  - apply frames_keeps, frames_moveToTrash.
  - apply frames_keeps, frames_restoreFromTrash.
  - apply keeps_permanentlyDelete.
  - apply keeps_void, keeps_permanentlyDeleteFolder.
  - apply keeps_void, keeps_emptyTrash.
  - apply frames_keeps, frames_moveFolder.
  - apply frames_keeps, frames_renameFile.
  - apply frames_keeps, frames_renameFolder.
  - apply frames_keeps, frames_moveFile.
  - apply keeps_void, frames_keeps, frames_getQuota.
  - apply keeps_ret.
Qed.

Lemma keeps_handle (r : Request) : keeps (handle r).
Proof.
  unfold handle, rateLimitedProcedure.
  apply keeps_seq; [apply frames_keeps, frames_checkRateLimit|]. intros _.
  destruct (callValid (r_call r)); [apply keeps_runCall|].
  intros w H. exact H.
Qed.

Lemma dedupOk_after (w : World) (e : Event) : dedupOk w -> dedupOk (after w e).
Proof.
  intros Hok. destruct e as [r|key]; cbn [after].
  - apply keeps_handle, Hok.
  - exact Hok.
Qed.

Lemma dedupOk_run (es : list Event) (w : World) : dedupOk w -> dedupOk (run es w).
Proof.
  revert w. induction es as [|e es IH]; intros w Hok; cbn; [exact Hok|].
  apply IH, dedupOk_after, Hok.
Qed.

Lemma dedupOk_empty : dedupOk emptyWorld.
Proof.
  split; [split; [|split]|]; cbn; try constructor; intros ? [].
Qed.

Lemma reachable_dedupOk (w : World) :
  reachable w -> storeOk (db w) /\ dedupInvariant (db w).
Proof. intros [es ->]. apply (dedupOk_run es emptyWorld dedupOk_empty). Qed.

(** C1. In every world the router can reach from the empty one, by any
    sequence of completed calls (uploads and deduplicated links, trash and
    restore, single-asset delete, permanent delete, folder purge, empty
    trash, folder operations, failed calls included) and uploads to the
    bucket, the [refCount] of every file row equals the number of asset
    rows, trashed or active, whose [fileHash] is its hash. *)
Theorem refcount_matches_references (w : World) :
  reachable w ->
  forall f, In f (files (db w)) -> refCount f = refs (hash f) (userAssets (db w)).
Proof.
  intros Hreach. apply (reachable_dedupOk w Hreach).
Qed.

Lemma refcount_matches_references_witness :
  reachable (run dedupScenario emptyWorld)
  /\ forall f, In f (files (db (run dedupScenario emptyWorld))) ->
       refCount f = refs (hash f) (userAssets (db (run dedupScenario emptyWorld))).
Proof.
  split; [exists dedupScenario; reflexivity|].
  apply (refcount_matches_references (run dedupScenario emptyWorld)).
  exists dedupScenario. reflexivity.
Defined.

(** ** Upload: order of the steps and failure *)

Lemma sameLedger_refl (w : World) : sameLedger w w.
Proof. repeat split; reflexivity. Qed.

Lemma sameLedger_trans (w1 w2 w3 : World) :
  sameLedger w1 w2 -> sameLedger w2 w3 -> sameLedger w1 w3.
Proof.
  intros (A1 & B1 & C1 & D1 & E1) (A2 & B2 & C2 & D2 & E2).
  repeat split; try congruence.
  all: intros v; rewrite E2; apply E1.
Qed.

Lemma ledger_checkRateLimit (u : Id) (now : Z) (i : Id) (w : World) :
  sameLedger w (snd (checkRateLimit u now i w)).
Proof.
  unfold checkRateLimit. mrun.
  destruct (findWindow u (windowOf now) (db w)) as [cw|].
  - destruct (requestCount cw >=? _); mrun; repeat split; reflexivity.
  - destruct (existsb _ _); mrun; repeat split; reflexivity.
Qed.

Lemma findQuota_snoc (v u : Id) (d : DB) (q : UserQuota) (l : list UserQuota) :
  q_userId q = u ->
  find (fun x => String.eqb (q_userId x) v) (l ++ [q])
  = match find (fun x => String.eqb (q_userId x) v) l with
    | Some x => Some x
    | None => if String.eqb u v then Some q else None
    end.
Proof.
  intros Hq. destruct (find _ l) eqn:E.
  - apply find_app_some, E.
  - rewrite find_app_none by exact E. cbn. rewrite Hq.
    destruct (String.eqb u v); reflexivity.
Qed.

Lemma ledger_checkStorageQuota (u : Id) (bytes : Z) (w : World) :
  sameLedger w (snd (checkStorageQuota u bytes w)).
Proof.
  unfold checkStorageQuota. mrun.
  destruct (findQuota u (db w)) as [q|] eqn:Eq; mrun.
  - destruct (_ >? _); mrun; apply sameLedger_refl.
  - assert (Hl : sameLedger w
             (with_db (set_userQuotas
                         (userQuotas (db w) ++
                          [mkQuota u 0 DEFAULT_STORAGE_LIMIT DEFAULT_RATE_LIMIT])
                         (db w)) w)).
    { repeat split; try reflexivity. intros v. unfold usageOf, findQuota. mrun.
      rewrite (findQuota_snoc v u (db w)) by reflexivity.
      destruct (find _ (userQuotas (db w))) eqn:Ev; [reflexivity|].
      destruct (String.eqb u v); reflexivity. }
    destruct (_ >? _); mrun; exact Hl.
Qed.

Lemma chargeQuota_user (u : Id) (delta : Z) (q : UserQuota) :
  q_userId (chargeQuota u delta q) = q_userId q.
Proof. unfold chargeQuota. destruct (String.eqb (q_userId q) u); reflexivity. Qed.

Lemma find_map_charge (u v : Id) (delta : Z) (l : list UserQuota) :
  find (fun x => String.eqb (q_userId x) v) (map (chargeQuota u delta) l)
  = option_map (chargeQuota u delta) (find (fun x => String.eqb (q_userId x) v) l).
Proof.
  induction l as [|x l IH]; cbn; [reflexivity|].
  rewrite chargeQuota_user. destruct (String.eqb (q_userId x) v); [reflexivity|exact IH].
Qed.

(** [updateStorageUsage] moves the charged bytes of its user by [delta],
    not below zero, and of no one else. *)
Lemma usageOf_update (u v : Id) (delta : Z) (w : World) :
  usageOf v (db (snd (updateStorageUsage u delta w)))
  = if String.eqb v u then Z.max 0 (usageOf u (db w) + delta)
    else usageOf v (db w).
Proof.
  unfold updateStorageUsage, usageOf. mrun.
  destruct (findQuota u (db w)) as [q|] eqn:Eq; mrun; unfold findQuota in *; mrun.
  - rewrite find_map_charge.
    destruct (String.eqb v u) eqn:Evu.
    + apply String.eqb_eq in Evu. subst v. rewrite Eq. cbn.
      unfold chargeQuota. apply find_some in Eq. destruct Eq as [_ Eq].
      rewrite Eq. reflexivity.
    + destruct (find (fun x => String.eqb (q_userId x) v) (userQuotas (db w)))
        as [x|] eqn:Ev; cbn; [|reflexivity].
      unfold chargeQuota. apply find_some in Ev. destruct Ev as [_ Ev].
      apply String.eqb_eq in Ev. rewrite Ev, Evu. reflexivity.
  - rewrite (findQuota_snoc v u (db w)) by reflexivity.
    destruct (String.eqb v u) eqn:Evu.
    + apply String.eqb_eq in Evu. subst v. rewrite Eq, String.eqb_refl. reflexivity.
    + rewrite String.eqb_sym, Evu.
      destruct (find (fun x => String.eqb (q_userId x) v) (userQuotas (db w)));
        reflexivity.
Qed.

Lemma link_tx_cases (a : UserAsset) (h : string) (w : World) :
  (exists e, transaction (insertAsset a ;;; bumpRefCount h 1 ;;; ret tt) w
             = (Throw e, w))
  \/ transaction (insertAsset a ;;; bumpRefCount h 1 ;;; ret tt) w
     = (Ok tt,
        with_db (set_files (map (addRef h 1) (files (db w)))
                   (set_userAssets (userAssets (db w) ++ [a]) (db w))) w).
Proof.
  destruct (insertAsset_cases a w) as [[e He] | (He & _)].
  - left. exists e. unfold transaction. unfold bind at 1. rewrite He.
    rewrite with_db_same. reflexivity.
  - right. unfold transaction. unfold bind at 1. rewrite He.
    unfold bumpRefCount. mrun. reflexivity.
Qed.

Lemma confirm_tx_cases (h : string) (sz : Z) (a : UserAsset) (w : World) :
  (exists e, transaction (upsertFile h sz ;;; insertAsset a) w = (Throw e, w))
  \/ (exists w',
        transaction (upsertFile h sz ;;; insertAsset a) w = (Ok tt, w')
        /\ userAssets (db w') = userAssets (db w) ++ [a]
        /\ userQuotas (db w') = userQuotas (db w)
        /\ folders (db w') = folders (db w)
        /\ s3 w' = s3 w
        /\ exists f, In f (files (db w')) /\ hash f = h
                     /\ size f = recordedSize h sz (db w)).
Proof.
  assert (Hup : exists w1, upsertFile h sz w = (Ok tt, w1)
                  /\ userAssets (db w1) = userAssets (db w)
                  /\ userQuotas (db w1) = userQuotas (db w)
                  /\ folders (db w1) = folders (db w)
                  /\ s3 w1 = s3 w
                  /\ exists f, In f (files (db w1)) /\ hash f = h
                               /\ size f = recordedSize h sz (db w)).
  { unfold upsertFile, bumpRefCount, recordedSize. mrun.
    destruct (findFile h (db w)) as [f0|] eqn:Ef; mrun;
      eexists; (split; [reflexivity|]); mrun; repeat split; try reflexivity.
    - apply find_some in Ef. destruct Ef as [Hf0 E]. apply String.eqb_eq in E.
      exists (addRef h 1 f0). split; [apply in_map, Hf0|].
      rewrite addRef_hash, addRef_size. auto.
    - exists (mkFile h sz h 1). split; [|auto].
      apply in_or_app. right. left. reflexivity. }
  destruct Hup as (w1 & Hup & Ha & Hq & Hf & Hs & f & Hfin & Hfh & Hfs).
  destruct (insertAsset_cases a w1) as [[e He] | (He & _)].
  - left. exists e. unfold transaction. unfold bind at 1. rewrite Hup, He.
    destruct w as [d k], w1 as [d1 k1]. cbn in Hs. subst k1. reflexivity.
  - right. eexists. unfold transaction. unfold bind at 1. rewrite Hup, He.
    split; [reflexivity|]. mrun. rewrite Ha. repeat split; auto.
    exists f. auto.
Qed.

Lemma getUpload_handler_cases (u : Id) (input : UploadInput) (i : Id) (w : World) :
  let res := getUploadPresignedUrl_handler u input i w in
  sameLedger w (snd res)
  \/ (exists f,
        fst res = Ok true
        /\ findFile (in_hash input) (db (snd (checkStorageQuota u (in_size input) w)))
           = Some f
        /\ userAssets (db (snd res))
           = userAssets (db w)
             ++ [mkAsset i (filename input) u (in_folderId input) (hash f) None]
        /\ usageOf u (db (snd res)) = Z.max 0 (usageOf u (db w) + in_size input)
        /\ s3 (snd res) = s3 w).
Proof.
  intros res. remember res as res0 eqn:Hres. unfold res in Hres. clear res.
  unfold getUploadPresignedUrl_handler in Hres. unfold bind at 1 in Hres.
  pose proof (ledger_checkStorageQuota u (in_size input) w) as L1.
  destruct (checkStorageQuota u (in_size input) w) as [[[]| |] w1];
    cbn [fst snd] in *; try (subst res0; left; exact L1).
  unfold bind at 1, getDB in Hres.
  destruct (findFile (in_hash input) (db w1)) as [f|] eqn:Ef;
    [|subst res0; left; exact L1].
  unfold bind at 1 in Hres.
  destruct (link_tx_cases
              (mkAsset i (filename input) u (in_folderId input) (hash f) None)
              (hash f) w1) as [[e He] | He]; rewrite He in Hres.
  - subst res0. left. exact L1.
  - right. exists f. unfold bind at 1 in Hres.
    match type of Hres with context [updateStorageUsage u ?s ?w2] =>
      pose proof (usageOf_update u u s w2) as Hu;
      destruct (updateStorageUsage_frame u s w2) as (Ho & _ & Ha & _ & _ & Hs);
      destruct (updateStorageUsage u s w2) as [o w3]
    end.
    cbn [fst snd] in *. subst o. unfold ret in Hres. subst res0. cbn [fst snd].
    destruct L1 as (_ & La & _ & Ls & Lu).
    rewrite String.eqb_refl in Hu.
    repeat split.
    + rewrite Ha. cbn. rewrite La. reflexivity.
    + rewrite Hu. unfold usageOf at 1, findQuota. cbn.
      fold (findQuota u (db w1)). fold (usageOf u (db w1)). rewrite Lu. reflexivity.
    + rewrite Hs. cbn. exact Ls.
Qed.

Lemma confirmUpload_handler_cases (u : Id) (input : UploadInput) (i : Id)
    (w : World) :
  let res := confirmUpload_handler u input i w in
  (fst res <> Ok tt /\ snd res = w
   /\ (existsb (String.eqb (in_hash input)) (s3 w) = false ->
       fst res = Throw NOT_FOUND))
  \/ (fst res = Ok tt
      /\ existsb (String.eqb (in_hash input)) (s3 w) = true
      /\ userAssets (db (snd res))
         = userAssets (db w)
           ++ [mkAsset i (filename input) u (in_folderId input) (in_hash input) None]
      /\ usageOf u (db (snd res)) = Z.max 0 (usageOf u (db w) + in_size input)
      /\ s3 (snd res) = s3 w
      /\ exists f, In f (files (db (snd res))) /\ hash f = in_hash input
                   /\ size f = recordedSize (in_hash input) (in_size input) (db w)).
Proof.
  intros res. remember res as res0 eqn:Hres. unfold res in Hres. clear res.
  unfold confirmUpload_handler in Hres. unfold bind at 1, getS3 in Hres.
  destruct (existsb (String.eqb (in_hash input)) (s3 w)) eqn:Eblob;
    cbn [negb] in Hres.
  2:{ subst res0. left. repeat split; discriminate. }
  unfold bind at 1 in Hres.
  destruct (confirm_tx_cases (in_hash input) (in_size input)
              (mkAsset i (filename input) u (in_folderId input) (in_hash input) None)
              w) as [[e He] | (w2 & He & Ha2 & Hq2 & Hf2 & Hs2 & f & Hfin & Hfh & Hfs)];
    rewrite He in Hres.
  - subst res0. left. repeat split; discriminate.
  - right.
    pose proof (usageOf_update u u (in_size input) w2) as Hu.
    destruct (updateStorageUsage_frame u (in_size input) w2)
      as (Ho & Hfl & Ha & _ & _ & Hs).
    rewrite String.eqb_refl in Hu. subst res0.
    split; [exact Ho|]. split; [reflexivity|].
    split; [rewrite Ha; exact Ha2|].
    split; [rewrite Hu; unfold usageOf, findQuota; rewrite Hq2; reflexivity|].
    split; [rewrite Hs; exact Hs2|].
    exists f. rewrite Hfl. auto.
Qed.

Lemma quotas_checkRateLimit (u : Id) (now : Z) (i : Id) (w : World) :
  userQuotas (db (snd (checkRateLimit u now i w))) = userQuotas (db w).
Proof.
  unfold checkRateLimit. mrun.
  destruct (findWindow u (windowOf now) (db w)) as [cw|].
  - destruct (requestCount cw >=? _); mrun; reflexivity.
  - destruct (existsb _ _); mrun; reflexivity.
Qed.

Lemma checkStorageQuota_outcome (u : Id) (bytes : Z) (w : World) :
  fst (checkStorageQuota u bytes w)
  = if (usageOf u (db w) + bytes >? limitOf u (db w))
    then Throw PAYLOAD_TOO_LARGE else Ok tt.
Proof.
  unfold checkStorageQuota, usageOf, limitOf. mrun.
  destruct (findQuota u (db w)) as [q|]; mrun; cbn [storageUsed storageLimit];
    match goal with |- context [if ?c then _ else _] => destruct c end;
    reflexivity.
Qed.

Lemma upsertFile_run (h : string) (sz : Z) (w : World) :
  upsertFile h sz w
  = (Ok tt, with_db (set_files (uploadedFiles h sz (files (db w))) (db w)) w).
Proof.
  unfold upsertFile, bumpRefCount, uploadedFiles, findFile. mrun.
  destruct (find _ (files (db w))); reflexivity.
Qed.

Lemma confirm_tx_run (h : string) (sz : Z) (a : UserAsset) (w : World) :
  let tx := transaction (upsertFile h sz ;;; insertAsset a) w in
  (fst tx <> Ok tt /\ snd tx = w)
  \/ tx = (Ok tt,
           with_db (set_userAssets (userAssets (db w) ++ [a])
                      (set_files (uploadedFiles h sz (files (db w))) (db w))) w).
Proof.
  intros tx. subst tx. unfold transaction, bind.
  rewrite !upsertFile_run.
  destruct (insertAsset_cases a
              (with_db (set_files (uploadedFiles h sz (files (db w))) (db w)) w))
    as [[e He] | (He & _)]; rewrite !He.
  - left. split; [discriminate|]. destruct w; reflexivity.
  - right. reflexivity.
Qed.

Lemma link_tx_run (a : UserAsset) (h : string) (w : World) :
  let tx := transaction (insertAsset a ;;; bumpRefCount h 1 ;;; ret tt) w in
  (fst tx <> Ok tt /\ snd tx = w)
  \/ tx = (Ok tt,
           with_db (set_files (map (addRef h 1) (files (db w)))
                      (set_userAssets (userAssets (db w) ++ [a]) (db w))) w).
Proof.
  intros tx. subst tx.
  destruct (link_tx_cases a h w) as [[e He] | He]; rewrite He.
  - left. split; [discriminate|reflexivity].
  - right. reflexivity.
Qed.

Lemma usage_after_charge (u : Id) (delta : Z) (w : World) :
  let w' := snd (updateStorageUsage u delta w) in
  fst (updateStorageUsage u delta w) = Ok tt
  /\ files (db w') = files (db w)
  /\ userAssets (db w') = userAssets (db w)
  /\ folders (db w') = folders (db w)
  /\ s3 w' = s3 w
  /\ rateLimitWindows (db w') = rateLimitWindows (db w)
  /\ usageOf u (db w') = Z.max 0 (usageOf u (db w) + delta)
  /\ (forall v, v <> u -> usageOf v (db w') = usageOf v (db w)).
Proof.
  intros w'. subst w'.
  destruct (updateStorageUsage_frame u delta w) as (Ho & Hf & Ha & Hfo & Hw & Hs).
  repeat split; auto.
  - rewrite usageOf_update, String.eqb_refl. reflexivity.
  - intros v Hv. rewrite usageOf_update.
    apply String.eqb_neq in Hv. rewrite Hv. reflexivity.
Qed.

Lemma windows_checkStorageQuota (u : Id) (bytes : Z) (w : World) :
  rateLimitWindows (db (snd (checkStorageQuota u bytes w)))
  = rateLimitWindows (db w).
Proof.
  unfold checkStorageQuota. mrun.
  destruct (findQuota u (db w)) as [q|]; mrun;
    match goal with |- context [if ?c then _ else _] => destruct c end;
    reflexivity.
Qed.

(** C3 (as the code has it).  For [getUploadPresignedUrl] and
    [confirmUpload], step by step.  The rate limiter runs first: a request
    that finds its window full throws TOO_MANY_REQUESTS and leaves the
    world as it was, whatever the quota; whatever its outcome the limiter
    writes only the rate windows, and when it does not admit the request
    the call ends there.  An input the parser refuses ends the call with
    BAD_REQUEST.  Then [getUploadPresignedUrl] checks the quota on the
    declared size, which writes at most a default quota row, and throws
    PAYLOAD_TOO_LARGE when over; within quota and with no file row of the
    hash it returns and writes nothing more; with a file row of the hash it
    runs the transaction that inserts the asset row and raises the
    reference count.  [confirmUpload] throws NOT_FOUND when the object is
    not in the bucket and otherwise runs the transaction that upserts the
    file row and inserts the asset row.  When the transaction of either
    procedure does not complete, the call ends with its outcome and leaves
    the world as it was before the transaction.  A call that returns
    normally after its transaction has appended the asset row, written the
    files table as the transaction does, left the folders and the bucket
    alone, and charged the declared size to the caller and to no one
    else.  Nothing after the limiter writes the rate windows: the count of
    an admitted request stays. *)
Theorem upload_steps_and_failure (w : World) (r : Request) :
  isUpload (r_call r) ->
  let u := r_user r in
  let res := handle r w in
  let gate := checkRateLimit u (r_now r) (r_windowId r) w in
  let w1 := snd gate in
  (forall cw, findWindow u (windowOf (r_now r)) (db w) = Some cw ->
              requestCount cw >= userRateLimit u (db w) ->
              res = (Throw TOO_MANY_REQUESTS, w))
  /\ sameLedger w w1
  /\ (fst gate <> Ok tt -> res = gate)
  /\ (fst gate = Ok tt -> callValid (r_call r) = false ->
        res = (Throw BAD_REQUEST, w1))
  /\ (forall input i, r_call r = GetUploadPresignedUrl input i ->
        fst gate = Ok tt -> uploadInputValid input = true ->
        let w2 := snd (checkStorageQuota u (in_size input) w1) in
        sameLedger w w2
        /\ rateLimitWindows (db w2) = rateLimitWindows (db w1)
        /\ (usageOf u (db w) + in_size input > limitOf u (db w) ->
              res = (Throw PAYLOAD_TOO_LARGE, w2))
        /\ (usageOf u (db w) + in_size input <= limitOf u (db w) ->
              match findFile (in_hash input) (db w) with
              | None => res = (Ok tt, w2)
              | Some f =>
                  let a := mkAsset i (filename input) u (in_folderId input)
                                   (hash f) None in
                  let tx := transaction
                              (insertAsset a ;;; bumpRefCount (hash f) 1 ;;; ret tt)
                              w2 in
                  (fst tx <> Ok tt -> res = tx /\ snd tx = w2)
                  /\ (fst res = Ok tt ->
                        userAssets (db (snd res)) = userAssets (db w) ++ [a]
                        /\ files (db (snd res))
                           = map (addRef (hash f) 1) (files (db w))
                        /\ folders (db (snd res)) = folders (db w)
                        /\ s3 (snd res) = s3 w
                        /\ rateLimitWindows (db (snd res))
                           = rateLimitWindows (db w1)
                        /\ usageOf u (db (snd res))
                           = Z.max 0 (usageOf u (db w) + in_size input)
                        /\ (forall v, v <> u ->
                              usageOf v (db (snd res)) = usageOf v (db w)))
              end))
  /\ (forall input i, r_call r = ConfirmUpload input i ->
        fst gate = Ok tt -> uploadInputValid input = true ->
        let a := mkAsset i (filename input) u (in_folderId input)
                         (in_hash input) None in
        let tx := transaction
                    (upsertFile (in_hash input) (in_size input) ;;; insertAsset a)
                    w1 in
        (~ In (in_hash input) (s3 w) -> res = (Throw NOT_FOUND, w1))
        /\ (In (in_hash input) (s3 w) -> fst tx <> Ok tt ->
              res = tx /\ snd tx = w1)
        /\ (fst res = Ok tt ->
              In (in_hash input) (s3 w)
              /\ userAssets (db (snd res)) = userAssets (db w) ++ [a]
              /\ files (db (snd res))
                 = uploadedFiles (in_hash input) (in_size input) (files (db w))
              /\ folders (db (snd res)) = folders (db w)
              /\ s3 (snd res) = s3 w
              /\ rateLimitWindows (db (snd res)) = rateLimitWindows (db w1)
              /\ usageOf u (db (snd res))
                 = Z.max 0 (usageOf u (db w) + in_size input)
              /\ (forall v, v <> u ->
                    usageOf v (db (snd res)) = usageOf v (db w)))).
Proof.
  intros Hup u res gate w1.
  pose proof (ledger_checkRateLimit u (r_now r) (r_windowId r) w) as L0.
  pose proof (quotas_checkRateLimit u (r_now r) (r_windowId r) w) as Q0.
  fold gate in L0, Q0. fold w1 in L0, Q0.
  assert (Hres : res = match gate with
                       | (Ok _, w') =>
                           (if callValid (r_call r)
                            then runCall u (r_now r) (r_fuel r) (r_call r)
                            else throw BAD_REQUEST) w'
                       | (Throw e, w') => (Throw e, w')
                       | (OutOfFuel, w') => (OutOfFuel, w')
                       end) by reflexivity.
  split.
  { intros cw Hcw Hge. rewrite Hres. unfold gate.
    rewrite (@checkRateLimit_reject u (r_now r) (r_windowId r) w cw Hcw Hge).
    reflexivity. }
  split; [exact L0|].
  assert (Hu1 : usageOf u (db w1) = usageOf u (db w)) by apply L0.
  assert (Hl1 : limitOf u (db w1) = limitOf u (db w))
    by (unfold limitOf, findQuota; rewrite Q0; reflexivity).
  assert (Hf1 : files (db w1) = files (db w)) by apply L0.
  assert (Ha1 : userAssets (db w1) = userAssets (db w)) by apply L0.
  assert (Hfo1 : folders (db w1) = folders (db w)) by apply L0.
  assert (Hs1 : s3 w1 = s3 w) by apply L0.
  assert (Hus1 : forall v, usageOf v (db w1) = usageOf v (db w)) by apply L0.
  clearbody res. subst w1. destruct gate as [[[]| |] w1]; cbn [fst snd] in *.
  2,3: (split; [intros _; exact Hres|]); repeat split; intros; congruence.
  split; [intros Hne; congruence|].
  split.
  { intros _ Hv. rewrite Hres, Hv. reflexivity. }
  destruct (r_call r) as [input i|input i| | | | | | | | | | | | | | | |] eqn:Ecall;
    try destruct Hup; cbn [callValid runCall] in Hres.
  - (* getUploadPresignedUrl *)
    split; [|intros input' i' Hcontra; discriminate].
    intros input' i' [= <- <-] _ Hvalid. rewrite Hvalid in Hres.
    pose proof (ledger_checkStorageQuota u (in_size input) w1) as L1.
    pose proof (checkStorageQuota_outcome u (in_size input) w1) as Hq.
    rewrite Hu1, Hl1 in Hq.
    assert (L2 : sameLedger w (snd (checkStorageQuota u (in_size input) w1)))
      by (eapply sameLedger_trans; [exact L0|exact L1]).
    pose proof (windows_checkStorageQuota u (in_size input) w1) as W2.
    cbv zeta. split; [exact L2|]. split; [exact W2|].
    unfold void, getUploadPresignedUrl_handler in Hres.
    unfold bind at 1 in Hres. unfold bind at 1 in Hres.
    destruct (checkStorageQuota u (in_size input) w1) as [o w2].
    cbn [fst snd] in *. subst o.
    split.
    { intros Hgt.
      destruct (Z.gtb_spec (usageOf u (db w) + in_size input) (limitOf u (db w)));
        [|lia].
      exact Hres. }
    intros Hle.
    destruct (Z.gtb_spec (usageOf u (db w) + in_size input) (limitOf u (db w)));
      [lia|].
    unfold bind at 1, getDB in Hres.
    assert (Hf2 : files (db w2) = files (db w)) by apply L2.
    unfold findFile in *. rewrite Hf2 in Hres.
    destruct (find (fun f => String.eqb (hash f) (in_hash input)) (files (db w)))
      as [f|] eqn:Ef.
    2:{ exact Hres. }
    cbv zeta. unfold bind at 1 in Hres.
    set (a := mkAsset i (filename input) u (in_folderId input) (hash f) None) in *.
    destruct (link_tx_run a (hash f) w2) as [[Hfail Hw] | Hok]; cbv zeta in *.
    + split; [|intros Hok; exfalso].
      * intros _. split; [|exact Hw]. rewrite Hres.
        destruct (transaction (insertAsset a ;;; bumpRefCount (hash f) 1 ;;; ret tt) w2)
          as [[[]| |] w3]; cbn [fst] in *; [congruence|reflexivity..].
      * rewrite Hres in Hok.
        destruct (transaction (insertAsset a ;;; bumpRefCount (hash f) 1 ;;; ret tt) w2)
          as [[[]| |] w3]; cbn [fst] in *; [congruence|discriminate..].
    + rewrite Hok in *. cbn [fst snd]. split; [intros Hne; congruence|].
      intros _. unfold bind at 1 in Hres.
      match type of Hres with context [updateStorageUsage u ?s ?w3] =>
        destruct (usage_after_charge u s w3)
          as (Ho & Hfl & Hal & Hfol & Hsl & Hwl & Hul & Hol);
        destruct (updateStorageUsage u s w3) as [o w4]
      end.
      cbn [fst snd] in *. subst o. unfold ret in Hres. rewrite Hres. cbn [snd].
      destruct L2 as (_ & La2 & Lfo2 & Ls2 & Lu2).
      rewrite Hal, Hfl, Hfol, Hsl, Hwl, Hul. cbn [db with_db userAssets files folders
        set_files set_userAssets s3 rateLimitWindows].
      rewrite La2, Hf2, Lfo2, Ls2, W2.
      repeat split; auto.
      * unfold usageOf at 1, findQuota. cbn [db with_db userQuotas set_files set_userAssets].
        fold (findQuota u (db w2)). fold (usageOf u (db w2)). rewrite Lu2. reflexivity.
      * intros v Hv. rewrite (Hol v Hv). unfold usageOf at 1, findQuota.
        cbn [db with_db userQuotas set_files set_userAssets].
        fold (findQuota v (db w2)). fold (usageOf v (db w2)). apply Lu2.
  - (* confirmUpload *)
    split; [intros input' i' Hcontra; discriminate|].
    intros input' i' [= <- <-] _ Hvalid. rewrite Hvalid in Hres.
    cbv zeta.
    set (a := mkAsset i (filename input) u (in_folderId input) (in_hash input) None).
    unfold confirmUpload_handler in Hres. unfold bind at 1, getS3 in Hres.
    fold a in Hres.
    assert (Hblob : existsb (String.eqb (in_hash input)) (s3 w1) = true
                    <-> In (in_hash input) (s3 w)).
    { rewrite Hs1, existsb_exists. split.
      - intros (x & Hx & E). apply String.eqb_eq in E. subst x. exact Hx.
      - intros Hin. exists (in_hash input). split; [exact Hin|apply String.eqb_refl]. }
    destruct (existsb (String.eqb (in_hash input)) (s3 w1)) eqn:Eb; cbn [negb] in Hres.
    2:{ split; [intros _; exact Hres|].
        split; [intros Hin; apply Hblob in Hin; discriminate|].
        intros Hok. rewrite Hres in Hok. discriminate. }
    assert (Hin : In (in_hash input) (s3 w)) by (apply Hblob; reflexivity).
    split; [intros Hno; contradiction|].
    unfold bind at 1 in Hres.
    destruct (confirm_tx_run (in_hash input) (in_size input) a w1)
      as [[Hfail Hw] | Hok]; cbv zeta in *.
    + split; [|intros Hok; exfalso].
      * intros _ _. split; [|exact Hw]. rewrite Hres.
        destruct (transaction (upsertFile (in_hash input) (in_size input) ;;;
                               insertAsset a) w1)
          as [[[]| |] w3]; cbn [fst] in *; [congruence|reflexivity..].
      * rewrite Hres in Hok.
        destruct (transaction (upsertFile (in_hash input) (in_size input) ;;;
                               insertAsset a) w1)
          as [[[]| |] w3]; cbn [fst] in *; [congruence|discriminate..].
    + rewrite Hok in *. cbn [fst snd]. split; [intros _ Hne; congruence|].
      intros _.
      match type of Hres with context [updateStorageUsage u ?s ?w3] =>
        destruct (usage_after_charge u s w3)
          as (Ho & Hfl & Hal & Hfol & Hsl & Hwl & Hul & Hol);
        destruct (updateStorageUsage u s w3) as [o w4]
      end.
      cbn [fst snd] in *. subst o. rewrite Hres. cbn [snd].
      rewrite Hal, Hfl, Hfol, Hsl, Hwl, Hul. cbn [db with_db userAssets files folders
        set_files set_userAssets s3 rateLimitWindows].
      rewrite Ha1, Hf1, Hfo1, Hs1.
      repeat split; auto.
      * unfold usageOf at 1, findQuota. cbn [db with_db userQuotas set_files set_userAssets].
        fold (findQuota u (db w1)). fold (usageOf u (db w1)). rewrite Hu1. reflexivity.
      * intros v Hv. rewrite (Hol v Hv). unfold usageOf at 1, findQuota.
        cbn [db with_db userQuotas set_files set_userAssets].
        fold (findQuota v (db w1)). fold (usageOf v (db w1)). apply Hus1.
Qed.

Lemma upload_steps_and_failure_witness :
  let res := handle confirmA quotaWorld in
  let a := mkAsset "a1" "report.pdf" "alice" None hashA None in
  isUpload (r_call confirmA)
  /\ fst res = Ok tt
  /\ In hashA (s3 quotaWorld)
  /\ userAssets (db (snd res)) = userAssets (db quotaWorld) ++ [a]
  /\ files (db (snd res)) = [mkFile hashA 50 hashA 2]
  /\ folders (db (snd res)) = folders (db quotaWorld)
  /\ s3 (snd res) = s3 quotaWorld
  /\ rateLimitWindows (db (snd res)) = [mkWindow "w1" "alice" 1000 1]
  /\ usageOf "alice" (db (snd res)) = 140
  /\ (forall v, v <> "alice"%string ->
        usageOf v (db (snd res)) = usageOf v (db quotaWorld))
  /\ handle confirmB quotaWorld
     = (Throw NOT_FOUND, snd (checkRateLimit "alice" 1000 "w1" quotaWorld)).
Proof.
  cbv zeta. split; [exact I|]. split; [reflexivity|].
  destruct (upload_steps_and_failure quotaWorld confirmA I)
    as (_ & _ & _ & _ & _ & Hconfirm).
  destruct (Hconfirm (uploadA 50) "a1" eq_refl eq_refl eq_refl) as (_ & _ & Hok).
  destruct (Hok eq_refl) as (H1 & H2 & H3 & H4 & H5 & H6 & H7 & H8).
  repeat (split; [assumption|]).
  destruct (upload_steps_and_failure quotaWorld confirmB I)
    as (_ & _ & _ & _ & _ & HconfirmB).
  destruct (HconfirmB (mkUpload "report.pdf" 50 hashB None) "a1"
              eq_refl eq_refl eq_refl) as (Hmiss & _).
  apply Hmiss. intros [H|[]]. discriminate H.
Defined.

(** C3 as stated fails on the order of the steps and on what a failure
    leaves behind.  In [quotaWorld]: alice's presign request over quota
    throws PAYLOAD_TOO_LARGE after the limiter has already inserted her
    window row; her confirm request for the same 50 bytes returns normally,
    without any quota check, and leaves 140 bytes charged against a limit
    of 100; her confirm request for an object that is not in the bucket
    throws NOT_FOUND and the window row stays.  With her window used up, the
    presign request throws TOO_MANY_REQUESTS, not PAYLOAD_TOO_LARGE: the
    limiter runs before the quota check. *)
Lemma upload_order_and_rollback_differ :
  handle presignA quotaWorld
  = (Throw PAYLOAD_TOO_LARGE,
     with_db (set_rateLimitWindows [mkWindow "w1" "alice" 1000 1] (db quotaWorld))
             quotaWorld)
  /\ fst (handle confirmA quotaWorld) = Ok tt
  /\ usageOf "alice" (db (snd (handle confirmA quotaWorld))) = 140
  /\ limitOf "alice" (db (snd (handle confirmA quotaWorld))) = 100
  /\ handle confirmB quotaWorld
     = (Throw NOT_FOUND,
        with_db (set_rateLimitWindows [mkWindow "w1" "alice" 1000 1] (db quotaWorld))
                quotaWorld)
  /\ snd (handle confirmB quotaWorld) <> quotaWorld
  /\ usageOf "alice" (db fullWindowWorld) + 50 > limitOf "alice" (db fullWindowWorld)
  /\ handle presignA fullWindowWorld = (Throw TOO_MANY_REQUESTS, fullWindowWorld).
Proof.
  repeat split; try reflexivity.
  vm_compute. discriminate.
Qed.

(** ** Charged bytes *)

(** Where the declared size is the size recorded for the hash (always so
    for the first upload of a hash), charge and release cancel: confirming
    an upload and deleting the asset it created returns the user's charged
    bytes to what they were. *)
Lemma charge_release_inverse (w : World) (u : Id) (input : UploadInput) (i : Id) :
  dedupOk w -> 0 <= usageOf u (db w) -> 0 < in_size input ->
  recordedSize (in_hash input) (in_size input) (db w) = in_size input ->
  fst (confirmUpload_handler u input i w) = Ok tt ->
  let w1 := snd (confirmUpload_handler u input i w) in
  fst (deleteAsset_handler u i w1) = Ok tt
  /\ usageOf u (db (snd (deleteAsset_handler u i w1))) = usageOf u (db w).
Proof.
  intros Hok Hused Hpos Hrec Hconf w1.
  assert (Hok1 : dedupOk w1) by (apply keeps_confirmUpload, Hok).
  destruct (confirmUpload_handler_cases u input i w)
    as [(Hno & _) | (_ & _ & Ha & Hus & _ & f & Hf & Hh & Hsz)];
    [cbv zeta in Hno; congruence|].
  cbv zeta in Ha, Hus, Hf. fold w1 in Ha, Hus, Hf.
  set (a := mkAsset i (filename input) u (in_folderId input) (in_hash input) None)
    in Ha.
  assert (Hin : In a (userAssets (db w1)))
    by (rewrite Ha; apply in_or_app; right; left; reflexivity).
  destruct Hok1 as [Hst Hinv].
  pose proof (deleteAsset_run w1 u a f Hst Hinv Hin eq_refl Hf Hh) as Hrun.
  change (a_id a) with i in Hrun. rewrite Hrun.
  destruct (updateStorageUsage_frame u (- size f) (releasedWorld a f w1))
    as (Ho & _).
  split; [exact Ho|].
  rewrite usageOf_update, String.eqb_refl.
  change (usageOf u (db (releasedWorld a f w1))) with (usageOf u (db w1)).
  rewrite Hus, Hsz, Hrec. lia.
Qed.

(** C2, evaluated where it fails.  After [sizeScenario] alice is charged
    the 100 bytes of her one asset.  She uploads content carrying the hash
    of bob's 50-byte object and declares 30 bytes: she is charged 30, by
    [confirmUpload] and by the deduplicated link alike.  Purging that asset
    releases the 50 bytes recorded on the file row, so her charge ends at
    80, not at the 100 it started from, while her remaining asset was
    declared as 100 bytes. *)
Theorem upload_then_purge_mismatch :
  let w0 := run sizeScenario emptyWorld in
  let viaConfirm := after w0 confirmMismatch in
  let viaLink := after w0 linkMismatch in
  usageOf "alice" (db w0) = 100
  /\ map assetKey (userAssets (db w0))
     = [("b1", "bob", hashA); ("a0", "alice", hashB)]
  /\ map (fun f => (hash f, size f)) (files (db w0)) = [(hashA, 50); (hashB, 100)]
  /\ usageOf "alice" (db viaConfirm) = 130
  /\ usageOf "alice" (db viaLink) = 130
  /\ map assetKey (userAssets (db viaConfirm))
     = [("b1", "bob", hashA); ("a0", "alice", hashB); ("a1", "alice", hashA)]
  /\ userAssets (db viaLink) = userAssets (db viaConfirm)
  /\ usageOf "alice" (db (after viaConfirm purgeMismatch)) = 80
  /\ usageOf "alice" (db (after viaLink purgeMismatch)) = 80
  /\ map assetKey (userAssets (db (after viaConfirm purgeMismatch)))
     = [("b1", "bob", hashA); ("a0", "alice", hashB)].
Proof.
  vm_compute. repeat split; reflexivity.
Qed.

(** ** The rate limiter under any limit *)

Lemma find_map_same {A} (p : A -> bool) (g : A -> A) (l : list A) :
  (forall x, p (g x) = p x) -> find p (map g l) = option_map g (find p l).
Proof.
  intros H. induction l as [|x l IH]; cbn; [reflexivity|].
  rewrite H. destruct (p x); [reflexivity|exact IH].
Qed.

Lemma findWindow_bump (u : Id) (ws : Z) (w : World) (cw : RateLimitWindow) :
  findWindow u ws (db w) = Some cw ->
  findWindow u ws
    (db (with_db (set_rateLimitWindows
                    (map (bumpWindow (w_id cw)) (rateLimitWindows (db w))) (db w)) w))
  = Some (mkWindow (w_id cw) (w_userId cw) (windowStart cw) (requestCount cw + 1)).
Proof.
  unfold findWindow. cbn. intros H. rewrite find_map_same.
  - rewrite H. cbn. unfold bumpWindow. rewrite String.eqb_refl. reflexivity.
  - intros x. unfold bumpWindow. destruct (String.eqb (w_id x) (w_id cw)); reflexivity.
Qed.

Lemma burst_open (u : Id) (ws : Z) (reqs : list (Z * Id)) :
  forall (w : World) (cw : RateLimitWindow),
    (forall now i, In (now, i) reqs -> windowOf now = ws) ->
    findWindow u ws (db w) = Some cw ->
    fst (burst u reqs w)
    = map (fun j => if requestCount cw + Z.of_nat j <? userRateLimit u (db w)
                    then Ok tt else Throw TOO_MANY_REQUESTS)
          (seq 0 (List.length reqs))
    /\ windowCount u ws (snd (burst u reqs w))
       = Some (Z.max (requestCount cw)
                 (Z.min (requestCount cw + Z.of_nat (List.length reqs))
                        (userRateLimit u (db w)))).
Proof.
  induction reqs as [|[now i] reqs IH]; intros w cw Hws Hcw.
  - cbn. split; [reflexivity|]. unfold windowCount. rewrite Hcw. cbn.
    f_equal. lia.
  - assert (Hnow : windowOf now = ws) by (apply (Hws now i); left; reflexivity).
    assert (Hrest : forall t j, In (t, j) reqs -> windowOf t = ws)
      by (intros t j Hin; apply (Hws t j); right; exact Hin).
    cbn [burst List.length seq map fst snd].
    destruct (Z_lt_ge_dec (requestCount cw) (userRateLimit u (db w))) as [Hlt|Hge].
    + rewrite (@checkRateLimit_bump u now i w cw) by (rewrite ?Hnow; assumption).
      cbn [fst snd].
      set (w1 := with_db _ w).
      assert (Hcw1 := findWindow_bump u ws w cw Hcw). fold w1 in Hcw1.
      destruct (IH w1 _ Hrest Hcw1) as [Ho Hc].
      change (userRateLimit u (db w1)) with (userRateLimit u (db w)) in Ho, Hc.
      cbn [requestCount] in Ho, Hc. split.
      * rewrite Ho. f_equal.
        { rewrite Z.add_0_r. destruct (Z.ltb_spec (requestCount cw)
                                         (userRateLimit u (db w))); [reflexivity|lia]. }
        rewrite <- seq_shift, map_map. apply map_ext. intros j.
        replace (requestCount cw + 1 + Z.of_nat j)
          with (requestCount cw + Z.of_nat (S j)) by lia. reflexivity.
      * rewrite Hc. f_equal. lia.
    + rewrite (@checkRateLimit_reject u now i w cw) by (rewrite ?Hnow; assumption).
      cbn [fst snd]. destruct (IH w cw Hrest Hcw) as [Ho Hc]. split.
      * rewrite Ho. f_equal.
        { rewrite Z.add_0_r. destruct (Z.ltb_spec (requestCount cw)
                                         (userRateLimit u (db w))); [lia|reflexivity]. }
        rewrite <- seq_shift, map_map. apply map_ext. intros j.
        destruct (Z.ltb_spec (requestCount cw + Z.of_nat j) (userRateLimit u (db w)));
          destruct (Z.ltb_spec (requestCount cw + Z.of_nat (S j))
                      (userRateLimit u (db w))); try reflexivity; lia.
      * rewrite Hc. f_equal. lia.
Qed.

(** X1 (checkRateLimit).  Under any rate limit, of the requests a user
    makes inside one window, starting with no row for that window, exactly
    the first [max 1 limit] are admitted and every later one is answered
    TOO_MANY_REQUESTS; the window row then counts the admitted requests.
    The request that opens a window is admitted without a look at the
    limit, so a limit of zero or less still lets one request through per
    window. *)
Theorem rate_limiter_admits_limit_per_window
    (w : World) (u : Id) (ws : Z) (now : Z) (i : Id) (reqs : list (Z * Id)) :
  windowOf now = ws ->
  (forall t j, In (t, j) reqs -> windowOf t = ws) ->
  findWindow u ws (db w) = None ->
  freshWindowId i w ->
  let limit := userRateLimit u (db w) in
  let s := burst u ((now, i) :: reqs) w in
  fst s = map (admitted limit) (seq 0 (S (List.length reqs)))
  /\ windowCount u ws (snd s)
     = Some (Z.min (Z.of_nat (S (List.length reqs))) (Z.max 1 limit)).
Proof.
  intros Hnow Hreqs Hnone Hfresh limit s. subst s limit.
  cbn [burst]. subst ws.
  rewrite (@checkRateLimit_insert u now i w Hnone Hfresh). cbn [fst snd].
  set (w1 := with_db _ w).
  assert (Hcw1 : findWindow u (windowOf now) (db w1)
                 = Some (mkWindow i u (windowOf now) 1)).
  { unfold findWindow, w1. cbn. rewrite find_app_none.
    - cbn. rewrite String.eqb_refl, Z.eqb_refl. reflexivity.
    - apply find_filter_none. exact Hnone. }
  destruct (burst_open u (windowOf now) reqs w1 _ Hreqs Hcw1) as [Ho Hc].
  change (userRateLimit u (db w1)) with (userRateLimit u (db w)) in Ho, Hc.
  cbn [requestCount] in Ho, Hc. split.
  - rewrite Ho. cbn [seq map]. f_equal.
    + unfold admitted. cbn.
      destruct (Z.ltb_spec 0 (Z.max 1 (userRateLimit u (db w)))); [reflexivity|lia].
    + rewrite <- seq_shift, map_map. apply map_ext. intros j. unfold admitted.
      destruct (Z.ltb_spec (1 + Z.of_nat j) (userRateLimit u (db w)));
        destruct (Z.ltb_spec (Z.of_nat (S j)) (Z.max 1 (userRateLimit u (db w))));
        try reflexivity; lia.
  - rewrite Hc. f_equal. lia.
Qed.

Lemma rate_limiter_admits_limit_per_window_witness :
  let w := with_db (set_userQuotas [mkQuota "alice" 0 100 0] emptyDB) emptyWorld in
  let s := burst "alice" [(5000, "w1"); (5400, "w2"); (5999, "w3")] w in
  fst s = [Ok tt; Throw TOO_MANY_REQUESTS; Throw TOO_MANY_REQUESTS]
  /\ windowCount "alice" 5000 (snd s) = Some 1.
Proof.
  apply (rate_limiter_admits_limit_per_window
           (with_db (set_userQuotas [mkQuota "alice" 0 100 0] emptyDB) emptyWorld)
           "alice" 5000 5000 "w1" [(5400, "w2"); (5999, "w3")]).
  - reflexivity.
  - intros t j [E|[E|[]]]; injection E as <- <-; reflexivity.
  - reflexivity.
  - reflexivity.
Defined.

Lemma filter_twice {A} (p q : A -> bool) (l : list A) :
  filter p (filter q l) = filter (fun x => q x && p x) l.
Proof.
  induction l as [|x l IH]; cbn; [reflexivity|].
  destruct (q x); cbn; [|exact IH]. destruct (p x); [f_equal|]; exact IH.
Qed.

Lemma filter_map_same {A} (p : A -> bool) (g : A -> A) (l : list A) :
  (forall x, In x l -> p x = true -> g x = x) ->
  (forall x, p (g x) = p x) ->
  filter p (map g l) = filter p l.
Proof.
  intros Hg Hp. induction l as [|x l IH]; cbn; [reflexivity|].
  rewrite Hp. destruct (p x) eqn:E.
  - rewrite (Hg x (or_introl eq_refl) E). f_equal.
    apply IH. intros y Hy. apply Hg. right. exact Hy.
  - apply IH. intros y Hy. apply Hg. right. exact Hy.
Qed.

(** X2 (checkRateLimit).  The rate limiter of one user leaves every other
    user alone: whatever its outcome, a call writes neither the files,
    folders, assets and quotas nor the bucket, and changes no window row
    of another user.  Of the caller's own rows it drops those that
    started more than a minute before the call, and only in a call that
    opens a new window: a call that finds the current window, or that does
    not return normally, keeps every row of the table with its id, user
    and start, the stale ones too; and a row younger than a minute is
    always kept. *)
Theorem rate_limiter_touches_only_own_windows
    (w : World) (u : Id) (now : Z) (i : Id) :
  NoDup (map w_id (rateLimitWindows (db w))) ->
  let res := checkRateLimit u now i w in
  let other := fun r => negb (String.eqb (w_userId r) u) in
  files (db (snd res)) = files (db w)
  /\ folders (db (snd res)) = folders (db w)
  /\ userAssets (db (snd res)) = userAssets (db w)
  /\ userQuotas (db (snd res)) = userQuotas (db w)
  /\ s3 (snd res) = s3 w
  /\ filter other (rateLimitWindows (db (snd res)))
     = filter other (rateLimitWindows (db w))
  /\ (forall r, In r (rateLimitWindows (db w)) -> now - 60000 <= windowStart r ->
        exists r', In r' (rateLimitWindows (db (snd res))) /\ w_id r' = w_id r
                   /\ windowKey r' = windowKey r)
  /\ (fst res = Ok tt -> findWindow u (windowOf now) (db w) = None ->
        forall r, In r (rateLimitWindows (db (snd res))) -> w_userId r = u ->
          now - 60000 <= windowStart r)
  /\ (findWindow u (windowOf now) (db w) <> None \/ fst res <> Ok tt ->
        map w_id (rateLimitWindows (db (snd res)))
        = map w_id (rateLimitWindows (db w))
        /\ map windowKey (rateLimitWindows (db (snd res)))
           = map windowKey (rateLimitWindows (db w))).
Proof.
  intros Hnd res other. subst res.
  unfold checkRateLimit. mrun.
  destruct (findWindow u (windowOf now) (db w)) as [cw|] eqn:Ecw.
  - destruct (requestCount cw >=? _); mrun.
    + repeat (split; [reflexivity|]). split; [|split; [discriminate|]].
      * intros r Hr _. exists r. auto.
      * intros _. split; reflexivity.
    + repeat (split; [reflexivity|]).
      pose proof Ecw as Hcw. apply find_some in Hcw. destruct Hcw as [Hcw Ep].
      apply andb_prop in Ep. destruct Ep as [Eu _]. apply String.eqb_eq in Eu.
      split; [|split; [|split; [discriminate|]]].
      * apply filter_map_same.
        -- intros x Hx Hox. unfold bumpWindow.
           destruct (String.eqb (w_id x) (w_id cw)) eqn:E; [|reflexivity].
           apply String.eqb_eq in E.
           assert (x = cw) by (apply (NoDup_map_inj w_id _ x cw Hnd Hx Hcw E)).
           subst x. unfold other in Hox. rewrite Eu, String.eqb_refl in Hox.
           discriminate.
        -- intros x. unfold other, bumpWindow.
           destruct (String.eqb (w_id x) (w_id cw)); reflexivity.
      * intros r Hr _. exists (bumpWindow (w_id cw) r).
        split; [apply in_map, Hr|]. unfold bumpWindow, windowKey.
        destruct (String.eqb (w_id r) (w_id cw)); auto.
      * intros _. rewrite !map_map. split; apply map_ext; intros r;
          unfold bumpWindow, windowKey;
          destruct (String.eqb (w_id r) (w_id cw)); reflexivity.
  - destruct (existsb _ (rateLimitWindows (db w))); mrun.
    + repeat (split; [reflexivity|]). split; [|split; [discriminate|]].
      * intros r Hr _. exists r. auto.
      * intros _. split; reflexivity.
    + repeat (split; [reflexivity|]). split; [|split; [|split]].
      * rewrite filter_twice. rewrite filter_app. cbn [filter].
        unfold other at 2. cbn. rewrite String.eqb_refl, andb_false_r.
        rewrite app_nil_r. apply filter_ext_in. intros r Hr.
        unfold staleWindow, other.
        destruct (String.eqb (w_userId r) u); cbn; rewrite ?andb_false_r; reflexivity.
      * intros r Hr Hrecent. exists r. split; [|auto].
        apply filter_In. split; [apply in_or_app; left; exact Hr|].
        unfold staleWindow.
        destruct (Z.ltb_spec (windowStart r) (now - 60000)); [lia|].
        rewrite andb_false_r. reflexivity.
      * intros _ _ r Hr Hu. apply filter_In in Hr. destruct Hr as [_ Hr].
        unfold staleWindow in Hr. rewrite Hu, String.eqb_refl in Hr. cbn in Hr.
        destruct (Z.ltb_spec (windowStart r) (now - 60000)); [discriminate|lia].
      * intros [H|H]; exfalso; apply H; reflexivity.
Qed.

Lemma rate_limiter_touches_only_own_windows_witness :
  let w := with_db (set_rateLimitWindows
                      [mkWindow "w0" "alice" 1000 2; mkWindow "w1" "bob" 1000 1;
                       mkWindow "w2" "alice" 70000 1] emptyDB) emptyWorld in
  let res := checkRateLimit "alice" 90500 "w3" w in
  let other := fun r => negb (String.eqb (w_userId r) "alice") in
  files (db (snd res)) = files (db w)
  /\ folders (db (snd res)) = folders (db w)
  /\ userAssets (db (snd res)) = userAssets (db w)
  /\ userQuotas (db (snd res)) = userQuotas (db w)
  /\ s3 (snd res) = s3 w
  /\ filter other (rateLimitWindows (db (snd res)))
     = filter other (rateLimitWindows (db w))
  /\ (forall r, In r (rateLimitWindows (db w)) -> 90500 - 60000 <= windowStart r ->
        exists r', In r' (rateLimitWindows (db (snd res))) /\ w_id r' = w_id r
                   /\ windowKey r' = windowKey r)
  /\ (fst res = Ok tt -> findWindow "alice" (windowOf 90500) (db w) = None ->
        forall r, In r (rateLimitWindows (db (snd res))) ->
          w_userId r = "alice"%string -> 90500 - 60000 <= windowStart r)
  /\ (findWindow "alice" (windowOf 90500) (db w) <> None \/ fst res <> Ok tt ->
        map w_id (rateLimitWindows (db (snd res)))
        = map w_id (rateLimitWindows (db w))
        /\ map windowKey (rateLimitWindows (db (snd res)))
           = map windowKey (rateLimitWindows (db w))).
Proof.
  apply (rate_limiter_touches_only_own_windows
           (with_db (set_rateLimitWindows
                       [mkWindow "w0" "alice" 1000 2; mkWindow "w1" "bob" 1000 1;
                        mkWindow "w2" "alice" 70000 1] emptyDB) emptyWorld)
           "alice" 90500 "w3").
  cbn. repeat constructor; cbn; intuition discriminate.
Defined.

(** ** Public sharing *)

Lemma shared_row_by_id (l : list SharedAsset) (r1 r2 : SharedAsset) :
  NoDup (map (fun r => a_id (core r)) l) -> In r1 l -> In r2 l ->
  a_id (core r1) = a_id (core r2) -> r1 = r2.
Proof.
  intros Hnd H1 H2 E.
  exact (NoDup_map_inj (fun r => a_id (core r)) l r1 r2 Hnd H1 H2 E).
Qed.

Lemma find_shared_unique (p : SharedAsset -> bool) (l : list SharedAsset)
    (r : SharedAsset) :
  In r l -> p r = true -> (forall x, In x l -> p x = true -> x = r) ->
  find p l = Some r.
Proof.
  intros Hin Hp Huniq. destruct (find p l) as [x|] eqn:E.
  - apply find_some in E. destruct E as [Hx Hpx]. f_equal. apply Huniq; assumption.
  - rewrite find_none_iff in E. rewrite (E r Hin) in Hp. discriminate.
Qed.

Lemma togglePublic_unfold (u id : Id) (p : bool) (sid : Id) (st : ShareStore) :
  togglePublic_handler u id p sid st
  = match filter (ownRow u id) (sh_assets st) with
    | [] => (Throw NOT_FOUND, st)
    | _ :: others =>
        if match (if p then Some sid else None) with
           | Some s =>
               existsb (fun r => negb (ownRow u id r) && col_eq (publicShareId r) s)
                       (sh_assets st)
               || negb (List.length others =? 0)%nat
           | None => false
           end
        then (Throw INTERNAL_SERVER_ERROR, st)
        else
          (Ok (p, if truthy (if p then Some sid else None)
                  then option_map (fun s => ("/share/" ++ s)%string)
                                  (if p then Some sid else None)
                  else None),
           set_sh_assets
             (map (fun r => if ownRow u id r
                            then setShare p (if p then Some sid else None) r
                            else r)
                  (sh_assets st)) st)
    end.
Proof. reflexivity. Qed.

Lemma toggle_hits (u id : Id) (l : list SharedAsset) (r : SharedAsset) :
  NoDup (map (fun x => a_id (core x)) l) -> In r l ->
  a_id (core r) = id -> a_userId (core r) = u ->
  filter (ownRow u id) l = [r].
Proof.
  intros Hnd Hin Hid Hu. unfold ownRow. subst id u.
  induction l as [|x l IH]; [destruct Hin|].
  cbn in Hnd. inversion Hnd as [|? ? Hx Hnd']; subst. cbn [filter].
  destruct Hin as [->|Hin].
  - rewrite !String.eqb_refl. cbn [andb]. f_equal.
    apply filter_nil_iff. intros y Hy.
    destruct (String.eqb (a_id (core y)) (a_id (core r))) eqn:E; [|reflexivity].
    apply String.eqb_eq in E. exfalso. apply Hx. rewrite <- E.
    apply (in_map (fun x => a_id (core x))), Hy.
  - destruct (String.eqb (a_id (core x)) (a_id (core r))) eqn:E.
    + apply String.eqb_eq in E. exfalso. apply Hx. rewrite E.
      apply (in_map (fun x => a_id (core x))), Hin.
    + cbn. apply IH; assumption.
Qed.

(** X3 (togglePublic, getPublicFile).  Publishing and fetching round
    trip: when the owner makes a file public under a share id that no
    other row carries, the procedure answers with the share URL of that
    id, and a fetch by that id then serves the file, with its name,
    the size of its content and the download count raised by one; the
    share id the file had before no longer resolves.  Nothing here looks
    at [deletedAt]: a file in the trash is published and served like any
    other. *)
Theorem published_file_is_served_under_new_link_only
    (st : ShareStore) (u id sid : Id) (r : SharedAsset) (f : FileRow) :
  shareKeysOk st ->
  In r (sh_assets st) -> a_id (core r) = id -> a_userId (core r) = u ->
  find (fun x => String.eqb (hash x) (a_fileHash (core r))) (sh_files st) = Some f ->
  sid <> EmptyString ->
  (forall x, In x (sh_assets st) -> publicShareId x = Some sid -> x = r) ->
  let s1 := togglePublic_handler u id true sid st in
  fst s1 = Ok (true, Some ("/share/" ++ sid)%string)
  /\ fst (getPublicFile_handler sid (snd s1))
     = Ok (mkPublicFile id (a_name (core r)) (size f) (downloadCount r + 1))
  /\ (forall old, publicShareId r = Some old -> old <> sid ->
        getPublicFile_handler old (snd s1) = (Throw NOT_FOUND, snd s1)).
Proof.
  intros [Hnd Huniq] Hin Hid Hu Hfile Hsid Hfresh s1. subst s1.
  rewrite togglePublic_unfold.
  rewrite (toggle_hits u id (sh_assets st) r Hnd Hin Hid Hu).
  set (hit := ownRow u id).
  assert (Hclash : existsb (fun x => negb (hit x) && col_eq (publicShareId x) sid)
                     (sh_assets st) = false).
  { apply existsb_false_iff. intros x Hx.
    destruct (hit x) eqn:Ehit; [reflexivity|]. cbn.
    destruct (publicShareId x) as [s|] eqn:Es; [|reflexivity]. cbn.
    destruct (String.eqb s sid) eqn:E; [|reflexivity].
    apply String.eqb_eq in E. subst s.
    rewrite (Hfresh x Hx Es) in Ehit. unfold hit, ownRow in Ehit.
    rewrite Hid, Hu, !String.eqb_refl in Ehit. discriminate. }
  rewrite Hclash. cbn [List.length Nat.eqb negb orb fst snd].
  assert (Htruthy : truthy (Some sid) = true).
  { cbn. apply String.eqb_neq in Hsid. rewrite Hsid. reflexivity. }
  rewrite Htruthy. cbn [option_map].
  split; [reflexivity|].
  set (rows := map (fun x => if hit x then setShare true (Some sid) x else x)
                   (sh_assets st)).
  assert (Hhit_r : hit r = true)
    by (unfold hit, ownRow; rewrite Hid, Hu, !String.eqb_refl; reflexivity).
  assert (Hhit_only : forall x, In x (sh_assets st) -> hit x = true -> x = r).
  { intros x Hx Hh. unfold hit, ownRow in Hh. apply andb_prop in Hh.
    destruct Hh as [Hh _].
    apply String.eqb_eq in Hh.
    apply (shared_row_by_id (sh_assets st) x r Hnd Hx Hin). congruence. }
  assert (Hr' : In (setShare true (Some sid) r) rows).
  { unfold rows. apply in_map_iff. exists r. rewrite Hhit_r. auto. }
  assert (Hrows : forall y, In y rows ->
            y = setShare true (Some sid) r
            \/ (In y (sh_assets st) /\ hit y = false)).
  { intros y Hy. unfold rows in Hy. apply in_map_iff in Hy.
    destruct Hy as (x & E & Hx). destruct (hit x) eqn:Eh.
    - left. rewrite <- E. f_equal. apply Hhit_only; assumption.
    - right. subst y. auto. }
  split.
  - unfold getPublicFile_handler. cbn [sh_assets set_sh_assets sh_files].
    fold rows.
    rewrite (find_shared_unique _ rows (setShare true (Some sid) r) Hr').
    + cbn [core setShare downloadCount]. rewrite Hfile. cbn [fst].
      rewrite Hid. reflexivity.
    + cbn. rewrite String.eqb_refl. reflexivity.
    + intros y Hy Hp. destruct (Hrows y Hy) as [->|[Hy0 Hnh]]; [reflexivity|].
      apply andb_prop in Hp. destruct Hp as [Hp _].
      destruct (publicShareId y) as [s|] eqn:Es; cbn in Hp; [|discriminate].
      apply String.eqb_eq in Hp. subst s.
      rewrite (Hfresh y Hy0 Es) in Hnh. congruence.
  - intros old Hold Hne. unfold getPublicFile_handler.
    cbn [sh_assets set_sh_assets sh_files]. fold rows.
    destruct (find _ rows) as [y|] eqn:E; [exfalso|reflexivity].
    apply find_some in E. destruct E as [Hy Hp].
    apply andb_prop in Hp. destruct Hp as [Hp _].
    destruct (Hrows y Hy) as [->|[Hy0 Hnh]].
    + cbn in Hp. apply String.eqb_eq in Hp. congruence.
    + destruct (publicShareId y) as [s|] eqn:Es; cbn in Hp; [|discriminate].
      apply String.eqb_eq in Hp. subst s.
      rewrite (Huniq y r old Hy0 Hin Es Hold) in Hnh. congruence.
Qed.

Lemma published_file_is_served_under_new_link_only_witness :
  let s1 := togglePublic_handler "bob" "b1" true "s-new" sampleShares in
  fst s1 = Ok (true, Some "/share/s-new"%string)
  /\ fst (getPublicFile_handler "s-new" (snd s1))
     = Ok (mkPublicFile "b1" "notes.txt" 40 5)
  /\ (forall old, Some "s-old"%string = Some old -> old <> "s-new"%string ->
        getPublicFile_handler old (snd s1) = (Throw NOT_FOUND, snd s1)).
Proof.
  apply (published_file_is_served_under_new_link_only sampleShares
           "bob" "b1" "s-new"
           (mkShared (mkAsset "b1" "notes.txt" "bob" None "h2" None) true
              (Some "s-old"%string) 4)
           (mkFile "h2" 40 "h2" 1)).
  - split.
    + cbn. repeat constructor; cbn; intuition discriminate.
    + intros r1 r2 s [<-|[<-|[]]] [<-|[<-|[]]]; cbn; congruence.
  - cbn. auto.
  - reflexivity.
  - reflexivity.
  - reflexivity.
  - discriminate.
  - intros x [<-|[<-|[]]]; cbn; congruence.
Defined.

(** X4 (togglePublic, getPublicFile).  Once the owner has switched
    sharing off for a file, no share id serves that file any more: every
    fetch either fails or answers with another asset. *)
Theorem unshared_file_is_served_under_no_link
    (st : ShareStore) (u id sid0 : Id) (res : bool * option string)
    (st1 : ShareStore) :
  NoDup (map (fun r => a_id (core r)) (sh_assets st)) ->
  togglePublic_handler u id false sid0 st = (Ok res, st1) ->
  res = (false, None)
  /\ forall s pf st2,
       getPublicFile_handler s st1 = (Ok pf, st2) -> pf_id pf <> id.
Proof.
  intros Hnd. rewrite togglePublic_unfold.
  set (hit := ownRow u id).
  destruct (filter hit (sh_assets st)) as [|r0 others] eqn:Ehits; [discriminate|].
  cbn [truthy]. intros [= <- <-]. split; [reflexivity|].
  assert (Hr0 : In r0 (sh_assets st) /\ hit r0 = true).
  { apply filter_In. rewrite Ehits. left. reflexivity. }
  destruct Hr0 as [Hr0 Hh0].
  intros s pf st2. unfold getPublicFile_handler.
  cbn [sh_assets set_sh_assets sh_files].
  destruct (find _ _) as [y|] eqn:E; [|discriminate].
  apply find_some in E. destruct E as [Hy Hp].
  apply andb_prop in Hp. destruct Hp as [_ Hpub].
  apply in_map_iff in Hy. destruct Hy as (x & Ey & Hx).
  destruct (find _ (sh_files st)); [|discriminate].
  intros [= <- _]. cbn [pf_id]. intros Hid.
  assert (Hxid : a_id (core x) = id).
  { subst y. destruct (hit x); cbn in Hid; exact Hid. }
  assert (x = r0).
  { apply (shared_row_by_id (sh_assets st) x r0 Hnd Hx Hr0).
    unfold hit, ownRow in Hh0. apply andb_prop in Hh0. destruct Hh0 as [Hh0 _].
    apply String.eqb_eq in Hh0. congruence. }
  subst x. rewrite Hh0 in Ey. subst y. cbn in Hpub. discriminate.
Qed.

Lemma unshared_file_is_served_under_no_link_witness :
  (false, @None string) = (false, None)
  /\ forall s pf st2,
       getPublicFile_handler s
         (snd (togglePublic_handler "bob" "b1" false "s-new" sampleShares))
       = (Ok pf, st2) -> pf_id pf <> "b1"%string.
Proof.
  apply (unshared_file_is_served_under_no_link sampleShares "bob" "b1" "s-new"
           (false, None)
           (snd (togglePublic_handler "bob" "b1" false "s-new" sampleShares))).
  - cbn. repeat constructor; cbn; intuition discriminate.
  - reflexivity.
Defined.

(** X5 (getPublicFile).  A fetch that finds its share id raises the stored
    download count of the asset it serves by exactly one, answers with that
    new count, and changes no other row nor the files; a fetch that does
    not find it answers NOT_FOUND and changes nothing. *)
Theorem fetch_counts_one_download
    (st : ShareStore) (s : Id) :
  NoDup (map (fun r => a_id (core r)) (sh_assets st)) ->
  let res := getPublicFile_handler s st in
  (forall r, In r (sh_assets st) -> publicShareId r = Some s -> isPublic r = false) /\
  res = (Throw NOT_FOUND, st)
  \/ exists r,
       In r (sh_assets st) /\ publicShareId r = Some s /\ isPublic r = true
       /\ sh_files (snd res) = sh_files st
       /\ sh_assets (snd res)
          = map (fun x => if String.eqb (a_id (core x)) (a_id (core r))
                          then mkShared (core x) (isPublic x) (publicShareId x)
                                 (downloadCount x + 1)
                          else x) (sh_assets st)
       /\ (forall x, In x (sh_assets st) -> x <> r -> In x (sh_assets (snd res)))
       /\ In (mkShared (core r) true (Some s) (downloadCount r + 1))
             (sh_assets (snd res))
       /\ (forall pf, fst res = Ok pf ->
             pf_id pf = a_id (core r)
             /\ pf_downloadCount pf = downloadCount r + 1).
Proof.
  intros Hnd res. subst res. unfold getPublicFile_handler.
  destruct (find _ (sh_assets st)) as [r|] eqn:E.
  - right. apply find_some in E. destruct E as [Hr Hp].
    apply andb_prop in Hp. destruct Hp as [Hs Hpub].
    destruct (publicShareId r) as [s'|] eqn:Es; cbn in Hs; [|discriminate].
    apply String.eqb_eq in Hs. subst s'.
    exists r. split; [exact Hr|]. split; [exact Es|]. split; [exact Hpub|].
    assert (Hrows : forall x, In x (sh_assets st) -> x <> r ->
              countDownload (a_id (core r)) x = x).
    { intros x Hx Hne. unfold countDownload.
      destruct (String.eqb (a_id (core x)) (a_id (core r))) eqn:Eid;
        [|reflexivity].
      apply String.eqb_eq in Eid. exfalso. apply Hne.
      apply (shared_row_by_id (sh_assets st) x r Hnd Hx Hr Eid). }
    assert (Hmine : countDownload (a_id (core r)) r
                    = mkShared (core r) true (Some s) (downloadCount r + 1)).
    { unfold countDownload. rewrite String.eqb_refl, Hpub, Es. reflexivity. }
    destruct (find _ (sh_files st)) as [f|]; cbn [fst snd sh_files sh_assets
                                                   set_sh_assets];
      (split; [reflexivity|]); (split; [reflexivity|]);
      (split; [intros x Hx Hne; rewrite <- (Hrows x Hx Hne);
               apply in_map, Hx|]);
      (split; [rewrite <- Hmine; apply in_map, Hr|]).
    + intros pf [= <-]. cbn. auto.
    + intros pf [=].
  - left. split; [|reflexivity]. rewrite find_none_iff in E.
    intros r Hr Hs. specialize (E r Hr). rewrite Hs in E. cbn in E.
    rewrite String.eqb_refl in E. exact E.
Qed.

Lemma fetch_counts_one_download_witness :
  let res := getPublicFile_handler "s-old" sampleShares in
  (forall r, In r (sh_assets sampleShares) -> publicShareId r = Some "s-old"%string ->
             isPublic r = false) /\
  res = (Throw NOT_FOUND, sampleShares)
  \/ exists r,
       In r (sh_assets sampleShares) /\ publicShareId r = Some "s-old"%string
       /\ isPublic r = true
       /\ sh_files (snd res) = sh_files sampleShares
       /\ sh_assets (snd res)
          = map (fun x => if String.eqb (a_id (core x)) (a_id (core r))
                          then mkShared (core x) (isPublic x) (publicShareId x)
                                 (downloadCount x + 1)
                          else x) (sh_assets sampleShares)
       /\ (forall x, In x (sh_assets sampleShares) -> x <> r ->
             In x (sh_assets (snd res)))
       /\ In (mkShared (core r) true (Some "s-old"%string) (downloadCount r + 1))
             (sh_assets (snd res))
       /\ (forall pf, fst res = Ok pf ->
             pf_id pf = a_id (core r)
             /\ pf_downloadCount pf = downloadCount r + 1).
Proof.
  apply (fetch_counts_one_download sampleShares "s-old").
  cbn. repeat constructor; cbn; intuition discriminate.
Defined.

(** ** Moves and the shape of the folder forest *)

Lemma chain_trans (fs : list Folder) (a x y : Id) (n m : nat) :
  chain fs a n x -> chain fs x m y -> chain fs a (m + n) y.
Proof.
  intros Hax Hxy. induction Hxy as [c Hc Hp | c p m Hc Hp Hch IH].
  - cbn. eapply chain_up; eauto.
  - cbn. eapply chain_up; eauto.
Qed.

Lemma descendantOf_trans (fs : list Folder) (a x y : Id) :
  descendantOf fs a x -> descendantOf fs x y -> descendantOf fs a y.
Proof.
  intros [n Hn] [m Hm]. exists (m + n)%nat. eapply chain_trans; eauto.
Qed.

(** A rank that falls along every parent link rules out cycles. *)
Lemma ranked_acyclic (fs : list Folder) (rank : Id -> nat) :
  (forall c p, In c fs -> f_parentId c = Some p -> (rank p < rank (f_id c))%nat) ->
  acyclic fs.
Proof.
  intros Hrank.
  assert (H : forall a n x, chain fs a n x -> (rank a < rank x)%nat).
  { intros a n x Hch. induction Hch as [c Hc Hp | c p n Hc Hp Hch IH].
    - apply Hrank; assumption.
    - specialize (Hrank c p Hc Hp). lia. }
  intros x [n Hch]. specialize (H x n x Hch). lia.
Qed.

Lemma setFolderParent_id (id : Id) (p : option Id) (f : Folder) :
  f_id (setFolderParent id p f) = f_id f.
Proof. unfold setFolderParent. destruct (String.eqb (f_id f) id); reflexivity. Qed.

Lemma folderKeysOk_reparent (fs : list Folder) (id : Id) (p : option Id) :
  folderKeysOk fs -> folderKeysOk (map (setFolderParent id p) fs).
Proof.
  intros [Hnd Hne]. split.
  - rewrite map_map. erewrite map_ext; [exact Hnd|].
    intros f. apply setFolderParent_id.
  - intros f Hf. apply in_map_iff in Hf. destruct Hf as (f0 & <- & Hf0).
    rewrite setFolderParent_id. apply Hne, Hf0.
Qed.

(** A chain of the re-parented forest either avoids the moved folder, and
    is a chain of the old forest, or climbs to the moved folder and goes
    on from its new parent. *)
Lemma chain_reparent (fs : list Folder) (id : Id) (p : option Id)
    (a x : Id) (n : nat) :
  chain (map (setFolderParent id p) fs) a n x ->
  chain fs a n x
  \/ ((x = id \/ descendantOf fs id x)
      /\ (p = Some a \/ exists T, p = Some T /\ descendantOf fs a T)).
Proof.
  intros Hch. induction Hch as [c Hc Hp | c q n Hc Hp Hch IH].
  - apply in_map_iff in Hc. destruct Hc as (c0 & <- & Hc0).
    rewrite setFolderParent_id. unfold setFolderParent in Hp.
    destruct (String.eqb (f_id c0) id) eqn:E.
    + apply String.eqb_eq in E. cbn in Hp. right. split; [left; exact E|].
      left. exact Hp.
    + left. apply (@chain_child _ _ c0); assumption.
  - apply in_map_iff in Hc. destruct Hc as (c0 & <- & Hc0).
    rewrite setFolderParent_id. unfold setFolderParent in Hp.
    destruct (String.eqb (f_id c0) id) eqn:E.
    + apply String.eqb_eq in E. cbn in Hp. right. split; [left; exact E|].
      destruct IH as [IH | [_ IH]].
      * right. exists q. split; [exact Hp|]. exists n. exact IH.
      * destruct IH as [IH | (T & HT & Hd)].
        -- left. congruence.
        -- right. exists T. split; [congruence|exact Hd].
    + destruct IH as [IH | [[Hq | Hq] IH]].
      * left. apply (@chain_up _ _ c0 q n); assumption.
      * right. split; [|exact IH]. right. exists 1%nat. subst q.
        apply (@chain_child _ _ c0); assumption.
      * right. split; [|exact IH]. right. destruct Hq as [k Hk].
        exists (S k). apply (@chain_up _ _ c0 q k); assumption.
Qed.

Lemma acyclic_reparent (fs : list Folder) (id : Id) (p : option Id) :
  acyclic fs ->
  (forall T, p = Some T -> T <> id /\ ~ descendantOf fs id T) ->
  acyclic (map (setFolderParent id p) fs).
Proof.
  intros Hac Hp x [n Hch]. apply chain_reparent in Hch.
  destruct Hch as [Hch | [Hx [Hpx | (T & HT & Hd)]]].
  - apply (Hac x). exists n. exact Hch.
  - destruct (Hp x Hpx) as [Hne Hnd]. destruct Hx as [Hx | Hx]; auto.
  - destruct (Hp T HT) as [Hne Hnd]. destruct Hx as [Hx | Hx].
    + subst x. auto.
    + apply Hnd. eapply descendantOf_trans; eauto.
Qed.

(** The walk of the server answers false only for a target that does not
    lie below the folder. *)
Lemma isDescendant_false (fs : list Folder) (a : Id) :
  folderKeysOk fs -> a <> EmptyString ->
  forall fuel x, isDescendant fs fuel a x = Some false -> ~ descendantOf fs a x.
Proof.
  intros [Hnd Hne] Ha. induction fuel as [|n IH]; intros x; [discriminate|].
  cbn [isDescendant]. intros Hres [k Hch].
  assert (Hrow : exists c q, In c fs /\ f_id c = x /\ f_parentId c = Some q
                             /\ (q = a \/ descendantOf fs a q)).
  { inversion Hch as [c Hc Hp | c q k' Hc Hp Hch']; subst.
    - exists c, a. auto.
    - exists c, q. repeat split; auto. right. exists k'. exact Hch'. }
  destruct Hrow as (c & q & Hc & <- & Hp & Hq).
  rewrite (@find_by_folder_id fs c Hnd Hc), Hp in Hres.
  destruct (String.eqb q EmptyString) eqn:Eq.
  - apply String.eqb_eq in Eq. subst q. destruct Hq as [Hq | [k' Hq]].
    + congruence.
    + destruct (@chain_is_row fs a EmptyString k' Hq) as (c' & Hc' & Hid).
      exact (Hne c' Hc' Hid).
  - destruct (String.eqb q a) eqn:Eqa; [discriminate|].
    apply String.eqb_neq in Eqa. destruct Hq as [Hq | Hq]; [congruence|].
    exact (IH q Hres Hq).
Qed.

(** What a call of [moveFolder] that returns normally has checked and
    written. *)
Lemma moveFolder_ok (w : World) (u id : Id) (p : option Id) (fuel : nat) :
  fst (moveFolder_handler u id p fuel w) = Ok tt ->
  (exists row, In row (folders (db w)) /\ f_id row = id)
  /\ col_eq p id = false
  /\ (forall T, p = Some T -> T <> EmptyString ->
        isDescendant (folders (db w)) fuel id T = Some false)
  /\ snd (moveFolder_handler u id p fuel w)
     = with_db (set_folders (map (setFolderParent id p) (folders (db w))) (db w)) w.
Proof.
  unfold moveFolder_handler, bind, getDB, putDB, throw, ret, diverge.
  destruct (find _ (folders (db w))) as [row|] eqn:Erow; [|discriminate].
  apply find_some in Erow. destruct Erow as [Hrow Eid].
  apply andb_prop in Eid. destruct Eid as [Eid _].
  apply andb_prop in Eid. destruct Eid as [Eid _]. apply String.eqb_eq in Eid.
  destruct (col_eq p id) eqn:Eself; [discriminate|].
  destruct p as [T|]; cbn.
  - destruct (String.eqb T EmptyString) eqn:ET; cbn.
    + intros _. repeat split; eauto.
      intros T' [= <-] Hne. apply String.eqb_neq in Hne. congruence.
    + destruct (find _ (folders (db w))); [|discriminate].
      destruct (isDescendant (folders (db w)) fuel id T) as [[|]|] eqn:Ed;
        cbn; try discriminate.
      intros _. repeat split; eauto. intros T' [= <-] _. exact Ed.
  - intros _. repeat split; eauto. intros T' [=].
Qed.

Lemma reparent_checked (fs : list Folder) (id : Id) (p : option Id) (fuel : nat) :
  forestOk fs ->
  (exists row, In row fs /\ f_id row = id) ->
  col_eq p id = false ->
  (forall T, p = Some T -> T <> EmptyString ->
     isDescendant fs fuel id T = Some false) ->
  forestOk (map (setFolderParent id p) fs).
Proof.
  intros [Hkeys Hac] (row & Hrow & Hid) Hself Hdesc.
  split; [apply folderKeysOk_reparent, Hkeys|].
  apply acyclic_reparent; [exact Hac|].
  assert (Hne : id <> EmptyString).
  { subst id. destruct Hkeys as [_ Hne]. apply Hne, Hrow. }
  intros T ->. cbn in Hself. apply String.eqb_neq in Hself. split; [exact Hself|].
  destruct (String.eqb T EmptyString) eqn:ET.
  - apply String.eqb_eq in ET. subst T. intros [k Hch].
    destruct (@chain_is_row fs id EmptyString k Hch) as (c' & Hc' & Hid').
    destruct Hkeys as [_ Hk]. exact (Hk c' Hc' Hid').
  - apply String.eqb_neq in ET.
    apply (isDescendant_false fs id Hkeys Hne fuel T). apply Hdesc; auto.
Qed.

(** X6 (moveFolder).  On a forest of folders with unique, non-empty ids in
    which no folder lies below itself, [moveFolder] keeps it so whatever
    its outcome: a call that returns normally has set the parent of the
    moved folder and of no other row, and the forest is still without a
    cycle; a call that does not return normally has changed nothing. *)
Theorem moveFolder_keeps_forest_acyclic
    (w : World) (u id : Id) (p : option Id) (fuel : nat) :
  forestOk (folders (db w)) ->
  let res := moveFolder_handler u id p fuel w in
  forestOk (folders (db (snd res)))
  /\ (fst res = Ok tt ->
      folders (db (snd res)) = map (setFolderParent id p) (folders (db w)))
  /\ (fst res <> Ok tt -> snd res = w).
Proof.
  intros Hok res. subst res.
  split; [|split].
  - destruct (fst (moveFolder_handler u id p fuel w)) as [[]| |] eqn:E.
    + destruct (moveFolder_ok w u id p fuel E) as (Hrow & Hself & Hdesc & ->).
      cbn. apply (reparent_checked _ id p fuel); assumption.
    + rewrite moveFolder_failure_keeps_world by congruence. exact Hok.
    + rewrite moveFolder_failure_keeps_world by congruence. exact Hok.
  - intros E. destruct (moveFolder_ok w u id p fuel E) as (_ & _ & _ & ->).
    reflexivity.
  - apply moveFolder_failure_keeps_world.
Qed.

Lemma sampleWorld_forestOk : forestOk (folders (db sampleWorld)).
Proof.
  split.
  - split.
    + cbn. repeat constructor; cbn; intuition discriminate.
    + intros f [<-|[<-|[<-|[<-|[]]]]]; discriminate.
  - apply (ranked_acyclic _ sampleRank).
    intros c p [<-|[<-|[<-|[<-|[]]]]]; cbn; intros [= <-]; cbn; lia.
Qed.

Lemma moveFolder_keeps_forest_acyclic_witness :
  let res := moveFolder_handler "alice" "docs" (Some "tmp"%string) 5 sampleWorld in
  forestOk (folders (db (snd res)))
  /\ (fst res = Ok tt ->
      folders (db (snd res))
      = map (setFolderParent "docs" (Some "tmp"%string)) (folders (db sampleWorld)))
  /\ (fst res <> Ok tt -> snd res = sampleWorld).
Proof.
  apply (moveFolder_keeps_forest_acyclic sampleWorld "alice" "docs"
           (Some "tmp"%string) 5 sampleWorld_forestOk).
Defined.





(** ** Moving several files *)







(** ** The move dialog and the server *)

Lemma find_active_folder (fs : list Folder) (u : Id) (F : Folder) :
  NoDup (map f_id fs) -> In F fs -> f_userId F = u -> f_deletedAt F = None ->
  find (fun f => String.eqb (f_id f) (f_id F) && String.eqb (f_userId f) u
                 && isNull (f_deletedAt f)) fs = Some F.
Proof.
  intros Hnd HF Hu Hdel.
  destruct (find _ fs) eqn:E.
  - apply find_some in E. destruct E as [Hf E].
    apply andb_prop in E. destruct E as [E _].
    apply andb_prop in E. destruct E as [Eid _]. apply String.eqb_eq in Eid.
    f_equal. apply (NoDup_map_inj f_id _ f F Hnd Hf HF Eid).
  - rewrite find_none_iff in E. specialize (E F HF).
    rewrite Hu, !String.eqb_refl, Hdel in E. discriminate.
Qed.

Lemma listed_is_active_row (u : Id) (w : World) (f : Folder) :
  In f (listedFolders u w) ->
  In f (folders (db w)) /\ f_userId f = u /\ f_deletedAt f = None.
Proof.
  unfold listedFolders, newestFirst. intros H. apply in_rev in H.
  apply filter_In in H. destruct H as [Hin E].
  apply andb_prop in E. destruct E as [Eu Ed]. apply String.eqb_eq in Eu.
  destruct (f_deletedAt f); [discriminate|]. auto.
Qed.

(** The walk of the dialog answers true only on the moved folder or on a
    folder below it. *)
Lemma dialog_walk (u : Id) (w : World) (F : Id) :
  forall fuel x,
    isDescendantOfMoving [F] (Some (listedFolders u w)) fuel x = Some true ->
    (x = F /\ (1 <= fuel)%nat)
    \/ (exists row k, In row (listedFolders u w) /\ f_id row = x
                      /\ (k < fuel)%nat /\ chain (folders (db w)) F k x).
Proof.
  induction fuel as [|n IH]; intros x; [discriminate|].
  cbn [isDescendantOfMoving existsb].
  destruct (String.eqb x F) eqn:ExF; cbn [orb].
  - intros _. left. apply String.eqb_eq in ExF. split; [exact ExF|lia].
  - destruct (find _ (listedFolders u w)) as [row|] eqn:Erow; [|discriminate].
    apply find_some in Erow. destruct Erow as [Hrow Eid]. apply String.eqb_eq in Eid.
    destruct (f_parentId row) as [p|] eqn:Ep; [|discriminate].
    destruct (String.eqb p EmptyString); [discriminate|].
    intros Hrec. right. exists row.
    destruct (listed_is_active_row u w row Hrow) as (Hin & _ & _).
    destruct (IH p Hrec) as [[-> Hn] | (row' & k & _ & _ & Hk & Hch)].
    + exists 1%nat. repeat split; auto; [lia|].
      rewrite <- Eid. apply (@chain_child _ _ row); assumption.
    + exists (S k). repeat split; auto; [lia|].
      rewrite <- Eid. apply (@chain_up _ _ row p k); assumption.
Qed.

(** X9 (isDescendantOfMoving of the move dialog, moveFolder).  The dialog
    disables a target only if the server would refuse it: when a listed
    folder is being moved and the walk of the dialog over the answer of
    [listFolders] marks a folder as lying in or below it, [moveFolder] of
    that folder under that target throws BAD_REQUEST and changes nothing,
    given at least as much fuel as the dialog used. *)
Theorem dialog_disables_only_refused_targets
    (w : World) (u F T : Id) (fuel fuel' : nat) :
  folderKeysOk (folders (db w)) ->
  In F (map f_id (listedFolders u w)) ->
  isDescendantOfMoving [F] (Some (listedFolders u w)) fuel T = Some true ->
  (fuel <= fuel')%nat ->
  listFolders_handler u w = (Ok (listedFolders u w), w)
  /\ moveFolder_handler u F (Some T) fuel' w = (Throw BAD_REQUEST, w).
Proof.
  intros Hkeys HF Hwalk Hfuel. split; [reflexivity|].
  apply in_map_iff in HF. destruct HF as (rowF & <- & HrowF).
  destruct (listed_is_active_row u w rowF HrowF) as (HinF & HuF & HdF).
  destruct Hkeys as [Hnd Hne].
  unfold moveFolder_handler, bind, getDB, throw.
  rewrite (find_active_folder _ u rowF Hnd HinF HuF HdF).
  destruct (dialog_walk u w (f_id rowF) fuel T Hwalk)
    as [[-> _] | (rowT & k & HrowT & <- & Hk & Hch)].
  - cbn [col_eq]. rewrite String.eqb_refl. reflexivity.
  - destruct (listed_is_active_row u w rowT HrowT) as (HinT & HuT & HdT).
    cbn [col_eq]. destruct (String.eqb (f_id rowT) (f_id rowF)); [reflexivity|].
    assert (HneT := Hne rowT HinT). apply String.eqb_neq in HneT. rewrite HneT.
    rewrite (find_active_folder _ u rowT Hnd HinT HuT HdT).
    rewrite (@isDescendant_chain (folders (db w)) (f_id rowF) (f_id rowT) k
               (conj Hnd Hne) (Hne rowF HinF) Hch fuel') by lia.
    reflexivity.
Qed.

Lemma dialog_disables_only_refused_targets_witness :
  listFolders_handler "alice" sampleWorld
  = (Ok (listedFolders "alice" sampleWorld), sampleWorld)
  /\ moveFolder_handler "alice" "docs" (Some "work"%string) 7 sampleWorld
     = (Throw BAD_REQUEST, sampleWorld).
Proof.
  apply (dialog_disables_only_refused_targets sampleWorld "alice" "docs" "work"
           3 7).
  - destruct sampleWorld_forestOk as [H _]. exact H.
  - cbn. auto.
  - reflexivity.
  - lia.
Defined.

(** ** Listings *)

Lemma mapOrThrow_ok {A B} (f : A -> option B) (l : list A) (w : World) :
  (forall x, In x l -> f x <> None) ->
  exists ys, mapOrThrow f l w = (Ok ys, w)
             /\ (forall y, In y ys <-> exists x, In x l /\ f x = Some y).
Proof.
  induction l as [|x l IH]; intros Hall.
  - exists []. split; [reflexivity|]. intros y. split; [intros []|].
    intros (x & [] & _).
  - destruct (f x) as [y0|] eqn:Ex;
      [|exfalso; apply (Hall x); [left; reflexivity|exact Ex]].
    destruct (IH (fun z Hz => Hall z (or_intror Hz))) as (ys & Hrun & Hys).
    exists (y0 :: ys). split.
    + cbn [mapOrThrow]. rewrite Ex. unfold bind. rewrite Hrun. reflexivity.
    + intros y. split.
      * intros [<-|Hy]; [exists x; split; [left; reflexivity|exact Ex]|].
        apply Hys in Hy. destruct Hy as (z & Hz & Ez). exists z. split; [right|]; auto.
      * intros (z & [<-|Hz] & Ez).
        -- left. congruence.
        -- right. apply Hys. exists z. auto.
Qed.

Lemma findFile_of_asset (d : DB) (a : UserAsset) :
  storeOk d -> In a (userAssets d) ->
  exists f, findFile (a_fileHash a) d = Some f /\ In f (files d)
            /\ hash f = a_fileHash a.
Proof.
  intros (_ & _ & Hfk) Ha. destruct (Hfk a Ha) as (f & Hf & Hh).
  unfold findFile. destruct (find _ (files d)) as [f'|] eqn:E.
  - apply find_some in E. destruct E as [Hf' E]. apply String.eqb_eq in E.
    exists f'. auto.
  - rewrite find_none_iff in E. specialize (E f Hf). rewrite Hh, String.eqb_refl in E.
    discriminate.
Qed.

Lemma refs_at_least_one (a : UserAsset) (l : list UserAsset) :
  In a l -> 1 <= refs (a_fileHash a) l.
Proof.
  intros Ha. unfold refs.
  assert (Hin : In a (filter (fun x => String.eqb (a_fileHash x) (a_fileHash a)) l)).
  { apply filter_In. split; [exact Ha|apply String.eqb_refl]. }
  destruct (filter _ l); [destruct Hin|]. cbn [List.length]. lia.
Qed.

Lemma listFiles_entries
    (w : World) (u : Id) (folderId : option Id) :
  dedupOk w ->
  exists entries subfolders,
    listFiles_handler u folderId w = (Ok (entries, subfolders), w)
    /\ (forall e, In e entries ->
          exists a, In a (userAssets (db w)) /\ a_userId a = u
                    /\ a_deletedAt a = None
                    /\ inFolder folderId (a_folderId a) = true
                    /\ e_id e = a_id a /\ e_name e = a_name a
                    /\ e_refCount e = refs (a_fileHash a) (userAssets (db w))
                    /\ 1 <= e_refCount e
                    /\ e_isOriginal e = (e_refCount e =? 1)
                    /\ e_isDeduplicated e = negb (e_isOriginal e))
    /\ (forall a, In a (userAssets (db w)) -> a_userId a = u ->
          a_deletedAt a = None -> inFolder folderId (a_folderId a) = true ->
          exists e, In e entries /\ e_id e = a_id a)
    /\ (forall f, In f subfolders <->
          In f (folders (db w)) /\ f_userId f = u /\ f_deletedAt f = None
          /\ inFolder folderId (f_parentId f) = true).
Proof.
  intros [Hst Hinv].
  unfold listFiles_handler. unfold bind at 1, getDB.
  set (assets := newestFirst (filter _ (userAssets (db w)))).
  set (subs := newestFirst (filter _ (folders (db w)))).
  assert (Hassets : forall a, In a assets <->
            In a (userAssets (db w)) /\ a_userId a = u /\ a_deletedAt a = None
            /\ inFolder folderId (a_folderId a) = true).
  { intros a. unfold assets, newestFirst. rewrite <- in_rev, filter_In. split.
    - intros (Ha & E). apply andb_prop in E. destruct E as [E Ef].
      apply andb_prop in E. destruct E as [Eu Ed]. apply String.eqb_eq in Eu.
      destruct (a_deletedAt a); [discriminate|]. auto.
    - intros (Ha & Eu & Ed & Ef). split; [exact Ha|].
      rewrite Eu, String.eqb_refl, Ed, Ef. reflexivity. }
  assert (Hfmt : forall a, In a assets -> formatAsset (db w) a <> None).
  { intros a Ha. apply Hassets in Ha. destruct Ha as (Ha & _).
    destruct (findFile_of_asset (db w) a Hst Ha) as (f & Ef & _).
    unfold formatAsset. rewrite Ef. discriminate. }
  destruct (mapOrThrow_ok (formatAsset (db w)) assets w Hfmt) as (ys & Hrun & Hys).
  exists ys, subs. unfold bind. rewrite Hrun. split; [reflexivity|].
  split; [|split].
  - intros e He. apply Hys in He. destruct He as (a & Ha & Ee).
    apply Hassets in Ha. destruct Ha as (Ha & Hu & Hd & Hf).
    exists a. repeat (split; [assumption|]).
    destruct (findFile_of_asset (db w) a Hst Ha) as (f & Ef & Hfin & Hh).
    unfold formatAsset in Ee. rewrite Ef in Ee. injection Ee as <-.
    cbn [e_id e_name e_refCount e_isOriginal e_isDeduplicated].
    assert (Hrc : refCount f = refs (a_fileHash a) (userAssets (db w)))
      by (rewrite <- Hh; apply Hinv, Hfin).
    pose proof (refs_at_least_one a (userAssets (db w)) Ha) as H1.
    repeat split; try assumption; try lia.
  - intros a Ha Hu Hd Hf.
    assert (Hin : In a assets) by (apply Hassets; auto).
    destruct (formatAsset (db w) a) as [e|] eqn:Ee;
      [|exfalso; exact (Hfmt a Hin Ee)].
    exists e. split; [apply Hys; exists a; auto|].
    unfold formatAsset in Ee. destruct (findFile _ _); [|discriminate].
    injection Ee as <-. reflexivity.
  - intros f. unfold subs, newestFirst. rewrite <- in_rev, filter_In. split.
    + intros (Hf & E). apply andb_prop in E. destruct E as [E Ef].
      apply andb_prop in E. destruct E as [Eu Ed]. apply String.eqb_eq in Eu.
      destruct (f_deletedAt f); [discriminate|]. auto.
    + intros (Hf & Eu & Ed & Ef). split; [exact Hf|].
      rewrite Eu, String.eqb_refl, Ed, Ef. reflexivity.
Qed.

(** X10 (listFiles).  In every world the router can reach, [listFiles]
    returns without changing anything; its files are the caller's active
    assets standing in the folder asked for (at the root when none is
    given), each with its name and with the number of asset rows of any
    user that share its content as [refCount]; that number is at least
    one, [isOriginal] says it is exactly one and [isDeduplicated] is the
    opposite flag; its folders are the caller's active folders with that
    parent. *)
Theorem listFiles_shows_active_assets
    (w : World) (u : Id) (folderId : option Id) :
  reachable w ->
  exists entries subfolders,
    listFiles_handler u folderId w = (Ok (entries, subfolders), w)
    /\ (forall e, In e entries ->
          exists a, In a (userAssets (db w)) /\ a_userId a = u
                    /\ a_deletedAt a = None
                    /\ inFolder folderId (a_folderId a) = true
                    /\ e_id e = a_id a /\ e_name e = a_name a
                    /\ e_refCount e = refs (a_fileHash a) (userAssets (db w))
                    /\ 1 <= e_refCount e
                    /\ e_isOriginal e = (e_refCount e =? 1)
                    /\ e_isDeduplicated e = negb (e_isOriginal e))
    /\ (forall a, In a (userAssets (db w)) -> a_userId a = u ->
          a_deletedAt a = None -> inFolder folderId (a_folderId a) = true ->
          exists e, In e entries /\ e_id e = a_id a)
    /\ (forall f, In f subfolders <->
          In f (folders (db w)) /\ f_userId f = u /\ f_deletedAt f = None
          /\ inFolder folderId (f_parentId f) = true).
Proof.
  intros Hreach. apply listFiles_entries. apply reachable_dedupOk, Hreach.
Qed.

Lemma listFiles_shows_active_assets_witness :
  let w := run dedupScenario emptyWorld in
  exists entries subfolders,
    listFiles_handler "bob" None w = (Ok (entries, subfolders), w)
    /\ (forall e, In e entries ->
          exists a, In a (userAssets (db w)) /\ a_userId a = "bob"%string
                    /\ a_deletedAt a = None
                    /\ inFolder None (a_folderId a) = true
                    /\ e_id e = a_id a /\ e_name e = a_name a
                    /\ e_refCount e = refs (a_fileHash a) (userAssets (db w))
                    /\ 1 <= e_refCount e
                    /\ e_isOriginal e = (e_refCount e =? 1)
                    /\ e_isDeduplicated e = negb (e_isOriginal e))
    /\ (forall a, In a (userAssets (db w)) -> a_userId a = "bob"%string ->
          a_deletedAt a = None -> inFolder None (a_folderId a) = true ->
          exists e, In e entries /\ e_id e = a_id a)
    /\ (forall f, In f subfolders <->
          In f (folders (db w)) /\ f_userId f = "bob"%string
          /\ f_deletedAt f = None
          /\ inFolder None (f_parentId f) = true).
Proof.
  apply (listFiles_shows_active_assets (run dedupScenario emptyWorld) "bob" None).
  exists dedupScenario. reflexivity.
Defined.

(** ** Trashing and restoring one asset *)

Lemma asset_eta (a : UserAsset) :
  mkAsset (a_id a) (a_name a) (a_userId a) (a_folderId a) (a_fileHash a)
          (a_deletedAt a) = a.
Proof. destruct a; reflexivity. Qed.

Lemma trash_hit_row (w : World) (u id : Id) (now : Z) :
  fst (moveToTrash_handler u id now w) = Ok tt ->
  exists a0, In a0 (userAssets (db w)) /\ a_id a0 = id /\ a_userId a0 = u
             /\ a_deletedAt a0 = None.
Proof.
  rewrite moveToTrash_unfold. cbv zeta. cbn [fst].
  destruct (filter _ (userAssets (db w))) as [|a0 rest] eqn:E; [discriminate|].
  intros _. exists a0.
  assert (H : In a0 (a0 :: rest)) by (left; reflexivity).
  rewrite <- E in H. apply filter_In in H. destruct H as [Ha0 Hp].
  apply andb_prop in Hp. destruct Hp as [Hp Hd].
  apply andb_prop in Hp. destruct Hp as [Hi Hu].
  apply String.eqb_eq in Hi. apply String.eqb_eq in Hu.
  destruct (a_deletedAt a0); [discriminate|]. auto.
Qed.

Lemma sorted_in {A} (key : A -> Z) (l : list A) (x : A) :
  In x (stableSort (fun a b => key b - key a) l) <-> In x l.
Proof.
  split; intros H.
  - eapply Permutation_in; [apply Permutation_sym, (@stableSort_perm _ key)|exact H].
  - eapply Permutation_in; [apply (@stableSort_perm _ key)|exact H].
Qed.

Lemma listTrash_files (w : World) (u : Id) :
  storeOk (db w) ->
  exists trashedFiles trashedFolders,
    listTrash_handler u w = (Ok (trashedFiles, trashedFolders), w)
    /\ (forall t, In t trashedFiles <->
          exists a sz, In a (userAssets (db w)) /\ a_userId a = u
                       /\ a_deletedAt a <> None
                       /\ fileSizeOf (db w) a = Some sz
                       /\ t = mkTrashedFile (a_id a) (a_name a) sz (a_deletedAt a)).
Proof.
  intros Hst. unfold listTrash_handler. unfold bind at 1, getDB.
  set (trashed := latestTrashedFirst a_deletedAt (filter _ (userAssets (db w)))).
  assert (Htr : forall a, In a trashed <->
            In a (userAssets (db w)) /\ a_userId a = u /\ a_deletedAt a <> None).
  { intros a. unfold trashed, latestTrashedFirst.
    rewrite (sorted_in (fun x => stampOf (a_deletedAt x))), filter_In. split.
    - intros (Ha & E). apply andb_prop in E. destruct E as [Eu Ed].
      apply String.eqb_eq in Eu. destruct (a_deletedAt a); [|discriminate].
      repeat split; auto. discriminate.
    - intros (Ha & Eu & Ed). split; [exact Ha|].
      rewrite Eu, String.eqb_refl. destruct (a_deletedAt a); [reflexivity|congruence]. }
  set (fmt := fun asset => option_map _ (fileSizeOf (db w) asset)).
  assert (Hfmt : forall a, In a trashed -> fmt a <> None).
  { intros a Ha. apply Htr in Ha. destruct Ha as (Ha & _).
    destruct (findFile_of_asset (db w) a Hst Ha) as (f & Ef & _).
    unfold fmt, fileSizeOf. rewrite Ef. discriminate. }
  destruct (mapOrThrow_ok fmt trashed w Hfmt) as (ys & Hrun & Hys).
  eexists ys, _. unfold bind. rewrite Hrun. split; [reflexivity|].
  intros t. rewrite Hys. split.
  - intros (a & Ha & Et). apply Htr in Ha. destruct Ha as (Ha & Hu & Hd).
    unfold fmt in Et. destruct (fileSizeOf (db w) a) as [sz|] eqn:Es; [|discriminate].
    injection Et as <-. exists a, sz. auto.
  - intros (a & sz & Ha & Hu & Hd & Es & ->). exists a. split.
    + apply Htr. auto.
    + unfold fmt. rewrite Es. reflexivity.
Qed.

(** X12 (moveToTrash, getFile, listFiles, listTrash).  In every world the
    router can reach, an asset that [moveToTrash] has trashed is gone from
    what its owner sees as files and stands in the trash listing:
    [getFile] answers NOT_FOUND for it, no [listFiles] of any folder shows
    its id, and [listTrash] shows it with the deletion stamp of the call.
    The three queries change nothing. *)
Theorem trashed_asset_moves_between_listings
    (w : World) (u id : Id) (now : Z) :
  reachable w ->
  fst (moveToTrash_handler u id now w) = Ok tt ->
  let w1 := snd (moveToTrash_handler u id now w) in
  getFile_handler u id w1 = (Throw NOT_FOUND, w1)
  /\ (forall folderId, exists entries subfolders,
        listFiles_handler u folderId w1 = (Ok (entries, subfolders), w1)
        /\ ~ In id (map e_id entries))
  /\ (exists trashedFiles trashedFolders,
        listTrash_handler u w1 = (Ok (trashedFiles, trashedFolders), w1)
        /\ exists t, In t trashedFiles /\ tf_id t = id
                     /\ tf_deletedAt t = Some now).
Proof.
  intros Hreach Hok w1.
  assert (Hdk : dedupOk w) by (apply reachable_dedupOk, Hreach).
  assert (Hdk1 : dedupOk w1) by (apply (frames_keeps _ (frames_moveToTrash u id now)), Hdk).
  destruct (trash_hit_row w u id now Hok) as (a0 & Ha0 & Hi & Hu & Hd).
  destruct Hdk as [[Hnd _] _].
  assert (Hrows : forall x1, In x1 (userAssets (db w1)) ->
            a_id x1 = id -> a_userId x1 = u -> a_deletedAt x1 = Some now).
  { intros x1 Hx1 Ei Eu. unfold w1 in Hx1. rewrite moveToTrash_unfold in Hx1.
    cbv zeta in Hx1. cbn in Hx1. apply in_map_iff in Hx1.
    destruct Hx1 as (x & <- & Hx).
    destruct (String.eqb (a_id x) id && String.eqb (a_userId x) u
              && isNull (a_deletedAt x)) eqn:Eh; [reflexivity|].
    exfalso. assert (x = a0)
      by (apply (NoDup_map_inj a_id _ x a0 Hnd Hx Ha0); congruence).
    subst x. rewrite Hi, Hu, Hd, !String.eqb_refl in Eh. discriminate. }
  assert (Hstamped : In (setAssetDeletedAt (Some now) a0) (userAssets (db w1))).
  { unfold w1. rewrite moveToTrash_unfold. cbv zeta. cbn. apply in_map_iff.
    exists a0. rewrite Hi, Hu, Hd, !String.eqb_refl. auto. }
  split; [|split].
  - unfold getFile_handler, bind, getDB, throw.
    destruct (find _ (userAssets (db w1))) as [x|] eqn:E; [exfalso|reflexivity].
    apply find_some in E. destruct E as [Hx E].
    apply andb_prop in E. destruct E as [E Ed].
    apply andb_prop in E. destruct E as [Ei Eu].
    apply String.eqb_eq in Ei. apply String.eqb_eq in Eu.
    rewrite (Hrows x Hx Ei Eu) in Ed. discriminate.
  - intros folderId.
    destruct (listFiles_entries w1 u folderId Hdk1) as (entries & subs & Hrun & Hs & _).
    exists entries, subs. split; [exact Hrun|].
    intros Hin. apply in_map_iff in Hin. destruct Hin as (e & Ee & He).
    destruct (Hs e He) as (a & Ha & Hau & Had & _ & Hid & _).
    rewrite (Hrows a Ha) in Had; congruence.
  - destruct Hdk1 as [Hst1 _].
    destruct (listTrash_files w1 u Hst1) as (tfs & tds & Hrun & Htfs).
    exists tfs, tds. split; [exact Hrun|].
    destruct (findFile_of_asset (db w1) _ Hst1 Hstamped) as (f & Ef & _).
    exists (mkTrashedFile id (a_name a0) (size f) (Some now)).
    split; [|split; reflexivity].
    apply Htfs. exists (setAssetDeletedAt (Some now) a0), (size f).
    cbn [a_userId a_deletedAt a_id a_name setAssetDeletedAt].
    repeat split; auto; try discriminate.
    + unfold fileSizeOf. rewrite Ef. reflexivity.
    + rewrite Hi. reflexivity.
Qed.

Lemma trashed_asset_moves_between_listings_witness :
  let w := run dedupScenario emptyWorld in
  let w1 := snd (moveToTrash_handler "bob" "b1" 5000 w) in
  getFile_handler "bob" "b1" w1 = (Throw NOT_FOUND, w1)
  /\ (forall folderId, exists entries subfolders,
        listFiles_handler "bob" folderId w1 = (Ok (entries, subfolders), w1)
        /\ ~ In "b1"%string (map e_id entries))
  /\ (exists trashedFiles trashedFolders,
        listTrash_handler "bob" w1 = (Ok (trashedFiles, trashedFolders), w1)
        /\ exists t, In t trashedFiles /\ tf_id t = "b1"%string
                     /\ tf_deletedAt t = Some 5000).
Proof.
  apply (trashed_asset_moves_between_listings (run dedupScenario emptyWorld)
           "bob" "b1" 5000).
  - exists dedupScenario. reflexivity.
  - reflexivity.
Defined.

(** ** Emptying the trash *)

Lemma releaseAsset_tables (id : Id) (h : string) (w : World) :
  userAssets (db (snd (releaseAsset id h w))) = removeAsset id (userAssets (db w))
  /\ folders (db (snd (releaseAsset id h w))) = folders (db w).
Proof.
  unfold releaseAsset, deleteAssetRow, bumpRefCount, s3Delete, deleteFileRow.
  mrun.
  destruct (find _ (map (addRef h (-1)) (files (db w)))) as [uf|]; mrun;
    [|split; reflexivity].
  destruct (refCount uf <=? 0); mrun; [|split; reflexivity].
  destruct (existsb _ _ && existsb _ _); mrun; split; reflexivity.
Qed.

Lemma releaseAll_tables (d0 : DB) (assets : list UserAsset) :
  forall (total : Z) (w : World) (r : Z) (w' : World),
    releaseAll d0 assets total w = (Ok r, w') ->
    userAssets (db w')
    = filter (fun a => negb (existsb (String.eqb (a_id a)) (map a_id assets)))
             (userAssets (db w))
    /\ folders (db w') = folders (db w).
Proof.
  induction assets as [|a assets IH]; intros total w r w'; cbn [releaseAll].
  - unfold ret. intros [= <- <-]. split; [|reflexivity].
    cbn. symmetry. apply filter_all. reflexivity.
  - unfold bind at 1.
    destruct (releaseAsset_tables (a_id a) (a_fileHash a) w) as [Ha Hf].
    destruct (releaseAsset (a_id a) (a_fileHash a) w) as [[[]| |] w1];
      cbn [fst snd] in *; try discriminate.
    destruct (fileSizeOf d0 a) as [sz|]; [|discriminate].
    intros Hrun. destruct (IH _ _ _ _ Hrun) as [Ha' Hf']. split; [|congruence].
    rewrite Ha', Ha. unfold removeAsset. rewrite filter_twice.
    apply filter_ext. intros x. cbn [map existsb]. rewrite negb_orb. reflexivity.
Qed.

Lemma deleteFolderRow_tables (id : Id) (w : World) :
  fst (deleteFolderRow id w) = Ok tt
  /\ folders (db (snd (deleteFolderRow id w)))
     = filter (fun f => negb (String.eqb (f_id f) id)) (folders (db w))
  /\ userAssets (db (snd (deleteFolderRow id w)))
     = map (fun a => if hasFolder id (db w) then unlinkFolder id a else a)
           (userAssets (db w)).
Proof.
  unfold deleteFolderRow. mrun. destruct (hasFolder id (db w)) eqn:E; mrun.
  - repeat split; reflexivity.
  - split; [reflexivity|]. split.
    + symmetry. apply filter_all. intros f Hf. unfold hasFolder in E.
      rewrite existsb_false_iff in E. rewrite (E f Hf). reflexivity.
    + rewrite map_id. reflexivity.
Qed.

Lemma unlinkFolder_cols (id : Id) (a : UserAsset) :
  a_id (unlinkFolder id a) = a_id a
  /\ a_userId (unlinkFolder id a) = a_userId a
  /\ a_deletedAt (unlinkFolder id a) = a_deletedAt a.
Proof. unfold unlinkFolder. destruct (col_eq _ _); repeat split; reflexivity. Qed.

Lemma deleteFolders_tables (fl : list Folder) :
  forall (w : World),
    exists w', forEach fl (fun folder => deleteFolderRow (f_id folder)) w = (Ok tt, w')
      /\ (forall f, In f (folders (db w')) ->
            In f (folders (db w)) /\ ~ In (f_id f) (map f_id fl))
      /\ (forall x', In x' (userAssets (db w')) ->
            exists x, In x (userAssets (db w)) /\ a_id x' = a_id x
                      /\ a_userId x' = a_userId x
                      /\ a_deletedAt x' = a_deletedAt x).
Proof.
  induction fl as [|folder fl IH]; intros w.
  - exists w. split; [reflexivity|]. split.
    + intros f Hf. split; [exact Hf|intros []].
    + intros x' Hx'. exists x'. auto.
  - cbn [forEach]. unfold bind.
    destruct (deleteFolderRow_tables (f_id folder) w) as (Ho & Hf & Ha).
    destruct (deleteFolderRow (f_id folder) w) as [o w1]. cbn [fst snd] in *.
    subst o. destruct (IH w1) as (w' & Hrun & Hfs & Has).
    exists w'. split; [exact Hrun|]. split.
    + intros f Hin. destruct (Hfs f Hin) as [Hin1 Hnot].
      rewrite Hf in Hin1. apply filter_In in Hin1. destruct Hin1 as [Hin0 E].
      split; [exact Hin0|]. cbn [map]. intros [Heq|Hin'].
      * rewrite Heq, String.eqb_refl in E. discriminate.
      * exact (Hnot Hin').
    + intros x' Hx'. destruct (Has x' Hx') as (x1 & Hx1 & E1 & E2 & E3).
      rewrite Ha in Hx1. apply in_map_iff in Hx1. destruct Hx1 as (x & <- & Hx).
      exists x. split; [exact Hx|].
      destruct (hasFolder (f_id folder) (db w)).
      * destruct (unlinkFolder_cols (f_id folder) x) as (U1 & U2 & U3).
        repeat split; congruence.
      * auto.
Qed.

Lemma listTrash_nothing (w : World) (u : Id) :
  (forall a, In a (userAssets (db w)) -> a_userId a = u -> a_deletedAt a = None) ->
  (forall f, In f (folders (db w)) -> f_userId f = u -> f_deletedAt f = None) ->
  listTrash_handler u w = (Ok ([], []), w).
Proof.
  intros Ha Hf. unfold listTrash_handler. unfold bind at 1, getDB.
  assert (E1 : filter (fun a => String.eqb (a_userId a) u && isNotNull (a_deletedAt a))
                      (userAssets (db w)) = []).
  { apply filter_nil_iff. intros a Hin.
    destruct (String.eqb (a_userId a) u) eqn:E; [|reflexivity].
    apply String.eqb_eq in E. rewrite (Ha a Hin E). reflexivity. }
  assert (E2 : filter (fun f => String.eqb (f_userId f) u && isNotNull (f_deletedAt f))
                      (folders (db w)) = []).
  { apply filter_nil_iff. intros f Hin.
    destruct (String.eqb (f_userId f) u) eqn:E; [|reflexivity].
    apply String.eqb_eq in E. rewrite (Hf f Hin E). reflexivity. }
  rewrite E1, E2. reflexivity.
Qed.

(** X13 (emptyTrash, listTrash).  When [emptyTrash] returns normally,
    nothing of the caller is left in the trash: none of the caller's
    assets and none of the caller's folders carries a deletion stamp, and
    [listTrash] answers with no files and no folders. *)
Theorem emptyTrash_leaves_trash_empty
    (w : World) (u : Id) (fuel : nat) (n : Z) (w' : World) :
  emptyTrash_handler u fuel w = (Ok n, w') ->
  (forall a, In a (userAssets (db w')) -> a_userId a = u -> a_deletedAt a = None)
  /\ (forall f, In f (folders (db w')) -> f_userId f = u -> f_deletedAt f = None)
  /\ listTrash_handler u w' = (Ok ([], []), w').
Proof.
  intros Hrun.
  assert (H : (forall a, In a (userAssets (db w')) -> a_userId a = u ->
                         a_deletedAt a = None)
              /\ (forall f, In f (folders (db w')) -> f_userId f = u ->
                            f_deletedAt f = None)).
  { unfold emptyTrash_handler in Hrun. unfold bind at 1, getDB in Hrun.
    set (ta := filter (fun a => String.eqb (a_userId a) u
                                && isNotNull (a_deletedAt a))
                      (userAssets (db w))) in *.
    set (tf := filter (fun f => String.eqb (f_userId f) u
                                && isNotNull (f_deletedAt f))
                      (folders (db w))) in *.
    assert (Hta : forall a, In a (userAssets (db w)) -> a_userId a = u ->
                    a_deletedAt a <> None -> In a ta).
    { intros a Ha Hu Hd. apply filter_In. split; [exact Ha|].
      rewrite Hu, String.eqb_refl. destruct (a_deletedAt a); [reflexivity|congruence]. }
    assert (Htf : forall f, In f (folders (db w)) -> f_userId f = u ->
                    f_deletedAt f <> None -> In f tf).
    { intros f Hf Hu Hd. apply filter_In. split; [exact Hf|].
      rewrite Hu, String.eqb_refl. destruct (f_deletedAt f); [reflexivity|congruence]. }
    destruct ((List.length ta =? 0)%nat && (List.length tf =? 0)%nat)%bool eqn:Eempty.
    - unfold ret in Hrun. injection Hrun as _ <-.
      apply andb_prop in Eempty. destruct Eempty as [E1 E2].
      apply Nat.eqb_eq in E1. apply Nat.eqb_eq in E2.
      apply length_zero_iff_nil in E1. apply length_zero_iff_nil in E2.
      split.
      + intros a Ha Hu. destruct (a_deletedAt a) eqn:Ed; [exfalso|reflexivity].
        assert (Hin : In a ta) by (apply Hta; auto; congruence).
        rewrite E1 in Hin. destruct Hin.
      + intros f Hf Hu. destruct (f_deletedAt f) eqn:Ed; [exfalso|reflexivity].
        assert (Hin : In f tf) by (apply Htf; auto; congruence).
        rewrite E2 in Hin. destruct Hin.
    - unfold bind at 1 in Hrun. unfold transaction in Hrun. unfold bind at 1 in Hrun.
      destruct (releaseAll (db w) ta 0 w) as [[total| |] w2] eqn:Erel;
        try discriminate.
      destruct (releaseAll_tables (db w) ta 0 w total w2 Erel) as [Ha2 Hf2].
      destruct (fillDepths tf fuel tf []) as [depths|]; [|discriminate].
      unfold bind at 1 in Hrun.
      destruct (deleteFolders_tables (emptyTrashOrder depths tf) w2)
        as (w3 & Hdel & Hfs3 & Has3).
      rewrite Hdel in Hrun. unfold ret at 1 in Hrun. unfold bind at 1 in Hrun.
      destruct (updateStorageUsage_frame u (- total) w3) as (Ho & _ & Ha4 & Hf4 & _).
      destruct (updateStorageUsage u (- total) w3) as [o w4]. cbn [fst snd] in *.
      subst o. unfold ret in Hrun. injection Hrun as _ <-.
      split.
      + intros a Ha Hu. rewrite Ha4 in Ha.
        destruct (Has3 a Ha) as (x & Hx & Ei & Eu & Ed).
        rewrite Ha2 in Hx. apply filter_In in Hx. destruct Hx as [Hx Enot].
        destruct (a_deletedAt a) eqn:Eda; [exfalso|reflexivity].
        assert (Hin : In x ta) by (apply Hta; auto; congruence).
        apply negb_true_iff in Enot. rewrite existsb_false_iff in Enot.
        specialize (Enot (a_id x) (in_map a_id _ _ Hin)).
        rewrite String.eqb_refl in Enot. discriminate.
      + intros f Hf Hu. rewrite Hf4 in Hf.
        destruct (Hfs3 f Hf) as [Hf0 Hnot]. rewrite Hf2 in Hf0.
        destruct (f_deletedAt f) eqn:Ed; [exfalso|reflexivity].
        apply Hnot. apply in_map. unfold emptyTrashOrder.
        apply (sorted_in (depthOr0 depths)). apply Htf; auto; congruence. }
  destruct H as [Ha Hf]. split; [exact Ha|]. split; [exact Hf|].
  apply listTrash_nothing; assumption.
Qed.

Lemma emptyTrash_leaves_trash_empty_witness :
  let w' := snd (emptyTrash_handler "alice" 5 sampleWorld) in
  (forall a, In a (userAssets (db w')) -> a_userId a = "alice"%string ->
             a_deletedAt a = None)
  /\ (forall f, In f (folders (db w')) -> f_userId f = "alice"%string ->
                f_deletedAt f = None)
  /\ listTrash_handler "alice" w' = (Ok ([], []), w').
Proof.
  apply (emptyTrash_leaves_trash_empty sampleWorld "alice" 5 100
           (snd (emptyTrash_handler "alice" 5 sampleWorld))).
  reflexivity.
Defined.

(** ** The ledger tables in the worlds the router can reach *)

Lemma holds_ret {A} (a : A) : holds (ret a).
Proof. intros w H. exact H. Qed.

Lemma holds_throw {A} (e : ErrorCode) : holds (@throw A e).
Proof. intros w H. exact H. Qed.

Lemma holds_diverge {A} : holds (@diverge A).
Proof. intros w H. exact H. Qed.

Lemma holds_bind {A B} (m : M A) (k : A -> M B) :
  holds m -> (forall a, holds (k a)) -> holds (bind m k).
Proof.
  intros Hm Hk w H. unfold bind. specialize (Hm w H).
  destruct (m w) as [[a| |] w1]; cbn [snd] in *; auto. apply Hk, Hm.
Qed.

Lemma holds_getDB {B} (k : DB -> M B) :
  (forall d, ledgerOk d -> holds (k d)) -> holds (bind getDB k).
Proof. intros Hk w H. unfold bind, getDB. apply Hk; exact H. Qed.

Lemma holds_getS3 {B} (k : list string -> M B) :
  (forall s, holds (k s)) -> holds (bind getS3 k).
Proof. intros Hk w H. unfold bind, getS3. apply Hk; exact H. Qed.

Lemma holds_putDB (d : DB) : ledgerOk d -> holds (putDB d).
Proof. intros Hd w _. exact Hd. Qed.

Lemma holds_putS3 (k : list string) : holds (putS3 k).
Proof. intros w H. exact H. Qed.

Lemma holds_transaction {A} (body : M A) : holdsOk body -> holds (transaction body).
Proof.
  intros Hb w H. unfold transaction. specialize (Hb w).
  destruct (body w) as [[a| |] w1]; cbn [snd]; [|exact H|exact H].
  apply (Hb a w1 H eq_refl).
Qed.

Lemma holds_to_ok {A} (m : M A) : holds m -> holdsOk m.
Proof. intros Hm w a w' H E. specialize (Hm w H). rewrite E in Hm. exact Hm. Qed.

Lemma holdsOk_bind {A B} (m : M A) (k : A -> M B) :
  holdsOk m -> (forall a, holdsOk (k a)) -> holdsOk (bind m k).
Proof.
  intros Hm Hk w b w' H. unfold bind. specialize (Hm w).
  destruct (m w) as [[a| |] w1]; try discriminate.
  intros E. apply (Hk a w1 b w'); [|exact E]. apply (Hm a w1 H eq_refl).
Qed.

Lemma holds_forEach {X} (xs : list X) (body : X -> M unit) :
  (forall x, holds (body x)) -> holds (forEach xs body).
Proof.
  intros Hb. induction xs as [|x xs IH]; cbn [forEach].
  - apply holds_ret.
  - apply holds_bind; [apply Hb | intros _; exact IH].
Qed.

Lemma holdsOk_getDB {B} (k : DB -> M B) :
  (forall d, ledgerOk d -> holdsOk (k d)) -> holdsOk (bind getDB k).
Proof. intros Hk w b w' H. unfold bind, getDB. apply Hk; exact H. Qed.

Lemma ledgerOk_folders (l : list Folder) (d : DB) :
  ledgerOk d -> ledgerOk (set_folders l d).
Proof. intros H. exact H. Qed.

Lemma ledgerOk_assets (l : list UserAsset) (d : DB) :
  ledgerOk d -> ledgerOk (set_userAssets l d).
Proof. intros H. exact H. Qed.

Lemma ledgerOk_files (l : list FileRow) (d : DB) :
  ledgerOk d -> NoDup (map hash l) ->
  (forall f, In f l -> 0 < size f /\ path f = hash f /\ 1 <= refCount f) ->
  ledgerOk (set_files l d).
Proof.
  intros (Hq & Hw & _) Hnd Hl. split; [exact Hq|]. split; [exact Hw|].
  split; [exact Hnd|exact Hl].
Qed.

(** *** The rate limiter *)

Lemma userRateLimit_default (u : Id) (d : DB) :
  quotasOk d -> userRateLimit u d = DEFAULT_RATE_LIMIT.
Proof.
  intros [_ Hq]. unfold userRateLimit, findQuota.
  destruct (find _ (userQuotas d)) as [q|] eqn:E; [|reflexivity].
  apply find_some in E. destruct E as [Hin _]. apply (Hq q Hin).
Qed.

Lemma windowOf_idem (t : Z) : windowOf (windowOf t) = windowOf t.
Proof.
  unfold windowOf, RATE_LIMIT_WINDOW_MS.
  rewrite Z.div_mul by lia. reflexivity.
Qed.

Lemma bumpWindow_cols (i : Id) (r : RateLimitWindow) :
  w_id (bumpWindow i r) = w_id r /\ windowKey (bumpWindow i r) = windowKey r
  /\ windowStart (bumpWindow i r) = windowStart r.
Proof. unfold bumpWindow. destruct (String.eqb (w_id r) i); repeat split. Qed.

Lemma holds_checkRateLimit (u : Id) (now : Z) (i : Id) :
  holds (checkRateLimit u now i).
Proof.
  intros w (Hq & (Hid & Hkey & Hrows) & Hf).
  pose proof (userRateLimit_default u (db w) Hq) as Hlim.
  unfold checkRateLimit. mrun. fold (userRateLimit u (db w)). rewrite Hlim.
  destruct (findWindow u (windowOf now) (db w)) as [cw|] eqn:Ecw.
  - destruct (Z.geb_spec (requestCount cw) DEFAULT_RATE_LIMIT) as [Hge|Hlt]; mrun.
    + split; [exact Hq|]. split; [|exact Hf]. split; [exact Hid|]. split; assumption.
    + split; [exact Hq|]. split; [|exact Hf].
      apply find_some in Ecw. destruct Ecw as [Hcw _].
      unfold windowsOk. mrun. split; [|split].
      * rewrite map_map. erewrite map_ext; [exact Hid|].
        intros r. apply bumpWindow_cols.
      * rewrite map_map. erewrite map_ext; [exact Hkey|].
        intros r. apply bumpWindow_cols.
      * intros r' Hr'. apply in_map_iff in Hr'. destruct Hr' as (r & <- & Hr).
        destruct (Hrows r Hr) as [Hc Hs]. unfold bumpWindow.
        destruct (String.eqb (w_id r) (w_id cw)) eqn:E; [|auto].
        apply String.eqb_eq in E.
        assert (r = cw) by (apply (NoDup_map_inj w_id _ r cw Hid Hr Hcw E)).
        subst r. cbn. split; [lia|exact Hs].
  - destruct (existsb _ (rateLimitWindows (db w))) eqn:Efresh; mrun.
    + split; [exact Hq|]. split; [|exact Hf]. split; [exact Hid|]. split; assumption.
    + split; [exact Hq|]. split; [|exact Hf].
      assert (Hnew : negb (staleWindow u (now - 60000)
                             (mkWindow i u (windowOf now) 1)) = true).
      { unfold staleWindow. cbn. rewrite windowOf_recent, andb_false_r. reflexivity. }
      unfold windowsOk. mrun. rewrite filter_app. cbn [filter]. rewrite Hnew.
      set (kept := filter _ (rateLimitWindows (db w))).
      assert (Hkept : forall r, In r kept -> In r (rateLimitWindows (db w)))
        by (intros r Hr; apply filter_In in Hr; apply Hr).
      split; [|split].
      * rewrite map_app. cbn. apply NoDup_snoc.
        -- unfold kept. apply NoDup_map_filter, Hid.
        -- intros Hin. apply in_map_iff in Hin. destruct Hin as (r & E & Hr).
           rewrite existsb_false_iff in Efresh.
           specialize (Efresh r (Hkept r Hr)). rewrite E, String.eqb_refl in Efresh.
           discriminate.
      * rewrite map_app. cbn. apply NoDup_snoc.
        -- unfold kept. apply NoDup_map_filter, Hkey.
        -- intros Hin. apply in_map_iff in Hin. destruct Hin as (r & E & Hr).
           unfold windowKey in E. injection E as Eu Es.
           unfold findWindow in Ecw. rewrite find_none_iff in Ecw.
           specialize (Ecw r (Hkept r Hr)).
           rewrite Eu, Es, String.eqb_refl, Z.eqb_refl in Ecw. discriminate.
      * intros r Hr. apply in_app_or in Hr. destruct Hr as [Hr|[<-|[]]].
        -- apply Hrows, Hkept, Hr.
        -- cbn. unfold DEFAULT_RATE_LIMIT. split; [lia|apply windowOf_idem].
Qed.

(** *** The quota rows *)

Lemma quotasOk_snoc (u : Id) (used : Z) (d : DB) :
  quotasOk d -> findQuota u d = None -> 0 <= used ->
  quotasOk (set_userQuotas
              (userQuotas d ++ [mkQuota u used DEFAULT_STORAGE_LIMIT DEFAULT_RATE_LIMIT])
              d).
Proof.
  intros [Hnd Hq] Hnone Hused. unfold quotasOk. mrun. split.
  - rewrite map_app. cbn. apply NoDup_snoc; [exact Hnd|].
    intros Hin. apply in_map_iff in Hin. destruct Hin as (q & E & Hin).
    unfold findQuota in Hnone. rewrite find_none_iff in Hnone.
    specialize (Hnone q Hin). rewrite E, String.eqb_refl in Hnone. discriminate.
  - intros q Hin. apply in_app_or in Hin. destruct Hin as [Hin|[<-|[]]].
    + apply Hq, Hin.
    + cbn. auto.
Qed.

Lemma holds_checkStorageQuota (u : Id) (bytes : Z) :
  holds (checkStorageQuota u bytes).
Proof.
  intros w (Hq & Hw & Hf). unfold checkStorageQuota. mrun.
  destruct (findQuota u (db w)) as [q|] eqn:E; mrun.
  - destruct (_ >? _); mrun; (split; [exact Hq|split; [exact Hw|exact Hf]]).
  - assert (H := quotasOk_snoc u 0 (db w) Hq E ltac:(lia)).
    destruct (_ >? _); mrun; (split; [exact H|split; [exact Hw|exact Hf]]).
Qed.

Lemma holds_updateStorageUsage (u : Id) (delta : Z) :
  holds (updateStorageUsage u delta).
Proof.
  intros w (Hq & Hw & Hf). unfold updateStorageUsage. mrun.
  destruct (findQuota u (db w)) as [q|] eqn:E; mrun.
  - split; [|split; [exact Hw|exact Hf]]. destruct Hq as [Hnd Hq].
    unfold quotasOk. mrun. split.
    + rewrite map_map. erewrite map_ext; [exact Hnd|].
      intros x. apply chargeQuota_user.
    + intros q' Hin. apply in_map_iff in Hin. destruct Hin as (x & <- & Hx).
      destruct (Hq x Hx) as (H0 & H1 & H2). unfold chargeQuota.
      destruct (String.eqb (q_userId x) u); cbn; repeat split; auto. lia.
  - split; [|split; [exact Hw|exact Hf]].
    apply (quotasOk_snoc u (Z.max 0 delta) (db w) Hq E). lia.
Qed.

Lemma holds_getQuota (u : Id) : holds (getQuota_handler u).
Proof.
  intros w (Hq & Hw & Hf). unfold getQuota_handler. mrun.
  destruct (findQuota u (db w)) as [q|] eqn:E; mrun.
  - split; [exact Hq|split; [exact Hw|exact Hf]].
  - split; [|split; [exact Hw|exact Hf]].
    apply (quotasOk_snoc u 0 (db w) Hq E). lia.
Qed.

(** *** The content rows *)

Lemma holds_bumpRefCount (h : string) (delta : Z) :
  0 <= delta -> holds (bumpRefCount h delta).
Proof.
  intros Hdelta w H. unfold bumpRefCount. mrun.
  destruct H as (Hq & Hw & Hnd & Hf).
  apply ledgerOk_files;
    [split; [exact Hq|split; [exact Hw|split; assumption]]| |].
  - rewrite map_addRef_hashes. exact Hnd.
  - intros f' Hin. apply in_map_iff in Hin. destruct Hin as (f & <- & Hin).
    rewrite addRef_size, addRef_path, addRef_hash.
    destruct (Hf f Hin) as (H1 & H2 & H3). repeat split; auto.
    unfold addRef. destruct (String.eqb (hash f) h); cbn; lia.
Qed.

Lemma holds_upsertFile (h : string) (sz : Z) : 0 < sz -> holds (upsertFile h sz).
Proof.
  intros Hsz. unfold upsertFile. apply holds_getDB. intros d Hd.
  destruct (findFile h d) eqn:E.
  - apply holds_bind; [apply holds_bumpRefCount; lia|intros _; apply holds_ret].
  - destruct (Hd) as (_ & _ & Hnd & Hf).
    apply holds_putDB, ledgerOk_files; [exact Hd| |].
    + rewrite map_app. cbn. apply NoDup_snoc; [exact Hnd|].
      intros Hin. apply in_map_iff in Hin. destruct Hin as (f & Eh & Hin).
      unfold findFile in E. rewrite find_none_iff in E.
      specialize (E f Hin). rewrite Eh, String.eqb_refl in E. discriminate.
    + intros f Hin. apply in_app_or in Hin. destruct Hin as [Hin|[<-|[]]].
      * apply Hf, Hin.
      * cbn. repeat split; auto. lia.
Qed.

Lemma holds_deleteFileRow (h : string) : holds (deleteFileRow h).
Proof.
  unfold deleteFileRow. apply holds_getDB. intros d Hd.
  destruct (_ && _); [apply holds_throw|].
  destruct (Hd) as (_ & _ & Hnd & Hf).
  apply holds_putDB, ledgerOk_files; [exact Hd| |].
  - apply NoDup_map_filter, Hnd.
  - intros f Hin. apply filter_In in Hin. apply Hf, Hin.
Qed.

Lemma holds_insertAsset (a : UserAsset) : holds (insertAsset a).
Proof.
  unfold insertAsset. apply holds_getDB. intros d Hd.
  destruct (existsb _ (userAssets d)); [apply holds_throw|].
  destruct (match a_folderId a with Some fid => negb (hasFolder fid d)
                                  | None => false end); [apply holds_throw|].
  destruct (findFile (a_fileHash a) d); [|apply holds_throw].
  apply holds_putDB, ledgerOk_assets, Hd.
Qed.

Lemma holds_deleteAssetRow (id : Id) : holds (deleteAssetRow id).
Proof.
  unfold deleteAssetRow. apply holds_getDB. intros d Hd.
  apply holds_putDB, ledgerOk_assets, Hd.
Qed.

Lemma holds_s3Delete (key : string) : holds (s3Delete key).
Proof.
  unfold s3Delete. apply holds_getS3. intros k. apply holds_putS3.
Qed.

Lemma holds_deleteFolderRow (id : Id) : holds (deleteFolderRow id).
Proof.
  unfold deleteFolderRow. apply holds_getDB. intros d Hd.
  destruct (hasFolder id d); [|apply holds_ret].
  apply holds_putDB, ledgerOk_assets, ledgerOk_folders, Hd.
Qed.

Lemma holds_insertFolder (f : Folder) : holds (insertFolder f).
Proof.
  unfold insertFolder. apply holds_getDB. intros d Hd.
  destruct (hasFolder (f_id f) d); [apply holds_throw|].
  apply holds_putDB, ledgerOk_folders, Hd.
Qed.

(** The release block, when it completes, leaves no content row at a
    count below one: a row whose count falls to zero is deleted. *)
Lemma holdsOk_releaseAsset (id : Id) (h : string) : holdsOk (releaseAsset id h).
Proof.
  intros w a w' (Hq & Hw & Hnd & Hf).
  unfold releaseAsset, deleteAssetRow, bumpRefCount, s3Delete, deleteFileRow. mrun.
  rewrite find_map_addRef.
  destruct (find (fun f => String.eqb (hash f) h) (files (db w))) as [f0|] eqn:E0;
    cbn [option_map].
  - apply find_some in E0. destruct E0 as [Hf0 Eh0]. apply String.eqb_eq in Eh0.
    unfold addRef at 1. rewrite Eh0, String.eqb_refl. cbn [refCount path].
    destruct (Z.leb_spec (refCount f0 + -1) 0) as [Hle|Hgt]; mrun.
    + destruct (existsb _ _ && existsb _ _); mrun; [discriminate|].
      intros [= _ <-]. mrun. split; [exact Hq|]. split; [exact Hw|]. unfold filesOk. mrun. split.
      * apply NoDup_map_filter. rewrite map_addRef_hashes. exact Hnd.
      * intros f' Hin. apply filter_In in Hin. destruct Hin as [Hin Ene].
        apply in_map_iff in Hin. destruct Hin as (f & <- & Hin).
        rewrite addRef_hash in Ene. unfold addRef.
        destruct (String.eqb (hash f) h); [discriminate|]. apply Hf, Hin.
    + intros [= _ <-]. mrun. split; [exact Hq|]. split; [exact Hw|]. unfold filesOk. mrun. split.
      * rewrite map_addRef_hashes. exact Hnd.
      * intros f' Hin. apply in_map_iff in Hin. destruct Hin as (f & <- & Hin).
        rewrite addRef_size, addRef_path, addRef_hash.
        destruct (Hf f Hin) as (H1 & H2 & H3). repeat split; auto.
        unfold addRef. destruct (String.eqb (hash f) h) eqn:Eh; [|exact H3].
        apply String.eqb_eq in Eh.
        assert (f = f0)
          by (apply (NoDup_map_inj hash _ f f0 Hnd Hin Hf0); congruence).
        subst f. cbn. lia.
  - intros [= _ <-]. mrun. split; [exact Hq|]. split; [exact Hw|]. unfold filesOk. mrun. split.
    + rewrite map_addRef_hashes. exact Hnd.
    + intros f' Hin. apply in_map_iff in Hin. destruct Hin as (f & <- & Hin).
      rewrite find_none_iff in E0. unfold addRef. rewrite (E0 f Hin).
      apply Hf, Hin.
Qed.

Lemma holdsOk_releaseAll (d0 : DB) (assets : list UserAsset) :
  forall total, holdsOk (releaseAll d0 assets total).
Proof.
  induction assets as [|a assets IH]; intros total; cbn [releaseAll].
  - apply holds_to_ok, holds_ret.
  - apply holdsOk_bind; [apply holdsOk_releaseAsset|intros _].
    destruct (fileSizeOf d0 a); [apply IH|apply holds_to_ok, holds_throw].
Qed.

Lemma holds_stampFolders (ids : list Id) (t : option Z) :
  holds (stampFolders ids t).
Proof.
  unfold stampFolders. apply holds_forEach. intros id.
  apply holds_getDB. intros d Hd. apply holds_putDB, ledgerOk_folders, Hd.
Qed.

Lemma holds_liftCollect (r : option (list Id)) : holds (liftCollect r).
Proof. destruct r; [apply holds_ret|apply holds_diverge]. Qed.

(** *** The procedures *)

Ltac hold_prim :=
  first
    [ apply holds_ret | apply holds_throw | apply holds_diverge
    | apply holds_checkStorageQuota | apply holds_updateStorageUsage
    | apply holds_insertAsset | apply holds_bumpRefCount; lia
    | apply holds_deleteFolderRow | apply holds_insertFolder
    | apply holds_stampFolders | apply holds_liftCollect
    | apply holds_getQuota ].

Ltac hold_step :=
  first
    [ hold_prim
    | apply holds_to_ok; hold_prim
    | apply holdsOk_releaseAsset | apply holdsOk_releaseAll
    | apply holds_transaction
    | apply holds_getDB; intros ? ?
    | apply holdsOk_getDB; intros ? ?
    | apply holds_getS3; intros ?
    | apply holds_forEach; intros ?
    | apply holds_bind; [|intros ?]
    | apply holdsOk_bind; [|intros ?]
    | apply holds_putDB;
      first [ assumption
            | apply ledgerOk_assets; assumption
            | apply ledgerOk_folders; assumption ]
    | match goal with
      | |- holds (if ?c then _ else _) => destruct c
      | |- holds (match ?x with _ => _ end) => destruct x
      | |- holdsOk (if ?c then _ else _) => destruct c
      | |- holdsOk (match ?x with _ => _ end) => destruct x
      end
    | apply holds_to_ok ].

Ltac hold := cbv zeta; repeat hold_step.

Lemma holds_runCall (u : Id) (now : Z) (fuel : nat) (c : Call) :
  callValid c = true -> holds (runCall u now fuel c).
Proof.
  intros Hvalid. destruct c; cbn [runCall]; unfold void.
  - unfold getUploadPresignedUrl_handler. hold.
  - unfold confirmUpload_handler.
    assert (Hsz : 0 < in_size input).
    { cbn in Hvalid. unfold uploadInputValid in Hvalid.
      apply andb_prop in Hvalid. destruct Hvalid as [Hv _].
      apply andb_prop in Hv. destruct Hv as [_ Hv]. apply Z.ltb_lt, Hv. }
    apply holds_getS3. intros k.
    destruct (negb _); [apply holds_throw|].
    apply holds_bind; [|intros _; apply holds_updateStorageUsage].
    apply holds_transaction, holds_to_ok.
    apply holds_bind; [apply holds_upsertFile, Hsz|intros _; apply holds_insertAsset].
  - unfold createFolder_handler. hold.
  - unfold deleteFolder_handler. hold.
  - unfold moveFolderToTrash_handler. hold.
  - unfold restoreFolderFromTrash_handler. hold.
  - unfold deleteAsset_handler. hold.
  - unfold moveToTrash_handler. hold.
  - unfold restoreFromTrash_handler. hold.
  - unfold permanentlyDelete_handler. hold.
  - unfold permanentlyDeleteFolder_handler. hold.
  - unfold emptyTrash_handler. hold.
  - unfold moveFolder_handler. hold.
  - unfold renameFile_handler. hold.
  - unfold renameFolder_handler. hold.
  - unfold moveFile_handler. hold.
  - hold.
  - hold.
Qed.

Lemma holds_handle (r : Request) : holds (handle r).
Proof.
  unfold handle, rateLimitedProcedure.
  apply holds_bind; [apply holds_checkRateLimit|intros _].
  destruct (callValid (r_call r)) eqn:E; [|apply holds_throw].
  apply holds_runCall, E.
Qed.

Lemma ledgerOk_empty : ledgerOk (db emptyWorld).
Proof.
  split; [|split].
  - split; [constructor|intros q []].
  - split; [constructor|]. split; [constructor|intros r []].
  - split; [constructor|intros f []].
Qed.

Lemma reachable_ledgerOk (w : World) : reachable w -> ledgerOk (db w).
Proof.
  intros [es ->]. unfold run.
  assert (H : forall w0, ledgerOk (db w0) -> ledgerOk (db (fold_left after es w0))).
  { induction es as [|e es IH]; intros w0 H0; cbn [fold_left]; [exact H0|].
    apply IH. destruct e as [r|key]; cbn [after].
    - apply holds_handle, H0.
    - exact H0. }
  apply H, ledgerOk_empty.
Qed.

(** X14 (checkStorageQuota, updateStorageUsage, getQuota).  In every world
    the router can reach there is one quota row per user, no row charges
    a negative number of bytes, so that the usage read for any user is
    never negative, and every row carries the storage limit and the rate
    limit it was created with: no procedure of the router writes them. *)
Theorem charged_bytes_never_negative (w : World) :
  reachable w ->
  NoDup (map q_userId (userQuotas (db w)))
  /\ (forall q, In q (userQuotas (db w)) ->
        0 <= storageUsed q
        /\ storageLimit q = DEFAULT_STORAGE_LIMIT
        /\ q_rateLimit q = DEFAULT_RATE_LIMIT)
  /\ (forall u, 0 <= usageOf u (db w)
                /\ limitOf u (db w) = DEFAULT_STORAGE_LIMIT
                /\ userRateLimit u (db w) = DEFAULT_RATE_LIMIT).
Proof.
  intros Hreach. destruct (reachable_ledgerOk w Hreach) as ([Hnd Hq] & _ & _).
  split; [exact Hnd|]. split; [exact Hq|].
  intros u. unfold usageOf, limitOf, userRateLimit, findQuota.
  destruct (find _ (userQuotas (db w))) as [q|] eqn:E.
  - apply find_some in E. destruct E as [Hin _]. apply (Hq q Hin).
  - repeat split. lia.
Qed.

Lemma charged_bytes_never_negative_witness :
  let w := run (sizeScenario ++ [confirmMismatch; purgeMismatch]) emptyWorld in
  NoDup (map q_userId (userQuotas (db w)))
  /\ (forall q, In q (userQuotas (db w)) ->
        0 <= storageUsed q
        /\ storageLimit q = DEFAULT_STORAGE_LIMIT
        /\ q_rateLimit q = DEFAULT_RATE_LIMIT)
  /\ (forall u, 0 <= usageOf u (db w)
                /\ limitOf u (db w) = DEFAULT_STORAGE_LIMIT
                /\ userRateLimit u (db w) = DEFAULT_RATE_LIMIT).
Proof.
  apply (charged_bytes_never_negative
           (run (sizeScenario ++ [confirmMismatch; purgeMismatch]) emptyWorld)).
  exists (sizeScenario ++ [confirmMismatch; purgeMismatch]). reflexivity.
Defined.

(** X15 (checkRateLimit behind rateLimitedProcedure).  In every world the
    router can reach, the rate windows hold one row per user and window,
    each starting on a window boundary, and the count of every row lies
    between one and the limit of two: no user is ever admitted more often
    than the limit within one window. *)
Theorem window_counts_stay_within_limit (w : World) :
  reachable w ->
  NoDup (map windowKey (rateLimitWindows (db w)))
  /\ forall r, In r (rateLimitWindows (db w)) ->
       1 <= requestCount r <= DEFAULT_RATE_LIMIT
       /\ windowOf (windowStart r) = windowStart r
       /\ findWindow (w_userId r) (windowStart r) (db w) = Some r.
Proof.
  intros Hreach.
  destruct (reachable_ledgerOk w Hreach) as (_ & (Hid & Hkey & Hrows) & _).
  split; [exact Hkey|]. intros r Hr. destruct (Hrows r Hr) as [Hc Hs].
  split; [exact Hc|]. split; [exact Hs|].
  unfold findWindow. destruct (find _ (rateLimitWindows (db w))) as [r'|] eqn:E.
  - apply find_some in E. destruct E as [Hr' E].
    apply andb_prop in E. destruct E as [Eu Es].
    apply String.eqb_eq in Eu. apply Z.eqb_eq in Es. f_equal.
    apply (NoDup_map_inj windowKey _ r' r Hkey Hr' Hr).
    unfold windowKey. congruence.
  - rewrite find_none_iff in E. specialize (E r Hr).
    rewrite String.eqb_refl, Z.eqb_refl in E. discriminate.
Qed.

Lemma window_counts_stay_within_limit_witness :
  let w := run dedupScenario emptyWorld in
  NoDup (map windowKey (rateLimitWindows (db w)))
  /\ forall r, In r (rateLimitWindows (db w)) ->
       1 <= requestCount r <= DEFAULT_RATE_LIMIT
       /\ windowOf (windowStart r) = windowStart r
       /\ findWindow (w_userId r) (windowStart r) (db w) = Some r.
Proof.
  apply (window_counts_stay_within_limit (run dedupScenario emptyWorld)).
  exists dedupScenario. reflexivity.
Defined.

(** ** Content rows and statistics *)

Lemma refs_positive_has_asset (h : string) (l : list UserAsset) :
  1 <= refs h l -> exists a, In a l /\ a_fileHash a = h.
Proof.
  unfold refs. intros H.
  destruct (filter (fun a => String.eqb (a_fileHash a) h) l) as [|a rest] eqn:E;
    [cbn in H; lia|].
  assert (Hin : In a (a :: rest)) by (left; reflexivity).
  rewrite <- E in Hin. apply filter_In in Hin. destruct Hin as [Hin Eh].
  apply String.eqb_eq in Eh. eauto.
Qed.

(** X16 (confirmUpload, getUploadPresignedUrl, the purge procedures).  In
    every world the router can reach there is one content row per hash,
    of positive size and stored under its hash as key, and none is
    orphaned: its count is at least one and some asset row refers to
    it. *)
Theorem content_rows_are_referenced (w : World) :
  reachable w ->
  NoDup (map hash (files (db w)))
  /\ forall f, In f (files (db w)) ->
       0 < size f /\ path f = hash f /\ 1 <= refCount f
       /\ exists a, In a (userAssets (db w)) /\ a_fileHash a = hash f.
Proof.
  intros Hreach.
  destruct (reachable_ledgerOk w Hreach) as (_ & _ & Hnd & Hf).
  destruct (reachable_dedupOk w Hreach) as [_ Hinv].
  split; [exact Hnd|]. intros f Hin. destruct (Hf f Hin) as (H1 & H2 & H3).
  repeat (split; [assumption|]).
  apply refs_positive_has_asset. rewrite <- (Hinv f Hin). exact H3.
Qed.

Lemma content_rows_are_referenced_witness :
  let w := run dedupScenario emptyWorld in
  NoDup (map hash (files (db w)))
  /\ forall f, In f (files (db w)) ->
       0 < size f /\ path f = hash f /\ 1 <= refCount f
       /\ exists a, In a (userAssets (db w)) /\ a_fileHash a = hash f.
Proof.
  apply (content_rows_are_referenced (run dedupScenario emptyWorld)).
  exists dedupScenario. reflexivity.
Defined.







(** ** Trashing a folder *)

Lemma inSubtree_trans (keep : Folder -> bool) (fs : list Folder) (r x y : Id) :
  inSubtree keep fs r x -> inSubtree keep fs x y -> inSubtree keep fs r y.
Proof.
  intros Hrx Hxy. induction Hxy as [|c z _ IH Hin Hp Hk]; [exact Hrx|].
  eapply sub_child; eauto.
Qed.

Lemma collectIds_sound (keep : Folder -> bool) (fs : list Folder) (fuel : nat) :
  forall root ids x,
    collectIds keep fs fuel root = Some ids -> In x ids ->
    inSubtree keep fs root x.
Proof.
  induction fuel as [|n IH]; intros root ids x; cbn [collectIds]; [discriminate|].
  set (subs := filter (fun f => col_eq (f_parentId f) root && keep f) fs).
  destruct (concatAll (map (fun s => collectIds keep fs n (f_id s)) subs))
    as [subIds|] eqn:E; [|discriminate].
  intros [= <-] [<-|Hx]; [apply sub_root|].
  destruct (concatAll_some _ _ _ E) as [_ Hex].
  destruct (Hex x Hx) as (s & p & Hs & Hsp & Hxp).
  apply filter_In in Hs. destruct Hs as [Hs Ep].
  apply andb_prop in Ep. destruct Ep as [Ep Hk].
  destruct (f_parentId s) as [q|] eqn:Eq; cbn in Ep; [|discriminate].
  apply String.eqb_eq in Ep. subst q.
  apply (inSubtree_trans keep fs root (f_id s) x).
  - apply (@sub_child keep fs root s root); [apply sub_root|assumption..].
  - apply (IH _ _ _ Hsp Hxp).
Qed.

Lemma trash_commit (u : Id) (ids : list Id) (now : Z) (w : World) :
  ids <> [] ->
  (transaction
     ((if (0 <? List.length ids)%nat
       then
         d1 <- getDB ;;
         putDB (set_userAssets
                  (map (fun a =>
                          if String.eqb (a_userId a) u
                             && isNull (a_deletedAt a) && folderIn ids a
                          then setAssetDeletedAt (Some now) a else a)
                       (userAssets d1)) d1)
       else ret tt) ;;;
      stampFolders ids (Some now)) ;;;
   ret (List.length ids)) w
  = (Ok (List.length ids), trashedWorld u ids now w).
Proof.
  intros Hne. destruct ids as [|i ids]; [congruence|].
  unfold bind at 1. unfold transaction. unfold bind at 1.
  cbn [List.length Nat.ltb Nat.leb]. unfold bind at 1, getDB, putDB.
  rewrite stampFolders_run. reflexivity.
Qed.

Lemma moveFolderToTrash_runs (w : World) (u : Id) (F : Folder) (now : Z)
    (fuel : nat) (ids : list Id) :
  folderKeysOk (folders (db w)) ->
  In F (folders (db w)) -> f_userId F = u -> f_deletedAt F = None ->
  collectFolderIds u (folders (db w)) fuel (f_id F) = Some ids ->
  moveFolderToTrash_handler u (f_id F) now fuel w
  = (Ok (List.length ids), trashedWorld u ids now w).
Proof.
  intros [Hnd Hne] HF Hu Hdel Hcollect.
  unfold moveFolderToTrash_handler. unfold bind at 1, getDB.
  rewrite (find_active_folder _ _ _ Hnd HF Hu Hdel).
  unfold bind at 1. rewrite Hcollect. cbn [liftCollect]. unfold ret at 1.
  apply trash_commit.
  unfold collectFolderIds in Hcollect.
  apply collectIds_closed in Hcollect. destruct Hcollect as [Hin _].
  intros ->. destruct Hin.
Qed.



(** ** Trashing a folder and restoring it *)

Lemma stamped_ids (ids : list Id) (t : option Z) (fs : list Folder) :
  map f_id (stampedFolders ids t fs) = map f_id fs.
Proof.
  unfold stampedFolders. rewrite map_map. apply map_ext. intros f.
  destruct (existsb (String.eqb (f_id f)) ids); reflexivity.
Qed.

Lemma stamped_keys (ids : list Id) (t : option Z) (fs : list Folder) :
  folderKeysOk fs -> folderKeysOk (stampedFolders ids t fs).
Proof.
  intros [Hnd Hne]. split; [rewrite stamped_ids; exact Hnd|].
  intros f Hf. unfold stampedFolders in Hf. apply in_map_iff in Hf.
  destruct Hf as (g & <- & Hg). specialize (Hne g Hg).
  destruct (existsb (String.eqb (f_id g)) ids); exact Hne.
Qed.

Lemma existsb_eqb_in (x : Id) (ids : list Id) :
  existsb (String.eqb x) ids = true <-> In x ids.
Proof.
  rewrite existsb_exists. split.
  - intros (y & Hy & E). apply String.eqb_eq in E. subst y. exact Hy.
  - intros H. exists x. split; [exact H|apply String.eqb_refl].
Qed.

(** Along the active folders of the caller the rank does not grow. *)
Lemma subtree_rank (u : Id) (fs : list Folder) (rank : Id -> nat) (root x : Id) :
  (forall c p, In c fs -> f_userId c = u -> f_parentId c = Some p ->
               (rank (f_id c) < rank p)%nat) ->
  inSubtree (ownedActive u) fs root x -> (rank x <= rank root)%nat.
Proof.
  intros Hrank Hs. induction Hs as [|c y _ IH Hin Hp Hk]; [lia|].
  apply andb_prop in Hk. destruct Hk as [Hu _]. apply String.eqb_eq in Hu.
  specialize (Hrank c y Hin Hu Hp). lia.
Qed.

(** The rows of an active subtree are active. *)
Lemma subtree_rows_active (u : Id) (fs : list Folder) (F g : Folder) :
  NoDup (map f_id fs) -> In F fs -> f_deletedAt F = None ->
  inSubtree (ownedActive u) fs (f_id F) (f_id g) -> In g fs ->
  f_deletedAt g = None.
Proof.
  intros Hnd HF Hdel Hs Hg.
  remember (f_id g) as x eqn:Ex. destruct Hs as [|c y _ Hin Hp Hk].
  - rewrite (NoDup_map_inj f_id _ g F Hnd Hg HF (eq_sym Ex)). exact Hdel.
  - rewrite (NoDup_map_inj f_id _ g c Hnd Hg Hin (eq_sym Ex)).
    apply andb_prop in Hk. destruct Hk as [_ Hk].
    destruct (f_deletedAt c); [discriminate|reflexivity].
Qed.

(** After the cascade, the collector of trashed folders finds from any
    folder of the subtree what the collector of active folders found
    before. *)
Lemma collect_after_trash (u : Id) (fs : list Folder) (rootId : Id)
    (ids : list Id) (now : Z) :
  (forall x, inSubtree (ownedActive u) fs rootId x -> In x ids) ->
  (forall c y, inSubtree (ownedActive u) fs rootId y -> In c fs ->
               f_parentId c = Some y -> f_userId c = u ->
               f_deletedAt c = None) ->
  forall fuel x, inSubtree (ownedActive u) fs rootId x ->
    collectTrashedFolderIds u (stampedFolders ids (Some now) fs) fuel x
    = collectFolderIds u fs fuel x.
Proof.
  intros Hids Hclean. unfold collectTrashedFolderIds, collectFolderIds.
  induction fuel as [|n IH]; intros x Hx; [reflexivity|].
  cbn [collectIds]. unfold stampedFolders at 2. rewrite filter_map_swap.
  rewrite (filter_ext_in
             (fun f => col_eq (f_parentId
                         (if existsb (String.eqb (f_id f)) ids
                          then mkFolder (f_id f) (f_name f) (f_userId f)
                                 (f_parentId f) (Some now) else f)) x
                       && (String.eqb (f_userId
                             (if existsb (String.eqb (f_id f)) ids
                              then mkFolder (f_id f) (f_name f) (f_userId f)
                                     (f_parentId f) (Some now) else f)) u
                           && isNotNull (f_deletedAt
                             (if existsb (String.eqb (f_id f)) ids
                              then mkFolder (f_id f) (f_name f) (f_userId f)
                                     (f_parentId f) (Some now) else f))))
             (fun f => col_eq (f_parentId f) x
                       && (String.eqb (f_userId f) u && isNull (f_deletedAt f)))).
  2:{ intros c Hc.
      assert (Hp : f_parentId (if existsb (String.eqb (f_id c)) ids
                               then mkFolder (f_id c) (f_name c) (f_userId c)
                                      (f_parentId c) (Some now) else c)
                   = f_parentId c)
        by (destruct (existsb (String.eqb (f_id c)) ids); reflexivity).
      assert (Hu : f_userId (if existsb (String.eqb (f_id c)) ids
                             then mkFolder (f_id c) (f_name c) (f_userId c)
                                    (f_parentId c) (Some now) else c)
                   = f_userId c)
        by (destruct (existsb (String.eqb (f_id c)) ids); reflexivity).
      rewrite Hp, Hu.
      destruct (f_parentId c) as [q|] eqn:Eq; [|reflexivity]. cbn [col_eq].
      destruct (String.eqb q x) eqn:Eqx; [|reflexivity].
      apply String.eqb_eq in Eqx. subst q.
      destruct (String.eqb (f_userId c) u) eqn:Eu; [|reflexivity].
      apply String.eqb_eq in Eu.
      assert (Hact : f_deletedAt c = None) by (apply (Hclean c x); auto).
      assert (Hin : In (f_id c) ids).
      { apply Hids. apply (@sub_child (ownedActive u) fs rootId c x); auto.
        unfold ownedActive. rewrite Eu, String.eqb_refl, Hact. reflexivity. }
      apply existsb_eqb_in in Hin. rewrite Hin, Hact. reflexivity. }
  rewrite map_map.
  rewrite (map_ext_in
             (fun s => collectIds
                 (fun f => String.eqb (f_userId f) u && isNotNull (f_deletedAt f))
                 (map (fun f => if existsb (String.eqb (f_id f)) ids
                                then mkFolder (f_id f) (f_name f) (f_userId f)
                                       (f_parentId f) (Some now) else f) fs)
                 n
                 (f_id (if existsb (String.eqb (f_id s)) ids
                        then mkFolder (f_id s) (f_name s) (f_userId s)
                               (f_parentId s) (Some now) else s)))
             (fun s => collectIds
                 (fun f => String.eqb (f_userId f) u && isNull (f_deletedAt f))
                 fs n (f_id s))).
  - reflexivity.
  - intros s Hs. cbv beta.
    assert (Hid : f_id (if existsb (String.eqb (f_id s)) ids
                        then mkFolder (f_id s) (f_name s) (f_userId s)
                               (f_parentId s) (Some now) else s) = f_id s)
      by (destruct (existsb (String.eqb (f_id s)) ids); reflexivity).
    rewrite Hid. apply IH.
    apply filter_In in Hs. destruct Hs as [Hs E].
    apply andb_prop in E. destruct E as [Ep Hk].
    destruct (f_parentId s) as [q|] eqn:Eq; cbn in Ep; [|discriminate].
    apply String.eqb_eq in Ep. subst q.
    apply (@sub_child (ownedActive u) fs rootId s x); auto.
Qed.

Lemma restore_undoes_trash (u : Id) (ids : list Id) (now : Z) (w : World)
    (F : Folder) :
  NoDup (map f_id (folders (db w))) ->
  In F (folders (db w)) -> f_deletedAt F = None ->
  (forall x, In x ids -> inSubtree (ownedActive u) (folders (db w)) (f_id F) x) ->
  cleanBelow u (db w) (f_id F) ->
  restoredWorld u ids (trashedWorld u ids now w) = w.
Proof.
  intros Hnd HF Hdel Hids [_ Hassets].
  destruct w as [d s]. destruct d as [fl fs al qs rs].
  unfold restoredWorld, trashedWorld, with_db, set_folders, set_userAssets.
  cbn [db s3 files folders userAssets userQuotas rateLimitWindows] in *.
  assert (Hfs : stampedFolders ids None (stampedFolders ids (Some now) fs) = fs).
  { unfold stampedFolders. rewrite map_map.
    rewrite <- (map_id fs) at 2. apply map_ext_in. intros g Hg.
    destruct (existsb (String.eqb (f_id g)) ids) eqn:E.
    - cbn [f_id]. rewrite E.
      apply existsb_eqb_in in E.
      pose proof (subtree_rows_active u fs F g Hnd HF Hdel (Hids _ E) Hg) as Hact.
      destruct g; cbn in *; subst; reflexivity.
    - rewrite E. reflexivity. }
  assert (Hal : restoredAssets u ids (trashedAssets u ids now al) = al).
  { unfold restoredAssets, trashedAssets. rewrite map_map.
    rewrite <- (map_id al) at 2. apply map_ext_in. intros a Ha.
    destruct (String.eqb (a_userId a) u && isNull (a_deletedAt a)
              && folderIn ids a) eqn:E.
    - apply andb_prop in E. destruct E as [E Hin].
      apply andb_prop in E. destruct E as [Eu Ed].
      unfold setAssetDeletedAt, folderIn in *. cbn. rewrite Eu, Hin. cbn.
      destruct a as [i n o fo h da]; cbn in *.
      destruct da; [discriminate|reflexivity].
    - destruct (String.eqb (a_userId a) u && isNotNull (a_deletedAt a)
                && folderIn ids a) eqn:E2; [exfalso|reflexivity].
      apply andb_prop in E2. destruct E2 as [E2 Hin].
      apply andb_prop in E2. destruct E2 as [Eu Ed].
      apply String.eqb_eq in Eu. unfold folderIn in Hin.
      destruct (a_folderId a) as [y|] eqn:Ey; [|discriminate].
      apply existsb_eqb_in in Hin.
      rewrite (Hassets a y Ha Eu Ey (Hids _ Hin)) in Ed. discriminate. }
  rewrite Hfs, Hal. reflexivity.
Qed.

(** On the columns of the rows above, trashing a folder and restoring it
    gives back every row, when nothing of the caller below the folder was
    in the trash before. *)
Lemma folder_rows_restored
    (w : World) (u : Id) (F : Folder) (now : Z) (fuel : nat) (rank : Id -> nat) :
  folderKeysOk (folders (db w)) ->
  In F (folders (db w)) -> f_userId F = u -> f_deletedAt F = None ->
  (forall c p, In c (folders (db w)) -> f_userId c = u ->
               f_parentId c = Some p -> (rank (f_id c) < rank p)%nat) ->
  (rank (f_id F) < fuel)%nat ->
  parentActive u (folders (db w)) F ->
  cleanBelow u (db w) (f_id F) ->
  exists n w1,
    moveFolderToTrash_handler u (f_id F) now fuel w = (Ok n, w1)
    /\ (exists F1, In F1 (folders (db w1)) /\ f_id F1 = f_id F
                   /\ f_deletedAt F1 = Some now)
    /\ restoreFolderFromTrash_handler u (f_id F) fuel w1 = (Ok n, w).
Proof.
  intros Hkeys HF Hu Hdel Hrank Hfuel Hparent Hclean.
  assert (HrankA : forall c p, In c (folders (db w)) ->
            ownedActive u c = true -> f_parentId c = Some p ->
            (rank (f_id c) < rank p)%nat).
  { intros c p Hc Hk Hp. apply andb_prop in Hk. destruct Hk as [Hk _].
    apply String.eqb_eq in Hk. apply (Hrank c p Hc Hk Hp). }
  destruct (@collectIds_total (ownedActive u) (folders (db w)) rank HrankA
              fuel (f_id F) Hfuel) as [ids Hids].
  assert (Hsound : forall x, In x ids ->
            inSubtree (ownedActive u) (folders (db w)) (f_id F) x)
    by (intros x; apply (collectIds_sound _ _ _ _ _ _ Hids)).
  assert (Hcomplete : forall x,
            inSubtree (ownedActive u) (folders (db w)) (f_id F) x -> In x ids)
    by (intros x; apply (collectIds_complete _ _ _ _ _ _ Hids)).
  assert (HFin : In (f_id F) ids) by (apply Hcomplete, sub_root).
  set (F1 := mkFolder (f_id F) (f_name F) (f_userId F) (f_parentId F) (Some now)).
  assert (HF1 : In F1 (folders (db (trashedWorld u ids now w)))).
  { unfold trashedWorld. cbn [db with_db folders set_folders].
    unfold stampedFolders. apply in_map_iff. exists F. split; [|exact HF].
    apply existsb_eqb_in in HFin. rewrite HFin. reflexivity. }
  exists (List.length ids), (trashedWorld u ids now w).
  split; [apply moveFolderToTrash_runs; auto|].
  split; [exists F1; repeat split; auto|].
  rewrite <- (restore_undoes_trash u ids now w F (proj1 Hkeys) HF Hdel Hsound Hclean)
    at 2.
  apply (restoreFolder_runs (trashedWorld u ids now w) u F1 fuel ids).
  - unfold trashedWorld. cbn [db with_db folders set_folders].
    apply stamped_keys, Hkeys.
  - exact HF1.
  - exact Hu.
  - cbn. discriminate.
  - destruct Hparent as [Ht|(P & HP & Hpar & HuP & HdP)]; [left; exact Ht|].
    right. exists P. repeat split; auto.
    unfold trashedWorld. cbn [db with_db folders set_folders].
    unfold stampedFolders. apply in_map_iff. exists P. split; [|exact HP].
    destruct (existsb (String.eqb (f_id P)) ids) eqn:E; [exfalso|reflexivity].
    apply existsb_eqb_in in E.
    pose proof (subtree_rank u _ rank _ _ Hrank (Hsound _ E)) as Hle.
    pose proof (Hrank F (f_id P) HF Hu Hpar) as Hlt. lia.
  - unfold trashedWorld. cbn [db with_db folders set_folders].
    change (f_id F1) with (f_id F).
    rewrite (collect_after_trash u (folders (db w)) (f_id F) ids now Hcomplete
               (proj1 Hclean) fuel (f_id F) (sub_root _ _ _)).
    exact Hids.
Qed.


(** ** A call and the rows of the other users *)

Section Guards.

Variable P : DB -> Prop.

Lemma guards_ret {A} (a : A) : guards P (ret a).
Proof. intros w H. exact H. Qed.

Lemma guards_throw {A} (e : ErrorCode) : guards P (@throw A e).
Proof. intros w H. exact H. Qed.

Lemma guards_diverge {A} : guards P (@diverge A).
Proof. intros w H. exact H. Qed.

Lemma guards_bind {A B} (m : M A) (k : A -> M B) :
  guards P m -> (forall a, guards P (k a)) -> guards P (bind m k).
Proof.
  intros Hm Hk w H. unfold bind. specialize (Hm w H).
  destruct (m w) as [[a| |] w1]; cbn [snd] in *; auto. apply Hk, Hm.
Qed.

Lemma guards_getDB {B} (k : DB -> M B) :
  (forall d, P d -> guards P (k d)) -> guards P (bind getDB k).
Proof. intros Hk w H. unfold bind, getDB. apply Hk; exact H. Qed.

Lemma guards_getS3 {B} (k : list string -> M B) :
  (forall s, guards P (k s)) -> guards P (bind getS3 k).
Proof. intros Hk w H. unfold bind, getS3. apply Hk; exact H. Qed.

Lemma guards_putDB (d : DB) : P d -> guards P (putDB d).
Proof. intros Hd w _. exact Hd. Qed.

Lemma guards_putS3 (k : list string) : guards P (putS3 k).
Proof. intros w H. exact H. Qed.

Lemma guards_transaction {A} (body : M A) :
  guards P body -> guards P (transaction body).
Proof.
  intros Hb w H. unfold transaction. specialize (Hb w H).
  destruct (body w) as [[a| |] w1]; cbn [snd db with_db] in *; auto.
Qed.

Lemma guards_forEach {A} (xs : list A) (body : A -> M unit) :
  (forall x, In x xs -> guards P (body x)) -> guards P (forEach xs body).
Proof.
  induction xs as [|x xs IH]; intros Hb; cbn [forEach]; [apply guards_ret|].
  apply guards_bind; [apply Hb; left; reflexivity|].
  intros _. apply IH. intros y Hy. apply Hb. right. exact Hy.
Qed.

Lemma guards_liftCollect (r : option (list Id)) : guards P (liftCollect r).
Proof. destruct r; [apply guards_ret|apply guards_diverge]. Qed.

End Guards.

Lemma map_detach_same (p : UserAsset -> bool) (g : UserAsset -> UserAsset)
    (l : list UserAsset) :
  (forall x, In x l -> p x = true -> detach (g x) = detach x) ->
  (forall x, p (g x) = p x) ->
  map detach (filter p (map g l)) = map detach (filter p l).
Proof.
  intros Hg Hp. induction l as [|x l IH]; cbn; [reflexivity|].
  rewrite Hp. destruct (p x) eqn:E.
  - cbn [map]. rewrite (Hg x (or_introl eq_refl) E). f_equal.
    apply IH. intros y Hy. apply Hg. right. exact Hy.
  - apply IH. intros y Hy. apply Hg. right. exact Hy.
Qed.

Lemma filter_filter_same {A} (p q : A -> bool) (l : list A) :
  (forall x, In x l -> p x = true -> q x = true) ->
  filter p (filter q l) = filter p l.
Proof.
  intros H. rewrite filter_twice. apply filter_ext_in. intros x Hx.
  destruct (p x) eqn:E; [rewrite (H x Hx E); reflexivity|apply andb_false_r].
Qed.

Lemma NoDup_map_same {A B} (f : A -> B) (g : A -> A) (l : list A) :
  (forall x, f (g x) = f x) -> NoDup (map f l) -> NoDup (map f (map g l)).
Proof.
  intros H Hnd. rewrite map_map. rewrite (map_ext _ f H). exact Hnd.
Qed.

Lemma collected_rows (keep : Folder -> bool) (fs : list Folder) (fuel : nat)
    (root : Id) (ids : list Id) (x : Id) :
  collectIds keep fs fuel root = Some ids -> In x ids ->
  x = root \/ exists c, In c fs /\ keep c = true /\ f_id c = x.
Proof.
  intros Hc Hx. destruct (collectIds_sound _ _ _ _ _ _ Hc Hx) as [|c y _ Hin _ Hk].
  - left. reflexivity.
  - right. exists c. auto.
Qed.

Section Apart.

Variables (u v : Id) (fs0 : list Folder) (as0 : list UserAsset)
          (qs0 : list UserQuota).
Hypothesis Huv : u <> v.

Lemma apart_folders (d : DB) (fs' : list Folder) :
  apart v fs0 as0 qs0 d -> NoDup (map f_id fs') ->
  filter (fun f => String.eqb (f_userId f) v) fs' = foldersOf v d ->
  apart v fs0 as0 qs0 (set_folders fs' d).
Proof.
  intros ([Hf Ha] & H1 & H2 & H3) Hnd E.
  split; [split; assumption|]. split; [|split; assumption].
  unfold foldersOf. cbn [folders set_folders]. rewrite E. exact H1.
Qed.

Lemma apart_assets (d : DB) (l' : list UserAsset) :
  apart v fs0 as0 qs0 d -> NoDup (map a_id l') ->
  map detach (filter (fun a => String.eqb (a_userId a) v) l')
  = map detach (assetsOf v d) ->
  apart v fs0 as0 qs0 (set_userAssets l' d).
Proof.
  intros ([Hf Ha] & H1 & H2 & H3) Hnd E.
  split; [split; assumption|]. split; [exact H1|]. split; [|exact H3].
  unfold assetsOf. cbn [userAssets set_userAssets]. rewrite E. exact H2.
Qed.

Lemma apart_quotas (d : DB) (qs' : list UserQuota) :
  apart v fs0 as0 qs0 d ->
  filter (fun q => String.eqb (q_userId q) v) qs' = quotasOf v d ->
  apart v fs0 as0 qs0 (set_userQuotas qs' d).
Proof.
  intros (Hk & H1 & H2 & H3) E.
  split; [exact Hk|]. split; [exact H1|]. split; [exact H2|].
  unfold quotasOf. cbn [userQuotas set_userQuotas]. rewrite E. exact H3.
Qed.

(** The rows of the caller carry none of the ids of the other user. *)
Lemma own_folder_id (d : DB) (g : Folder) :
  apart v fs0 as0 qs0 d -> In g (folders d) -> f_userId g = u -> ~ In (f_id g) (map f_id fs0).
Proof.
  intros ([Hf _] & H1 & _) Hg Hu Hin. apply in_map_iff in Hin.
  destruct Hin as (g0 & E & Hg0). rewrite <- H1 in Hg0.
  apply filter_In in Hg0. destruct Hg0 as [Hg0 Ev]. apply String.eqb_eq in Ev.
  assert (g0 = g) by (apply (NoDup_map_inj f_id _ g0 g Hf Hg0 Hg E)).
  subst g0. congruence.
Qed.

Lemma own_asset_id (d : DB) (a : UserAsset) :
  apart v fs0 as0 qs0 d -> In a (userAssets d) -> a_userId a = u -> ~ In (a_id a) (map a_id as0).
Proof.
  intros ([_ Ha] & _ & H2 & _) Hin Hu Hx. rewrite <- H2, map_map in Hx.
  apply in_map_iff in Hx. destruct Hx as (a0 & E & Ha0). cbn in E.
  apply filter_In in Ha0. destruct Ha0 as [Ha0 Ev]. apply String.eqb_eq in Ev.
  assert (a0 = a) by (apply (NoDup_map_inj a_id _ a0 a Ha Ha0 Hin E)).
  subst a0. congruence.
Qed.

Lemma foreign_folder_id (d : DB) (g : Folder) :
  apart v fs0 as0 qs0 d -> In g (folders d) -> f_userId g = v -> In (f_id g) (map f_id fs0).
Proof.
  intros (_ & H1 & _) Hg Hv. rewrite <- H1. apply in_map.
  apply filter_In. split; [exact Hg|]. apply String.eqb_eq, Hv.
Qed.

Lemma foreign_asset_id (d : DB) (a : UserAsset) :
  apart v fs0 as0 qs0 d -> In a (userAssets d) -> a_userId a = v -> In (a_id a) (map a_id as0).
Proof.
  intros (_ & _ & H2 & _) Ha Hv. rewrite <- H2, map_map.
  apply in_map_iff. exists a. split; [reflexivity|].
  apply filter_In. split; [exact Ha|]. apply String.eqb_eq, Hv.
Qed.

Lemma neq_uv_eqb : String.eqb u v = false.
Proof. apply String.eqb_neq, Huv. Qed.

(** *** The statements *)

Lemma apart_checkRateLimit (now : Z) (i : Id) : guards (apart v fs0 as0 qs0) (checkRateLimit u now i).
Proof.
  intros w H. unfold checkRateLimit. mrun.
  destruct (findWindow u (windowOf now) (db w)) as [cw|].
  - destruct (requestCount cw >=? _); mrun; exact H.
  - destruct (existsb _ (rateLimitWindows (db w))); mrun; exact H.
Qed.

Lemma quotas_snoc_own (d : DB) (q : UserQuota) :
  apart v fs0 as0 qs0 d -> q_userId q = u -> apart v fs0 as0 qs0 (set_userQuotas (userQuotas d ++ [q]) d).
Proof.
  intros H Hq. apply apart_quotas; [exact H|].
  rewrite filter_app. cbn [filter]. rewrite Hq, neq_uv_eqb.
  apply app_nil_r.
Qed.

Lemma apart_checkStorageQuota (n : Z) : guards (apart v fs0 as0 qs0) (checkStorageQuota u n).
Proof.
  unfold checkStorageQuota. apply guards_getDB. intros d Hd.
  apply guards_bind.
  - destruct (findQuota u d); [apply guards_ret|].
    apply guards_bind; [|intros _; apply guards_ret].
    apply guards_putDB, quotas_snoc_own; [exact Hd|reflexivity].
  - intros q. destruct (_ >? _); [apply guards_throw|apply guards_ret].
Qed.

Lemma apart_getQuota : guards (apart v fs0 as0 qs0) (getQuota_handler u).
Proof.
  unfold getQuota_handler. apply guards_getDB. intros d Hd.
  destruct (findQuota u d); [apply guards_ret|].
  apply guards_bind; [|intros _; apply guards_ret].
  apply guards_putDB, quotas_snoc_own; [exact Hd|reflexivity].
Qed.

Lemma apart_updateStorageUsage (delta : Z) : guards (apart v fs0 as0 qs0) (updateStorageUsage u delta).
Proof.
  unfold updateStorageUsage. apply guards_getDB. intros d Hd.
  destruct (findQuota u d).
  - apply guards_putDB, apart_quotas; [exact Hd|].
    apply filter_map_same.
    + intros q Hq Ev. apply String.eqb_eq in Ev. unfold chargeQuota.
      destruct (String.eqb (q_userId q) u) eqn:E; [|reflexivity].
      apply String.eqb_eq in E. congruence.
    + intros q. unfold chargeQuota.
      destruct (String.eqb (q_userId q) u); reflexivity.
  - apply guards_putDB, quotas_snoc_own; [exact Hd|reflexivity].
Qed.

Lemma apart_insertAsset (a : UserAsset) : a_userId a = u -> guards (apart v fs0 as0 qs0) (insertAsset a).
Proof.
  intros Hu. unfold insertAsset. apply guards_getDB. intros d Hd.
  destruct (existsb (fun x => String.eqb (a_id x) (a_id a)) (userAssets d)) eqn:E;
    [apply guards_throw|].
  destruct (match a_folderId a with Some fid => negb (hasFolder fid d)
                                  | None => false end); [apply guards_throw|].
  destruct (findFile (a_fileHash a) d); [|apply guards_throw].
  apply guards_putDB, apart_assets; [exact Hd| |].
  - rewrite map_app. cbn. apply NoDup_snoc; [apply Hd|].
    intros Hin. apply in_map_iff in Hin. destruct Hin as (x & Ex & Hx).
    rewrite existsb_false_iff in E. specialize (E x Hx).
    rewrite Ex, String.eqb_refl in E. discriminate.
  - rewrite filter_app. cbn [filter]. rewrite Hu, neq_uv_eqb.
    rewrite app_nil_r. reflexivity.
Qed.

Lemma apart_bumpRefCount (h : string) (delta : Z) : guards (apart v fs0 as0 qs0) (bumpRefCount h delta).
Proof. intros w H. exact H. Qed.

Lemma apart_upsertFile (h : string) (sz : Z) : guards (apart v fs0 as0 qs0) (upsertFile h sz).
Proof.
  intros w H. unfold upsertFile. mrun. destruct (findFile h (db w)); exact H.
Qed.

Lemma apart_deleteFileRow (h : string) : guards (apart v fs0 as0 qs0) (deleteFileRow h).
Proof.
  intros w H. unfold deleteFileRow. mrun.
  destruct (existsb _ (files (db w)) && existsb _ (userAssets (db w))); exact H.
Qed.

Lemma apart_s3Delete (key : string) : guards (apart v fs0 as0 qs0) (s3Delete key).
Proof. intros w H. exact H. Qed.

Lemma apart_deleteAssetRow (id : Id) :
  ~ In id (map a_id as0) -> guards (apart v fs0 as0 qs0) (deleteAssetRow id).
Proof.
  intros Hid. unfold deleteAssetRow. apply guards_getDB. intros d Hd.
  apply guards_putDB, apart_assets; [exact Hd| |].
  - apply NoDup_map_filter, Hd.
  - unfold assetsOf. rewrite filter_filter_same; [reflexivity|].
    intros a Ha Ev. apply String.eqb_eq in Ev.
    apply negb_true_iff, String.eqb_neq. intros E. apply Hid. rewrite <- E.
    apply (foreign_asset_id d a Hd Ha Ev).
Qed.

Lemma apart_releaseAsset (id : Id) (h : string) :
  ~ In id (map a_id as0) -> guards (apart v fs0 as0 qs0) (releaseAsset id h).
Proof.
  intros Hid. unfold releaseAsset.
  apply guards_bind; [apply apart_deleteAssetRow, Hid|intros _].
  apply guards_bind; [apply apart_bumpRefCount|intros [uf|]]; [|apply guards_ret].
  destruct (refCount uf <=? 0); [|apply guards_ret].
  apply guards_bind; [apply apart_s3Delete|intros _; apply apart_deleteFileRow].
Qed.

Lemma apart_releaseAll (d0 : DB) (assets : list UserAsset) :
  (forall a, In a assets -> ~ In (a_id a) (map a_id as0)) ->
  forall total, guards (apart v fs0 as0 qs0) (releaseAll d0 assets total).
Proof.
  induction assets as [|a assets IH]; intros Hids total; cbn [releaseAll];
    [apply guards_ret|].
  apply guards_bind; [apply apart_releaseAsset, Hids; left; reflexivity|intros _].
  destruct (fileSizeOf d0 a); [|apply guards_throw].
  apply IH. intros x Hx. apply Hids. right. exact Hx.
Qed.

Lemma apart_deleteFolderRow (id : Id) :
  ~ In id (map f_id fs0) -> guards (apart v fs0 as0 qs0) (deleteFolderRow id).
Proof.
  intros Hid. unfold deleteFolderRow. apply guards_getDB. intros d Hd.
  destruct (hasFolder id d); [|apply guards_ret].
  apply guards_putDB.
  apply (apart_assets (set_folders
           (filter (fun f => negb (String.eqb (f_id f) id)) (folders d)) d)).
  - apply apart_folders; [exact Hd|apply NoDup_map_filter, Hd|].
    unfold foldersOf. rewrite filter_filter_same; [reflexivity|].
    intros g Hg Ev. apply String.eqb_eq in Ev.
    apply negb_true_iff, String.eqb_neq. intros E. apply Hid. rewrite <- E.
    apply (foreign_folder_id d g Hd Hg Ev).
  - cbn [userAssets set_folders]. apply NoDup_map_same; [|apply Hd].
    intros a. unfold unlinkFolder. destruct (col_eq (a_folderId a) id); reflexivity.
  - unfold assetsOf. cbn [userAssets set_folders]. apply map_detach_same.
    + intros a _ _. unfold unlinkFolder.
      destruct (col_eq (a_folderId a) id); reflexivity.
    + intros a. unfold unlinkFolder.
      destruct (col_eq (a_folderId a) id); reflexivity.
Qed.

Lemma apart_insertFolder (f : Folder) : f_userId f = u -> guards (apart v fs0 as0 qs0) (insertFolder f).
Proof.
  intros Hu. unfold insertFolder. apply guards_getDB. intros d Hd.
  destruct (hasFolder (f_id f) d) eqn:E; [apply guards_throw|].
  apply guards_putDB, apart_folders; [exact Hd| |].
  - rewrite map_app. cbn. apply NoDup_snoc; [apply Hd|].
    intros Hin. apply in_map_iff in Hin. destruct Hin as (x & Ex & Hx).
    unfold hasFolder in E. rewrite existsb_false_iff in E. specialize (E x Hx).
    rewrite Ex, String.eqb_refl in E. discriminate.
  - rewrite filter_app. cbn [filter]. rewrite Hu, neq_uv_eqb.
    rewrite app_nil_r. reflexivity.
Qed.

Lemma apart_stampFolders (ids : list Id) (t : option Z) :
  (forall x, In x ids -> ~ In x (map f_id fs0)) -> guards (apart v fs0 as0 qs0) (stampFolders ids t).
Proof.
  intros Hids. unfold stampFolders. apply guards_forEach. intros x Hx.
  apply guards_getDB. intros d Hd.
  apply guards_putDB, apart_folders; [exact Hd| |].
  - apply NoDup_map_same; [|apply Hd]. intros g. unfold setFolderDeletedAt.
    destruct (String.eqb (f_id g) x); reflexivity.
  - apply filter_map_same.
    + intros g Hg Ev. apply String.eqb_eq in Ev. unfold setFolderDeletedAt.
      destruct (String.eqb (f_id g) x) eqn:E; [exfalso|reflexivity].
      apply String.eqb_eq in E. apply (Hids x Hx). rewrite <- E.
      apply (foreign_folder_id d g Hd Hg Ev).
    + intros g. unfold setFolderDeletedAt.
      destruct (String.eqb (f_id g) x); reflexivity.
Qed.

(** *** Updates of the rows in place *)

Lemma apart_update_assets (d : DB) (g : UserAsset -> UserAsset) :
  apart v fs0 as0 qs0 d ->
  (forall a, In a (userAssets d) -> a_userId a = v -> detach (g a) = detach a) ->
  (forall a, a_id (g a) = a_id a /\ a_userId (g a) = a_userId a) ->
  apart v fs0 as0 qs0 (set_userAssets (map g (userAssets d)) d).
Proof.
  intros Hd Hv Hg. apply apart_assets; [exact Hd| |].
  - apply NoDup_map_same; [apply Hg|apply Hd].
  - unfold assetsOf. apply map_detach_same.
    + intros a Ha Ev. apply String.eqb_eq in Ev. apply (Hv a Ha Ev).
    + intros a. destruct (Hg a) as [_ E]. rewrite E. reflexivity.
Qed.

Lemma apart_update_folders (d : DB) (g : Folder -> Folder) :
  apart v fs0 as0 qs0 d ->
  (forall f, In f (folders d) -> f_userId f = v -> g f = f) ->
  (forall f, f_id (g f) = f_id f /\ f_userId (g f) = f_userId f) ->
  apart v fs0 as0 qs0 (set_folders (map g (folders d)) d).
Proof.
  intros Hd Hv Hg. apply apart_folders; [exact Hd| |].
  - apply NoDup_map_same; [apply Hg|apply Hd].
  - unfold foldersOf. apply filter_map_same.
    + intros f Hf Ev. apply String.eqb_eq in Ev. apply (Hv f Hf Ev).
    + intros f. destruct (Hg f) as [_ E]. rewrite E. reflexivity.
Qed.

(** An update guarded by [userId = u] passes over the rows of [v]. *)
Lemma apart_own_assets (d : DB) (hit : UserAsset -> bool)
    (g : UserAsset -> UserAsset) :
  apart v fs0 as0 qs0 d ->
  (forall a, hit a = true -> a_userId a = u) ->
  (forall a, a_id (g a) = a_id a /\ a_userId (g a) = a_userId a) ->
  apart v fs0 as0 qs0
    (set_userAssets (map (fun a => if hit a then g a else a) (userAssets d)) d).
Proof.
  intros Hd Hhit Hg. apply apart_update_assets; [exact Hd| |].
  - intros a _ Hv. destruct (hit a) eqn:E; [|reflexivity].
    specialize (Hhit a E). congruence.
  - intros a. destruct (hit a); [apply Hg|split; reflexivity].
Qed.

Lemma apart_own_folders (d : DB) (hit : Folder -> bool) (g : Folder -> Folder) :
  apart v fs0 as0 qs0 d ->
  (forall f, hit f = true -> f_userId f = u) ->
  (forall f, f_id (g f) = f_id f /\ f_userId (g f) = f_userId f) ->
  apart v fs0 as0 qs0
    (set_folders (map (fun f => if hit f then g f else f) (folders d)) d).
Proof.
  intros Hd Hhit Hg. apply apart_update_folders; [exact Hd| |].
  - intros f _ Hv. destruct (hit f) eqn:E; [|reflexivity].
    specialize (Hhit f E). congruence.
  - intros f. destruct (hit f); [apply Hg|split; reflexivity].
Qed.

Lemma guards_collect {B} (Q : DB -> Prop) (r : option (list Id))
    (k : list Id -> M B) :
  (forall ids, r = Some ids -> guards Q (k ids)) ->
  guards Q (bind (liftCollect r) k).
Proof.
  intros Hk. destruct r as [ids|]; cbn [liftCollect].
  - intros w H. apply (Hk ids eq_refl w H).
  - intros w H. exact H.
Qed.

(** What a collector started at a folder of the caller returns are ids of
    folders of the caller. *)
Lemma collected_own (keep : Folder -> bool) (d : DB) (fuel : nat)
    (g : Folder) (ids : list Id) :
  apart v fs0 as0 qs0 d ->
  (forall c, keep c = true -> f_userId c = u) ->
  In g (folders d) -> f_userId g = u ->
  collectIds keep (folders d) fuel (f_id g) = Some ids ->
  forall x, In x ids -> ~ In x (map f_id fs0).
Proof.
  intros Hd Hkeep Hg Hu Hc x Hx.
  destruct (collected_rows _ _ _ _ _ _ Hc Hx) as [->|(c & Hin & Hk & <-)].
  - apply (own_folder_id d g Hd Hg Hu).
  - apply (own_folder_id d c Hd Hin (Hkeep c Hk)).
Qed.

(** *** The procedures *)

Lemma apart_getUploadPresignedUrl (input : UploadInput) (newAssetId : Id) :
  guards (apart v fs0 as0 qs0) (getUploadPresignedUrl_handler u input newAssetId).
Proof.
  unfold getUploadPresignedUrl_handler.
  apply guards_bind; [apply apart_checkStorageQuota|intros _].
  apply guards_getDB. intros d Hd.
  destruct (findFile (in_hash input) d) as [ef|]; [|apply guards_ret].
  apply guards_bind; [|intros _].
  - apply guards_transaction.
    apply guards_bind; [apply apart_insertAsset; reflexivity|intros _].
    apply guards_bind; [apply apart_bumpRefCount|intros _; apply guards_ret].
  - apply guards_bind; [apply apart_updateStorageUsage|intros _; apply guards_ret].
Qed.

Lemma apart_confirmUpload (input : UploadInput) (newAssetId : Id) :
  guards (apart v fs0 as0 qs0) (confirmUpload_handler u input newAssetId).
Proof.
  unfold confirmUpload_handler. apply guards_getS3. intros k.
  destruct (negb _); [apply guards_throw|].
  apply guards_bind; [|intros _; apply apart_updateStorageUsage].
  apply guards_transaction.
  apply guards_bind; [apply apart_upsertFile|intros _].
  apply apart_insertAsset. reflexivity.
Qed.

Lemma apart_createFolder (name : string) (parentId : option Id) (newId : Id) :
  guards (apart v fs0 as0 qs0) (createFolder_handler u name parentId newId).
Proof.
  unfold createFolder_handler. apply guards_getDB. intros d Hd.
  apply guards_bind; [|intros _; apply apart_insertFolder; reflexivity].
  destruct (truthy parentId); [|apply guards_ret].
  destruct (find _ (folders d)); [apply guards_ret|apply guards_throw].
Qed.

Lemma apart_deleteFolder (id : Id) :
  guards (apart v fs0 as0 qs0) (deleteFolder_handler u id).
Proof.
  unfold deleteFolder_handler. apply guards_getDB. intros d Hd.
  destruct (find (fun f => String.eqb (f_id f) id && String.eqb (f_userId f) u)
                 (folders d)) as [g|] eqn:E; [|apply guards_throw].
  cbv zeta. destruct (_ || _); [apply guards_throw|].
  apply find_some in E. destruct E as [Hg E].
  apply andb_prop in E. destruct E as [Eid Eu].
  apply String.eqb_eq in Eid. apply String.eqb_eq in Eu. subst id.
  apply apart_deleteFolderRow. apply (own_folder_id d g Hd Hg Eu).
Qed.

Lemma apart_moveFolderToTrash (id : Id) (now : Z) (fuel : nat) :
  guards (apart v fs0 as0 qs0) (moveFolderToTrash_handler u id now fuel).
Proof.
  unfold moveFolderToTrash_handler. apply guards_getDB. intros d Hd.
  destruct (find _ (folders d)) as [g|] eqn:E; [|apply guards_throw].
  apply find_some in E. destruct E as [Hg E].
  apply andb_prop in E. destruct E as [E _].
  apply andb_prop in E. destruct E as [Eid Eu].
  apply String.eqb_eq in Eid. apply String.eqb_eq in Eu. subst id.
  apply guards_collect. intros ids Hids.
  assert (Hown : forall x, In x ids -> ~ In x (map f_id fs0)).
  { unfold collectFolderIds in Hids.
    refine (collected_own _ d fuel g ids Hd _ Hg Eu Hids).
    intros c Hk. apply andb_prop in Hk. destruct Hk as [Hk _].
    apply String.eqb_eq, Hk. }
  apply guards_bind; [|intros _; apply guards_ret].
  apply guards_transaction.
  apply guards_bind; [|intros _; apply apart_stampFolders, Hown].
  destruct (0 <? List.length ids)%nat; [|apply guards_ret].
  apply guards_getDB. intros d1 Hd1. apply guards_putDB.
  apply (apart_own_assets d1
           (fun a => String.eqb (a_userId a) u && isNull (a_deletedAt a)
                     && folderIn ids a)
           (setAssetDeletedAt (Some now))); [exact Hd1| |].
  - intros a Ha. apply andb_prop in Ha. destruct Ha as [Ha _].
    apply andb_prop in Ha. destruct Ha as [Ha _]. apply String.eqb_eq, Ha.
  - intros a. split; reflexivity.
Qed.

Lemma apart_restoreFolderFromTrash (id : Id) (fuel : nat) :
  guards (apart v fs0 as0 qs0) (restoreFolderFromTrash_handler u id fuel).
Proof.
  unfold restoreFolderFromTrash_handler. apply guards_getDB. intros d Hd.
  destruct (find _ (folders d)) as [g|] eqn:E; [|apply guards_throw].
  apply find_some in E. destruct E as [Hg E].
  apply andb_prop in E. destruct E as [E _].
  apply andb_prop in E. destruct E as [Eid Eu].
  apply String.eqb_eq in Eid. apply String.eqb_eq in Eu. subst id.
  apply guards_bind; [|intros _].
  { destruct (truthy (f_parentId g)); [|apply guards_ret].
    destruct (find _ (folders d)) as [p|]; [|apply guards_throw].
    destruct (isNotNull (f_deletedAt p)); [apply guards_throw|apply guards_ret]. }
  apply guards_collect. intros ids Hids.
  assert (Hown : forall x, In x ids -> ~ In x (map f_id fs0)).
  { unfold collectTrashedFolderIds in Hids.
    refine (collected_own _ d fuel g ids Hd _ Hg Eu Hids).
    intros c Hk. apply andb_prop in Hk. destruct Hk as [Hk _].
    apply String.eqb_eq, Hk. }
  apply guards_bind; [|intros _; apply guards_ret].
  apply guards_transaction.
  apply guards_bind; [|intros _; apply apart_stampFolders, Hown].
  destruct (0 <? List.length ids)%nat; [|apply guards_ret].
  apply guards_getDB. intros d1 Hd1. apply guards_putDB.
  apply (apart_own_assets d1
           (fun a => String.eqb (a_userId a) u && isNotNull (a_deletedAt a)
                     && folderIn ids a)
           (setAssetDeletedAt None)); [exact Hd1| |].
  - intros a Ha. apply andb_prop in Ha. destruct Ha as [Ha _].
    apply andb_prop in Ha. destruct Ha as [Ha _]. apply String.eqb_eq, Ha.
  - intros a. split; reflexivity.
Qed.

Lemma apart_deleteAsset (id : Id) :
  guards (apart v fs0 as0 qs0) (deleteAsset_handler u id).
Proof.
  unfold deleteAsset_handler. apply guards_getDB. intros d Hd.
  destruct (find _ (userAssets d)) as [a|] eqn:E; [|apply guards_throw].
  apply find_some in E. destruct E as [Ha E].
  apply andb_prop in E. destruct E as [Eid Eu].
  apply String.eqb_eq in Eid. apply String.eqb_eq in Eu. subst id.
  destruct (fileSizeOf d a); [|apply guards_throw].
  apply guards_bind; [|intros _; apply apart_updateStorageUsage].
  apply guards_transaction, apart_releaseAsset, (own_asset_id d a Hd Ha Eu).
Qed.

Lemma apart_permanentlyDelete (id : Id) :
  guards (apart v fs0 as0 qs0) (permanentlyDelete_handler u id).
Proof.
  unfold permanentlyDelete_handler. apply guards_getDB. intros d Hd.
  destruct (find _ (userAssets d)) as [a|] eqn:E; [|apply guards_throw].
  apply find_some in E. destruct E as [Ha E].
  apply andb_prop in E. destruct E as [E _].
  apply andb_prop in E. destruct E as [Eid Eu].
  apply String.eqb_eq in Eid. apply String.eqb_eq in Eu. subst id.
  destruct (fileSizeOf d a); [|apply guards_throw].
  apply guards_bind; [|intros _; apply apart_updateStorageUsage].
  apply guards_transaction, apart_releaseAsset, (own_asset_id d a Hd Ha Eu).
Qed.

Lemma apart_hit_assets (hit : UserAsset -> bool) (g : UserAsset -> UserAsset) :
  (forall a, hit a = true -> a_userId a = u) ->
  (forall a, a_id (g a) = a_id a /\ a_userId (g a) = a_userId a) ->
  guards (apart v fs0 as0 qs0)
    (d <- getDB ;;
     putDB (set_userAssets
              (map (fun a => if hit a then g a else a) (userAssets d)) d) ;;;
     match filter hit (userAssets d) with
     | [] => throw NOT_FOUND
     | _ :: _ => ret tt
     end).
Proof.
  intros Hhit Hg. apply guards_getDB. intros d Hd.
  apply guards_bind; [apply guards_putDB, apart_own_assets; auto|intros _].
  destruct (filter hit (userAssets d)); [apply guards_throw|apply guards_ret].
Qed.

Lemma apart_moveToTrash (id : Id) (now : Z) :
  guards (apart v fs0 as0 qs0) (moveToTrash_handler u id now).
Proof.
  unfold moveToTrash_handler. apply apart_hit_assets.
  - intros a Ha. apply andb_prop in Ha. destruct Ha as [Ha _].
    apply andb_prop in Ha. destruct Ha as [_ Ha]. apply String.eqb_eq, Ha.
  - intros a. split; reflexivity.
Qed.

Lemma apart_restoreFromTrash (id : Id) :
  guards (apart v fs0 as0 qs0) (restoreFromTrash_handler u id).
Proof.
  unfold restoreFromTrash_handler. apply apart_hit_assets.
  - intros a Ha. apply andb_prop in Ha. destruct Ha as [Ha _].
    apply andb_prop in Ha. destruct Ha as [_ Ha]. apply String.eqb_eq, Ha.
  - intros a. split; reflexivity.
Qed.

Lemma apart_renameFile (id : Id) (name : string) :
  guards (apart v fs0 as0 qs0) (renameFile_handler u id name).
Proof.
  unfold renameFile_handler. apply apart_hit_assets.
  - intros a Ha. apply andb_prop in Ha. destruct Ha as [_ Ha].
    apply String.eqb_eq, Ha.
  - intros a. split; reflexivity.
Qed.

Lemma apart_renameFolder (id : Id) (name : string) :
  guards (apart v fs0 as0 qs0) (renameFolder_handler u id name).
Proof.
  unfold renameFolder_handler. apply guards_getDB. intros d Hd. cbv zeta.
  apply guards_bind; [apply guards_putDB|intros _].
  - apply (apart_own_folders d
             (fun f => String.eqb (f_id f) id && String.eqb (f_userId f) u)
             (setFolderName name)); [exact Hd| |].
    + intros f Hf. apply andb_prop in Hf. destruct Hf as [_ Hf].
      apply String.eqb_eq, Hf.
    + intros f. split; reflexivity.
  - destruct (filter _ (folders d)); [apply guards_throw|apply guards_ret].
Qed.

Lemma apart_moveFile (id : Id) (folderId : option Id) :
  guards (apart v fs0 as0 qs0) (moveFile_handler u id folderId).
Proof.
  unfold moveFile_handler. apply guards_getDB. intros d Hd.
  apply guards_bind; [|intros _].
  { destruct (truthy folderId); [|apply guards_ret].
    destruct (find _ (folders d)); [apply guards_ret|apply guards_throw]. }
  cbv zeta. destruct (filter _ (userAssets d)); [apply guards_throw|].
  destruct (match folderId with Some fid => negb (hasFolder fid d)
                              | None => false end); [apply guards_throw|].
  apply guards_putDB.
  apply (apart_own_assets d
           (fun a => String.eqb (a_id a) id && String.eqb (a_userId a) u)
           (setAssetFolder folderId)); [exact Hd| |].
  - intros a Ha. apply andb_prop in Ha. destruct Ha as [_ Ha].
    apply String.eqb_eq, Ha.
  - intros a. split; reflexivity.
Qed.

Lemma apart_moveFolder (id : Id) (parentId : option Id) (fuel : nat) :
  guards (apart v fs0 as0 qs0) (moveFolder_handler u id parentId fuel).
Proof.
  unfold moveFolder_handler. apply guards_getDB. intros d Hd.
  destruct (find _ (folders d)) as [g|] eqn:E; [|apply guards_throw].
  apply find_some in E. destruct E as [Hg E].
  apply andb_prop in E. destruct E as [E _].
  apply andb_prop in E. destruct E as [Eid Eu].
  apply String.eqb_eq in Eid. apply String.eqb_eq in Eu. subst id.
  destruct (col_eq parentId (f_id g)); [apply guards_throw|].
  apply guards_bind; [|intros _].
  { destruct parentId as [target|]; [|apply guards_ret].
    destruct (String.eqb target EmptyString); [apply guards_ret|].
    destruct (find _ (folders d)); [|apply guards_throw].
    destruct (isDescendant (folders d) fuel (f_id g) target) as [[|]|];
      [apply guards_throw|apply guards_ret|apply guards_diverge]. }
  apply guards_putDB, apart_update_folders; [exact Hd| |].
  - intros f Hf Hv. unfold setFolderParent.
    destruct (String.eqb (f_id f) (f_id g)) eqn:E; [exfalso|reflexivity].
    apply String.eqb_eq in E.
    apply (own_folder_id d g Hd Hg Eu). rewrite <- E.
    apply (foreign_folder_id d f Hd Hf Hv).
  - intros f. unfold setFolderParent.
    destruct (String.eqb (f_id f) (f_id g)); split; reflexivity.
Qed.

Lemma apart_permanentlyDeleteFolder (id : Id) (fuel : nat) :
  guards (apart v fs0 as0 qs0) (permanentlyDeleteFolder_handler u id fuel).
Proof.
  unfold permanentlyDeleteFolder_handler. apply guards_getDB. intros d Hd.
  destruct (find _ (folders d)) as [g|] eqn:E; [|apply guards_throw].
  apply find_some in E. destruct E as [Hg E].
  apply andb_prop in E. destruct E as [E _].
  apply andb_prop in E. destruct E as [Eid Eu].
  apply String.eqb_eq in Eid. apply String.eqb_eq in Eu. subst id.
  apply guards_collect. intros ids Hids.
  assert (Hown : forall x, In x ids -> ~ In x (map f_id fs0)).
  { unfold collectAllFolderIds in Hids.
    refine (collected_own _ d fuel g ids Hd _ Hg Eu Hids).
    intros c Hk. apply String.eqb_eq, Hk. }
  cbv zeta. apply guards_bind; [|intros total].
  - apply guards_transaction.
    apply guards_bind; [|intros total].
    + apply apart_releaseAll. intros a Ha.
      apply filter_In in Ha. destruct Ha as [Ha Ea].
      apply andb_prop in Ea. destruct Ea as [Ea _]. apply String.eqb_eq in Ea.
      apply (own_asset_id d a Hd Ha Ea).
    + apply guards_bind; [|intros _; apply guards_ret].
      apply guards_forEach. intros x Hx. apply apart_deleteFolderRow, Hown.
      unfold purgeOrder in Hx. apply in_rev, Hx.
  - apply guards_bind; [apply apart_updateStorageUsage|intros _; apply guards_ret].
Qed.

Lemma apart_emptyTrash (fuel : nat) :
  guards (apart v fs0 as0 qs0) (emptyTrash_handler u fuel).
Proof.
  unfold emptyTrash_handler. apply guards_getDB. intros d Hd. cbv zeta.
  destruct (_ && _)%bool; [apply guards_ret|].
  apply guards_bind; [|intros total].
  - apply guards_transaction.
    apply guards_bind; [|intros total].
    + apply apart_releaseAll. intros a Ha.
      apply filter_In in Ha. destruct Ha as [Ha Ea].
      apply andb_prop in Ea. destruct Ea as [Ea _]. apply String.eqb_eq in Ea.
      apply (own_asset_id d a Hd Ha Ea).
    + destruct (fillDepths _ fuel _ []) as [m|]; [|apply guards_diverge].
      apply guards_bind; [|intros _; apply guards_ret].
      apply guards_forEach. intros f Hf. apply apart_deleteFolderRow.
      unfold emptyTrashOrder in Hf.
      apply (Permutation_in _ (Permutation_sym (@stableSort_perm _ _ _))) in Hf.
      apply filter_In in Hf. destruct Hf as [Hf Ef].
      apply andb_prop in Ef. destruct Ef as [Ef _]. apply String.eqb_eq in Ef.
      apply (own_folder_id d f Hd Hf Ef).
  - apply guards_bind; [apply apart_updateStorageUsage|intros _; apply guards_ret].
Qed.

Lemma apart_runCall (now : Z) (fuel : nat) (c : Call) :
  guards (apart v fs0 as0 qs0) (runCall u now fuel c).
Proof.
  destruct c; cbn [runCall]; unfold void;
    try (apply guards_bind; [|intros ?; apply guards_ret]).
  - apply apart_getUploadPresignedUrl.
  - apply apart_confirmUpload.
  - apply apart_createFolder.
  - apply apart_deleteFolder.
  - apply apart_moveFolderToTrash.
  - apply apart_restoreFolderFromTrash.
  - apply apart_deleteAsset.
  - apply apart_moveToTrash.
  - apply apart_restoreFromTrash.
  - apply apart_permanentlyDelete.
  - apply apart_permanentlyDeleteFolder.
  - apply apart_emptyTrash.
  - apply apart_moveFolder.
  - apply apart_renameFile.
  - apply apart_renameFolder.
  - apply apart_moveFile.
  - apply apart_getQuota.
  - apply guards_ret.
Qed.

End Apart.

Lemma apart_handle (v : Id) (fs0 : list Folder) (as0 : list UserAsset)
    (qs0 : list UserQuota) (r : Request) :
  r_user r <> v -> guards (apart v fs0 as0 qs0) (handle r).
Proof.
  intros Huv. unfold handle, rateLimitedProcedure.
  apply guards_bind; [apply apart_checkRateLimit|intros _].
  destruct (callValid (r_call r)); [|apply guards_throw].
  apply apart_runCall, Huv.
Qed.

(** X20 (the procedures of the router).  A call leaves the rows of every
    other user alone.  On a store whose folder ids and asset ids are
    unique, whatever procedure user u calls with whatever input, and
    whatever the outcome, the folder rows of any other user v, the quota
    row of v, and the asset rows of v up to their [folderId] are after the
    call what they were before it, and the ids are still unique.  The
    [folderId] of an asset of v is not covered: the upload procedures
    accept the id of any folder, and deleting a folder row sets the
    [folderId] of every asset in it to null. *)
Theorem call_leaves_other_users_rows (w : World) (r : Request) (v : Id) :
  r_user r <> v -> rowKeysOk (db w) ->
  let w' := snd (handle r w) in
  rowKeysOk (db w')
  /\ foldersOf v (db w') = foldersOf v (db w)
  /\ map detach (assetsOf v (db w')) = map detach (assetsOf v (db w))
  /\ quotasOf v (db w') = quotasOf v (db w).
Proof.
  intros Huv Hkeys w'.
  apply (apart_handle v (foldersOf v (db w)) (map detach (assetsOf v (db w)))
           (quotasOf v (db w)) r Huv w).
  split; [exact Hkeys|]. repeat split.
Qed.

Lemma call_leaves_other_users_rows_witness :
  let w := sampleWorld in
  let r := mkRequest "alice" 1000 "w1" 5 EmptyTrash in
  let v := "bob"%string in
  let w' := snd (handle r w) in
  rowKeysOk (db w')
  /\ foldersOf v (db w') = foldersOf v (db w)
  /\ map detach (assetsOf v (db w')) = map detach (assetsOf v (db w))
  /\ quotasOf v (db w') = quotasOf v (db w).
Proof.
  apply (call_leaves_other_users_rows sampleWorld
           (mkRequest "alice" 1000 "w1" 5 EmptyTrash) "bob").
  - cbn. discriminate.
  - split; cbn; repeat constructor; cbn; intuition discriminate.
Defined.

(** The [folderId] of another user's asset does change: bob's asset [b1]
    lies in alice's trashed folder [old], and alice purging the folder
    moves it to root. *)
Example purge_detaches_foreign_asset :
  let w := with_db (set_userAssets
                      [mkAsset "b1" "notes.txt" "bob" (Some "old"%string) "h2" None]
                      (db sampleWorld)) sampleWorld in
  let w' := snd (permanentlyDeleteFolder_handler "alice" "old" 5 w) in
  userAssets (db w') = [mkAsset "b1" "notes.txt" "bob" None "h2" None].
Proof. reflexivity. Qed.

(** ** Creating a folder *)

Lemma chain_top (fs : list Folder) (a x : Id) (n : nat) :
  chain fs a n x -> exists c, In c fs /\ f_parentId c = Some a.
Proof.
  intros H. induction H as [c Hc Hp|c p n Hc Hp Hch IH]; [exists c; auto|exact IH].
Qed.

(** A row nobody points to lies on no chain of the others. *)
Lemma chain_snoc_leaf (fs : list Folder) (new : Folder) (a x : Id) (n : nat) :
  (forall f, In f fs -> f_parentId f <> Some (f_id new)) ->
  chain (fs ++ [new]) a n x -> x <> f_id new -> chain fs a n x.
Proof.
  intros Hleaf H. induction H as [c Hc Hp|c p n Hc Hp Hch IH]; intros Hx.
  - apply in_app_or in Hc. destruct Hc as [Hc|[<-|[]]]; [|congruence].
    apply (@chain_child fs a c Hc Hp).
  - apply in_app_or in Hc. destruct Hc as [Hc|[<-|[]]]; [|congruence].
    apply (@chain_up fs a c p n Hc Hp). apply IH.
    intros ->. apply (Hleaf c Hc Hp).
Qed.

(** X21 (createFolder, listFolders).  On a folder table that is a forest
    with unique non-empty ids, with a fresh non-empty uuid that no row
    names as its parent, and with no parent named or a parent that is a
    folder of the caller (in the trash or not: the procedure does not look
    at [deletedAt]), [createFolder] returns, appends one active row of the
    caller with the name and the parent given, and leaves a forest;
    [listFolders] then shows the new folder and the folders it showed
    before, and no other. *)
Theorem createFolder_adds_one_listed_folder
    (w : World) (u : Id) (name : string) (parentId : option Id) (newId : Id) :
  forestOk (folders (db w)) ->
  newId <> EmptyString ->
  hasFolder newId (db w) = false ->
  (forall f, In f (folders (db w)) -> f_parentId f <> Some newId) ->
  parentOwned u (folders (db w)) parentId ->
  let new := mkFolder newId name u parentId None in
  let r := createFolder_handler u name parentId newId w in
  fst r = Ok tt
  /\ folders (db (snd r)) = folders (db w) ++ [new]
  /\ forestOk (folders (db (snd r)))
  /\ (exists l, listFolders_handler u (snd r) = (Ok l, snd r)
                 /\ forall f, In f l <-> f = new \/ In f (listedFolders u w)).
Proof.
  intros [[Hnd Hne] Hac] Hid Hfresh Hleaf Hparent new r.
  assert (Hnotin : ~ In newId (map f_id (folders (db w)))).
  { intros Hin. apply in_map_iff in Hin. destruct Hin as (x & Ex & Hx).
    unfold hasFolder in Hfresh. rewrite existsb_false_iff in Hfresh.
    specialize (Hfresh x Hx). rewrite Ex, String.eqb_refl in Hfresh.
    discriminate. }
  assert (Hself : parentId <> Some newId).
  { intros ->. destruct Hparent as [Ht|(P & HP & E & _)].
    - cbn in Ht. apply negb_false_iff, String.eqb_eq in Ht. exact (Hid Ht).
    - injection E as E. apply Hnotin. rewrite E. apply in_map, HP. }
  assert (Hrun : r = (Ok tt, with_db (set_folders (folders (db w) ++ [new]) (db w)) w)).
  { subst r. unfold createFolder_handler. unfold bind at 1, getDB.
    assert (Hpass :
      (if truthy parentId
       then match find (fun f => col_eq parentId (f_id f)
                                 && String.eqb (f_userId f) u) (folders (db w)) with
            | None => throw NOT_FOUND
            | Some _ => ret tt
            end
       else ret tt) w = (Ok tt, w)).
    { destruct (truthy parentId) eqn:Et; [|reflexivity].
      destruct Hparent as [Ht|(P & HP & E & HuP)]; [congruence|].
      destruct (find _ (folders (db w))) eqn:Ef; [reflexivity|].
      rewrite find_none_iff in Ef. specialize (Ef P HP).
      rewrite E, HuP in Ef. cbn in Ef. rewrite !String.eqb_refl in Ef.
      discriminate. }
    unfold bind at 1. rewrite Hpass. unfold insertFolder, bind, getDB.
    cbn [f_id]. rewrite Hfresh. reflexivity. }
  rewrite Hrun. cbn [fst snd db with_db folders set_folders].
  split; [reflexivity|]. split; [reflexivity|]. split; [split; [split|]|].
  - rewrite map_app. cbn. apply NoDup_snoc; assumption.
  - intros f Hf. apply in_app_or in Hf. destruct Hf as [Hf|[<-|[]]]; auto.
  - intros x [n Hch].
    destruct (chain_top _ _ _ _ Hch) as (c & Hc & Hp).
    assert (Hx : x <> newId).
    { intros ->. apply in_app_or in Hc. destruct Hc as [Hc|[<-|[]]].
      - apply (Hleaf c Hc Hp).
      - apply Hself, Hp. }
    apply (Hac x). exists n.
    apply (chain_snoc_leaf (folders (db w)) new x x n); auto.
  - exists (new :: listedFolders u w). split.
    + unfold listFolders_handler, bind, getDB, ret, listedFolders, newestFirst.
      cbn [db with_db folders set_folders].
      rewrite filter_app. cbn [filter f_userId f_deletedAt new isNull].
      rewrite String.eqb_refl. cbn [andb]. rewrite rev_unit. reflexivity.
    + intros f. cbn [In]. split; intros [H|H]; auto.
Qed.

Lemma createFolder_adds_one_listed_folder_witness :
  let w := sampleWorld in
  let new := mkFolder "n1" "New" "alice" (Some "old"%string) None in
  let r := createFolder_handler "alice" "New" (Some "old"%string) "n1" w in
  fst r = Ok tt
  /\ folders (db (snd r)) = folders (db w) ++ [new]
  /\ forestOk (folders (db (snd r)))
  /\ (exists l, listFolders_handler "alice" (snd r) = (Ok l, snd r)
                 /\ forall f, In f l <-> f = new \/ In f (listedFolders "alice" w)).
Proof.
  apply (createFolder_adds_one_listed_folder sampleWorld "alice" "New"
           (Some "old"%string) "n1").
  - exact sampleWorld_forestOk.
  - discriminate.
  - reflexivity.
  - intros f [<-|[<-|[<-|[<-|[]]]]]; discriminate.
  - right. exists (mkFolder "old" "Old" "alice" (Some "docs"%string) (Some 7)).
    simpl. auto.
Defined.

(** ** Renaming and moving a file, as [getFile] shows them *)

Lemma find_map {A} (p : A -> bool) (g : A -> A) (l : list A) :
  find p (map g l) = option_map g (find (fun x => p (g x)) l).
Proof.
  induction l as [|x l IH]; cbn; [reflexivity|].
  destruct (p (g x)); [reflexivity|exact IH].
Qed.

Lemma find_ext {A} (p q : A -> bool) (l : list A) :
  (forall x, p x = q x) -> find p l = find q l.
Proof.
  intros H. induction l as [|x l IH]; cbn; [reflexivity|].
  rewrite H, IH. reflexivity.
Qed.

Lemma find_active_asset (l : list UserAsset) (u : Id) (A : UserAsset) :
  NoDup (map a_id l) -> In A l -> a_userId A = u -> a_deletedAt A = None ->
  find (fun a => String.eqb (a_id a) (a_id A) && String.eqb (a_userId a) u
                 && isNull (a_deletedAt a)) l = Some A.
Proof.
  intros Hnd HA Hu Hdel.
  destruct (find _ l) eqn:E.
  - apply find_some in E. destruct E as [Ha E].
    apply andb_prop in E. destruct E as [E _].
    apply andb_prop in E. destruct E as [Eid _]. apply String.eqb_eq in Eid.
    f_equal. apply (NoDup_map_inj a_id _ u0 A Hnd Ha HA Eid).
  - rewrite find_none_iff in E. specialize (E A HA).
    rewrite Hu, !String.eqb_refl, Hdel in E. discriminate.
Qed.

(** [getFile] after an update of the caller's row [A] that keeps the id,
    the owner, the hash and [deletedAt]. *)
Lemma getFile_after_update (w : World) (u : Id) (A : UserAsset)
    (g : UserAsset -> UserAsset) :
  NoDup (map a_id (userAssets (db w))) ->
  In A (userAssets (db w)) -> a_userId A = u -> a_deletedAt A = None ->
  (forall a, a_id (g a) = a_id a /\ a_userId (g a) = a_userId a
             /\ a_deletedAt (g a) = a_deletedAt a) ->
  let hit := fun a => String.eqb (a_id a) (a_id A) && String.eqb (a_userId a) u in
  let w1 := with_db (set_userAssets
                       (map (fun a => if hit a then g a else a)
                            (userAssets (db w))) (db w)) w in
  (forall e, formatAsset (db w) (g A) = Some e ->
     getFile_handler u (a_id A) w1
     = (Ok (e, find (fun f => col_eq (a_folderId (g A)) (f_id f)) (folders (db w))),
        w1))
  /\ (forall v id', id' <> a_id A \/ v <> u ->
        fst (getFile_handler v id' w1) = fst (getFile_handler v id' w)).
Proof.
  intros Hnd HA Hu Hdel Hg hit w1.
  assert (Hkeep : forall v id' a,
            (String.eqb (a_id (if hit a then g a else a)) id'
             && String.eqb (a_userId (if hit a then g a else a)) v
             && isNull (a_deletedAt (if hit a then g a else a)))
            = (String.eqb (a_id a) id' && String.eqb (a_userId a) v
               && isNull (a_deletedAt a))).
  { intros v id' a. destruct (hit a); [|reflexivity].
    destruct (Hg a) as (E1 & E2 & E3). rewrite E1, E2, E3. reflexivity. }
  split.
  - intros e He. unfold getFile_handler. unfold bind, getDB. subst w1.
    cbn [db with_db userAssets set_userAssets folders].
    rewrite find_map. rewrite (find_ext _ _ _ (Hkeep u (a_id A))).
    rewrite (find_active_asset _ u A Hnd HA Hu Hdel). cbn [option_map].
    assert (Hhit : hit A = true)
      by (unfold hit; rewrite Hu, !String.eqb_refl; reflexivity).
    rewrite Hhit.
    change (formatAsset (set_userAssets
              (map (fun a => if hit a then g a else a) (userAssets (db w)))
              (db w)) (g A))
      with (formatAsset (db w) (g A)).
    rewrite He. reflexivity.
  - intros v id' Hdiff. unfold getFile_handler. unfold bind, getDB. subst w1.
    cbn [db with_db userAssets set_userAssets folders].
    rewrite find_map. rewrite (find_ext _ _ _ (Hkeep v id')).
    destruct (find _ (userAssets (db w))) as [a|] eqn:E; [|reflexivity].
    cbn [option_map].
    assert (Hmiss : hit a = false).
    { apply find_some in E. destruct E as [_ E].
      apply andb_prop in E. destruct E as [E _].
      apply andb_prop in E. destruct E as [Eid Eu].
      apply String.eqb_eq in Eid. apply String.eqb_eq in Eu.
      unfold hit. rewrite Eid, Eu.
      destruct Hdiff as [Hd|Hd]; apply String.eqb_neq in Hd; rewrite Hd;
        [reflexivity|apply andb_false_r]. }
    rewrite Hmiss.
    change (formatAsset (set_userAssets
              (map (fun a => if hit a then g a else a) (userAssets (db w)))
              (db w)) a)
      with (formatAsset (db w) a).
    destruct (formatAsset (db w) a); reflexivity.
Qed.

(** X22 (renameFile, getFile).  For an active asset A of the caller that
    [getFile] shows as the entry e, on an asset table with unique ids:
    [renameFile] returns, and [getFile] then shows A as e under the new
    name, with the folder it had; what [getFile] answers any user about
    any other asset is what it answered before. *)
Theorem renameFile_shows_in_getFile
    (w : World) (u : Id) (A : UserAsset) (name : string) (e : FileEntry) :
  NoDup (map a_id (userAssets (db w))) ->
  In A (userAssets (db w)) -> a_userId A = u -> a_deletedAt A = None ->
  formatAsset (db w) A = Some e ->
  let r := renameFile_handler u (a_id A) name w in
  fst r = Ok tt
  /\ getFile_handler u (a_id A) (snd r)
     = (Ok (renamedEntry name e,
            find (fun f => col_eq (a_folderId A) (f_id f)) (folders (db w))),
        snd r)
  /\ (forall v id', id' <> a_id A \/ v <> u ->
        fst (getFile_handler v id' (snd r)) = fst (getFile_handler v id' w)).
Proof.
  intros Hnd HA Hu Hdel He r.
  set (hit := fun a => String.eqb (a_id a) (a_id A) && String.eqb (a_userId a) u).
  assert (Hrun : r = (Ok tt, with_db (set_userAssets
                        (map (fun a => if hit a then setAssetName name a else a)
                             (userAssets (db w))) (db w)) w)).
  { subst r. unfold renameFile_handler. unfold bind, getDB, putDB. cbv zeta.
    fold hit.
    destruct (filter hit (userAssets (db w))) eqn:Ef; [exfalso|reflexivity].
    assert (Hin : In A (filter hit (userAssets (db w)))).
    { apply filter_In. split; [exact HA|]. unfold hit.
      rewrite Hu, !String.eqb_refl. reflexivity. }
    rewrite Ef in Hin. destruct Hin. }
  rewrite Hrun. cbn [fst snd]. split; [reflexivity|].
  destruct (getFile_after_update w u A (setAssetName name) Hnd HA Hu Hdel)
    as [Hshow Hrest]; [intros a; repeat split|].
  split; [|exact Hrest].
  apply Hshow. unfold formatAsset in *. cbn [a_fileHash setAssetName].
  destruct (findFile (a_fileHash A) (db w)); [|discriminate].
  injection He as <-. reflexivity.
Qed.

Lemma renameFile_shows_in_getFile_witness :
  let A := mkAsset "a1" "report.pdf" "alice" (Some "docs"%string) "h1" None in
  let e := mkEntry "a1" "report.pdf" 100 false true 2 in
  let r := renameFile_handler "alice" "a1" "final.pdf" sampleWorld in
  fst r = Ok tt
  /\ getFile_handler "alice" (a_id A) (snd r)
     = (Ok (renamedEntry "final.pdf" e,
            find (fun f => col_eq (a_folderId A) (f_id f))
                 (folders (db sampleWorld))),
        snd r)
  /\ (forall v id', id' <> a_id A \/ v <> "alice"%string ->
        fst (getFile_handler v id' (snd r))
        = fst (getFile_handler v id' sampleWorld)).
Proof.
  apply (renameFile_shows_in_getFile sampleWorld "alice"
           (mkAsset "a1" "report.pdf" "alice" (Some "docs"%string) "h1" None)
           "final.pdf" (mkEntry "a1" "report.pdf" 100 false true 2)).
  - cbn. repeat constructor; cbn; intuition discriminate.
  - simpl. auto.
  - reflexivity.
  - reflexivity.
  - reflexivity.
Defined.

(** X23 (moveFile, getFile).  For an active asset A of the caller that
    [getFile] shows as the entry e, on tables with unique ids, and for a
    target that is the root or a folder of the caller with a non-empty id
    (in the trash or not: the procedure does not look at [deletedAt]):
    [moveFile] returns, and [getFile] then shows the same entry with the
    target as its folder; what [getFile] answers any user about any other
    asset is what it answered before. *)
Theorem moveFile_shows_in_getFile
    (w : World) (u : Id) (A : UserAsset) (target : option Id)
    (fo : option Folder) (e : FileEntry) :
  folderKeysOk (folders (db w)) ->
  NoDup (map a_id (userAssets (db w))) ->
  In A (userAssets (db w)) -> a_userId A = u -> a_deletedAt A = None ->
  formatAsset (db w) A = Some e ->
  moveTarget u (folders (db w)) target fo ->
  let r := moveFile_handler u (a_id A) target w in
  fst r = Ok tt
  /\ getFile_handler u (a_id A) (snd r) = (Ok (e, fo), snd r)
  /\ (forall v id', id' <> a_id A \/ v <> u ->
        fst (getFile_handler v id' (snd r)) = fst (getFile_handler v id' w)).
Proof.
  intros [Hndf Hne] Hnd HA Hu Hdel He Htarget r.
  set (hit := fun a => String.eqb (a_id a) (a_id A) && String.eqb (a_userId a) u).
  assert (Hin : In A (filter hit (userAssets (db w)))).
  { apply filter_In. split; [exact HA|]. unfold hit.
    rewrite Hu, !String.eqb_refl. reflexivity. }
  assert (Hrun : r = (Ok tt, with_db (set_userAssets
                        (map (fun a => if hit a then setAssetFolder target a else a)
                             (userAssets (db w))) (db w)) w)).
  { subst r. unfold moveFile_handler. unfold bind at 1, getDB.
    assert (Hpass :
      (if truthy target
       then match find (fun f => col_eq target (f_id f)
                                 && String.eqb (f_userId f) u) (folders (db w)) with
            | None => throw NOT_FOUND
            | Some _ => ret tt
            end
       else ret tt) w = (Ok tt, w)).
    { destruct (truthy target) eqn:Et; [|reflexivity].
      destruct Htarget as [[-> _]|(G & HG & HuG & -> & _)]; [discriminate|].
      destruct (find _ (folders (db w))) eqn:Ef; [reflexivity|].
      rewrite find_none_iff in Ef. specialize (Ef G HG).
      rewrite HuG in Ef. cbn [col_eq] in Ef. rewrite !String.eqb_refl in Ef.
      discriminate. }
    unfold bind at 1. rewrite Hpass. cbv zeta. fold hit.
    destruct (filter hit (userAssets (db w))) eqn:Ef; [destruct Hin|].
    assert (Hfk : match target with
                  | Some fid => negb (hasFolder fid (db w))
                  | None => false
                  end = false).
    { destruct Htarget as [[-> _]|(G & HG & _ & -> & _)]; [reflexivity|].
      apply negb_false_iff. unfold hasFolder. apply existsb_exists.
      exists G. split; [exact HG|apply String.eqb_refl]. }
    rewrite Hfk. reflexivity. }
  rewrite Hrun. cbn [fst snd]. split; [reflexivity|].
  destruct (getFile_after_update w u A (setAssetFolder target) Hnd HA Hu Hdel)
    as [Hshow Hrest]; [intros a; repeat split|].
  split; [|exact Hrest].
  assert (Hfo : find (fun f => col_eq (a_folderId (setAssetFolder target A)) (f_id f))
                     (folders (db w)) = fo).
  { unfold setAssetFolder. cbn [a_folderId].
    destruct Htarget as [[-> ->]|(G & HG & _ & -> & ->)].
    - cbn. clear. induction (folders (db w)); [reflexivity|assumption].
    - cbn [col_eq]. destruct (find _ (folders (db w))) as [f|] eqn:Ef.
      + apply find_some in Ef. destruct Ef as [Hf Ef]. apply String.eqb_eq in Ef.
        f_equal. apply (NoDup_map_inj f_id _ f G Hndf Hf HG (eq_sym Ef)).
      + rewrite find_none_iff in Ef. specialize (Ef G HG). unfold setAssetFolder in Ef. cbn [a_folderId col_eq] in Ef.
        rewrite String.eqb_refl in Ef. discriminate. }
  rewrite <- Hfo. apply Hshow.
  unfold formatAsset in *. cbn [a_fileHash setAssetFolder].
  destruct (findFile (a_fileHash A) (db w)); [|discriminate].
  injection He as <-. reflexivity.
Qed.

Lemma moveFile_shows_in_getFile_witness :
  let A := mkAsset "a1" "report.pdf" "alice" (Some "docs"%string) "h1" None in
  let G := mkFolder "old" "Old" "alice" (Some "docs"%string) (Some 7) in
  let e := mkEntry "a1" "report.pdf" 100 false true 2 in
  let r := moveFile_handler "alice" "a1" (Some "old"%string) sampleWorld in
  fst r = Ok tt
  /\ getFile_handler "alice" (a_id A) (snd r) = (Ok (e, Some G), snd r)
  /\ (forall v id', id' <> a_id A \/ v <> "alice"%string ->
        fst (getFile_handler v id' (snd r))
        = fst (getFile_handler v id' sampleWorld)).
Proof.
  apply (moveFile_shows_in_getFile sampleWorld "alice"
           (mkAsset "a1" "report.pdf" "alice" (Some "docs"%string) "h1" None)
           (Some "old"%string)
           (Some (mkFolder "old" "Old" "alice" (Some "docs"%string) (Some 7)))
           (mkEntry "a1" "report.pdf" 100 false true 2)).
  - destruct sampleWorld_forestOk as [H _]. exact H.
  - cbn. repeat constructor; cbn; intuition discriminate.
  - simpl. auto.
  - reflexivity.
  - reflexivity.
  - reflexivity.
  - right. exists (mkFolder "old" "Old" "alice" (Some "docs"%string) (Some 7)).
    simpl. auto 6.
Defined.

(** ** Purging a folder *)

Lemma notAmong_rev (ids : list Id) (x : Id) : notAmong (rev ids) x = notAmong ids x.
Proof.
  unfold notAmong. f_equal.
  destruct (existsb (String.eqb x) ids) eqn:E.
  - apply existsb_exists in E. destruct E as (y & Hy & E).
    apply existsb_exists. exists y. split; [apply in_rev in Hy; exact Hy|exact E].
  - rewrite existsb_false_iff in E. apply existsb_false_iff. intros y Hy.
    apply E. apply in_rev. exact Hy.
Qed.

(** The loop that deletes folder rows: the rows with one of the ids go, an
    asset lying in one of them moves to root, and nothing else changes in
    the two tables. *)
Lemma purge_rows (xs : list Id) :
  forall w,
    (forall x, In x xs ->
       hasFolder x (db w) = true
       \/ forall a, In a (userAssets (db w)) -> col_eq (a_folderId a) x = false) ->
    exists w', forEach xs deleteFolderRow w = (Ok tt, w')
      /\ folders (db w') = filter (fun f => notAmong xs (f_id f)) (folders (db w))
      /\ (forall a', In a' (userAssets (db w')) -> folderIn xs a' = false)
      /\ map detach (userAssets (db w')) = map detach (userAssets (db w))
      /\ (forall a', In a' (userAssets (db w')) ->
            a_folderId a' = None \/ In a' (userAssets (db w))).
Proof.
  induction xs as [|x xs IH]; intros w Hrows.
  - exists w. split; [reflexivity|]. split.
    + symmetry. apply filter_all. reflexivity.
    + split; [|split; [reflexivity|auto]].
      intros a' _. unfold folderIn. destruct (a_folderId a'); reflexivity.
  - destruct (deleteFolderRow_tables x w) as (Hok & Hf1 & Ha1).
    destruct (deleteFolderRow x w) as [o w1] eqn:E1. cbn [fst snd] in *. subst o.
    assert (Hgone : forall a, In a (userAssets (db w1)) ->
              col_eq (a_folderId a) x = false).
    { intros a Ha. rewrite Ha1 in Ha. apply in_map_iff in Ha.
      destruct Ha as (a0 & <- & Ha0).
      destruct (hasFolder x (db w)) eqn:Eh.
      - unfold unlinkFolder. destruct (col_eq (a_folderId a0) x) eqn:Ec;
          [reflexivity|exact Ec].
      - destruct (Hrows x (or_introl eq_refl)) as [H|H]; [congruence|].
        apply H, Ha0. }
    assert (Hstep : forall a', In a' (userAssets (db w1)) ->
              a_folderId a' = None \/ In a' (userAssets (db w))).
    { intros a' Ha'. rewrite Ha1 in Ha'. apply in_map_iff in Ha'.
      destruct Ha' as (a0 & <- & Ha0).
      destruct (hasFolder x (db w)); [|right; exact Ha0].
      unfold unlinkFolder. destruct (col_eq (a_folderId a0) x);
        [left; reflexivity|right; exact Ha0]. }
    assert (Hrows1 : forall y, In y xs ->
              hasFolder y (db w1) = true
              \/ forall a, In a (userAssets (db w1)) ->
                           col_eq (a_folderId a) y = false).
    { intros y Hy. destruct (String.eqb y x) eqn:Eyx.
      - apply String.eqb_eq in Eyx. subst y. right. exact Hgone.
      - destruct (Hrows y (or_intror Hy)) as [H|H].
        + left. unfold hasFolder in *. rewrite Hf1.
          apply existsb_exists in H. destruct H as (f & Hf & Ef).
          apply existsb_exists. exists f. split; [|exact Ef].
          apply filter_In. split; [exact Hf|].
          apply String.eqb_eq in Ef. rewrite Ef, Eyx. reflexivity.
        + right. intros a Ha. destruct (Hstep a Ha) as [En|Hin].
          * rewrite En. reflexivity.
          * apply H, Hin. }
    destruct (IH w1 Hrows1) as (w' & Hrun & Hf & Hin & Hmap & Hfrom).
    exists w'. split; [|split; [|split; [|split]]].
    + cbn [forEach]. unfold bind. rewrite E1. exact Hrun.
    + rewrite Hf, Hf1, filter_twice. apply filter_ext. intros f.
      unfold notAmong. cbn [existsb]. rewrite negb_orb. reflexivity.
    + intros a' Ha'. specialize (Hin a' Ha'). unfold folderIn in *.
      destruct (a_folderId a') as [fid|] eqn:Efid; [|reflexivity].
      cbn [existsb]. rewrite Hin, orb_false_r.
      destruct (Hfrom a' Ha') as [En|H1]; [congruence|].
      specialize (Hgone a' H1). rewrite Efid in Hgone. exact Hgone.
    + rewrite Hmap, Ha1, map_map. apply map_ext. intros a.
      destruct (hasFolder x (db w)); [|reflexivity].
      unfold unlinkFolder. destruct (col_eq (a_folderId a) x); reflexivity.
    + intros a' Ha'. destruct (Hfrom a' Ha') as [En|H1]; [left; exact En|].
      apply Hstep, H1.
Qed.

(** X24 (permanentlyDeleteFolder).  When [permanentlyDeleteFolder] returns,
    the folders it has collected are the given one and every folder
    reached from it through folders of the caller, in the trash or not;
    their rows are gone and the other folder rows are as they were; the
    caller's assets that lay in those folders are gone, in the trash or
    not, the other asset rows are there as before up to their folder, and
    no asset row names one of the deleted folders. *)
Theorem permanentlyDeleteFolder_removes_subtree
    (w : World) (u id : Id) (fuel : nat) (n : Z) (w' : World) :
  permanentlyDeleteFolder_handler u id fuel w = (Ok n, w') ->
  exists ids,
    collectAllFolderIds u (folders (db w)) fuel id = Some ids
    /\ (forall x, In x ids <->
          inSubtree (fun f => String.eqb (f_userId f) u) (folders (db w)) id x)
    /\ folders (db w')
       = filter (fun f => notAmong ids (f_id f)) (folders (db w))
    /\ map detach (userAssets (db w'))
       = map detach
           (filter (fun a => notAmong
                               (map a_id (purgedAssets u ids (userAssets (db w))))
                               (a_id a))
                   (userAssets (db w)))
    /\ (forall a', In a' (userAssets (db w')) -> folderIn ids a' = false).
Proof.
  intros Hrun. unfold permanentlyDeleteFolder_handler in Hrun.
  unfold bind at 1, getDB in Hrun.
  destruct (find _ (folders (db w))) as [g|] eqn:Efind; [|discriminate].
  apply find_some in Efind. destruct Efind as [Hg Eg].
  apply andb_prop in Eg. destruct Eg as [Eg _].
  apply andb_prop in Eg. destruct Eg as [Eid _]. apply String.eqb_eq in Eid.
  unfold bind at 1 in Hrun.
  destruct (collectAllFolderIds u (folders (db w)) fuel id) as [ids|] eqn:Ec;
    [|discriminate].
  cbn [liftCollect] in Hrun. unfold ret at 1 in Hrun. cbv zeta in Hrun.
  fold (purgedAssets u ids (userAssets (db w))) in Hrun.
  set (purged := purgedAssets u ids (userAssets (db w))) in *.
  unfold bind at 1 in Hrun. unfold transaction in Hrun. unfold bind at 1 in Hrun.
  destruct (releaseAll (db w) purged 0 w) as [[total| |] w2] eqn:Erel;
    try discriminate.
  destruct (releaseAll_tables (db w) purged 0 w total w2 Erel) as [Ha2 Hf2].
  assert (Hrows : forall x, In x (purgeOrder ids) ->
            hasFolder x (db w2) = true
            \/ forall a, In a (userAssets (db w2)) ->
                         col_eq (a_folderId a) x = false).
  { intros x Hx. left. unfold purgeOrder in Hx. apply in_rev in Hx.
    unfold hasFolder. rewrite Hf2. apply existsb_exists.
    unfold collectAllFolderIds in Ec.
    destruct (collected_rows _ _ _ _ _ _ Ec Hx) as [->|(c & Hc & _ & <-)].
    - exists g. split; [exact Hg|]. rewrite Eid. apply String.eqb_refl.
    - exists c. split; [exact Hc|apply String.eqb_refl]. }
  destruct (purge_rows (purgeOrder ids) w2 Hrows)
    as (w3 & Hdel & Hf3 & Hin3 & Hmap3 & _).
  unfold bind at 1 in Hrun. rewrite Hdel in Hrun.
  unfold ret at 1 in Hrun. unfold bind at 1 in Hrun.
  destruct (updateStorageUsage_frame u (- total) w3) as (Ho & _ & Ha4 & Hf4 & _).
  destruct (updateStorageUsage u (- total) w3) as [o w4]. cbn [fst snd] in *.
  subst o. unfold ret in Hrun. injection Hrun as _ <-.
  exists ids. split; [reflexivity|]. split; [|split; [|split]].
  - intros x. unfold collectAllFolderIds in Ec. split.
    + apply (collectIds_sound _ _ _ _ _ _ Ec).
    + apply (collectIds_complete _ _ _ _ _ _ Ec).
  - rewrite Hf4, Hf3, Hf2. apply filter_ext. intros f.
    apply notAmong_rev.
  - rewrite Ha4, Hmap3, Ha2. reflexivity.
  - intros a' Ha'. rewrite Ha4 in Ha'. specialize (Hin3 a' Ha').
    unfold folderIn in *. destruct (a_folderId a') as [fid|]; [|reflexivity].
    pose proof (notAmong_rev ids fid) as Hrev. unfold notAmong, purgeOrder in *.
    rewrite Hin3 in Hrev. cbn in Hrev. symmetry in Hrev.
    apply negb_true_iff in Hrev. exact Hrev.
Qed.

Lemma permanentlyDeleteFolder_removes_subtree_witness :
  let w := sampleWorld in
  let w' := snd (permanentlyDeleteFolder_handler "alice" "old" 5 w) in
  exists ids,
    collectAllFolderIds "alice" (folders (db w)) 5 "old" = Some ids
    /\ (forall x, In x ids <->
          inSubtree (fun f => String.eqb (f_userId f) "alice") (folders (db w))
                    "old" x)
    /\ folders (db w')
       = filter (fun f => notAmong ids (f_id f)) (folders (db w))
    /\ map detach (userAssets (db w'))
       = map detach
           (filter (fun a => notAmong
                               (map a_id (purgedAssets "alice" ids (userAssets (db w))))
                               (a_id a))
                   (userAssets (db w)))
    /\ (forall a', In a' (userAssets (db w')) -> folderIn ids a' = false).
Proof.
  apply (permanentlyDeleteFolder_removes_subtree sampleWorld "alice" "old" 5 100
           (snd (permanentlyDeleteFolder_handler "alice" "old" 5 sampleWorld))).
  reflexivity.
Defined.

(** ** The trash listing after a folder has been trashed *)

(** The folders part of what [listTrash] returns. *)
Lemma listTrash_folders (w : World) (u : Id)
    (tfs : list TrashedFile) (tds : list TrashedFolder) :
  listTrash_handler u w = (Ok (tfs, tds), w) ->
  tds = map (fun folder => mkTrashedFolder (f_id folder) (f_name folder)
                             (f_deletedAt folder))
            (topLevelTrashed
               (latestTrashedFirst f_deletedAt
                  (filter (fun f => String.eqb (f_userId f) u
                                    && isNotNull (f_deletedAt f))
                          (folders (db w))))).
Proof.
  unfold listTrash_handler. unfold bind, getDB. cbv zeta.
  destruct (mapOrThrow _ _ w) as [[ys| |] w1]; try discriminate.
  unfold ret. intros [= _ <- _]. reflexivity.
Qed.

Lemma trashed_rows_sorted (fs : list Folder) (u : Id) (g : Folder) :
  In g (latestTrashedFirst f_deletedAt
          (filter (fun f => String.eqb (f_userId f) u
                            && isNotNull (f_deletedAt f)) fs))
  <-> In g fs /\ f_userId g = u /\ f_deletedAt g <> None.
Proof.
  unfold latestTrashedFirst.
  rewrite (sorted_in (fun x => stampOf (f_deletedAt x))), filter_In. split.
  - intros (Hg & E). apply andb_prop in E. destruct E as [Eu Ed].
    apply String.eqb_eq in Eu. destruct (f_deletedAt g); [|discriminate].
    repeat split; auto. discriminate.
  - intros (Hg & Eu & Ed). split; [exact Hg|].
    rewrite Eu, String.eqb_refl. destruct (f_deletedAt g); [reflexivity|congruence].
Qed.

(** The ids a collector started at a folder of the caller returns are ids
    of rows of the caller. *)
Lemma collected_own_rows (keep : Folder -> bool) (fs : list Folder) (u : Id)
    (fuel : nat) (F : Folder) (ids : list Id) (x : Id) :
  (forall c, keep c = true -> f_userId c = u) ->
  In F fs -> f_userId F = u ->
  collectIds keep fs fuel (f_id F) = Some ids -> In x ids ->
  exists Y, In Y fs /\ f_id Y = x /\ f_userId Y = u.
Proof.
  intros Hkeep HF Hu Hc Hx.
  destruct (collected_rows _ _ _ _ _ _ Hc Hx) as [->|(c & Hin & Hk & <-)].
  - exists F. auto.
  - exists c. auto.
Qed.

(** X25 (moveFolderToTrash, listTrash).  A trashed folder stands in the
    trash listing as one folder, with its files beside it.  For an active
    folder F of the caller that is at root or in an active folder of the
    caller, on a store that keeps the reference counts, with unique
    non-empty folder ids and the caller's folders ranked along their parent
    links: after [moveFolderToTrash], [listTrash] shows F among the folders
    with the stamp of the call and shows none of the other folders the call
    has collected, and it shows every asset the call has stamped among the
    files, with that stamp. *)
Theorem trashed_folder_is_listed_as_one_folder
    (w : World) (u : Id) (F : Folder) (now : Z) (fuel : nat) (rank : Id -> nat) :
  dedupOk w ->
  folderKeysOk (folders (db w)) ->
  In F (folders (db w)) -> f_userId F = u -> f_deletedAt F = None ->
  (forall c p, In c (folders (db w)) -> f_userId c = u ->
               f_parentId c = Some p -> (rank (f_id c) < rank p)%nat) ->
  (rank (f_id F) < fuel)%nat ->
  parentActive u (folders (db w)) F ->
  let r := moveFolderToTrash_handler u (f_id F) now fuel w in
  exists ids tfs tds,
    r = (Ok (List.length ids), trashedWorld u ids now w)
    /\ listTrash_handler u (snd r) = (Ok (tfs, tds), snd r)
    /\ In (mkTrashedFolder (f_id F) (f_name F) (Some now)) tds
    /\ (forall x, In x ids -> x <> f_id F -> ~ In x (map td_id tds))
    /\ (forall a, In a (userAssets (db w)) -> inCascade u ids a ->
          exists t, In t tfs /\ tf_id t = a_id a /\ tf_deletedAt t = Some now).
Proof.
  intros Hdk Hkeys HF Hu Hdel Hrank Hfuel Hparent r.
  pose proof Hkeys as [Hnd Hne].
  assert (HrankA : forall c p, In c (folders (db w)) ->
            ownedActive u c = true -> f_parentId c = Some p ->
            (rank (f_id c) < rank p)%nat).
  { intros c p Hc Hk Hp. apply andb_prop in Hk. destruct Hk as [Hk _].
    apply String.eqb_eq in Hk. apply (Hrank c p Hc Hk Hp). }
  destruct (@collectIds_total (ownedActive u) (folders (db w)) rank HrankA
              fuel (f_id F) Hfuel) as [ids Hids].
  assert (Hsound : forall x, In x ids ->
            inSubtree (ownedActive u) (folders (db w)) (f_id F) x)
    by (intros x; apply (collectIds_sound _ _ _ _ _ _ Hids)).
  assert (Hcomplete : forall x,
            inSubtree (ownedActive u) (folders (db w)) (f_id F) x -> In x ids)
    by (intros x; apply (collectIds_complete _ _ _ _ _ _ Hids)).
  assert (Hrows : forall x, In x ids ->
            exists Y, In Y (folders (db w)) /\ f_id Y = x /\ f_userId Y = u).
  { intros x Hx. apply (collected_own_rows (ownedActive u) _ u fuel F ids x); auto.
    intros c Hk. apply andb_prop in Hk. destruct Hk as [Hk _].
    apply String.eqb_eq, Hk. }
  assert (Hrun : r = (Ok (List.length ids), trashedWorld u ids now w))
    by (apply moveFolderToTrash_runs; auto).
  assert (Hdk1 : dedupOk (snd r))
    by (apply (frames_keeps _ (frames_moveFolderToTrash u (f_id F) now fuel)), Hdk).
  rewrite Hrun in *. cbn [snd] in *.
  destruct Hdk1 as [Hst1 _].
  destruct (listTrash_files (trashedWorld u ids now w) u Hst1)
    as (tfs & tds & Hlist & Htfs).
  pose proof (listTrash_folders _ _ _ _ Hlist) as Htds.
  unfold trashedWorld in Htds. cbn [db with_db folders set_folders] in Htds.
  set (fs1 := stampedFolders ids (Some now) (folders (db w))) in *.
  set (sorted := latestTrashedFirst f_deletedAt
                   (filter (fun f => String.eqb (f_userId f) u
                                     && isNotNull (f_deletedAt f)) fs1)) in *.
  assert (Hstamped : forall Y, In Y (folders (db w)) -> In (f_id Y) ids ->
            In (mkFolder (f_id Y) (f_name Y) (f_userId Y) (f_parentId Y) (Some now))
               fs1).
  { intros Y HY Hin. unfold fs1, stampedFolders. apply in_map_iff. exists Y.
    split; [|exact HY]. apply existsb_eqb_in in Hin. rewrite Hin. reflexivity. }
  assert (Hlisted : forall x, In x ids -> In x (map f_id sorted)).
  { intros x Hx. destruct (Hrows x Hx) as (Y & HY & <- & HuY).
    apply in_map_iff.
    exists (mkFolder (f_id Y) (f_name Y) (f_userId Y) (f_parentId Y) (Some now)).
    split; [reflexivity|]. apply trashed_rows_sorted.
    split; [apply Hstamped; assumption|]. split; [exact HuY|discriminate]. }
  assert (Horigin : forall g, In g fs1 ->
            exists g0, In g0 (folders (db w)) /\ f_id g0 = f_id g
                       /\ f_parentId g0 = f_parentId g
                       /\ (In (f_id g0) ids \/ g = g0)).
  { intros g Hg. unfold fs1, stampedFolders in Hg. apply in_map_iff in Hg.
    destruct Hg as (g0 & <- & Hg0). exists g0.
    destruct (existsb (String.eqb (f_id g0)) ids) eqn:E.
    - apply existsb_eqb_in in E. cbn. auto.
    - auto. }
  exists ids, tfs, tds. split; [reflexivity|]. split; [exact Hlist|].
  split; [|split].
  - rewrite Htds. apply in_map_iff.
    exists (mkFolder (f_id F) (f_name F) (f_userId F) (f_parentId F) (Some now)).
    split; [reflexivity|]. unfold topLevelTrashed. apply filter_In. split.
    + apply trashed_rows_sorted. split; [|split; [exact Hu|discriminate]].
      apply Hstamped; [exact HF|]. apply Hcomplete, sub_root.
    + cbn [f_parentId].
      destruct Hparent as [Ht|(P & HP & Hpar & HuP & HdP)]; [rewrite Ht; reflexivity|].
      destruct (truthy (f_parentId F)); [cbn [negb]|reflexivity].
      destruct (existsb (col_eq (f_parentId F)) (map f_id sorted)) eqn:E;
        [exfalso|reflexivity].
      apply existsb_exists in E. destruct E as (y & Hy & Ey).
      rewrite Hpar in Ey. cbn in Ey. apply String.eqb_eq in Ey. subst y.
      apply in_map_iff in Hy. destruct Hy as (g & Eg & Hg).
      apply trashed_rows_sorted in Hg. destruct Hg as (Hg & _ & Hgd).
      destruct (Horigin g Hg) as (g0 & Hg0 & Ei & _ & Hcase).
      assert (g0 = P)
        by (apply (NoDup_map_inj f_id _ g0 P Hnd Hg0 HP); congruence).
      subst g0. destruct Hcase as [Hin| ->]; [|congruence].
      pose proof (subtree_rank u _ rank _ _ Hrank (Hsound _ Hin)) as Hle.
      pose proof (Hrank F (f_id P) HF Hu Hpar) as Hlt. lia.
  - intros x Hx Hneq Hin. rewrite Htds, map_map in Hin. cbn [td_id] in Hin.
    apply in_map_iff in Hin. destruct Hin as (g & Eg & Hg).
    unfold topLevelTrashed in Hg. apply filter_In in Hg. destruct Hg as [Hg Htop].
    apply trashed_rows_sorted in Hg. destruct Hg as (Hg & _ & _).
    destruct (Horigin g Hg) as (g0 & Hg0 & Ei & Ep & _).
    pose proof (Hsound x Hx) as Hs.
    destruct Hs as [|c y Hy Hc Hp Hk]; [congruence|].
    assert (g0 = c)
      by (apply (NoDup_map_inj f_id _ g0 c Hnd Hg0 Hc); congruence).
    subst g0. rewrite <- Ep, Hp in Htop.
    assert (Hyin : In y ids) by (apply Hcomplete, Hy).
    assert (Hty : truthy (Some y) = true).
    { destruct (Hrows y Hyin) as (Y & HY & <- & _). cbn.
      apply negb_true_iff, String.eqb_neq, Hne, HY. }
    rewrite Hty in Htop. cbn [negb] in Htop.
    assert (Hex : existsb (col_eq (Some y)) (map f_id sorted) = true).
    { apply existsb_exists. exists y. split; [apply Hlisted, Hyin|].
      cbn. apply String.eqb_refl. }
    rewrite Hex in Htop. discriminate.
  - intros a Ha (Hau & Had & Hin).
    assert (Ha1 : In (setAssetDeletedAt (Some now) a)
                     (userAssets (db (trashedWorld u ids now w)))).
    { unfold trashedWorld, trashedAssets.
      cbn [db with_db userAssets set_folders set_userAssets].
      apply in_map_iff. exists a. split; [|exact Ha].
      rewrite Hau, String.eqb_refl, Had, Hin. reflexivity. }
    destruct (findFile_of_asset _ _ Hst1 Ha1) as (f & Ef & _).
    exists (mkTrashedFile (a_id a) (a_name a) (size f) (Some now)).
    split; [|split; reflexivity].
    apply Htfs. exists (setAssetDeletedAt (Some now) a), (size f).
    cbn [a_userId a_deletedAt a_id a_name setAssetDeletedAt].
    repeat split; auto; try discriminate.
    unfold fileSizeOf. rewrite Ef. reflexivity.
Qed.

Lemma trashed_folder_is_listed_as_one_folder_witness :
  let F := mkFolder "docs" "Docs" "alice" None None in
  let r := moveFolderToTrash_handler "alice" "docs" 9 2 sampleShelf in
  exists ids tfs tds,
    r = (Ok (List.length ids), trashedWorld "alice" ids 9 sampleShelf)
    /\ listTrash_handler "alice" (snd r) = (Ok (tfs, tds), snd r)
    /\ In (mkTrashedFolder (f_id F) (f_name F) (Some 9)) tds
    /\ (forall x, In x ids -> x <> f_id F -> ~ In x (map td_id tds))
    /\ (forall a, In a (userAssets (db sampleShelf)) -> inCascade "alice" ids a ->
          exists t, In t tfs /\ tf_id t = a_id a /\ tf_deletedAt t = Some 9).
Proof.
  apply (trashed_folder_is_listed_as_one_folder sampleShelf "alice"
           (mkFolder "docs" "Docs" "alice" None None) 9 2
           (fun x => if String.eqb x "docs" then 1 else 0)%nat).
  - split; [split; [|split]|].
    + cbn. repeat constructor; cbn; intuition discriminate.
    + cbn. repeat constructor; cbn; intuition discriminate.
    + intros a [<-|[<-|[<-|[]]]];
        [exists (mkFile "h1" 100 "h1" 2)|exists (mkFile "h1" 100 "h1" 2)
        |exists (mkFile "h2" 40 "h2" 1)]; simpl; auto.
    + intros f [<-|[<-|[]]]; reflexivity.
  - split.
    + cbn. repeat constructor; cbn; intuition discriminate.
    + intros f [<-|[<-|[]]]; discriminate.
  - simpl. auto.
  - reflexivity.
  - reflexivity.
  - intros c p [<-|[<-|[]]] _ Hp; cbn in Hp; try discriminate Hp.
    injection Hp as <-. cbn. lia.
  - cbn. lia.
  - left. reflexivity.
Defined.

(** ** Trash and restore on the rows with [updatedAt] *)

Lemma row_updateWhere {A : Type} (c : A -> bool) (set : A -> A) (stamp : Z)
    (rows : list (Stamped A)) :
  map row (updateWhere c set stamp rows)
  = map (fun a => if c a then set a else a) (map row rows).
Proof.
  unfold updateWhere. rewrite !map_map. apply map_ext. intros r.
  destruct (c (row r)); reflexivity.
Qed.

Lemma updateWhere_rows {A : Type} (c : A -> bool) (set : A -> A) (stamp : Z)
    (rows : list (Stamped A)) (r' : Stamped A) :
  In r' (updateWhere c set stamp rows) ->
  (In r' rows /\ c (row r') = false)
  \/ (exists r, In r rows /\ c (row r) = true /\ r' = mkStamped (set (row r)) stamp).
Proof.
  unfold updateWhere. intros H. apply in_map_iff in H. destruct H as (r & <- & Hr).
  destruct (c (row r)) eqn:E; [right; exists r; auto|left; auto].
Qed.

Lemma filter_row_nil {A : Type} (c : A -> bool) (rows : list (Stamped A)) :
  filter c (map row rows) = [] <-> filter (fun r => c (row r)) rows = [].
Proof.
  rewrite filter_map_swap. destruct (filter _ rows); cbn; split; congruence.
Qed.

(** Without the column, the stamped procedures are the procedures of the
    router. *)
Lemma moveToTrash_erase (u id : Id) (now stamp : Z) (st : StampedStore) :
  moveToTrash_handler u id now (erase st)
  = (fst (moveToTrash_stamped u id now stamp st),
     erase (snd (moveToTrash_stamped u id now stamp st))).
Proof.
  rewrite moveToTrash_unfold. cbv zeta. unfold moveToTrash_stamped.
  cbn [erase db userAssets].
  pose proof (filter_row_nil
                (fun a => String.eqb (a_id a) id && String.eqb (a_userId a) u
                          && isNull (a_deletedAt a)) (ss_assets st)) as Hnil.
  cbv beta in Hnil.
  destruct (filter _ (map row (ss_assets st))) eqn:E1;
    destruct (filter _ (ss_assets st)) eqn:E2; cbn [fst snd];
    try (exfalso; destruct Hnil as [H1 H2];
         first [specialize (H1 eq_refl)|specialize (H2 eq_refl)]; discriminate).
  all: unfold erase, with_db, set_userAssets; cbn [db s3 files folders userAssets
         userQuotas rateLimitWindows ss_folders ss_assets];
       rewrite row_updateWhere; reflexivity.
Qed.

Lemma restoreFromTrash_erase (u id : Id) (stamp : Z) (st : StampedStore) :
  restoreFromTrash_handler u id (erase st)
  = (fst (restoreFromTrash_stamped u id stamp st),
     erase (snd (restoreFromTrash_stamped u id stamp st))).
Proof.
  rewrite restoreFromTrash_unfold. cbv zeta. unfold restoreFromTrash_stamped.
  cbn [erase db userAssets].
  pose proof (filter_row_nil
                (fun a => String.eqb (a_id a) id && String.eqb (a_userId a) u
                          && isNotNull (a_deletedAt a)) (ss_assets st)) as Hnil.
  cbv beta in Hnil.
  destruct (filter _ (map row (ss_assets st))) eqn:E1;
    destruct (filter _ (ss_assets st)) eqn:E2; cbn [fst snd];
    try (exfalso; destruct Hnil as [H1 H2];
         first [specialize (H1 eq_refl)|specialize (H2 eq_refl)]; discriminate).
  all: unfold erase, with_db, set_userAssets; cbn [db s3 files folders userAssets
         userQuotas rateLimitWindows ss_folders ss_assets];
       rewrite row_updateWhere; reflexivity.
Qed.

(** X11 (moveToTrash, restoreFromTrash).  Trash, then restore, gives an
    asset back with every column it had but [updatedAt].  Where asset ids
    are a primary key, a [moveToTrash] that returns normally followed by
    [restoreFromTrash] of the same asset returns normally too; the folder
    rows are untouched; every asset row has the id, name, owner, folder,
    content hash and [deletedAt] it had before the two calls; and
    [updatedAt] is what it was on every asset row but the one trashed and
    restored, where it is the clock reading of the restoring statement. *)
Theorem trash_then_restore_rewrites_updatedAt_only
    (st : StampedStore) (u id : Id) (now stamp1 stamp2 : Z) :
  NoDup (map a_id (map row (ss_assets st))) ->
  fst (moveToTrash_stamped u id now stamp1 st) = Ok tt ->
  let st1 := snd (moveToTrash_stamped u id now stamp1 st) in
  let r2 := restoreFromTrash_stamped u id stamp2 st1 in
  fst r2 = Ok tt
  /\ ss_folders (snd r2) = ss_folders st
  /\ ss_assets (snd r2)
     = updateWhere (activeHit u id) (fun a => a) stamp2 (ss_assets st)
  /\ map row (ss_assets (snd r2)) = map row (ss_assets st)
  /\ (exists r, In r (ss_assets (snd r2)) /\ a_id (row r) = id
                /\ updatedAt r = stamp2).
Proof.
  intros Hnd Hok st1 r2.
  set (hit1 := fun a => String.eqb (a_id a) id && String.eqb (a_userId a) u
                        && isNull (a_deletedAt a)).
  set (hit2 := fun a => String.eqb (a_id a) id && String.eqb (a_userId a) u
                        && isNotNull (a_deletedAt a)).
  assert (Hst1 : st1 = mkStampedStore (ss_folders st)
                         (updateWhere hit1 (setAssetDeletedAt (Some now)) stamp1
                                      (ss_assets st))).
  { unfold st1, moveToTrash_stamped. fold hit1.
    match goal with |- context [filter ?f (ss_assets st)] =>
      destruct (filter f (ss_assets st)) end; reflexivity. }
  assert (Hsome : exists r0, In r0 (ss_assets st) /\ hit1 (row r0) = true).
  { unfold moveToTrash_stamped in Hok.
    change (fst match filter (fun r => hit1 (row r)) (ss_assets st) with
                | [] => (Throw NOT_FOUND,
                         mkStampedStore (ss_folders st)
                           (updateWhere hit1 (setAssetDeletedAt (Some now)) stamp1
                                        (ss_assets st)))
                | _ :: _ => (Ok tt,
                             mkStampedStore (ss_folders st)
                               (updateWhere hit1 (setAssetDeletedAt (Some now))
                                            stamp1 (ss_assets st)))
                end = Ok tt) in Hok.
    destruct (filter (fun r => hit1 (row r)) (ss_assets st)) as [|r0 l] eqn:E;
      [discriminate|].
    assert (Hin : In r0 (filter (fun r => hit1 (row r)) (ss_assets st)))
      by (rewrite E; left; reflexivity).
    apply filter_In in Hin. exists r0. exact Hin. }
  destruct Hsome as (r0 & Hr0 & Hhit0).
  assert (Hid0 : a_id (row r0) = id /\ a_userId (row r0) = u
                 /\ a_deletedAt (row r0) = None).
  { unfold hit1 in Hhit0. apply andb_prop in Hhit0. destruct Hhit0 as [E Ed].
    apply andb_prop in E. destruct E as [Ei Eu].
    apply String.eqb_eq in Ei. apply String.eqb_eq in Eu.
    destruct (a_deletedAt (row r0)); [discriminate|auto]. }
  destruct Hid0 as (Hi0 & Hu0 & Hd0).
  assert (Hr2 : r2 = (Ok tt,
                      mkStampedStore (ss_folders st)
                        (updateWhere hit2 (setAssetDeletedAt None) stamp2
                           (updateWhere hit1 (setAssetDeletedAt (Some now)) stamp1
                              (ss_assets st))))).
  { unfold r2, restoreFromTrash_stamped. rewrite Hst1.
    cbn [ss_folders ss_assets].
    change (match filter (fun r => hit2 (row r))
                    (updateWhere hit1 (setAssetDeletedAt (Some now)) stamp1
                                 (ss_assets st)) with
            | [] => (Throw NOT_FOUND,
                     mkStampedStore (ss_folders st)
                       (updateWhere hit2 (setAssetDeletedAt None) stamp2
                          (updateWhere hit1 (setAssetDeletedAt (Some now)) stamp1
                             (ss_assets st))))
            | _ :: _ => (Ok tt,
                         mkStampedStore (ss_folders st)
                           (updateWhere hit2 (setAssetDeletedAt None) stamp2
                              (updateWhere hit1 (setAssetDeletedAt (Some now)) stamp1
                                 (ss_assets st))))
            end
            = (Ok tt,
               mkStampedStore (ss_folders st)
                 (updateWhere hit2 (setAssetDeletedAt None) stamp2
                    (updateWhere hit1 (setAssetDeletedAt (Some now)) stamp1
                       (ss_assets st))))).
    destruct (filter (fun r => hit2 (row r))
                (updateWhere hit1 (setAssetDeletedAt (Some now)) stamp1
                             (ss_assets st))) eqn:E; [exfalso|reflexivity].
    rewrite filter_nil_iff in E.
    specialize (E (mkStamped (setAssetDeletedAt (Some now) (row r0)) stamp1)).
    cbv beta in E. cbn [row] in E.
    assert (Hin : In (mkStamped (setAssetDeletedAt (Some now) (row r0)) stamp1)
                     (updateWhere hit1 (setAssetDeletedAt (Some now)) stamp1
                                  (ss_assets st))).
    { unfold updateWhere. apply in_map_iff. exists r0. rewrite Hhit0. auto. }
    specialize (E Hin). unfold hit2 in E. cbn in E.
    rewrite Hi0, Hu0, !String.eqb_refl in E. discriminate. }
  assert (Hassets : updateWhere hit2 (setAssetDeletedAt None) stamp2
                      (updateWhere hit1 (setAssetDeletedAt (Some now)) stamp1
                         (ss_assets st))
                    = updateWhere (activeHit u id) (fun a => a) stamp2 (ss_assets st)).
  { unfold updateWhere. rewrite map_map. apply map_ext_in. intros r Hr.
    change (activeHit u id (row r)) with (hit1 (row r)).
    destruct (hit1 (row r)) eqn:E1.
    - cbn [row]. unfold hit1 in E1. apply andb_prop in E1. destruct E1 as [E1 Ed].
      unfold hit2. cbn [setAssetDeletedAt a_id a_userId a_deletedAt].
      rewrite E1. cbn [isNotNull isNull negb andb]. f_equal.
      unfold setAssetDeletedAt. cbn.
      destruct (a_deletedAt (row r)) eqn:Edr; [discriminate|].
      rewrite <- Edr. apply asset_eta.
    - destruct (hit2 (row r)) eqn:E2; [exfalso|reflexivity].
      unfold hit2 in E2. apply andb_prop in E2. destruct E2 as [E2 Ed].
      apply andb_prop in E2. destruct E2 as [Ei Eu]. apply String.eqb_eq in Ei.
      assert (Hrow : row r = row r0).
      { apply (NoDup_map_inj a_id _ (row r) (row r0) Hnd);
          [apply in_map, Hr|apply in_map, Hr0|congruence]. }
      rewrite Hrow, Hd0 in Ed. discriminate. }
  rewrite Hr2. cbn [fst snd ss_folders ss_assets].
  split; [reflexivity|]. split; [reflexivity|]. split; [exact Hassets|].
  rewrite Hassets. split.
  - rewrite row_updateWhere. apply map_id_in. intros a _.
    destruct (activeHit u id a); reflexivity.
  - exists (mkStamped (row r0) stamp2). split; [|split; [exact Hi0|reflexivity]].
    unfold updateWhere. apply in_map_iff. exists r0.
    change (activeHit u id (row r0)) with (hit1 (row r0)). rewrite Hhit0. auto.
Qed.

Lemma trash_then_restore_rewrites_updatedAt_only_witness :
  let st1 := snd (moveToTrash_stamped "alice" "a1" 9 10 sampleStamped) in
  let r2 := restoreFromTrash_stamped "alice" "a1" 12 st1 in
  fst r2 = Ok tt
  /\ ss_folders (snd r2) = ss_folders sampleStamped
  /\ ss_assets (snd r2)
     = updateWhere (activeHit "alice" "a1") (fun a => a) 12 (ss_assets sampleStamped)
  /\ map row (ss_assets (snd r2)) = map row (ss_assets sampleStamped)
  /\ (exists r, In r (ss_assets (snd r2)) /\ a_id (row r) = "a1"%string
                /\ updatedAt r = 12).
Proof.
  apply (trash_then_restore_rewrites_updatedAt_only sampleStamped "alice" "a1" 9 10 12).
  - cbn. repeat constructor; cbn; intuition discriminate.
  - reflexivity.
Defined.

(** *** The folder cascades *)

Lemma row_stampEach (ids : list Id) (t : option Z) (clock : nat -> Z) :
  forall (k : nat) (rows : list (Stamped Folder)),
    map row (stampEach ids t clock k rows) = stampedFolders ids t (map row rows).
Proof.
  induction ids as [|x ids IH]; intros k rows; cbn [stampEach].
  - unfold stampedFolders. cbn [existsb]. symmetry. apply map_id.
  - rewrite IH, row_updateWhere. unfold stampedFolders. rewrite map_map.
    apply map_ext. intros f. unfold setFolderDeletedAt. cbn [existsb].
    destruct (String.eqb (f_id f) x); cbn [f_id orb]; [|reflexivity].
    destruct (existsb (String.eqb (f_id f)) ids); reflexivity.
Qed.

(** A row after the loop is a row the loop passed over, or carries the
    reading of one of its statements. *)
Lemma stampEach_rows (ids : list Id) (t : option Z) (clock : nat -> Z) :
  forall (k : nat) (rows : list (Stamped Folder)) (r' : Stamped Folder),
    In r' (stampEach ids t clock k rows) ->
    (In r' rows /\ ~ In (f_id (row r')) ids)
    \/ (exists j, updatedAt r' = clock j /\ In (f_id (row r')) ids).
Proof.
  induction ids as [|x ids IH]; intros k rows r' Hin; cbn [stampEach] in Hin.
  - left. split; [exact Hin|intros []].
  - destruct (IH _ _ _ Hin) as [[Hup Hnot] | (j & Hj & Hids)].
    + destruct (updateWhere_rows _ _ _ _ _ Hup) as [[Hr Hc] | (r & Hr & Hc & ->)].
      * left. split; [exact Hr|]. intros [E|E]; [|exact (Hnot E)].
        rewrite E, String.eqb_refl in Hc. discriminate.
      * right. exists k. cbn [row updatedAt]. split; [reflexivity|].
        left. unfold setFolderDeletedAt. rewrite Hc. cbn [f_id].
        apply String.eqb_eq in Hc. auto.
    + right. exists j. split; [exact Hj|right; exact Hids].
Qed.

Lemma moveFolderToTrash_erase (u id : Id) (now sa : Z) (clock : nat -> Z)
    (fuel : nat) (st : StampedStore) :
  moveFolderToTrash_handler u id now fuel (erase st)
  = (fst (moveFolderToTrash_stamped u id now sa clock fuel st),
     erase (snd (moveFolderToTrash_stamped u id now sa clock fuel st))).
Proof.
  unfold moveFolderToTrash_handler, moveFolderToTrash_stamped.
  unfold bind at 1, getDB. cbn [erase db folders].
  destruct (find _ (map row (ss_folders st))); [|reflexivity].
  unfold bind at 1.
  destruct (collectFolderIds u (map row (ss_folders st)) fuel id) as [ids|] eqn:Ec;
    cbn [liftCollect]; [|reflexivity].
  unfold ret at 1.
  assert (Hne : ids <> []).
  { unfold collectFolderIds in Ec. apply collectIds_closed in Ec.
    destruct Ec as [Hin _]. intros ->. destruct Hin. }
  etransitivity; [apply trash_commit, Hne|].
  cbn [fst snd]. f_equal.
  unfold trashedWorld, trashedAssets, erase, with_db, set_folders, set_userAssets.
  cbn [db s3 files folders userAssets userQuotas rateLimitWindows
       ss_folders ss_assets].
  rewrite row_stampEach.
  destruct ids as [|x ids]; [congruence|]. cbn [List.length Nat.ltb Nat.leb].
  rewrite row_updateWhere. reflexivity.
Qed.

Lemma restoreFolderFromTrash_erase (u id : Id) (sa : Z) (clock : nat -> Z)
    (fuel : nat) (st : StampedStore) :
  restoreFolderFromTrash_handler u id fuel (erase st)
  = (fst (restoreFolderFromTrash_stamped u id sa clock fuel st),
     erase (snd (restoreFolderFromTrash_stamped u id sa clock fuel st))).
Proof.
  unfold restoreFolderFromTrash_handler, restoreFolderFromTrash_stamped.
  unfold bind at 1, getDB. cbn [erase db folders].
  destruct (find _ (map row (ss_folders st))) as [folder|]; [|reflexivity].
  unfold bind at 1.
  destruct (truthy (f_parentId folder)).
  - destruct (find _ (map row (ss_folders st))) as [p|]; [|reflexivity].
    destruct (isNotNull (f_deletedAt p)); [reflexivity|].
    unfold ret at 1. unfold bind at 1.
    destruct (collectTrashedFolderIds u (map row (ss_folders st)) fuel id)
      as [ids|] eqn:Ec; cbn [liftCollect]; [|reflexivity].
    unfold ret at 1.
    assert (Hne : ids <> []).
    { unfold collectTrashedFolderIds in Ec. apply collectIds_closed in Ec.
      destruct Ec as [Hin _]. intros ->. destruct Hin. }
    etransitivity; [apply restore_commit, Hne|].
    cbn [fst snd]. f_equal.
    unfold restoredWorld, restoredAssets, erase, with_db, set_folders,
      set_userAssets.
    cbn [db s3 files folders userAssets userQuotas rateLimitWindows
         ss_folders ss_assets].
    rewrite row_stampEach.
    destruct ids as [|x ids]; [congruence|]. cbn [List.length Nat.ltb Nat.leb].
    rewrite row_updateWhere. reflexivity.
  - unfold ret at 1. unfold bind at 1.
    destruct (collectTrashedFolderIds u (map row (ss_folders st)) fuel id)
      as [ids|] eqn:Ec; cbn [liftCollect]; [|reflexivity].
    unfold ret at 1.
    assert (Hne : ids <> []).
    { unfold collectTrashedFolderIds in Ec. apply collectIds_closed in Ec.
      destruct Ec as [Hin _]. intros ->. destruct Hin. }
    etransitivity; [apply restore_commit, Hne|].
    cbn [fst snd]. f_equal.
    unfold restoredWorld, restoredAssets, erase, with_db, set_folders,
      set_userAssets.
    cbn [db s3 files folders userAssets userQuotas rateLimitWindows
         ss_folders ss_assets].
    rewrite row_stampEach.
    destruct ids as [|x ids]; [congruence|]. cbn [List.length Nat.ltb Nat.leb].
    rewrite row_updateWhere. reflexivity.
Qed.

Lemma moveFolderToTrash_shape (u id : Id) (now sa : Z) (clock : nat -> Z)
    (fuel : nat) (st st1 : StampedStore) (n : nat) :
  moveFolderToTrash_stamped u id now sa clock fuel st = (Ok n, st1) ->
  exists ids,
    collectFolderIds u (map row (ss_folders st)) fuel id = Some ids
    /\ ss_folders st1 = stampEach ids (Some now) clock 0 (ss_folders st)
    /\ ss_assets st1
       = updateWhere (fun a => String.eqb (a_userId a) u
                               && isNull (a_deletedAt a) && folderIn ids a)
                     (setAssetDeletedAt (Some now)) sa (ss_assets st).
Proof.
  unfold moveFolderToTrash_stamped.
  destruct (find _ (map row (ss_folders st))); [|discriminate].
  destruct (collectFolderIds u (map row (ss_folders st)) fuel id) as [ids|] eqn:Ec;
    [|discriminate].
  intros [= _ <-]. exists ids. split; [reflexivity|]. cbn [ss_folders ss_assets].
  split; [reflexivity|].
  unfold collectFolderIds in Ec. apply collectIds_closed in Ec.
  destruct Ec as [Hin _]. destruct ids; [destruct Hin|reflexivity].
Qed.

Lemma restoreFolderFromTrash_shape (u id : Id) (sa : Z) (clock : nat -> Z)
    (fuel : nat) (st st2 : StampedStore) (n : nat) :
  restoreFolderFromTrash_stamped u id sa clock fuel st = (Ok n, st2) ->
  exists ids,
    collectTrashedFolderIds u (map row (ss_folders st)) fuel id = Some ids
    /\ ss_folders st2 = stampEach ids None clock 0 (ss_folders st)
    /\ ss_assets st2
       = updateWhere (fun a => String.eqb (a_userId a) u
                               && isNotNull (a_deletedAt a) && folderIn ids a)
                     (setAssetDeletedAt None) sa (ss_assets st).
Proof.
  unfold restoreFolderFromTrash_stamped.
  destruct (find _ (map row (ss_folders st))) as [folder|]; [|discriminate].
  match goal with |- context [match ?c with Some e => _ | None => _ end] =>
    destruct c end; [discriminate|].
  destruct (collectTrashedFolderIds u (map row (ss_folders st)) fuel id)
    as [ids|] eqn:Ec; [|discriminate].
  intros [= _ <-]. exists ids. split; [reflexivity|]. cbn [ss_folders ss_assets].
  split; [reflexivity|].
  unfold collectTrashedFolderIds in Ec. apply collectIds_closed in Ec.
  destruct Ec as [Hin _]. destruct ids; [destruct Hin|reflexivity].
Qed.

(** X19 (moveFolderToTrash, restoreFolderFromTrash).  Trashing a folder and
    restoring it gives every row back with every column it had but
    [updatedAt].  For an active folder F of the caller that is at root or
    in an active folder of the caller, on a folder table with unique
    non-empty ids on which the caller's folders are ranked along their
    parent links, and when nothing of the caller below F is in the trash
    already: [moveFolderToTrash] returns a count and leaves F in the
    trash; [restoreFolderFromTrash] called on F in that store returns the
    same count; after it every folder row has the id, name, owner, parent
    and [deletedAt], and every asset row the id, name, owner, folder,
    content hash and [deletedAt], it had before the two calls; a row keeps
    its [updatedAt] unless the restore has written it, and then it carries
    a clock reading of a statement of the restore, as the row of F
    does. *)
Theorem folder_trash_then_restore_rewrites_updatedAt_only
    (st : StampedStore) (u : Id) (F : Folder) (now sa1 sa2 : Z)
    (clock1 clock2 : nat -> Z) (fuel : nat) (rank : Id -> nat) :
  folderKeysOk (map row (ss_folders st)) ->
  In F (map row (ss_folders st)) -> f_userId F = u -> f_deletedAt F = None ->
  (forall c p, In c (map row (ss_folders st)) -> f_userId c = u ->
               f_parentId c = Some p -> (rank (f_id c) < rank p)%nat) ->
  (rank (f_id F) < fuel)%nat ->
  parentActive u (map row (ss_folders st)) F ->
  cleanBelow u (db (erase st)) (f_id F) ->
  exists n st1 st2,
    moveFolderToTrash_stamped u (f_id F) now sa1 clock1 fuel st = (Ok n, st1)
    /\ (exists F1, In F1 (map row (ss_folders st1)) /\ f_id F1 = f_id F
                   /\ f_deletedAt F1 = Some now)
    /\ restoreFolderFromTrash_stamped u (f_id F) sa2 clock2 fuel st1 = (Ok n, st2)
    /\ map row (ss_folders st2) = map row (ss_folders st)
    /\ map row (ss_assets st2) = map row (ss_assets st)
    /\ (forall r, In r (ss_folders st2) ->
          In r (ss_folders st) \/ exists k, updatedAt r = clock2 k)
    /\ (forall r, In r (ss_assets st2) ->
          In r (ss_assets st) \/ updatedAt r = sa2)
    /\ (exists r k, In r (ss_folders st2) /\ row r = F /\ updatedAt r = clock2 k).
Proof.
  intros Hkeys HF Hu Hdel Hrank Hfuel Hparent Hclean.
  destruct (folder_rows_restored (erase st) u F now fuel rank
              Hkeys HF Hu Hdel Hrank Hfuel Hparent Hclean)
    as (n & w1 & Htrash & HF1 & Hrestore).
  rewrite (moveFolderToTrash_erase u (f_id F) now sa1 clock1 fuel st) in Htrash.
  destruct (moveFolderToTrash_stamped u (f_id F) now sa1 clock1 fuel st)
    as [o1 st1] eqn:E1.
  cbn [fst snd] in Htrash. injection Htrash as -> <-.
  rewrite (restoreFolderFromTrash_erase u (f_id F) sa2 clock2 fuel st1) in Hrestore.
  destruct (restoreFolderFromTrash_stamped u (f_id F) sa2 clock2 fuel st1)
    as [o2 st2] eqn:E2.
  cbn [fst snd] in Hrestore. injection Hrestore as -> Hfs Has.
  destruct (moveFolderToTrash_shape _ _ _ _ _ _ _ _ _ E1) as (ids & Hids & Hf1 & Ha1).
  destruct (restoreFolderFromTrash_shape _ _ _ _ _ _ _ _ E2)
    as (ids' & Hids' & Hf2 & Ha2).
  assert (Hcomplete : forall x,
            inSubtree (ownedActive u) (map row (ss_folders st)) (f_id F) x ->
            In x ids)
    by (intros x; apply (collectIds_complete _ _ _ _ _ _ Hids)).
  assert (Hsame : ids' = ids).
  { rewrite Hf1, row_stampEach in Hids'.
    rewrite (collect_after_trash u (map row (ss_folders st)) (f_id F) ids now
               Hcomplete (proj1 Hclean) fuel (f_id F) (sub_root _ _ _)) in Hids'.
    congruence. }
  subst ids'.
  assert (HFin : In (f_id F) ids) by (apply Hcomplete, sub_root).
  assert (Hfolders : forall r, In r (ss_folders st2) ->
            In r (ss_folders st) \/ exists k, updatedAt r = clock2 k).
  { intros r Hr. rewrite Hf2 in Hr.
    destruct (stampEach_rows _ _ _ _ _ _ Hr) as [[Hr1 Hnot] | (j & Hj & _)];
      [|right; exists j; exact Hj].
    rewrite Hf1 in Hr1.
    destruct (stampEach_rows _ _ _ _ _ _ Hr1) as [[Hr0 _] | (j & _ & Hin)];
      [left; exact Hr0|contradiction]. }
  exists n, st1, st2. split; [reflexivity|]. split; [exact HF1|].
  split; [exact E2|]. split; [exact Hfs|]. split; [exact Has|].
  split; [exact Hfolders|]. split.
  - intros r Hr. rewrite Ha2 in Hr.
    destruct (updateWhere_rows _ _ _ _ _ Hr) as [[Hr1 Hc2] | (r1 & _ & _ & ->)];
      [|right; reflexivity].
    rewrite Ha1 in Hr1.
    destruct (updateWhere_rows _ _ _ _ _ Hr1) as [[Hr0 _] | (r0 & _ & Hc1 & ->)];
      [left; exact Hr0|exfalso].
    cbn [row] in Hc2. unfold setAssetDeletedAt, folderIn in *.
    cbn [a_userId a_deletedAt a_folderId isNotNull isNull negb] in Hc2.
    apply andb_prop in Hc1. destruct Hc1 as [Hc1 Hin].
    apply andb_prop in Hc1. destruct Hc1 as [Hown _].
    rewrite Hown, Hin in Hc2. discriminate.
  - assert (Hrow : In F (map row (ss_folders st2))) by (rewrite Hfs; exact HF).
    apply in_map_iff in Hrow. destruct Hrow as (r & Er & Hr).
    pose proof Hr as Hr'. rewrite Hf2 in Hr'.
    destruct (stampEach_rows _ _ _ _ _ _ Hr') as [[_ Hnot] | (j & Hj & _)].
    + exfalso. apply Hnot. rewrite Er. exact HFin.
    + exists r, j. auto.
Qed.

Lemma folder_trash_then_restore_rewrites_updatedAt_only_witness :
  let F := mkFolder "docs" "Docs" "alice" None None in
  exists n st1 st2,
    moveFolderToTrash_stamped "alice" (f_id F) 9 10 (fun k => 11 + Z.of_nat k) 2
                              sampleStamped = (Ok n, st1)
    /\ (exists F1, In F1 (map row (ss_folders st1)) /\ f_id F1 = f_id F
                   /\ f_deletedAt F1 = Some 9)
    /\ restoreFolderFromTrash_stamped "alice" (f_id F) 20 (fun k => 21 + Z.of_nat k)
                                      2 st1 = (Ok n, st2)
    /\ map row (ss_folders st2) = map row (ss_folders sampleStamped)
    /\ map row (ss_assets st2) = map row (ss_assets sampleStamped)
    /\ (forall r, In r (ss_folders st2) ->
          In r (ss_folders sampleStamped)
          \/ exists k, updatedAt r = 21 + Z.of_nat k)
    /\ (forall r, In r (ss_assets st2) ->
          In r (ss_assets sampleStamped) \/ updatedAt r = 20)
    /\ (exists r k, In r (ss_folders st2) /\ row r = F
                    /\ updatedAt r = 21 + Z.of_nat k).
Proof.
  apply (folder_trash_then_restore_rewrites_updatedAt_only sampleStamped "alice"
           (mkFolder "docs" "Docs" "alice" None None) 9 10 20
           (fun k => 11 + Z.of_nat k) (fun k => 21 + Z.of_nat k) 2
           (fun x => if String.eqb x "docs" then 1 else 0)%nat).
  - split.
    + cbn. repeat constructor; cbn; intuition discriminate.
    + intros f [<-|[<-|[]]]; discriminate.
  - simpl. auto.
  - reflexivity.
  - reflexivity.
  - intros c p [<-|[<-|[]]] _ Hp; cbn in Hp; try discriminate Hp.
    injection Hp as <-. cbn. lia.
  - cbn. lia.
  - left. reflexivity.
  - split.
    + intros c y _ [<-|[<-|[]]] _ _; reflexivity.
    + intros a y [<-|[<-|[<-|[]]]] _ _ _; reflexivity.
Defined.
